(** * Outlook calendar report add-in: the agent runtime and its orchestrator

    A shallow embedding of the TypeScript sources
      - [src/agents/BaseAgent.ts]         (agent loop, tool dispatch, reset)
      - [src/agents/CalendarAgent.ts], [AnalysisAgent.ts], [ReportAgent.ts]
      - [src/agents/AgentOrchestrator.ts] (three stage pipeline, routing)
      - [src/services/llmService.ts], [src/services/excelService.ts]
      - [src/services/graphService.ts]    (paging, shared calendars)
      - [src/utils/domainExtractor.ts]
    followed by the properties proved about them.

    Conventions of the embedding.
      - A JavaScript string is a [string]; one character stands for one
        UTF-16 code unit.
      - An [async] function is a state transformer over the part of the
        program state it can reach; every [await] is sequential, so the
        interleaving is the program order.
      - A JavaScript exception is the [Exn] outcome of the monad [M]; the
        state reached when the exception was thrown is kept (nothing is
        rolled back), as in JavaScript.
      - Everything the program obtains from outside (the model endpoint, the
        Graph endpoint, [JSON.parse], the [Date] library) is a field of the
        environment [Env]; the theorems quantify over it.
      - Event subscribers are observers: [emit] appends to the event log. *)

From Stdlib Require Import ZArith String Ascii List Bool Lia DecimalString.
From stdpp Require Import base option list gmap strings fin_maps.

Set Warnings "-register-all".
Local Open Scope string_scope.
Local Open Scope Z_scope.
Local Open Scope list_scope.

(* ===================================================================== *)
(** ** JavaScript strings *)
(* ===================================================================== *)

Module JS.

(** The double quote, as a one character string. *)
Definition dq : string := String (ascii_of_nat 34) EmptyString.
(** Line feed. *)
Definition nl : string := String (ascii_of_nat 10) EmptyString.

Definition string_of_nat (n : nat) : string :=
  NilZero.string_of_uint (Nat.to_uint n).

Definition string_of_Z (z : Z) : string :=
  NilZero.string_of_int (Z.to_int z).

Definition string_of_bool (b : bool) : string :=
  if b then "true" else "false".

(** [s.length] *)
Definition length (s : string) : nat := String.length s.

(** [String.prototype.toLowerCase], on the ASCII letters. *)
Definition lower_ascii (c : ascii) : ascii :=
  let n := nat_of_ascii c in
  if ((65 <=? n) && (n <=? 90))%nat then ascii_of_nat (n + 32) else c.

Fixpoint toLowerCase (s : string) : string :=
  match s with
  | EmptyString => EmptyString
  | String c r => String (lower_ascii c) (toLowerCase r)
  end.

(** [s.startsWith(p)] *)
Definition startsWith (p s : string) : bool := String.prefix p s.

(** [s.includes(needle)] *)
Fixpoint includes (needle s : string) : bool :=
  if String.prefix needle s then true
  else match s with
       | EmptyString => false
       | String _ r => includes needle r
       end.

(** [s.slice(n)] for [0 <= n]. *)
Fixpoint slice_from (n : nat) (s : string) : string :=
  match n, s with
  | O, _ => s
  | S n', String _ r => slice_from n' r
  | S _, EmptyString => EmptyString
  end.

(** [s.substring(0, n)] and [s.slice(0, n)] for [0 <= n]. *)
Definition substring0 (n : nat) (s : string) : string :=
  String.substring 0 n s.

(** [s.slice(0, -n)] for [0 < n]. *)
Definition slice_drop_last (n : nat) (s : string) : string :=
  substring0 (String.length s - n) s.

(** [s.endsWith(p)] *)
Definition endsWith (p s : string) : bool :=
  (String.length p <=? String.length s)%nat
  && String.eqb (slice_from (String.length s - String.length p) s) p.

Definition is_space (c : ascii) : bool :=
  let n := nat_of_ascii c in
  ((n =? 32) || ((9 <=? n) && (n <=? 13)))%nat.

Fixpoint trimStart (s : string) : string :=
  match s with
  | String c r => if is_space c then trimStart r else s
  | EmptyString => EmptyString
  end.

(** Drops the white space at the end: the string is kept up to its last
    character that is not white space. *)
Fixpoint trimEnd (s : string) : string :=
  match s with
  | EmptyString => EmptyString
  | String c r =>
      match trimEnd r with
      | EmptyString => if is_space c then EmptyString else String c EmptyString
      | r' => String c r'
      end
  end.

(** [s.trim()] *)
Definition trim (s : string) : string := trimEnd (trimStart s).

(** [xs.join(sep)] on strings. *)
Fixpoint join (sep : string) (xs : list string) : string :=
  match xs with
  | [] => ""
  | [x] => x
  | x :: r => x +:+ sep +:+ join sep r
  end.

(** The text before the first occurrence of the character [c], and the
    text after it when there is one. *)
Fixpoint break_at (c : ascii) (s : string) : string * option string :=
  match s with
  | EmptyString => (EmptyString, None)
  | String d r =>
      if Ascii.eqb c d then (EmptyString, Some r)
      else let '(a, b) := break_at c r in (String d a, b)
  end.

(** [s.split(c)[1]]: the second piece, [None] for [undefined]. *)
Definition split_second (c : ascii) (s : string) : option string :=
  match break_at c s with
  | (_, None) => None
  | (_, Some r) => Some (fst (break_at c r))
  end.

(** [s.split(c)[0]] *)
Definition split_first (c : ascii) (s : string) : string :=
  fst (break_at c s).

(** [s.replace(/c/g, '')] *)
Fixpoint remove_char (c : ascii) (s : string) : string :=
  match s with
  | EmptyString => EmptyString
  | String d r => if Ascii.eqb c d then remove_char c r else String d (remove_char c r)
  end.

(** [x || d] on strings: the empty string is falsy. *)
Definition or_else (x d : string) : string :=
  if String.eqb x "" then d else x.

(** [[...new Set(xs)]]: first occurrences, in order. *)
Fixpoint unique (xs : list string) : list string :=
  match xs with
  | [] => []
  | x :: r => x :: List.filter (fun y => negb (String.eqb x y)) (unique r)
  end.

End JS.

(* ===================================================================== *)
(** ** JSON values, thrown values, and the effect monad *)
(* ===================================================================== *)

(** What a tool handler receives and returns: a JSON tree; [JUndefined] is
    JavaScript's [undefined]. An object keeps its members in insertion
    order. *)
Inductive Json : Type :=
| JUndefined
| JNull
| JBool (b : bool)
| JNum (z : Z)
| JStr (s : string)
| JArr (items : list Json)
| JObj (members : list (string * Json)).

Module JSON.

Definition hex_digit (n : nat) : string :=
  String.substring n 1 "0123456789abcdef".

(** The escapes [JSON.stringify] writes inside a string literal. *)
Definition escape_char (c : ascii) : string :=
  let n := nat_of_ascii c in
  if (n =? 34)%nat then "\" +:+ JS.dq
  else if (n =? 92)%nat then "\\"
  else if (n =? 8)%nat then "\b"
  else if (n =? 12)%nat then "\f"
  else if (n =? 10)%nat then "\n"
  else if (n =? 13)%nat then "\r"
  else if (n =? 9)%nat then "\t"
  else if (n <? 32)%nat then "\u00" +:+ hex_digit (n / 16) +:+ hex_digit (n mod 16)
  else String c EmptyString.

Fixpoint escape (s : string) : string :=
  match s with
  | EmptyString => EmptyString
  | String c r => escape_char c +:+ escape r
  end.

Definition quote (s : string) : string := JS.dq +:+ escape s +:+ JS.dq.

(** The text of a value nested in an array or an object; [undefined] in an
    array is written [null], a member that is [undefined] is left out. *)
Fixpoint text (j : Json) : string :=
  match j with
  | JUndefined => "null"
  | JNull => "null"
  | JBool b => JS.string_of_bool b
  | JNum z => JS.string_of_Z z
  | JStr s => quote s
  | JArr items => "[" +:+ JS.join "," (List.map text items) +:+ "]"
  | JObj members =>
      let fix go (ms : list (string * Json)) : list string :=
        match ms with
        | [] => []
        | (k, JUndefined) :: r => go r
        | (k, v) :: r => (quote k +:+ ":" +:+ text v) :: go r
        end in
      "{" +:+ JS.join "," (go members) +:+ "}"
  end.

(** [JSON.stringify(j)]; [None] is the [undefined] it returns for
    [undefined]. *)
Definition stringify (j : Json) : option string :=
  match j with
  | JUndefined => None
  | _ => Some (text j)
  end.

(** [o.k]: the last member named [k] wins, a missing one is [undefined]. *)
Fixpoint member (k : string) (ms : list (string * Json)) : Json :=
  match ms with
  | [] => JUndefined
  | (k', v) :: r =>
      match member k r with
      | JUndefined => if String.eqb k k' then v else JUndefined
      | w => w
      end
  end.

End JSON.

(** A thrown value: an [Error] with its message, or anything else. *)
Inductive JsThrown : Type :=
| JsError (message : string)
| JsOther.

(** [error instanceof Error ? error.message : 'Unknown error'] *)
Definition errorMessage (error : JsThrown) : string :=
  match error with
  | JsError m => m
  | JsOther => "Unknown error"
  end.

(** The outcome of a computation: a value, or a thrown value. *)
Inductive Res (A : Type) : Type :=
| Ret (a : A)
| Exn (e : JsThrown).
Arguments Ret {A} a.
Arguments Exn {A} e.

(** State and exceptions: the state at the point of the throw survives. *)
Definition M (S A : Type) : Type := S -> Res A * S.

Definition ret {S A} (a : A) : M S A := fun s => (Ret a, s).

Definition bind {S A B} (m : M S A) (k : A -> M S B) : M S B :=
  fun s => match m s with
           | (Ret a, s') => k a s'
           | (Exn e, s') => (Exn e, s')
           end.

Definition throw {S A} (e : JsThrown) : M S A := fun s => (Exn e, s).

(** [try { m } catch (error) { h error }] *)
Definition try_catch {S A} (m : M S A) (h : JsThrown -> M S A) : M S A :=
  fun s => match m s with
           | (Ret a, s') => (Ret a, s')
           | (Exn e, s') => h e s'
           end.

Definition get {S} : M S S := fun s => (Ret s, s).
Definition gets {S A} (f : S -> A) : M S A := fun s => (Ret (f s), s).
Definition modify {S} (f : S -> S) : M S unit := fun s => (Ret tt, f s).

(** An outcome obtained without touching the state. *)
Definition lift_res {S A} (r : Res A) : M S A := fun s => (r, s).

Notation "x <- m ;; k" := (bind m (fun x => k))
  (at level 100, m at next level, right associativity).
Notation "m ;;; k" := (bind m (fun _ => k))
  (at level 100, right associativity).

Fixpoint for_each {S A} (xs : list A) (body : A -> M S unit) : M S unit :=
  match xs with
  | [] => ret tt
  | x :: r => body x ;;; for_each r body
  end.

(* ===================================================================== *)
(** ** Data model ([src/types]) *)
(* ===================================================================== *)

(** [types/CalendarEvent.ts] *)
Record EmailAddress := {
  ea_name : string;
  ea_address : string;
}.

Record Attendee := {
  att_type : string;
  att_response : string;
  att_emailAddress : EmailAddress;
}.

Record DateTimeTimeZone := {
  dateTime : string;
  timeZone : string;
}.

Record GraphCalendarEvent := {
  id : string;
  subject : string;
  bodyPreview : string;
  start : DateTimeTimeZone;
  end_ : DateTimeTimeZone;
  organizer : EmailAddress;
  attendees : list Attendee;
  isAllDay : bool;
  isCancelled : bool;
  webLink : string;
}.

Record MeetingReportRow := {
  meetingName : string;
  date : string;
  startTime : string;
  endTime : string;
  organizerName : string;
  organizerEmail : string;
  organizerCompany : string;
  row_attendees : string;
  attendeeEmails : string;
  attendeeCompanies : string;
  agenda : string;
}.

(** [types/LLMTypes.ts] *)
Record LLMConfig := {
  baseUrl : string;
  apiKey : string;
  llm_model : string;
}.

Inductive ChatRole := chat_system | chat_user | chat_assistant.

Record ChatMessage := {
  chat_role : ChatRole;
  chat_content : string;
}.

(** [MeetingCategory] is the set of the strings of [validCategories]; the
    field holds the string. *)
Record MeetingAnalysis := {
  summary : string;
  category : string;
  actionItems : list string;
  keyTopics : list string;
}.

(** [types/AgentTypes.ts] *)
Record ToolProperty := {
  prop_name : string;
  prop_type : string;
  prop_description : string;
  prop_enum : option (list string);
}.

Record Tool := {
  tool_name : string;
  tool_description : string;
  tool_properties : list ToolProperty;
  tool_required : list string;
}.

(** [ToolCall]: [function.name] and [function.arguments] are flattened. *)
Record ToolCall := {
  tc_id : string;
  tc_name : string;
  tc_arguments : string;
}.

Inductive Role := system | user | assistant | tool.

Record AgentMessage := {
  role : Role;
  content : option string;
  tool_calls : option (list ToolCall);
  tool_call_id : option string;
}.

(** [temperature] is left out: no agent of the repository sets it and it
    only travels in the request body. *)
Record AgentConfig := {
  name : string;
  description : string;
  systemPrompt : string;
  tools : list Tool;
  model : option string;
  maxIterations : option Z;
}.

(** A JavaScript [Date]: its time value, [None] for an invalid date. *)
Definition JsDate : Type := option Z.

(** A [Map<string, V>]: the entries in insertion order. *)
Definition JsMap (V : Type) : Type := list (string * V).

Module JsMap.
Definition get {V} (k : string) (m : JsMap V) : option V :=
  snd <$> List.find (fun kv => String.eqb (fst kv) k) m.

(** [m.set(k, v)]: an existing key keeps its place. *)
Fixpoint set {V} (k : string) (v : V) (m : JsMap V) : JsMap V :=
  match m with
  | [] => [(k, v)]
  | (k', v') :: r => if String.eqb k' k then (k, v) :: r else (k', v') :: set k v r
  end.

Definition size {V} (m : JsMap V) : nat := List.length m.
Definition values {V} (m : JsMap V) : list V := List.map snd m.
End JsMap.

(** The address of a [Map] object in the store. *)
Definition MapRef : Type := nat.

(** What the agents of the repository store in an [AgentContext]. A [Map]
    is stored by reference. *)
Inductive CtxValue : Type :=
| VMeetings (meetings : list GraphCalendarEvent)
| VDate (d : JsDate)
| VAnalysisResults (r : MapRef)
| VString (s : string).

(** [AgentContext]: an object used as a map from keys to values. *)
Abbreviation AgentContext := (gmap string CtxValue).

Record AgentResponse := {
  success : bool;
  message : string;
  data : option AgentContext;
  error : option string;
}.

Inductive AgentEventType :=
| thinking | ev_tool_call | ev_tool_result | response | ev_error | complete.

(** [timestamp] is left out. *)
Record AgentEvent := {
  ev_type : AgentEventType;
  ev_agent : string;
  ev_message : string;
  ev_data : Json;
}.

(** A workbook handed to [XLSX.writeFile]: the file name, the sheets, each
    a name and an array of arrays of cells, and the column widths of each
    sheet, the [wch] of its [!cols], in the order of the sheets. *)
Record Workbook := {
  wb_filename : string;
  wb_sheets : list (string * list (list string));
  wb_cols : list (list Z);
}.

(* ===================================================================== *)
(** ** The world outside the agents *)
(* ===================================================================== *)

(** The mutable state shared by all the agents of a page: the module level
    [currentConfig] of [llmService.ts], the [Map] objects, what was sent to
    the subscribers, what was written, and how many requests the services
    sent. *)
Record World := {
  currentConfig : LLMConfig;
  heap : list (JsMap MeetingAnalysis);
  events : list AgentEvent;
  files : list Workbook;
  consoleErrors : nat;
  chats : nat;
  graphCalls : nat;
}.

Definition set_heap (h : list (JsMap MeetingAnalysis)) (w : World) : World :=
  {| currentConfig := currentConfig w; heap := h; events := events w;
     files := files w; consoleErrors := consoleErrors w;
     chats := chats w; graphCalls := graphCalls w |}.
Definition set_events (e : list AgentEvent) (w : World) : World :=
  {| currentConfig := currentConfig w; heap := heap w; events := e;
     files := files w; consoleErrors := consoleErrors w;
     chats := chats w; graphCalls := graphCalls w |}.
Definition set_files (f : list Workbook) (w : World) : World :=
  {| currentConfig := currentConfig w; heap := heap w; events := events w;
     files := f; consoleErrors := consoleErrors w;
     chats := chats w; graphCalls := graphCalls w |}.
Definition set_consoleErrors (n : nat) (w : World) : World :=
  {| currentConfig := currentConfig w; heap := heap w; events := events w;
     files := files w; consoleErrors := n;
     chats := chats w; graphCalls := graphCalls w |}.
Definition set_chats (n : nat) (w : World) : World :=
  {| currentConfig := currentConfig w; heap := heap w; events := events w;
     files := files w; consoleErrors := consoleErrors w;
     chats := n; graphCalls := graphCalls w |}.
Definition set_graphCalls (n : nat) (w : World) : World :=
  {| currentConfig := currentConfig w; heap := heap w; events := events w;
     files := files w; consoleErrors := consoleErrors w;
     chats := chats w; graphCalls := n |}.

(** The reply of the chat completions endpoint to an agent:
    [choice.message.content] and [choice.message.tool_calls]. *)
Record LLMReply := {
  reply_content : option string;
  reply_tool_calls : option (list ToolCall);
}.

(** Everything obtained from outside the program. The endpoints answer the
    [n]-th request they receive, so that any behaviour over time is some
    environment. *)
Record Env := {
  (** [fetch] of [/chat/completions] in [BaseAgent.callLLM], up to the
      extraction of [data.choices[0]]; [Exn] for a network failure, a
      response that is not ok, or a body without a choice. *)
  model_endpoint : nat -> AgentConfig -> list AgentMessage -> Res LLMReply;
  (** The same in [llmService.chatCompletion]:
      [data.choices[0]?.message?.content || '']. *)
  chat_endpoint : nat -> list ChatMessage -> Res string;
  (** [acquireTokenSilent] and its interactive fallback in
      [graphService.getAccessToken]. *)
  acquire_token : nat -> Res string;
  (** The paged [fetch] of [graphService.fetchCalendarEvents], for the
      start, the end and the target user. *)
  graph_endpoint : nat -> Z -> Z -> option string -> Res (list GraphCalendarEvent);
  (** [JSON.parse] *)
  JSON_parse : string -> Res Json;
  (** [JSON.parse(..) as MeetingAnalysis] up to the validation of the
      category: the parsed value, taken to have the declared members as the
      cast does; [Exn] when [JSON.parse] throws or when the category of the
      parsed value cannot be read or written ([null], a primitive), which
      throws inside the same [try]. A parsed value without one of the other
      members is not represented: where the source later reads
      [actionItems.length] or joins [actionItems] or [keyTopics] of such a
      value it throws, and the embedding does not. *)
  JSON_parse_analysis : string -> Res MeetingAnalysis;
  (** [new Date(s).getTime()], [None] for [NaN]. *)
  Date_parse : string -> option Z;
  (** [new Date()] *)
  Date_now : World -> Z;
  (** [d.setHours(23, 59, 59, 999)] in the local time zone. *)
  Date_endOfDay : Z -> Z;
  (** [d.toISOString()] of a valid date. *)
  Date_toISOString : Z -> string;
  (** [d.toDateString()] of a valid date. *)
  Date_toDateString : Z -> string;
  (** [d.toLocaleTimeString('en-US', ..)] of a valid date. *)
  Date_toLocaleTimeString : Z -> string;
  (** [parseInt(s)], [None] for [NaN]. *)
  parseInt : string -> option Z;
  (** [Math.round(totalMinutes / 60 * 10) / 10] of the time values of the
      starts and ends, a floating point computation, as JSON. *)
  totalHours : list (JsDate * JsDate) -> Json;
}.

(* ===================================================================== *)
(** ** [agents/BaseAgent.ts] *)
(* ===================================================================== *)

(** What a tool handler can reach through [this]: the agent's context, the
    fields its subclass declares, and the world. The handlers of the
    repository touch neither [config] nor [conversationHistory]. *)
Record HandlerState (X : Type) := {
  h_context : AgentContext;
  h_fields : X;
  h_world : World;
}.
Arguments h_context {X} _.
Arguments h_fields {X} _.
Arguments h_world {X} _.

(** A registered handler, [(args) => Promise<unknown>]; the first argument
    is [this.config.name], which its [emit] calls read. *)
Definition Handler (X : Type) : Type :=
  string -> Json -> M (HandlerState X) Json.

(** The fields of [BaseAgent]; [fields] are those a subclass adds.
    [eventHandlers] is the event log of the world. *)
Record BaseAgent (X : Type) := {
  config : AgentConfig;
  context : AgentContext;
  conversationHistory : list AgentMessage;
  toolHandlers : gmap string (Handler X);
  fields : X;
}.
Arguments config {X} _.
Arguments context {X} _.
Arguments conversationHistory {X} _.
Arguments toolHandlers {X} _.
Arguments fields {X} _.

(** An agent together with the world it runs in; [queries] counts the
    requests [callLLM] has sent to the model endpoint, which no handler
    reaches. *)
Record AgentState (X : Type) := {
  self : BaseAgent X;
  world : World;
  queries : nat;
}.
Arguments self {X} _.
Arguments world {X} _.
Arguments queries {X} _.

Definition system_message (prompt : string) : AgentMessage :=
  {| role := system; content := Some prompt; tool_calls := None; tool_call_id := None |}.

Definition user_message (text : string) : AgentMessage :=
  {| role := user; content := Some text; tool_calls := None; tool_call_id := None |}.

Definition assistant_message (r : LLMReply) : AgentMessage :=
  {| role := assistant; content := reply_content r;
     tool_calls := reply_tool_calls r; tool_call_id := None |}.

Definition tool_message (call_id : string) (text : option string) : AgentMessage :=
  {| role := tool; content := text; tool_calls := None; tool_call_id := Some call_id |}.

Section BaseAgent.
Context {X : Type}.
Variable env : Env.

(** [constructor(config)], before the subclass registers its tools. *)
Definition BaseAgent_new (cfg : AgentConfig) (x : X) : BaseAgent X :=
  {| config := cfg;
     context := ∅;
     conversationHistory := [system_message (systemPrompt cfg)];
     toolHandlers := ∅;
     fields := x |}.

(** [registerTool(name, handler)] *)
Definition registerTool (tname : string) (handler : Handler X)
    (a : BaseAgent X) : BaseAgent X :=
  {| config := config a; context := context a;
     conversationHistory := conversationHistory a;
     toolHandlers := <[tname := handler]> (toolHandlers a);
     fields := fields a |}.

(** [setContext(context)]: [{ ...this.context, ...context }]. *)
Definition setContext (ctx : AgentContext) (a : BaseAgent X) : BaseAgent X :=
  {| config := config a; context := ctx ∪ context a;
     conversationHistory := conversationHistory a;
     toolHandlers := toolHandlers a;
     fields := fields a |}.

(** [reset()] *)
Definition reset (a : BaseAgent X) : BaseAgent X :=
  {| config := config a; context := ∅;
     conversationHistory := [system_message (systemPrompt (config a))];
     toolHandlers := toolHandlers a;
     fields := fields a |}.

Definition push_message (m : AgentMessage) (a : BaseAgent X) : BaseAgent X :=
  {| config := config a; context := context a;
     conversationHistory := conversationHistory a ++ [m];
     toolHandlers := toolHandlers a;
     fields := fields a |}.

Definition with_self (f : BaseAgent X -> BaseAgent X) (s : AgentState X) : AgentState X :=
  {| self := f (self s); world := world s; queries := queries s |}.

Definition with_world (f : World -> World) (s : AgentState X) : AgentState X :=
  {| self := self s; world := f (world s); queries := queries s |}.

Definition count_query (s : AgentState X) : AgentState X :=
  {| self := self s; world := world s; queries := S (queries s) |}.

(** [this.conversationHistory.push(m)] *)
Definition push (m : AgentMessage) : M (AgentState X) unit :=
  modify (with_self (push_message m)).

Definition log_event (e : AgentEvent) (w : World) : World :=
  set_events (events w ++ [e]) w.

(** [emit(type, message, data)] *)
Definition emit (t : AgentEventType) (msg : string) (d : Json) : M (AgentState X) unit :=
  fun s =>
    (Ret tt,
     with_world (log_event {| ev_type := t; ev_agent := name (config (self s));
                              ev_message := msg; ev_data := d |}) s).

(** A handler runs on the context, the subclass fields and the world of
    the agent, and leaves them as it left them, also when it throws. *)
Definition run_handler (h : Handler X) (args : Json) : M (AgentState X) Json :=
  fun s =>
    let a := self s in
    let '(r, hs) := h (name (config a)) args
                      {| h_context := context a; h_fields := fields a;
                         h_world := world s |} in
    (r, {| self := {| config := config a; context := h_context hs;
                      conversationHistory := conversationHistory a;
                      toolHandlers := toolHandlers a;
                      fields := h_fields hs |};
           world := h_world hs;
           queries := queries s |}).

(** [executeTool(name, args)] *)
Definition executeTool (tname : string) (args : Json) : M (AgentState X) Json :=
  fun s =>
    match toolHandlers (self s) !! tname with
    | None => throw (JsError ("Unknown tool: " +:+ tname)) s
    | Some handler => run_handler handler args s
    end.

(** [callLLM()]: one request to the model endpoint with the whole
    conversation; the request is counted whatever its outcome. *)
Definition callLLM : M (AgentState X) AgentMessage :=
  fun s =>
    let s' := count_query s in
    match model_endpoint env (queries s) (config (self s))
                         (conversationHistory (self s)) with
    | Ret r => (Ret (assistant_message r), s')
    | Exn e => (Exn e, s')
    end.

(** The body of [for (const toolCall of assistantMessage.tool_calls)]. *)
Definition run_tool_call (toolCall : ToolCall) : M (AgentState X) unit :=
  let tname := tc_name toolCall in
  let argsJson := tc_arguments toolCall in
  emit ev_tool_call ("Calling tool: " +:+ tname)
       (JObj [("name", JStr tname); ("args", JStr argsJson)]) ;;;
  try_catch
    (args <- lift_res (JSON_parse env argsJson) ;;
     result <- executeTool tname args ;;
     emit ev_tool_result ("Tool " +:+ tname +:+ " completed") result ;;;
     push (tool_message (tc_id toolCall) (JSON.stringify result)))
    (fun error =>
       let msg := errorMessage error in
       emit ev_error ("Tool " +:+ tname +:+ " failed: " +:+ msg) JUndefined ;;;
       push (tool_message (tc_id toolCall)
               (JSON.stringify (JObj [("error", JStr msg)])))).

(** How one turn of the [while] loop ends. *)
Inductive Turn :=
| Continue
| Return (r : AgentResponse).

(** The [try { .. } catch (error) { .. }] inside the loop. *)
Definition run_turn : M (AgentState X) Turn :=
  try_catch
    (assistantMessage <- callLLM ;;
     push assistantMessage ;;;
     match tool_calls assistantMessage with
     | Some (toolCall :: rest) =>
         for_each (toolCall :: rest) run_tool_call ;;;
         ret Continue
     | _ =>
         emit complete "Task completed" JUndefined ;;;
         ctx <- gets (fun s => context (self s)) ;;
         ret (Return {| success := true;
                        message := match content assistantMessage with
                                   | Some c => JS.or_else c "Task completed"
                                   | None => "Task completed"
                                   end;
                        data := Some ctx;
                        error := None |})
     end)
    (fun error =>
       let msg := errorMessage error in
       emit ev_error msg JUndefined ;;;
       ret (Return {| success := false; message := "Agent failed";
                      data := None; error := Some msg |})).

(** [while (iterations < maxIterations) { iterations++; .. }], by the
    number [maxIterations - iterations] of turns left. *)
Fixpoint run_loop (turns_left : nat) : M (AgentState X) AgentResponse :=
  match turns_left with
  | O =>
      emit ev_error "Max iterations reached" JUndefined ;;;
      ret {| success := false; message := "Agent reached maximum iterations";
             data := None; error := Some "Max iterations exceeded" |}
  | S n =>
      t <- run_turn ;;
      match t with
      | Continue => run_loop n
      | Return r => ret r
      end
  end.

(** [this.config.maxIterations ?? 10] *)
Definition maxIterations_of (cfg : AgentConfig) : Z :=
  match maxIterations cfg with
  | Some n => n
  | None => 10
  end.

(** [run(userMessage)] *)
Definition run (userMessage : string) : M (AgentState X) AgentResponse :=
  maxIter <- gets (fun s => maxIterations_of (config (self s))) ;;
  push (user_message userMessage) ;;;
  emit thinking "Processing request..." JUndefined ;;;
  run_loop (Z.to_nat maxIter).

End BaseAgent.

(* ===================================================================== *)
(** ** JavaScript values at the places the handlers use them *)
(* ===================================================================== *)

Module JsValue.

(** [String(j)], as a template literal interpolates it. *)
Fixpoint toString (j : Json) : string :=
  match j with
  | JUndefined => "undefined"
  | JNull => "null"
  | JBool b => JS.string_of_bool b
  | JNum z => JS.string_of_Z z
  | JStr s => s
  | JArr items =>
      JS.join "," (List.map (fun i => match i with
                                      | JUndefined | JNull => ""
                                      | _ => toString i
                                      end) items)
  | JObj _ => "[object Object]"
  end.

(** The truth value of [j] in a condition. *)
Definition truthy (j : Json) : bool :=
  match j with
  | JUndefined | JNull => false
  | JBool b => b
  | JNum z => negb (z =? 0)
  | JStr s => negb (String.eqb s "")
  | JArr _ | JObj _ => true
  end.

(** [j === s] for a string [s]. *)
Definition is_string (s : string) (j : Json) : bool :=
  match j with
  | JStr t => String.eqb t s
  | _ => false
  end.

(** [args.k]: reading a property of [null] or [undefined] throws. *)
Definition prop {S} (k : string) (args : Json) : M S Json :=
  match args with
  | JUndefined => throw (JsError ("Cannot read properties of undefined (reading '" +:+ k +:+ "')"))
  | JNull => throw (JsError ("Cannot read properties of null (reading '" +:+ k +:+ "')"))
  | JObj members => ret (JSON.member k members)
  | _ => ret JUndefined
  end.

(** [j.toLowerCase()]: only a string has the method. *)
Definition toLowerCase {S} (what : string) (j : Json) : M S string :=
  match j with
  | JStr s => ret (JS.toLowerCase s)
  | JUndefined => throw (JsError ("Cannot read properties of undefined (reading 'toLowerCase')"))
  | JNull => throw (JsError ("Cannot read properties of null (reading 'toLowerCase')"))
  | _ => throw (JsError (what +:+ ".toLowerCase is not a function"))
  end.

End JsValue.

Module JsDates.
Section WithEnv.
Variable env : Env.

(** [new Date(j)] *)
Definition newDate (j : Json) : JsDate :=
  match j with
  | JStr s => Date_parse env s
  | JUndefined => None
  | JNull => Some 0
  | JBool b => Some (if b then 1 else 0)
  | JNum z => Some z
  | _ => Date_parse env (JsValue.toString j)
  end.

(** [d.toISOString()]: a [RangeError] on an invalid date. *)
Definition toISOString (d : JsDate) : Res string :=
  match d with
  | Some z => Ret (Date_toISOString env z)
  | None => Exn (JsError "Invalid time value")
  end.

(** [d.toDateString()] *)
Definition toDateString (d : JsDate) : string :=
  match d with
  | Some z => Date_toDateString env z
  | None => "Invalid Date"
  end.

(** [d.toLocaleTimeString('en-US', ..)] *)
Definition toLocaleTimeString (d : JsDate) : string :=
  match d with
  | Some z => Date_toLocaleTimeString env z
  | None => "Invalid Date"
  end.

(** [d.toISOString().split('T')[0]] *)
Definition isoDay (d : JsDate) : Res string :=
  match toISOString d with
  | Ret s => Ret (JS.split_first "T" s)
  | Exn e => Exn e
  end.
End WithEnv.
End JsDates.

(* ===================================================================== *)
(** ** [utils/domainExtractor.ts] *)
(* ===================================================================== *)

Definition extractDomainFromEmail (email : string) : string :=
  if String.eqb email "" || negb (JS.includes "@" email) then ""
  else match JS.split_second "@" email with
       | Some d => JS.toLowerCase d
       | None => ""
       end.

Definition personalProviders : list string :=
  ["gmail.com"; "yahoo.com"; "hotmail.com"; "outlook.com"; "live.com";
   "icloud.com"; "aol.com"; "protonmail.com"; "mail.com"].

Definition extractCompanyFromEmail (email : string) : string :=
  let domain := extractDomainFromEmail email in
  if String.eqb domain "" then ""
  else if existsb (String.eqb domain) personalProviders then domain
  else domain.

Definition getUniqueCompanies (emails : list string) : list string :=
  JS.unique (List.filter (fun company => negb (String.eqb company ""))
                         (List.map extractCompanyFromEmail emails)).

(* ===================================================================== *)
(** ** [services/excelService.ts] *)
(* ===================================================================== *)

Section ExcelService.
Variable env : Env.

Definition formatDate (isoString : string) : Res string :=
  JsDates.isoDay env (Date_parse env isoString).

Definition formatTime (isoString : string) : string :=
  JsDates.toLocaleTimeString env (Date_parse env isoString).

(** [startTime === endTime] on numbers: [NaN] equals nothing. *)
Definition hasZeroDuration (event : GraphCalendarEvent) : bool :=
  match Date_parse env (dateTime (start event)),
        Date_parse env (dateTime (end_ event)) with
  | Some startTime, Some endTime => startTime =? endTime
  | _, _ => false
  end.

(** The callback of [.map] in [transformEventsToReportRows]. *)
Definition toReportRow (event : GraphCalendarEvent) : Res MeetingReportRow :=
  let attendeeNames :=
    JS.join ", " (List.filter (fun n => negb (String.eqb n ""))
                    (List.map (fun a => ea_name (att_emailAddress a)) (attendees event))) in
  let attendeeEmails :=
    List.filter (fun e => negb (String.eqb e ""))
      (List.map (fun a => ea_address (att_emailAddress a)) (attendees event)) in
  let attendeeCompanies := JS.join ", " (getUniqueCompanies attendeeEmails) in
  match formatDate (dateTime (start event)) with
  | Exn e => Exn e
  | Ret day =>
      Ret {| meetingName := JS.or_else (subject event) "(No subject)";
             date := day;
             startTime := formatTime (dateTime (start event));
             endTime := formatTime (dateTime (end_ event));
             organizerName := ea_name (organizer event);
             organizerEmail := ea_address (organizer event);
             organizerCompany := extractCompanyFromEmail (ea_address (organizer event));
             row_attendees := attendeeNames;
             attendeeEmails := JS.join ", " attendeeEmails;
             attendeeCompanies := attendeeCompanies;
             agenda := JS.substring0 500 (bodyPreview event) |}
  end.

(** [xs.map(f)] for a callback that may throw: the first throw ends it. *)
Fixpoint map_res {A B} (f : A -> Res B) (xs : list A) : Res (list B) :=
  match xs with
  | [] => Ret []
  | x :: r =>
      match f x with
      | Exn e => Exn e
      | Ret y => match map_res f r with
                 | Exn e => Exn e
                 | Ret ys => Ret (y :: ys)
                 end
      end
  end.

Definition transformEventsToReportRows (evs : list GraphCalendarEvent)
    : Res (list MeetingReportRow) :=
  map_res toReportRow
    (List.filter (fun event => negb (hasZeroDuration event))
       (List.filter (fun event => negb (isCancelled event)) evs)).

Definition formatDateStr (d : JsDate) : Res string :=
  match JsDates.isoDay env d with
  | Ret s => Ret (JS.remove_char "-" s)
  | Exn e => Exn e
  end.

Definition generateFilename (startDate endDate : JsDate) : Res string :=
  match formatDateStr startDate with
  | Exn e => Exn e
  | Ret a =>
      match formatDateStr endDate with
      | Exn e => Exn e
      | Ret b => Ret ("meeting-report_" +:+ a +:+ "_to_" +:+ b +:+ ".xlsx")
      end
  end.

(** [generateExcelFile(data, filename = 'meeting-report.xlsx')]: the
    workbook with the one sheet [Meetings] and its eleven column widths is
    handed to [XLSX.writeFile]. [None] is a file name left out. *)
Definition generateExcelFile (data : list MeetingReportRow) (filename : option string)
    : M World unit :=
  let headers :=
    [ "Meeting Name"; "Date"; "Start Time"; "End Time"; "Organizer Name";
      "Organizer Email"; "Organizer Company"; "Attendees"; "Attendee Emails";
      "Attendee Companies"; "Agenda" ] in
  let worksheetData :=
    headers
    :: List.map (fun row =>
                   [ meetingName row; date row; startTime row; endTime row;
                     organizerName row; organizerEmail row; organizerCompany row;
                     row_attendees row; attendeeEmails row; attendeeCompanies row;
                     agenda row ])
                data in
  modify (fun w =>
    set_files (files w
               ++ [ {| wb_filename := default "meeting-report.xlsx" filename;
                       wb_sheets := [("Meetings", worksheetData)];
                       wb_cols := [[40; 12; 10; 10; 25; 30; 20; 40; 50; 30; 60]] |} ]) w).

End ExcelService.

(* ===================================================================== *)
(** ** [services/llmService.ts] *)
(* ===================================================================== *)

Module LLMService.
Section WithEnv.
Variable env : Env.

Definition isLLMConfigured (w : World) : bool :=
  (0 <? String.length (baseUrl (currentConfig w)))%nat
  && (0 <? String.length (llm_model (currentConfig w)))%nat.

Definition console_error : M World unit :=
  modify (fun w => set_consoleErrors (S (consoleErrors w)) w).

Definition chatCompletion (messages : list ChatMessage) : M World string :=
  fun w =>
    if negb (isLLMConfigured w)
    then (Exn (JsError "LLM not configured. Please configure in settings."), w)
    else (chat_endpoint env (chats w) messages, set_chats (S (chats w)) w).

Definition validCategories : list string :=
  ["internal-team"; "external-client"; "one-on-one"; "all-hands";
   "interview"; "training"; "review"; "planning"; "social"; "other"].

Definition analysis_system_prompt : string :=
  "You are a meeting analyst. Analyze calendar meetings and extract structured information. Always respond with valid JSON only, no additional text.".

Definition analysis_prompt (event : GraphCalendarEvent) : string :=
  let attendeeList :=
    JS.join ", "
      (List.map (fun a => ea_name (att_emailAddress a) +:+ " ("
                          +:+ ea_address (att_emailAddress a) +:+ ")")
                (attendees event)) in
  let q := JS.dq in
  "Analyze this calendar meeting and provide a JSON response:" +:+ JS.nl
  +:+ JS.nl
  +:+ "Meeting Subject: " +:+ JS.or_else (subject event) "(No subject)" +:+ JS.nl
  +:+ "Organizer: " +:+ ea_name (organizer event) +:+ " ("
  +:+ ea_address (organizer event) +:+ ")" +:+ JS.nl
  +:+ "Attendees: " +:+ JS.or_else attendeeList "None" +:+ JS.nl
  +:+ "Description/Agenda:" +:+ JS.nl
  +:+ JS.or_else (bodyPreview event) "(No description)" +:+ JS.nl
  +:+ JS.nl
  +:+ "Respond ONLY with valid JSON in this exact format:" +:+ JS.nl
  +:+ "{" +:+ JS.nl
  +:+ "  " +:+ q +:+ "summary" +:+ q +:+ ": " +:+ q
  +:+ "A brief 1-2 sentence summary of what this meeting is about" +:+ q +:+ "," +:+ JS.nl
  +:+ "  " +:+ q +:+ "category" +:+ q +:+ ": " +:+ q
  +:+ "one of: internal-team, external-client, one-on-one, all-hands, interview, training, review, planning, social, other"
  +:+ q +:+ "," +:+ JS.nl
  +:+ "  " +:+ q +:+ "actionItems" +:+ q +:+ ": [" +:+ q
  +:+ "list of action items or tasks mentioned, or empty array if none" +:+ q +:+ "]," +:+ JS.nl
  +:+ "  " +:+ q +:+ "keyTopics" +:+ q +:+ ": [" +:+ q
  +:+ "list of main topics to be discussed, max 5" +:+ q +:+ "]" +:+ JS.nl
  +:+ "}".

(** The removal of a markdown code fence around the reply. *)
Definition strip_code_fence (reply : string) : string :=
  let jsonStr := JS.trim reply in
  let jsonStr := if JS.startsWith "```json" jsonStr then JS.slice_from 7 jsonStr else jsonStr in
  let jsonStr := if JS.startsWith "```" jsonStr then JS.slice_from 3 jsonStr else jsonStr in
  let jsonStr := if JS.endsWith "```" jsonStr then JS.slice_drop_last 3 jsonStr else jsonStr in
  JS.trim jsonStr.

(** The value of the [catch] branch of [analyzeMeeting]. *)
Definition default_analysis (event : GraphCalendarEvent) : MeetingAnalysis :=
  {| summary := JS.or_else (JS.substring0 100 (bodyPreview event))
                           "No description available";
     category := "other";
     actionItems := [];
     keyTopics := [] |}.

Definition analysis_messages (event : GraphCalendarEvent) : list ChatMessage :=
  [ {| chat_role := chat_system; chat_content := analysis_system_prompt |};
    {| chat_role := chat_user; chat_content := analysis_prompt event |} ].

Definition analyzeMeeting (event : GraphCalendarEvent) : M World MeetingAnalysis :=
  try_catch
    (reply <- chatCompletion (analysis_messages event) ;;
     analysis <- lift_res (JSON_parse_analysis env (strip_code_fence reply)) ;;
     if existsb (String.eqb (category analysis)) validCategories
     then ret analysis
     else ret {| summary := summary analysis; category := "other";
                 actionItems := actionItems analysis;
                 keyTopics := keyTopics analysis |})
    (fun error =>
       console_error ;;;
       ret (default_analysis event)).

(** [acc[a.category] = (acc[a.category] || 0) + 1] over the values. *)
Fixpoint bump (k : string) (acc : list (string * nat)) : list (string * nat) :=
  match acc with
  | [] => [(k, 1%nat)]
  | (k', n) :: r => if String.eqb k' k then (k', S n) :: r else (k', n) :: bump k r
  end.

Definition count_by {A} (key : A -> string) (xs : list A) : list (string * nat) :=
  fold_left (fun acc a => bump (key a) acc) xs [].

Definition counts_json (cs : list (string * nat)) : Json :=
  JObj (List.map (fun kn => (fst kn, JNum (Z.of_nat (snd kn)))) cs).

Definition generateExecutiveSummary (evs : list GraphCalendarEvent)
    (analyses : JsMap MeetingAnalysis) : M World string :=
  let meetingSummaries :=
    JS.join JS.nl
      (List.map (fun event =>
                   "- " +:+ subject event +:+ ": "
                   +:+ match JsMap.get (id event) analyses with
                       | Some a => JS.or_else (summary a) "No summary"
                       | None => "No summary"
                       end)
                (List.filter (fun e => negb (isCancelled e)) evs)) in
  let categories := count_by category (JsMap.values analyses) in
  let allActionItems := List.concat (List.map actionItems (JsMap.values analyses)) in
  let prompt :=
    "Generate a brief executive summary (3-4 paragraphs) of these meetings:" +:+ JS.nl
    +:+ JS.nl
    +:+ "Total Meetings: " +:+ JS.string_of_nat (List.length evs) +:+ JS.nl
    +:+ "Categories: " +:+ JSON.text (counts_json categories) +:+ JS.nl
    +:+ JS.nl
    +:+ "Meeting Summaries:" +:+ JS.nl
    +:+ meetingSummaries +:+ JS.nl
    +:+ JS.nl
    +:+ "Action Items Found: "
    +:+ (match allActionItems with
         | [] => "None"
         | _ => JS.join "; " allActionItems
         end) +:+ JS.nl
    +:+ JS.nl
    +:+ "Write a professional summary highlighting key themes, important meetings, and action items." in
  chatCompletion
    [ {| chat_role := chat_system;
         chat_content := "You are an executive assistant writing meeting summaries. Be concise and professional." |};
      {| chat_role := chat_user; chat_content := prompt |} ].

(** [Partial<LLMConfig>]; [None] is a member left out. *)
Record PartialLLMConfig := {
  partial_baseUrl : option string;
  partial_apiKey : option string;
  partial_model : option string;
}.

(** [configureLLM(config)]: [currentConfig = { ...currentConfig, ...config }] *)
Definition configureLLM (config : PartialLLMConfig) : M World unit :=
  modify (fun w =>
    {| currentConfig :=
         {| baseUrl := default (baseUrl (currentConfig w)) (partial_baseUrl config);
            apiKey := default (apiKey (currentConfig w)) (partial_apiKey config);
            llm_model := default (llm_model (currentConfig w)) (partial_model config) |};
       heap := heap w; events := events w; files := files w;
       consoleErrors := consoleErrors w; chats := chats w;
       graphCalls := graphCalls w |}).

(** [getLLMConfig()] *)
Definition getLLMConfig : M World LLMConfig := gets currentConfig.

(** The [for] loop of [analyzeMeetings], from the index [i] on; [results]
    is the local [Map]. The delay between two requests is not modelled. *)
Fixpoint analyzeMeetings_from (onProgress : option (nat -> nat -> M World unit))
    (total i : nat) (events : list GraphCalendarEvent)
    (results : JsMap MeetingAnalysis) : M World (JsMap MeetingAnalysis) :=
  match events with
  | [] => ret results
  | event :: rest =>
      match onProgress with
      | Some callback => callback (i + 1)%nat total
      | None => ret tt
      end ;;;
      results' <-
        try_catch
          (analysis <- analyzeMeeting event ;;
           ret (JsMap.set (id event) analysis results))
          (fun error => console_error ;;; ret results) ;;
      analyzeMeetings_from onProgress total (S i) rest results'
  end.

(** [analyzeMeetings(events, onProgress)] *)
Definition analyzeMeetings (events : list GraphCalendarEvent)
    (onProgress : option (nat -> nat -> M World unit))
    : M World (JsMap MeetingAnalysis) :=
  analyzeMeetings_from onProgress (List.length events) 0 events [].

End WithEnv.
End LLMService.

(* ===================================================================== *)
(** ** What the handlers of all three agents use *)
(* ===================================================================== *)

Section HandlerOps.
Context {X : Type}.

Definition h_set_context (c : AgentContext) (hs : HandlerState X) : HandlerState X :=
  {| h_context := c; h_fields := h_fields hs; h_world := h_world hs |}.
Definition h_set_fields (x : X) (hs : HandlerState X) : HandlerState X :=
  {| h_context := h_context hs; h_fields := x; h_world := h_world hs |}.
Definition h_set_world (w : World) (hs : HandlerState X) : HandlerState X :=
  {| h_context := h_context hs; h_fields := h_fields hs; h_world := w |}.

(** [this.emit(type, message)] from inside a handler of the agent
    [agent]. *)
Definition h_emit (agent : string) (t : AgentEventType) (msg : string)
    : M (HandlerState X) unit :=
  modify (fun hs =>
    h_set_world (log_event {| ev_type := t; ev_agent := agent;
                              ev_message := msg; ev_data := JUndefined |}
                           (h_world hs)) hs).

(** [this.context.k = v] *)
Definition h_context_set (k : string) (v : CtxValue) : M (HandlerState X) unit :=
  modify (fun hs => h_set_context (<[k := v]> (h_context hs)) hs).

(** A call of a function of a service module. *)
Definition in_world {A} (m : M World A) : M (HandlerState X) A :=
  fun hs => let '(r, w) := m (h_world hs) in (r, h_set_world w hs).

End HandlerOps.

(** [(this.context.meetings as GraphCalendarEvent[]) || []] *)
Definition context_meetings (c : AgentContext) : list GraphCalendarEvent :=
  match c !! "meetings" with
  | Some (VMeetings ms) => ms
  | _ => []
  end.

Definition mk_prop (n t d : string) : ToolProperty :=
  {| prop_name := n; prop_type := t; prop_description := d; prop_enum := None |}.

Definition count_where {A} (p : A -> bool) (xs : list A) : Json :=
  JNum (Z.of_nat (List.length (List.filter p xs))).

Definition json_nat (n : nat) : Json := JNum (Z.of_nat n).

(* ===================================================================== *)
(** ** Plain objects used as tables of counts *)
(* ===================================================================== *)

Module JsObject.

(** The names of the properties a plain object [{}] inherits from
    [Object.prototype]. *)
Definition inherited : list string :=
  [ "constructor"; "__defineGetter__"; "__defineSetter__"; "hasOwnProperty";
    "__lookupGetter__"; "__lookupSetter__"; "isPrototypeOf"; "propertyIsEnumerable";
    "toString"; "valueOf"; "__proto__"; "toLocaleString" ].

(** [String(Object.prototype[k])] for an inherited [k]: [__proto__] reads the
    prototype, an object; [constructor] is the function [Object]; the others
    are the built-in functions of their name. The text of a built-in
    function is the one of V8. *)
Definition inherited_text (k : string) : string :=
  if String.eqb k "__proto__" then "[object Object]"
  else if String.eqb k "constructor" then "function Object() { [native code] }"
  else "function " +:+ k +:+ "() { [native code] }".

(** What a property of the table holds: a number, or a text once [+] has
    concatenated. *)
Inductive Count :=
| number (n : nat)
| text (t : string).

(** [(c || 0) + 1] for an own property [c]. *)
Definition next (c : Count) : Count :=
  match c with
  | number n => number (S n)
  | text t => if String.eqb t "" then number 1 else text (t +:+ "1")
  end.

(** [table[k] = (table[k] || 0) + 1] on the own properties of a plain
    object, in insertion order. An own property is replaced by its
    successor. A name that is not own and not inherited reads [undefined]
    and gets 1. A name that is not own but inherited reads a function or an
    object, which is truthy, so [+] concatenates its text with [1]; the
    assignment then makes an own property of that text, except for
    [__proto__], whose setter ignores a value that is no object. *)
Fixpoint bump (k : string) (own : list (string * Count)) : list (string * Count) :=
  match own with
  | [] =>
      if existsb (String.eqb k) inherited
      then if String.eqb k "__proto__" then []
           else [(k, text (inherited_text k +:+ "1"))]
      else [(k, number 1)]
  | (k', c) :: r => if String.eqb k' k then (k', next c) :: r else (k', c) :: bump k r
  end.

Definition count_by {A} (key : A -> string) (xs : list A) : list (string * Count) :=
  fold_left (fun own a => bump (key a) own) xs [].

(** An array index: the decimal text, without a leading zero, of a whole
    number below [2^32 - 1]. *)
Fixpoint decimal (s : string) (acc : N) : option N :=
  match s with
  | EmptyString => Some acc
  | String c r =>
      let d := N_of_ascii c in
      if ((48 <=? d) && (d <=? 57))%N then decimal r (10 * acc + (d - 48))%N else None
  end.

Definition array_index (k : string) : option N :=
  match k with
  | EmptyString => None
  | String c r =>
      if Ascii.eqb c "0" && negb (String.eqb r "") then None
      else match decimal k 0%N with
           | Some n => if (n <? 4294967295)%N then Some n else None
           | None => None
           end
  end.

Fixpoint insert_index {V} (i : N) (kv : string * V) (l : list (N * (string * V)))
    : list (N * (string * V)) :=
  match l with
  | [] => [(i, kv)]
  | (j, kv') :: r =>
      if (i <? j)%N then (i, kv) :: (j, kv') :: r else (j, kv') :: insert_index i kv r
  end.

(** The order in which the own properties of an object are listed, as by
    [JSON.stringify]: the array indices first, in ascending order, then the
    other names in the order of their creation. *)
Definition own_order {V} (own : list (string * V)) : list (string * V) :=
  List.map snd
    (fold_right (fun kv sorted => match array_index (fst kv) with
                                  | Some i => insert_index i kv sorted
                                  | None => sorted
                                  end) [] own)
  ++ List.filter (fun kv => match array_index (fst kv) with
                            | Some _ => false
                            | None => true
                            end) own.

Definition counts_json (table : list (string * Count)) : Json :=
  JObj (List.map (fun kc => (fst kc,
                             match snd kc with
                             | number n => JNum (Z.of_nat n)
                             | text t => JStr t
                             end))
                 (own_order table)).

End JsObject.

(* ===================================================================== *)
(** ** [agents/CalendarAgent.ts] *)
(* ===================================================================== *)

(** What the agent uses of [IPublicClientApplication]: the user names of
    [getAllAccounts()]. *)
Record MsalInstance := {
  accounts : list string;
}.

Record CalendarFields := {
  msalInstance : option MsalInstance;
  meetings : list GraphCalendarEvent;
  userDomain : string;
}.

Module CalendarAgent.

Definition CALENDAR_TOOLS : list Tool :=
  [ {| tool_name := "fetch_calendar_events";
       tool_description := "Fetch calendar events from Microsoft Outlook for a given date range. Can fetch for yourself or another user if they shared their calendar.";
       tool_properties :=
         [ mk_prop "start_date" "string" "Start date in ISO format (YYYY-MM-DD)";
           mk_prop "end_date" "string" "End date in ISO format (YYYY-MM-DD)";
           mk_prop "target_user" "string" "Email of the user whose calendar to fetch (optional, requires shared calendar access)" ];
       tool_required := ["start_date"; "end_date"] |};
    {| tool_name := "filter_meetings";
       tool_description := "Filter meetings by criteria like organizer domain, attendee count, or keywords";
       tool_properties :=
         [ {| prop_name := "filter_type"; prop_type := "string";
              prop_description := "Type of filter to apply";
              prop_enum := Some ["organizer_domain"; "min_attendees"; "keyword";
                                 "external_only"; "internal_only"] |};
           mk_prop "filter_value" "string" "Value to filter by (domain name, number, or keyword)" ];
       tool_required := ["filter_type"] |};
    {| tool_name := "get_meeting_stats";
       tool_description := "Get statistics about the fetched meetings";
       tool_properties := [];
       tool_required := [] |} ].

Definition SYSTEM_PROMPT : string :=
"You are a Calendar Agent specialized in fetching and processing Microsoft Outlook calendar data.

Your capabilities:
1. Fetch calendar events for a specified date range
2. Filter meetings by various criteria
3. Provide meeting statistics

When asked to get meeting data:
1. First use fetch_calendar_events to retrieve the data
2. Apply any requested filters
3. Provide a summary of what was found

Always be helpful and provide clear information about the meetings found.".

Definition calendar_config : AgentConfig :=
  {| name := "CalendarAgent";
     description := "Fetches and processes calendar data from Microsoft Outlook";
     systemPrompt := SYSTEM_PROMPT;
     tools := CALENDAR_TOOLS;
     model := None;
     maxIterations := Some 5 |}.

Definition set_meetings (ms : list GraphCalendarEvent) (f : CalendarFields) : CalendarFields :=
  {| msalInstance := msalInstance f; meetings := ms; userDomain := userDomain f |}.

Section WithEnv.
Variable env : Env.

(** [graphService.getAccessToken] *)
Definition getAccessToken (msal : MsalInstance) : M World string :=
  fun w =>
    match accounts msal with
    | [] => (Exn (JsError "No authenticated account found. Please sign in first."), w)
    | _ :: _ => (acquire_token env (graphCalls w), w)
    end.

(** [graphService.fetchCalendarEvents] *)
Definition fetchCalendarEvents (msal : MsalInstance) (startDate endDate : JsDate)
    (targetUser : Json) : M World (list GraphCalendarEvent) :=
  _ <- getAccessToken msal ;;
  _ <- lift_res (JsDates.toISOString env startDate) ;;
  _ <- lift_res (JsDates.toISOString env endDate) ;;
  fun w =>
    match startDate, endDate with
    | Some a, Some b =>
        (graph_endpoint env (graphCalls w) a b
           (if JsValue.truthy targetUser then Some (JsValue.toString targetUser) else None),
         set_graphCalls (S (graphCalls w)) w)
    | _, _ => (Exn (JsError "Invalid time value"), w)
    end.

Definition fetch_calendar_events : Handler CalendarFields := fun agent args =>
  f <- gets h_fields ;;
  match msalInstance f with
  | None => throw (JsError "Not authenticated. Please sign in first.")
  | Some msal =>
      start_date <- JsValue.prop "start_date" args ;;
      end_date <- JsValue.prop "end_date" args ;;
      targetUser <- JsValue.prop "target_user" args ;;
      let startDate := JsDates.newDate env start_date in
      let endDate := Date_endOfDay env <$> JsDates.newDate env end_date in
      let userInfo := if JsValue.truthy targetUser
                      then "for " +:+ JsValue.toString targetUser
                      else "for yourself" in
      h_emit agent thinking
        ("Fetching calendar events " +:+ userInfo +:+ " from "
         +:+ JsDates.toDateString env startDate +:+ " to "
         +:+ JsDates.toDateString env endDate +:+ "...") ;;;
      ms <- in_world (fetchCalendarEvents msal startDate endDate targetUser) ;;
      modify (fun hs => h_set_fields (set_meetings ms (h_fields hs)) hs) ;;;
      h_context_set "meetings" (VMeetings ms) ;;;
      h_context_set "startDate" (VDate startDate) ;;;
      h_context_set "endDate" (VDate endDate) ;;;
      start_iso <- lift_res (JsDates.toISOString env startDate) ;;
      end_iso <- lift_res (JsDates.toISOString env endDate) ;;
      ret (JObj
             [ ("success", JBool true);
               ("totalMeetings", json_nat (List.length ms));
               ("dateRange", JObj [("start", JStr start_iso); ("end", JStr end_iso)]);
               ("meetings",
                JArr (List.map (fun m =>
                        JObj [ ("id", JStr (id m));
                               ("subject", JStr (subject m));
                               ("start", JStr (dateTime (start m)));
                               ("organizer", JStr (ea_name (organizer m)));
                               ("attendeeCount", json_nat (List.length (attendees m))) ])
                      ms)) ])
  end.

(** [organizerDomain !== this.userDomain], where the domain is
    [undefined] for an address without [@]. *)
Definition same_domain (m : GraphCalendarEvent) (domain : string) : bool :=
  match JS.split_second "@" (ea_address (organizer m)) with
  | Some d => String.eqb d domain
  | None => false
  end.

Definition filter_meetings : Handler CalendarFields := fun agent args =>
  filterType <- JsValue.prop "filter_type" args ;;
  filterValue <- JsValue.prop "filter_value" args ;;
  f <- gets h_fields ;;
  let all := meetings f in
  filtered <-
    (if JsValue.is_string "organizer_domain" filterType then
       match all with
       | [] => ret []
       | _ :: _ =>
           v <- JsValue.toLowerCase "filterValue" filterValue ;;
           ret (List.filter
                  (fun m => JS.includes v (JS.toLowerCase (ea_address (organizer m))))
                  all)
       end
     else if JsValue.is_string "min_attendees" filterType then
       let minCount := match parseInt env (JsValue.toString filterValue) with
                       | Some n => n
                       | None => 0
                       end in
       ret (List.filter (fun m => minCount <=? Z.of_nat (List.length (attendees m))) all)
     else if JsValue.is_string "keyword" filterType then
       keyword <- JsValue.toLowerCase "filterValue" filterValue ;;
       ret (List.filter
              (fun m => JS.includes keyword (JS.toLowerCase (subject m))
                        || JS.includes keyword (JS.toLowerCase (bodyPreview m)))
              all)
     else if JsValue.is_string "external_only" filterType then
       ret (List.filter (fun m => negb (same_domain m (userDomain f))) all)
     else if JsValue.is_string "internal_only" filterType then
       ret (List.filter (fun m => same_domain m (userDomain f)) all)
     else ret all) ;;
  modify (fun hs => h_set_fields (set_meetings filtered (h_fields hs)) hs) ;;;
  h_context_set "meetings" (VMeetings filtered) ;;;
  ret (JObj [ ("success", JBool true);
              ("filteredCount", json_nat (List.length filtered));
              ("filterApplied", JObj [("type", filterType); ("value", filterValue)]) ]).

Definition organizer_domain (m : GraphCalendarEvent) : string :=
  match JS.split_second "@" (ea_address (organizer m)) with
  | Some d => JS.or_else d "unknown"
  | None => "unknown"
  end.

Definition get_meeting_stats : Handler CalendarFields := fun agent args =>
  f <- gets h_fields ;;
  let ms := meetings f in
  ret (JObj
         [ ("totalMeetings", json_nat (List.length ms));
           ("totalHours",
            totalHours env
              (List.map (fun m => (Date_parse env (dateTime (start m)),
                                   Date_parse env (dateTime (end_ m)))) ms));
           ("byDomain", JsObject.counts_json (JsObject.count_by organizer_domain ms));
           ("cancelledCount", count_where isCancelled ms);
           ("allDayCount", count_where isAllDay ms) ]).

(** [constructor()] with [registerTools()]. *)
Definition new : BaseAgent CalendarFields :=
  registerTool "get_meeting_stats" get_meeting_stats
    (registerTool "filter_meetings" filter_meetings
       (registerTool "fetch_calendar_events" fetch_calendar_events
          (BaseAgent_new calendar_config
             {| msalInstance := None; meetings := []; userDomain := "" |}))).

End WithEnv.

(** [setMsalInstance(instance)] *)
Definition setMsalInstance (instance : MsalInstance) (a : BaseAgent CalendarFields)
    : BaseAgent CalendarFields :=
  {| config := config a; context := context a;
     conversationHistory := conversationHistory a;
     toolHandlers := toolHandlers a;
     fields :=
       {| msalInstance := Some instance;
          meetings := meetings (fields a);
          userDomain :=
            match accounts instance with
            | email :: _ =>
                match JS.split_second "@" email with
                | Some d => d
                | None => ""
                end
            | [] => userDomain (fields a)
            end |} |}.

(** [getMeetings()] *)
Definition getMeetings (a : BaseAgent CalendarFields) : list GraphCalendarEvent :=
  meetings (fields a).

End CalendarAgent.

(* ===================================================================== *)
(** ** [services/graphService.ts]: the pages of the calendar view, and the
       owners of shared calendars *)
(* ===================================================================== *)

Module GraphService.

Definition GRAPH_BASE_URL : string := "https://graph.microsoft.com/v1.0".

(** What one [fetch] of a page resolves to: a response that is not ok, with
    its status and text, or the parsed body of one that is, [data.value]
    and [data['@odata.nextLink']]. *)
Inductive GraphResponse : Type :=
| graph_not_ok (status : Z) (errorText : string)
| graph_ok (value : list GraphCalendarEvent) (nextLink : option string).

(** The first link of [fetchCalendarEvents], from the two dates as
    [toISOString] writes them. *)
Definition calendarView_url (targetUser : option string) (startDateTime endDateTime : string)
    : string :=
  let userPath := match targetUser with
                  | Some u => if String.eqb u "" then "me" else "users/" +:+ u
                  | None => "me"
                  end in
  GRAPH_BASE_URL +:+ "/" +:+ userPath +:+ "/calendar/calendarView?startDateTime="
  +:+ startDateTime +:+ "&endDateTime=" +:+ endDateTime
  +:+ "&$top=50&$orderby=start/dateTime".

Section Paging.
(** The [n]-th request of a page, for a link; [Exn] when [fetch] or the
    reading of the body rejects. *)
Variable fetch : nat -> string -> Res GraphResponse.

(** [while (nextLink) { .. }] of [fetchCalendarEvents], on the counter of
    the requests. The loop runs as long as the service hands out links:
    [fuel] bounds its turns, and [None] is a loop that has not ended within
    them. *)
Fixpoint fetch_pages (fuel : nat) (nextLink : option string)
    (allEvents : list GraphCalendarEvent) (n : nat)
    : option (Res (list GraphCalendarEvent) * nat) :=
  match nextLink with
  | None => Some (Ret allEvents, n)
  | Some url =>
      if String.eqb url "" then Some (Ret allEvents, n)
      else
        match fuel with
        | O => None
        | S fuel' =>
            match fetch n url with
            | Exn e => Some (Exn e, S n)
            | Ret (graph_not_ok status errorText) =>
                Some (Exn (JsError ("Graph API error: " +:+ JS.string_of_Z status
                                    +:+ " - " +:+ errorText)),
                      S n)
            | Ret (graph_ok value next) =>
                fetch_pages fuel' next (allEvents ++ value) (S n)
            end
        end
  end.

End Paging.

(** [SharedCalendar]; the owner's address is read with [?.]. *)
Record CalendarOwner := {
  owner_name : string;
  owner_address : option string;
}.

Record SharedCalendar := {
  cal_id : string;
  cal_name : string;
  cal_owner : option CalendarOwner;
  cal_isDefaultCalendar : bool;
}.

(** An entry of the result of [getSharedCalendarOwners]. *)
Record SharedOwner := {
  so_name : string;
  so_email : string;
}.

(** [a?.toLowerCase() !== b] on strings that may be [undefined]. *)
Definition differs (a b : option string) : bool :=
  match a, b with
  | Some x, Some y => negb (String.eqb x y)
  | None, None => false
  | _, _ => true
  end.

(** [getSharedCalendarOwners], from the calendars [getAvailableCalendars]
    resolved to and the [mail] of the profile [getUserProfile] resolved
    to. *)
Definition sharedCalendarOwners (calendars : list SharedCalendar) (mail : option string)
    : list SharedOwner :=
  let currentUserEmail := JS.toLowerCase <$> mail in
  let sharedOwners :=
    List.filter (fun owner => negb (String.eqb (so_email owner) ""))
      (List.map (fun cal =>
                   {| so_name := match cal_owner cal with
                                 | Some o => JS.or_else (owner_name o) (cal_name cal)
                                 | None => cal_name cal
                                 end;
                      so_email := match cal_owner cal with
                                  | Some o => default "" (owner_address o)
                                  | None => ""
                                  end |})
         (List.filter (fun cal =>
                         match cal_owner cal with
                         | Some o => differs (JS.toLowerCase <$> owner_address o)
                                             currentUserEmail
                         | None => false
                         end)
            calendars)) in
  JsMap.values
    (fold_left (fun m o => JsMap.set (JS.toLowerCase (so_email o)) o m) sharedOwners []).

End GraphService.

(* ===================================================================== *)
(** ** The store of [Map] objects *)
(* ===================================================================== *)

Module Heap.
(** The entries of the [Map] at [r]. *)
Definition read (r : MapRef) (w : World) : JsMap MeetingAnalysis :=
  default [] (heap w !! r).

Definition write (r : MapRef) (m : JsMap MeetingAnalysis) (w : World) : World :=
  set_heap (<[r := m]> (heap w)) w.

(** [new Map()] *)
Definition alloc (w : World) : MapRef * World :=
  (List.length (heap w), set_heap (heap w ++ [[]]) w).
End Heap.

Definition analysis_json (a : MeetingAnalysis) : Json :=
  JObj [ ("summary", JStr (summary a));
         ("category", JStr (category a));
         ("actionItems", JArr (List.map JStr (actionItems a)));
         ("keyTopics", JArr (List.map JStr (keyTopics a))) ].

(* ===================================================================== *)
(** ** [agents/AnalysisAgent.ts] *)
(* ===================================================================== *)

Record AnalysisFields := {
  analysisResults : MapRef;
  executiveSummary : string;
}.

(** The two functions the agent imports from [llmService]. The agent is
    written against them; they are taken as a parameter so that a run with
    another implementation of the analysis capability can be stated. *)
Record AnalysisCapability := {
  cap_analyzeMeeting : GraphCalendarEvent -> M World MeetingAnalysis;
  cap_generateExecutiveSummary :
    list GraphCalendarEvent -> JsMap MeetingAnalysis -> M World string;
}.

(** The implementation the repository links: [llmService]. *)
Definition llmService (env : Env) : AnalysisCapability :=
  {| cap_analyzeMeeting := LLMService.analyzeMeeting env;
     cap_generateExecutiveSummary := LLMService.generateExecutiveSummary env |}.

Module AnalysisAgent.

Definition ANALYSIS_TOOLS : list Tool :=
  [ {| tool_name := "analyze_single_meeting";
       tool_description := "Analyze a single meeting to extract summary, category, action items, and key topics";
       tool_properties := [ mk_prop "meeting_id" "string" "The ID of the meeting to analyze" ];
       tool_required := ["meeting_id"] |};
    {| tool_name := "analyze_all_meetings";
       tool_description := "Analyze all meetings in the current context";
       tool_properties := [ mk_prop "batch_size" "string" "Number of meetings to analyze at once (default: 10)" ];
       tool_required := [] |};
    {| tool_name := "generate_executive_summary";
       tool_description := "Generate an executive summary of all analyzed meetings";
       tool_properties := [];
       tool_required := [] |};
    {| tool_name := "get_action_items";
       tool_description := "Get all action items extracted from analyzed meetings";
       tool_properties := [];
       tool_required := [] |};
    {| tool_name := "get_meetings_by_category";
       tool_description := "Get meetings grouped by their category";
       tool_properties :=
         [ {| prop_name := "category"; prop_type := "string";
              prop_description := "Filter by specific category (optional)";
              prop_enum := Some LLMService.validCategories |} ];
       tool_required := [] |} ].

Definition SYSTEM_PROMPT : string :=
"You are an Analysis Agent specialized in analyzing meeting data using AI.

Your capabilities:
1. Analyze individual meetings to extract summaries, categories, and action items
2. Batch analyze multiple meetings
3. Generate executive summaries
4. Categorize meetings and extract insights

When asked to analyze meetings:
1. Use analyze_all_meetings for batch processing
2. Use generate_executive_summary for an overview
3. Provide insights about meeting patterns and action items

Always provide clear, actionable insights from the meeting data.".

Definition analysis_config : AgentConfig :=
  {| name := "AnalysisAgent";
     description := "Analyzes meeting data with LLM to extract insights";
     systemPrompt := SYSTEM_PROMPT;
     tools := ANALYSIS_TOOLS;
     model := None;
     maxIterations := Some 10 |}.

Section WithCapability.
Variable cap : AnalysisCapability.

(** [this.analysisResults.set(k, v)] *)
Definition results_set (k : string) (v : MeetingAnalysis) : M (HandlerState AnalysisFields) unit :=
  modify (fun hs =>
    let r := analysisResults (h_fields hs) in
    h_set_world (Heap.write r (JsMap.set k v (Heap.read r (h_world hs))) (h_world hs)) hs).

(** The entries of [this.analysisResults]. *)
Definition results : M (HandlerState AnalysisFields) (JsMap MeetingAnalysis) :=
  gets (fun hs => Heap.read (analysisResults (h_fields hs)) (h_world hs)).

Definition analyze_single_meeting : Handler AnalysisFields := fun agent args =>
  meetingId <- JsValue.prop "meeting_id" args ;;
  ms <- gets (fun hs => context_meetings (h_context hs)) ;;
  match List.find (fun m => JsValue.is_string (id m) meetingId) ms with
  | None =>
      throw (JsError ("Meeting with ID " +:+ JsValue.toString meetingId +:+ " not found"))
  | Some meeting =>
      h_emit agent thinking ("Analyzing meeting: " +:+ subject meeting +:+ "...") ;;;
      analysis <- in_world (cap_analyzeMeeting cap meeting) ;;
      results_set (id meeting) analysis ;;;
      ret (JObj [ ("success", JBool true);
                  ("meetingId", meetingId);
                  ("subject", JStr (subject meeting));
                  ("analysis", analysis_json analysis) ])
  end.

(** The [for (const meeting of meetings)] loop of [analyze_all_meetings];
    the value is the counter [analyzed]. The delay between two requests
    is not modelled. *)
Fixpoint analyze_loop (agent : string) (total : nat) (ms : list GraphCalendarEvent)
    (analyzed : nat) : M (HandlerState AnalysisFields) nat :=
  match ms with
  | [] => ret analyzed
  | meeting :: rest =>
      if isCancelled meeting then analyze_loop agent total rest analyzed
      else
        analyzed' <-
          try_catch
            (h_emit agent thinking
               ("Analyzing (" +:+ JS.string_of_nat (analyzed + 1) +:+ "/"
                +:+ JS.string_of_nat total +:+ "): " +:+ subject meeting) ;;;
             analysis <- in_world (cap_analyzeMeeting cap meeting) ;;
             results_set (id meeting) analysis ;;;
             ret (S analyzed))
            (fun error =>
               in_world LLMService.console_error ;;;
               ret analyzed) ;;
        analyze_loop agent total rest analyzed'
  end.

(** [analyze_all_meetings]. The totals of its result read
    [actionItems.length] of every analysis of the [Map], after the [Map] and
    the context are written. *)
Definition analyze_all_meetings : Handler AnalysisFields := fun agent _args =>
  ms <- gets (fun hs => context_meetings (h_context hs)) ;;
  match ms with
  | [] =>
      ret (JObj [ ("success", JBool false);
                  ("error", JStr "No meetings found in context. Fetch calendar data first.") ])
  | _ :: _ =>
      h_emit agent thinking
        ("Analyzing " +:+ JS.string_of_nat (List.length ms) +:+ " meetings...") ;;;
      analyzed <- analyze_loop agent (List.length ms) ms 0%nat ;;
      r <- gets (fun hs => analysisResults (h_fields hs)) ;;
      h_context_set "analysisResults" (VAnalysisResults r) ;;;
      all <- results ;;
      ret (JObj
             [ ("success", JBool true);
               ("totalAnalyzed", json_nat analyzed);
               ("categories",
                LLMService.counts_json (LLMService.count_by category (JsMap.values all)));
               ("totalActionItems",
                json_nat (fold_left (fun sum a => (sum + List.length (actionItems a))%nat)
                                    (JsMap.values all) 0%nat)) ])
  end.

Definition generate_executive_summary : Handler AnalysisFields := fun agent _args =>
  ms <- gets (fun hs => context_meetings (h_context hs)) ;;
  all <- results ;;
  match all with
  | [] =>
      ret (JObj [ ("success", JBool false);
                  ("error", JStr "No analysis results available. Run analyze_all_meetings first.") ])
  | _ :: _ =>
      h_emit agent thinking "Generating executive summary..." ;;;
      text <- in_world (cap_generateExecutiveSummary cap ms all) ;;
      modify (fun hs =>
        h_set_fields {| analysisResults := analysisResults (h_fields hs);
                        executiveSummary := text |} hs) ;;;
      ret (JObj [ ("success", JBool true); ("summary", JStr text) ])
  end.

Definition get_action_items : Handler AnalysisFields := fun agent _args =>
  ms <- gets (fun hs => context_meetings (h_context hs)) ;;
  all <- results ;;
  let withItems :=
    List.filter (fun kv => (0 <? List.length (actionItems (snd kv)))%nat) all in
  ret (JObj
         [ ("success", JBool true);
           ("totalActionItems",
            json_nat (fold_left (fun sum kv => (sum + List.length (actionItems (snd kv)))%nat)
                                withItems 0%nat));
           ("byMeeting",
            JArr (List.map (fun kv =>
                    JObj [ ("meeting",
                            JStr (match List.find (fun m => String.eqb (id m) (fst kv)) ms with
                                  | Some m => JS.or_else (subject m) "Unknown"
                                  | None => "Unknown"
                                  end));
                           ("items", JArr (List.map JStr (actionItems (snd kv)))) ])
                  withItems)) ]).

(** [byCategory[c].push(entry)], a new key going last. *)
Fixpoint group_push (c : string) (entry : Json) (acc : list (string * list Json))
    : list (string * list Json) :=
  match acc with
  | [] => [(c, [entry])]
  | (c', es) :: r =>
      if String.eqb c' c then (c', (es ++ [entry])%list) :: r
      else (c', es) :: group_push c entry r
  end.

Definition get_meetings_by_category : Handler AnalysisFields := fun agent args =>
  filterCategory <- JsValue.prop "category" args ;;
  ms <- gets (fun hs => context_meetings (h_context hs)) ;;
  all <- results ;;
  let byCategory :=
    fold_left
      (fun acc kv =>
         match List.find (fun m => String.eqb (id m) (fst kv)) ms with
         | None => acc
         | Some meeting =>
             if JsValue.truthy filterCategory
                && negb (JsValue.is_string (category (snd kv)) filterCategory)
             then acc
             else group_push (category (snd kv))
                    (JObj [ ("subject", JStr (subject meeting));
                            ("date", JStr (dateTime (start meeting))) ])
                    acc
         end)
      all [] in
  ret (JObj
         [ ("success", JBool true);
           ("filter", if JsValue.truthy filterCategory then filterCategory else JStr "all");
           ("byCategory",
            JObj (List.map (fun ce => (fst ce, JArr (snd ce))) byCategory)) ]).

(** [constructor()]: the field initialiser [new Map()], then
    [registerTools()]. *)
Definition new (w : World) : BaseAgent AnalysisFields * World :=
  let '(r, w') := Heap.alloc w in
  (registerTool "get_meetings_by_category" get_meetings_by_category
     (registerTool "get_action_items" get_action_items
        (registerTool "generate_executive_summary" generate_executive_summary
           (registerTool "analyze_all_meetings" analyze_all_meetings
              (registerTool "analyze_single_meeting" analyze_single_meeting
                 (BaseAgent_new analysis_config
                    {| analysisResults := r; executiveSummary := "" |}))))),
   w').

End WithCapability.

(** [getAnalysisResults()]: the reference to the [Map]. *)
Definition getAnalysisResults (a : BaseAgent AnalysisFields) : MapRef :=
  analysisResults (fields a).

(** [getExecutiveSummary()] *)
Definition getExecutiveSummary (a : BaseAgent AnalysisFields) : string :=
  executiveSummary (fields a).

(** [reset()]: [super.reset()], [this.analysisResults.clear()] and
    [this.executiveSummary = '']. *)
Definition reset (s : AgentState AnalysisFields) : AgentState AnalysisFields :=
  let a := reset (self s) in
  {| self := {| config := config a; context := context a;
               conversationHistory := conversationHistory a;
               toolHandlers := toolHandlers a;
               fields := {| analysisResults := analysisResults (fields a);
                            executiveSummary := "" |} |};
     world := Heap.write (analysisResults (fields a)) [] (world s);
     queries := queries s |}.

End AnalysisAgent.

(* ===================================================================== *)
(** ** [agents/ReportAgent.ts] *)
(* ===================================================================== *)

(** [EnhancedReportRow] *)
Record EnhancedReportRow := {
  base : MeetingReportRow;
  aiSummary : option string;
  row_category : option string;
  row_actionItems : option string;
  row_keyTopics : option string;
}.

Record ReportFields := {
  reportData : list EnhancedReportRow;
}.

Module ReportAgent.

Definition REPORT_TOOLS : list Tool :=
  [ {| tool_name := "generate_excel_report";
       tool_description := "Generate an Excel report from the meeting data and analysis";
       tool_properties :=
         [ mk_prop "include_analysis" "string" "Whether to include LLM analysis columns (true/false)";
           mk_prop "include_executive_summary" "string" "Whether to include executive summary sheet (true/false)" ];
       tool_required := [] |};
    {| tool_name := "preview_report";
       tool_description := "Get a preview of what the report will contain";
       tool_properties := [ mk_prop "rows" "string" "Number of preview rows to return (default: 5)" ];
       tool_required := [] |};
    {| tool_name := "get_report_summary";
       tool_description := "Get a summary of the report contents";
       tool_properties := [];
       tool_required := [] |} ].

Definition SYSTEM_PROMPT : string :=
"You are a Report Agent specialized in generating Excel reports from meeting data.

Your capabilities:
1. Generate Excel reports with meeting details
2. Include LLM analysis (summaries, categories, action items)
3. Provide report previews
4. Add executive summaries

When generating reports:
1. First check if meeting data is available in context
2. Check if analysis results are available (optional)
3. Generate the report with appropriate columns
4. Provide a summary of what was included

Always confirm successful report generation with the user.".

Definition report_config : AgentConfig :=
  {| name := "ReportAgent";
     description := "Generates Excel reports from meeting data";
     systemPrompt := SYSTEM_PROMPT;
     tools := REPORT_TOOLS;
     model := None;
     maxIterations := Some 5 |}.

(** [getAnalysisResults()]:
    [this.context.analysisResults || new Map()], as its entries. *)
Definition getAnalysisResults (c : AgentContext) (w : World) : JsMap MeetingAnalysis :=
  match c !! "analysisResults" with
  | Some (VAnalysisResults r) => Heap.read r w
  | _ => []
  end.

(** [getExecutiveSummary()] *)
Definition getExecutiveSummary (c : AgentContext) : string :=
  match c !! "executiveSummary" with
  | Some (VString s) => s
  | _ => ""
  end.

(** [this.context.startDate as Date], [None] for [undefined]. *)
Definition context_date (k : string) (c : AgentContext) : option JsDate :=
  match c !! k with
  | Some (VDate d) => Some d
  | _ => None
  end.

Definition base_headers : list string :=
  [ "Meeting Name"; "Date"; "Start Time"; "End Time"; "Organizer Name";
    "Organizer Email"; "Organizer Company"; "Attendees"; "Attendee Emails";
    "Attendee Companies"; "Agenda" ].

Definition analysis_headers : list string :=
  [ "AI Summary"; "Category"; "Action Items"; "Key Topics" ].

Definition base_cells (row : MeetingReportRow) : list string :=
  [ meetingName row; date row; startTime row; endTime row; organizerName row;
    organizerEmail row; organizerCompany row; row_attendees row;
    attendeeEmails row; attendeeCompanies row; agenda row ].

Definition row_json (row : MeetingReportRow) : Json :=
  JObj [ ("meetingName", JStr (meetingName row)); ("date", JStr (date row));
         ("startTime", JStr (startTime row)); ("endTime", JStr (endTime row));
         ("organizerName", JStr (organizerName row));
         ("organizerEmail", JStr (organizerEmail row));
         ("organizerCompany", JStr (organizerCompany row));
         ("attendees", JStr (row_attendees row));
         ("attendeeEmails", JStr (attendeeEmails row));
         ("attendeeCompanies", JStr (attendeeCompanies row));
         ("agenda", JStr (agenda row)) ].

(** [meetings.slice(0, n)] *)
Definition slice0 {A} (n : Z) (xs : list A) : list A :=
  if 0 <=? n then take (Z.to_nat n) xs
  else take (List.length xs - Z.to_nat (- n)) xs.

Section WithEnv.
Variable env : Env.

(** The callback of [baseRows.map((row, index) => ..)]. *)
Definition enhance (ms : list GraphCalendarEvent) (analysisResults : JsMap MeetingAnalysis)
    (includeAnalysis : bool) (index : nat) (row : MeetingReportRow) : EnhancedReportRow :=
  let meeting := List.filter (fun m => negb (isCancelled m)) ms !! index in
  let analysis := meeting ≫= (fun m => JsMap.get (id m) analysisResults) in
  match analysis with
  | Some a =>
      if includeAnalysis then
        {| base := row;
           aiSummary := Some (summary a);
           row_category := Some (category a);
           row_actionItems := Some (JS.join "; " (actionItems a));
           row_keyTopics := Some (JS.join ", " (keyTopics a)) |}
      else {| base := row; aiSummary := None; row_category := None;
              row_actionItems := None; row_keyTopics := None |}
  | None => {| base := row; aiSummary := None; row_category := None;
               row_actionItems := None; row_keyTopics := None |}
  end.

(** One line of [worksheetData] below the header. *)
Definition sheet_row (with_analysis : bool) (row : EnhancedReportRow) : list string :=
  if with_analysis
  then base_cells (base row)
       ++ [ default "" (aiSummary row); default "" (row_category row);
            default "" (row_actionItems row); default "" (row_keyTopics row) ]
  else base_cells (base row).

Definition date_string (d : option JsDate) : string :=
  match d with
  | Some d => JsDates.toDateString env d
  | None => "undefined"
  end.

Definition generate_excel_report : Handler ReportFields := fun agent args =>
  ms <- gets (fun hs => context_meetings (h_context hs)) ;;
  analysisResults <- gets (fun hs => getAnalysisResults (h_context hs) (h_world hs)) ;;
  include_analysis <- JsValue.prop "include_analysis" args ;;
  include_executive_summary <- JsValue.prop "include_executive_summary" args ;;
  let includeAnalysis := negb (JsValue.is_string "false" include_analysis) in
  let includeExecSummary := negb (JsValue.is_string "false" include_executive_summary) in
  match ms with
  | [] =>
      ret (JObj [ ("success", JBool false);
                  ("error", JStr "No meetings found. Please fetch calendar data first.") ])
  | _ :: _ =>
      h_emit agent thinking "Generating Excel report..." ;;;
      baseRows <- lift_res (transformEventsToReportRows env ms) ;;
      let rows := imap (enhance ms analysisResults includeAnalysis) baseRows in
      modify (h_set_fields {| reportData := rows |}) ;;;
      startDate <- gets (fun hs => context_date "startDate" (h_context hs)) ;;
      endDate <- gets (fun hs => context_date "endDate" (h_context hs)) ;;
      now <- gets (fun hs => Date_now env (h_world hs)) ;;
      filename <- lift_res (generateFilename env (default (Some now) startDate)
                                                 (default (Some now) endDate)) ;;
      let with_analysis :=
        includeAnalysis && (0 <? JsMap.size analysisResults)%nat in
      let headers :=
        if with_analysis then (base_headers ++ analysis_headers)%list else base_headers in
      let worksheetData := headers :: List.map (sheet_row with_analysis) rows in
      execSummary <- gets (fun hs => getExecutiveSummary (h_context hs)) ;;
      let with_summary := includeExecSummary && negb (String.eqb execSummary "") in
      let summarySheet :=
        [ ["Executive Summary"];
          [""];
          ["Date Range: " +:+ date_string startDate +:+ " - " +:+ date_string endDate];
          ["Total Meetings: "
           +:+ JS.string_of_nat
                 (List.length (List.filter (fun m => negb (isCancelled m)) ms))];
          [""];
          [execSummary] ] in
      let mainCols := List.map (fun h => Z.max (Z.of_nat (JS.length h)) 20) headers in
      let workbook :=
        {| wb_filename := filename;
           wb_sheets :=
             if with_summary
             then [("Meetings", worksheetData); ("Summary", summarySheet)]
             else [("Meetings", worksheetData)];
           wb_cols := if with_summary then [mainCols; [100]] else [mainCols] |} in
      modify (fun hs => h_set_world (set_files (files (h_world hs) ++ [workbook])
                                               (h_world hs)) hs) ;;;
      ret (JObj [ ("success", JBool true);
                  ("filename", JStr filename);
                  ("rowCount", json_nat (List.length rows));
                  ("columnsIncluded", json_nat (List.length headers));
                  ("sheetsIncluded", JNum (if with_summary then 2 else 1)) ])
  end.

Definition preview_report : Handler ReportFields := fun agent args =>
  ms <- gets (fun hs => context_meetings (h_context hs)) ;;
  rows <- JsValue.prop "rows" args ;;
  let rowCount := match parseInt env (JsValue.toString rows) with
                  | Some n => if n =? 0 then 5 else n
                  | None => 5
                  end in
  match ms with
  | [] => ret (JObj [ ("success", JBool false); ("error", JStr "No meetings found") ])
  | _ :: _ =>
      baseRows <- lift_res (transformEventsToReportRows env (slice0 rowCount ms)) ;;
      ret (JObj [ ("success", JBool true);
                  ("previewRows", JArr (List.map row_json baseRows));
                  ("totalAvailable", json_nat (List.length ms)) ])
  end.

Definition get_report_summary : Handler ReportFields := fun agent _args =>
  ms <- gets (fun hs => context_meetings (h_context hs)) ;;
  analysisResults <- gets (fun hs => getAnalysisResults (h_context hs) (h_world hs)) ;;
  execSummary <- gets (fun hs => getExecutiveSummary (h_context hs)) ;;
  let companies :=
    JS.unique
      (List.filter (fun c => negb (String.eqb c ""))
         (List.concat
            (List.map (fun m =>
                 extractCompanyFromEmail (ea_address (organizer m))
                 :: List.map (fun a => extractCompanyFromEmail (ea_address (att_emailAddress a)))
                             (attendees m))
               ms))) in
  let categories := LLMService.count_by category (JsMap.values analysisResults) in
  ret (JObj
         [ ("success", JBool true);
           ("summary",
            JObj [ ("totalMeetings", count_where (fun m => negb (isCancelled m)) ms);
                   ("cancelledMeetings", count_where isCancelled ms);
                   ("uniqueCompanies", json_nat (List.length companies));
                   ("analyzedMeetings", json_nat (JsMap.size analysisResults));
                   ("categories",
                    match categories with
                    | [] => JStr "Not analyzed"
                    | _ => LLMService.counts_json categories
                    end);
                   ("hasExecutiveSummary", JBool (negb (String.eqb execSummary ""))) ]) ]).

(** [constructor()] with [registerTools()]. *)
Definition new : BaseAgent ReportFields :=
  registerTool "get_report_summary" get_report_summary
    (registerTool "preview_report" preview_report
       (registerTool "generate_excel_report" generate_excel_report
          (BaseAgent_new report_config {| reportData := [] |}))).

End WithEnv.

End ReportAgent.

(* ===================================================================== *)
(** ** [agents/AgentOrchestrator.ts] *)
(* ===================================================================== *)

Record AgentOrchestrator := {
  calendarAgent : BaseAgent CalendarFields;
  analysisAgent : BaseAgent AnalysisFields;
  reportAgent : BaseAgent ReportFields;
  orch_msalInstance : MsalInstance;
  sharedContext : AgentContext;
}.

(** [ReportGenerationOptions]; [None] is a member left out. *)
Record ReportGenerationOptions := {
  opt_startDate : JsDate;
  opt_endDate : JsDate;
  opt_targetUser : option string;
  opt_includeAnalysis : option bool;
  opt_includeExecutiveSummary : option bool;
}.

(** What [generateReport] resolves to. *)
Record ReportResult := {
  rr_success : bool;
  rr_message : string;
  rr_filename : option string;
  rr_downloadUrl : option string;
  rr_error : option string;
}.

(** The orchestrator together with the world it runs in. *)
Record OrchState := {
  orch : AgentOrchestrator;
  o_world : World;
  o_queries : nat;
}.

Module Orchestrator.

Definition set_calendarAgent (a : BaseAgent CalendarFields) (o : AgentOrchestrator) :=
  {| calendarAgent := a; analysisAgent := analysisAgent o; reportAgent := reportAgent o;
     orch_msalInstance := orch_msalInstance o; sharedContext := sharedContext o |}.
Definition set_analysisAgent (a : BaseAgent AnalysisFields) (o : AgentOrchestrator) :=
  {| calendarAgent := calendarAgent o; analysisAgent := a; reportAgent := reportAgent o;
     orch_msalInstance := orch_msalInstance o; sharedContext := sharedContext o |}.
Definition set_reportAgent (a : BaseAgent ReportFields) (o : AgentOrchestrator) :=
  {| calendarAgent := calendarAgent o; analysisAgent := analysisAgent o; reportAgent := a;
     orch_msalInstance := orch_msalInstance o; sharedContext := sharedContext o |}.
Definition set_sharedContext (c : AgentContext) (o : AgentOrchestrator) :=
  {| calendarAgent := calendarAgent o; analysisAgent := analysisAgent o;
     reportAgent := reportAgent o;
     orch_msalInstance := orch_msalInstance o; sharedContext := c |}.

Definition with_orch (f : AgentOrchestrator -> AgentOrchestrator) (s : OrchState) : OrchState :=
  {| orch := f (orch s); o_world := o_world s; o_queries := o_queries s |}.

(** A method of [this.calendarAgent] called by the orchestrator. *)
Definition on_calendar {A} (m : M (AgentState CalendarFields) A) : M OrchState A :=
  fun s =>
    let '(r, s') := m {| self := calendarAgent (orch s); world := o_world s;
                         queries := o_queries s |} in
    (r, {| orch := set_calendarAgent (self s') (orch s); o_world := world s';
           o_queries := queries s' |}).

(** A method of [this.analysisAgent]. *)
Definition on_analysis {A} (m : M (AgentState AnalysisFields) A) : M OrchState A :=
  fun s =>
    let '(r, s') := m {| self := analysisAgent (orch s); world := o_world s;
                         queries := o_queries s |} in
    (r, {| orch := set_analysisAgent (self s') (orch s); o_world := world s';
           o_queries := queries s' |}).

(** A method of [this.reportAgent]. *)
Definition on_report {A} (m : M (AgentState ReportFields) A) : M OrchState A :=
  fun s =>
    let '(r, s') := m {| self := reportAgent (orch s); world := o_world s;
                         queries := o_queries s |} in
    (r, {| orch := set_reportAgent (self s') (orch s); o_world := world s';
           o_queries := queries s' |}).

(** [emit(type, message)] of the orchestrator. *)
Definition emit (t : AgentEventType) (msg : string) : M OrchState unit :=
  modify (fun s =>
    {| orch := orch s;
       o_world := log_event {| ev_type := t; ev_agent := "Orchestrator";
                               ev_message := msg; ev_data := JUndefined |}
                            (o_world s);
       o_queries := o_queries s |}).

(** [x || d] for an optional string. *)
Definition or_default (x : option string) (d : string) : string :=
  match x with
  | Some s => JS.or_else s d
  | None => d
  end.

(** [targetUser ? .. : ..] *)
Definition given (targetUser : option string) : option string :=
  match targetUser with
  | Some u => if String.eqb u "" then None else Some u
  | None => None
  end.

(** [reportData?.downloadFilename] and [reportData?.downloadUrl]. *)
Definition data_string (k : string) (d : option AgentContext) : option string :=
  match d with
  | Some c => match c !! k with
              | Some (VString s) => Some s
              | _ => None
              end
  | None => None
  end.

Section WithEnv.
Variable env : Env.
Variable cap : AnalysisCapability.

(** [constructor(options)] *)
Definition new (msal : MsalInstance) (w : World) : OrchState :=
  let '(analysis, w') := AnalysisAgent.new cap w in
  {| orch := {| calendarAgent :=
                  CalendarAgent.setMsalInstance msal (CalendarAgent.new env);
                analysisAgent := analysis;
                reportAgent := ReportAgent.new env;
                orch_msalInstance := msal;
                sharedContext := ∅ |};
     o_world := w';
     o_queries := 0 |}.

(** The instruction of the first stage; the dates are formatted with
    [toISOString], which throws on an invalid date. *)
Definition acquisition_instruction (options : ReportGenerationOptions) : Res string :=
  match JsDates.isoDay env (opt_startDate options) with
  | Exn e => Exn e
  | Ret a =>
      match JsDates.isoDay env (opt_endDate options) with
      | Exn e => Exn e
      | Ret b =>
          Ret ("Fetch all calendar events from " +:+ a +:+ " to " +:+ b
               +:+ match given (opt_targetUser options) with
                   | Some u => " for user " +:+ u
                   | None => ""
                   end)
      end
  end.

Definition analysis_instruction : string :=
  "Analyze all meetings in the context to extract summaries, categories, and action items".

Definition summary_instruction : string :=
  "Generate an executive summary of all analyzed meetings".

Definition report_instruction (includeAnalysis includeExecutiveSummary : bool) : string :=
  "Generate an Excel report with include_analysis="
  +:+ JS.string_of_bool includeAnalysis
  +:+ " and include_executive_summary="
  +:+ JS.string_of_bool includeExecutiveSummary.

Definition no_meetings_result : ReportResult :=
  {| rr_success := false;
     rr_message := "No meetings found in the specified date range";
     rr_filename := None; rr_downloadUrl := None; rr_error := None |}.

(** Step 2 of [generateReport]. *)
Definition analysis_stage (includeAnalysis includeExecutiveSummary : bool)
    : M OrchState unit :=
  configured <- gets (fun s => LLMService.isLLMConfigured (o_world s)) ;;
  if includeAnalysis && configured then
    emit thinking "Analyzing meetings with AI..." ;;;
    shared <- gets (fun s => sharedContext (orch s)) ;;
    on_analysis (modify (with_self (setContext shared))) ;;;
    analysisResult <- on_analysis (run env analysis_instruction) ;;
    if success analysisResult then
      modify (with_orch (fun o =>
        set_sharedContext
          (<["analysisResults" :=
               VAnalysisResults (AnalysisAgent.getAnalysisResults (analysisAgent o))]>
             (sharedContext o)) o)) ;;;
      if includeExecutiveSummary then
        emit thinking "Generating executive summary..." ;;;
        _ <- on_analysis (run env summary_instruction) ;;
        modify (with_orch (fun o =>
          set_sharedContext
            (<["executiveSummary" :=
                 VString (AnalysisAgent.getExecutiveSummary (analysisAgent o))]>
               (sharedContext o)) o))
      else ret tt
    else emit ev_error "Analysis failed, generating report without AI insights"
  else if includeAnalysis && negb configured then
    emit response "LLM not configured - skipping AI analysis"
  else ret tt.

(** Step 3 of [generateReport], from the meetings of step 1. *)
Definition report_stage (ms : list GraphCalendarEvent)
    (includeAnalysis includeExecutiveSummary : bool) : M OrchState ReportResult :=
  emit thinking "Generating Excel report..." ;;;
  shared <- gets (fun s => sharedContext (orch s)) ;;
  on_report (modify (with_self (setContext shared))) ;;;
  reportResult <-
    on_report (run env (report_instruction includeAnalysis includeExecutiveSummary)) ;;
  if negb (success reportResult)
  then throw (JsError (or_default (error reportResult) "Failed to generate report"))
  else
    emit complete "Report generated successfully!" ;;;
    ret {| rr_success := true;
           rr_message := "Report generated with "
                         +:+ JS.string_of_nat (List.length ms) +:+ " meetings";
           rr_filename := data_string "downloadFilename" (data reportResult);
           rr_downloadUrl := data_string "downloadUrl" (data reportResult);
           rr_error := None |}.

(** Step 1 of [generateReport], up to the result of the calendar agent. *)
Definition acquisition_stage (options : ReportGenerationOptions) : M OrchState AgentResponse :=
  emit thinking "Starting report generation..." ;;;
  let userInfo := match given (opt_targetUser options) with
                  | Some u => "for " +:+ u
                  | None => "for yourself"
                  end in
  emit thinking ("Date range: " +:+ JsDates.toDateString env (opt_startDate options)
                 +:+ " to " +:+ JsDates.toDateString env (opt_endDate options)
                 +:+ " " +:+ userInfo) ;;;
  instruction <- lift_res (acquisition_instruction options) ;;
  on_calendar (run env instruction).

(** What [generateReport] returns from its [catch]. *)
Definition failed_result (error : JsThrown) : ReportResult :=
  {| rr_success := false; rr_message := "Failed to generate report";
     rr_filename := None; rr_downloadUrl := None;
     rr_error := Some (errorMessage error) |}.

(** [generateReport(options)] *)
Definition generateReport (options : ReportGenerationOptions) : M OrchState ReportResult :=
  let includeAnalysis := default true (opt_includeAnalysis options) in
  let includeExecutiveSummary := default true (opt_includeExecutiveSummary options) in
  try_catch
    (calendarResult <- acquisition_stage options ;;
     if negb (success calendarResult)
     then throw (JsError (or_default (error calendarResult) "Failed to fetch calendar data"))
     else
       modify (with_orch (fun o => set_sharedContext (context (calendarAgent o)) o)) ;;;
       ms <- gets (fun s => CalendarAgent.getMeetings (calendarAgent (orch s))) ;;
       emit response ("Found " +:+ JS.string_of_nat (List.length ms) +:+ " meetings") ;;;
       match ms with
       | [] => ret no_meetings_result
       | _ :: _ =>
           analysis_stage includeAnalysis includeExecutiveSummary ;;;
           report_stage ms includeAnalysis includeExecutiveSummary
       end)
    (fun error =>
       emit ev_error (errorMessage error) ;;;
       ret (failed_result error)).

(** The three keyword tests of [runCommand], on the lower cased
    command. *)
Definition mentions_calendar (lowerCommand : string) : bool :=
  JS.includes "fetch" lowerCommand
  || JS.includes "calendar" lowerCommand
  || JS.includes "meetings" lowerCommand.

Definition mentions_analysis (lowerCommand : string) : bool :=
  JS.includes "analyz" lowerCommand
  || JS.includes "summar" lowerCommand
  || JS.includes "action item" lowerCommand
  || JS.includes "categor" lowerCommand.

Definition mentions_report (lowerCommand : string) : bool :=
  JS.includes "report" lowerCommand
  || JS.includes "excel" lowerCommand
  || JS.includes "export" lowerCommand
  || JS.includes "download" lowerCommand.

(** The branch of [runCommand] for the calendar keywords. *)
Definition calendar_command (command : string) : M OrchState AgentResponse :=
  result <- on_calendar (run env command) ;;
  modify (with_orch (fun o => set_sharedContext (context (calendarAgent o)) o)) ;;;
  ret result.

(** The branch for the analysis keywords. *)
Definition analysis_command (command : string) : M OrchState AgentResponse :=
  shared <- gets (fun s => sharedContext (orch s)) ;;
  on_analysis (modify (with_self (setContext shared))) ;;;
  result <- on_analysis (run env command) ;;
  modify (with_orch (fun o =>
    set_sharedContext
      (<["executiveSummary" :=
           VString (AnalysisAgent.getExecutiveSummary (analysisAgent o))]>
         (<["analysisResults" :=
              VAnalysisResults (AnalysisAgent.getAnalysisResults (analysisAgent o))]>
            (sharedContext o))) o)) ;;;
  ret result.

(** The branch for the report keywords. *)
Definition report_command (command : string) : M OrchState AgentResponse :=
  shared <- gets (fun s => sharedContext (orch s)) ;;
  on_report (modify (with_self (setContext shared))) ;;;
  on_report (run env command).

(** [runCommand(command)] *)
Definition runCommand (command : string) : M OrchState AgentResponse :=
  let lowerCommand := JS.toLowerCase command in
  if mentions_calendar lowerCommand then calendar_command command
  else if mentions_analysis lowerCommand then analysis_command command
  else if mentions_report lowerCommand then report_command command
  else on_calendar (run env command).

(** [reset()] *)
Definition reset (s : OrchState) : OrchState :=
  let o := orch s in
  let analysis :=
    AnalysisAgent.reset {| self := analysisAgent o; world := o_world s;
                           queries := o_queries s |} in
  {| orch := {| calendarAgent := reset (calendarAgent o);
                analysisAgent := self analysis;
                reportAgent := reset (reportAgent o);
                orch_msalInstance := orch_msalInstance o;
                sharedContext := ∅ |};
     o_world := world analysis;
     o_queries := o_queries s |}.

End WithEnv.

End Orchestrator.

(* ===================================================================== *)
(** * Specification vocabulary *)
(* ===================================================================== *)

(** The three results [run] can give. *)
Definition task_completed (text : option string) (ctx : AgentContext) : AgentResponse :=
  {| success := true;
     message := match text with
                | Some c => JS.or_else c "Task completed"
                | None => "Task completed"
                end;
     data := Some ctx; error := None |}.

Definition agent_failed (e : JsThrown) : AgentResponse :=
  {| success := false; message := "Agent failed"; data := None;
     error := Some (errorMessage e) |}.

Definition iterations_exhausted : AgentResponse :=
  {| success := false; message := "Agent reached maximum iterations";
     data := None; error := Some "Max iterations exceeded" |}.

Section ToolBatch.
Context {X : Type}.
Variable env : Env.

(** What [run_tool_call] does inside its [try]: parse the arguments and
    call the handler. *)
Definition dispatch (toolCall : ToolCall) : M (AgentState X) Json :=
  args <- lift_res (JSON_parse env (tc_arguments toolCall)) ;;
  executeTool (tc_name toolCall) args.

(** The state in which the call is dispatched: the [tool_call] event has
    been emitted. *)
Definition announced (toolCall : ToolCall) (s : AgentState X) : AgentState X :=
  with_world (log_event {| ev_type := ev_tool_call;
                           ev_agent := name (config (self s));
                           ev_message := "Calling tool: " +:+ tc_name toolCall;
                           ev_data := JObj [("name", JStr (tc_name toolCall));
                                            ("args", JStr (tc_arguments toolCall))] |}) s.

(** Whether the call of [toolCall] made in the state [s] returns or
    throws. *)
Definition call_outcome (toolCall : ToolCall) (s : AgentState X) : Res Json :=
  fst (dispatch toolCall (announced toolCall s)).

(** The outcomes of the calls of a batch processed from the state [s], in
    the order of the batch. *)
Fixpoint batch_outcomes (batch : list ToolCall) (s : AgentState X) : list (Res Json) :=
  match batch with
  | [] => []
  | toolCall :: rest =>
      call_outcome toolCall s :: batch_outcomes rest (snd (run_tool_call env toolCall s))
  end.

(** The tool message that encodes a normal result. *)
Definition normal_message (toolCall : ToolCall) (result : Json) : AgentMessage :=
  tool_message (tc_id toolCall) (JSON.stringify result).

(** The tool message that encodes an error. *)
Definition error_message (toolCall : ToolCall) (e : JsThrown) : AgentMessage :=
  tool_message (tc_id toolCall) (JSON.stringify (JObj [("error", JStr (errorMessage e))])).

Definition result_message (toolCall : ToolCall) (outcome : Res Json) : AgentMessage :=
  match outcome with
  | Ret result => normal_message toolCall result
  | Exn e => error_message toolCall e
  end.

(** The state in which the loop of [run] starts. *)
Definition started (userMessage : string) (s : AgentState X) : AgentState X :=
  with_world (log_event {| ev_type := thinking; ev_agent := name (config (self s));
                           ev_message := "Processing request..."; ev_data := JUndefined |})
             (with_self (push_message (user_message userMessage)) s).

(** How a run of the loop can end. *)
Inductive loop_end (s s' : AgentState X) : nat -> AgentResponse -> Prop :=
| end_exhausted n :
    queries s' = (queries s + n)%nat ->
    loop_end s s' n iterations_exhausted
| end_failed n e h :
    (queries s < queries s' <= queries s + n)%nat ->
    model_endpoint env (pred (queries s')) (config (self s)) h = Exn e ->
    loop_end s s' n (agent_failed e)
| end_completed n reply h :
    (queries s < queries s' <= queries s + n)%nat ->
    model_endpoint env (pred (queries s')) (config (self s)) h = Ret reply ->
    (reply_tool_calls reply = None \/ reply_tool_calls reply = Some []) ->
    loop_end s s' n (task_completed (reply_content reply) (context (self s'))).

(** The state in which the batch of a reply is processed: the request
    has been counted and the assistant message appended. *)
Definition after_reply (reply : LLMReply) (s : AgentState X) : AgentState X :=
  with_self (push_message (assistant_message reply)) (count_query s).

Definition threw {A} (r : Res A) : bool :=
  match r with
  | Exn _ => true
  | Ret _ => false
  end.

End ToolBatch.

(** The identifiers of the tool calls an assistant message carries. *)
Definition emitted_ids (m : AgentMessage) : list string :=
  match role m, tool_calls m with
  | assistant, Some calls => List.map tc_id calls
  | _, _ => []
  end.

(** Every tool message of the history answers a tool call of an assistant
    message that stands before it. *)
Definition tool_messages_answer (h : list AgentMessage) : Prop :=
  forall (i : nat) (m : AgentMessage),
    h !! i = Some m -> role m = tool ->
    exists (j : nat) (a : AgentMessage) (call_id : string),
      (j < i)%nat /\ h !! j = Some a /\ role a = assistant
      /\ tool_call_id m = Some call_id /\ In call_id (emitted_ids a).

(** The agent states that a sequence of calls of the public methods
    reaches from [a0]; a subclass may also assign its own fields. *)
Inductive reachable {X : Type} (env : Env) (a0 : BaseAgent X) : BaseAgent X -> Prop :=
| reach_new : reachable env a0 a0
| reach_run a w q userMessage :
    reachable env a0 a ->
    reachable env a0
      (self (snd (run env userMessage {| self := a; world := w; queries := q |})))
| reach_reset a :
    reachable env a0 a -> reachable env a0 (reset a)
| reach_setContext a ctx :
    reachable env a0 a -> reachable env a0 (setContext ctx a)
| reach_fields a x :
    reachable env a0 a ->
    reachable env a0 {| config := config a; context := context a;
                        conversationHistory := conversationHistory a;
                        toolHandlers := toolHandlers a; fields := x |}.

(** The model asks for at least one tool, whatever it is sent. *)
Definition always_requests_tool (env : Env) : Prop :=
  forall n cfg h, exists text toolCall rest,
    model_endpoint env n cfg h
    = Ret {| reply_content := text; reply_tool_calls := Some (toolCall :: rest) |}.

(** The analysis of [event] fails: the request to the chat endpoint throws,
    or its reply, once the code fence is removed, does not parse. *)
Definition analysis_fails (env : Env) (event : GraphCalendarEvent) (w : World) : Prop :=
  match fst (LLMService.chatCompletion env (LLMService.analysis_messages event) w) with
  | Exn _ => True
  | Ret reply =>
      exists e, JSON_parse_analysis env (LLMService.strip_code_fence reply) = Exn e
  end.

(** The events that [transformEventsToReportRows] turns into rows. *)
Definition reported (env : Env) (event : GraphCalendarEvent) : bool :=
  negb (isCancelled event) && negb (hasZeroDuration env event).

(** The invariant [P] of the context, the fields and the world of an agent
    whose handlers are [handlers]. *)
Definition holds {X : Type} (P : AgentContext -> X -> World -> Prop)
    (handlers : gmap string (Handler X)) (s : AgentState X) : Prop :=
  toolHandlers (self s) = handlers
  /\ P (context (self s)) (fields (self s)) (world s).

(** What the calendar agent keeps: it leaves the [Map] objects alone, the
    meetings it holds are those of its context once it has fetched any, the
    dates of its context are dates, and its context carries no analysis. *)
Definition calendar_invariant (h0 : list (JsMap MeetingAnalysis))
    (c : AgentContext) (x : CalendarFields) (w : World) : Prop :=
  heap w = h0
  /\ (meetings x = [] \/ c !! "meetings" = Some (VMeetings (meetings x)))
  /\ ReportAgent.context_date "startDate" c <> Some None
  /\ ReportAgent.context_date "endDate" c <> Some None
  /\ c !! "analysisResults" = None.

(** The analysis capability throws on every call; it lives outside the
    agents and leaves their [Map] objects alone. *)
Definition analysis_always_throws (cap : AnalysisCapability) : Prop :=
  forall event w, exists e w',
    cap_analyzeMeeting cap event w = (Exn e, w') /\ heap w' = heap w.

(** What the analysis agent keeps when every analysis throws: its [Map] is
    the one it was built with and stays empty, and it has no summary. *)
Definition analysis_invariant (ref : MapRef)
    (c : AgentContext) (x : AnalysisFields) (w : World) : Prop :=
  analysisResults x = ref /\ executiveSummary x = "" /\ Heap.read ref w = [].

(** The role of the last message of a history. *)
Definition last_role (h : list AgentMessage) : option Role :=
  role <$> last h.

(** The model that serves the report agent asks once for the report tool,
    with arguments that parse to an object, and answers in text once it has
    the tool's result. *)
Definition report_model_cooperates (env : Env) : Prop :=
  exists (call : ToolCall) (members : list (string * Json)) (c : option string)
         (text : string),
    tc_name call = "generate_excel_report"
    /\ JSON_parse env (tc_arguments call) = Ret (JObj members)
    /\ (forall q h, last_role h = Some user ->
          model_endpoint env q ReportAgent.report_config h
          = Ret {| reply_content := c; reply_tool_calls := Some [call] |})
    /\ (forall q h, last_role h = Some tool ->
          model_endpoint env q ReportAgent.report_config h
          = Ret {| reply_content := Some text; reply_tool_calls := None |}).

(** What the report stage needs of the shared context: the meetings, dates
    that are valid when present, and no analysis in reach. *)
Definition shared_ready (ms : list GraphCalendarEvent) (c : AgentContext) (w : World) : Prop :=
  context_meetings c = ms
  /\ ReportAgent.context_date "startDate" c <> Some None
  /\ ReportAgent.context_date "endDate" c <> Some None
  /\ ReportAgent.getAnalysisResults c w = [].

(** [agent.run(command)], called by the orchestrator in the state [s] on the
    agent [before]: the answer [r], the agent [after] and the world and the
    request count of [s'] are those the run leaves, and the run returned a
    response and recorded the command as a user message of the agent's
    conversation. *)
Definition handled_by {X : Type} (env : Env) (command : string) (before : BaseAgent X)
    (s : OrchState) (r : Res AgentResponse) (after : BaseAgent X) (s' : OrchState) : Prop :=
  let ran := run env command {| self := before; world := o_world s;
                                queries := o_queries s |} in
  r = fst ran
  /\ after = self (snd ran)
  /\ o_world s' = world (snd ran)
  /\ o_queries s' = queries (snd ran)
  /\ exists response suffix,
       r = Ret response
       /\ conversationHistory after
          = conversationHistory before ++ user_message command :: suffix.

(* ===================================================================== *)
(** * The notions of the properties of the services and the tools *)
(* ===================================================================== *)

(** A string without the character [c]. *)
Fixpoint lacks (c : ascii) (s : string) : bool :=
  match s with
  | EmptyString => true
  | String d r => negb (Ascii.eqb c d) && lacks c r
  end.

(** The keys of a [Map], in insertion order. *)
Definition keys {V} (m : JsMap V) : list string := List.map fst m.

(** What [analyzeMeetings] asks of its progress callback to go on: that it
    returns. *)
Definition callback_returns (onProgress : option (nat -> nat -> M World unit)) : Prop :=
  match onProgress with
  | None => True
  | Some callback => forall i n w, exists w', callback i n w = (Ret tt, w')
  end.

(** The link under which the first of [pages] is served, [after] when there
    is none. *)
Definition first_link (pages : list (string * list GraphCalendarEvent))
    (after : option string) : option string :=
  match pages with
  | [] => after
  | (url, _) :: _ => Some url
  end.

(** From its [n]-th request on, the service answers the link of each page
    of [pages] with that page and the link of the next one, [after]
    following the last. *)
Fixpoint serves (fetch : nat -> string -> Res GraphService.GraphResponse) (n : nat)
    (pages : list (string * list GraphCalendarEvent)) (after : option string) : Prop :=
  match pages with
  | [] => True
  | (url, value) :: rest =>
      url <> ""
      /\ fetch n url = Ret (GraphService.graph_ok value (first_link rest after))
      /\ serves fetch (S n) rest after
  end.

(** The sum of the counts of a table of counts. *)
Definition total (cs : list (string * nat)) : nat :=
  fold_right (fun kn sum => (snd kn + sum)%nat) 0%nat cs.

(** How many elements of [xs] have the key [k]. *)
Definition occurrences {A} (key : A -> string) (k : string) (xs : list A) : nat :=
  List.length (List.filter (fun x => String.eqb (key x) k) xs).

(** [n] times the digit [1]. *)
Fixpoint ones (n : nat) : string :=
  match n with
  | O => ""
  | S n' => ones n' +:+ "1"
  end.

(** What a plain object holds under the name [k] once [k] was counted [n]
    times: the number [n], or, for a name the object inherits, the text of
    what it inherits followed by [n] ones. *)
Definition held (k : string) (n : nat) : JsObject.Count :=
  if existsb (String.eqb k) JsObject.inherited
  then JsObject.text (JsObject.inherited_text k +:+ ones n)
  else JsObject.number n.

(** The [Map] of the analysis agent is an object of the store. *)
Definition results_allocated (hs : HandlerState AnalysisFields) : Prop :=
  (analysisResults (h_fields hs) < List.length (heap (h_world hs)))%nat.

(** The assistant messages of a history. *)
Definition replies (h : list AgentMessage) : nat :=
  List.length (List.filter (fun m => match role m with assistant => true | _ => false end) h).

(** How a run of the loop ends, with the messages it appended. *)
Definition accounted {X : Type} (n : nat) (s s' : AgentState X) (suffix : list AgentMessage)
    (r : AgentResponse) : Prop :=
  (r = iterations_exhausted /\ replies suffix = n
   /\ queries s' = (queries s + n)%nat)
  \/ (exists e, r = agent_failed e /\ (replies suffix < n)%nat
                /\ queries s' = (queries s + replies suffix + 1)%nat)
  \/ (exists reply, r = task_completed (reply_content reply) (context (self s'))
                    /\ (0 < replies suffix <= n)%nat
                    /\ queries s' = (queries s + replies suffix)%nat
                    /\ last suffix = Some (assistant_message reply)
                    /\ (reply_tool_calls reply = None \/ reply_tool_calls reply = Some [])).

(** The computation [m] takes every state to one related to it by [R]. *)
Definition keeps {S A} (R : S -> S -> Prop) (m : M S A) : Prop :=
  forall s, R s (snd (m s)).

(** The two contexts agree on every key that is not in [ks]. *)
Definition same_outside (ks : list string) (c c' : AgentContext) : Prop :=
  forall k, ~ In k ks -> c' !! k = c !! k.

(** A tool of the calendar agent writes the three keys of the context it
    owns, and leaves the [Map] objects, the files, the chat requests and
    the configuration of the model alone. *)
Definition calendar_frame (hs hs' : HandlerState CalendarFields) : Prop :=
  same_outside ["meetings"; "startDate"; "endDate"] (h_context hs) (h_context hs')
  /\ msalInstance (h_fields hs') = msalInstance (h_fields hs)
  /\ userDomain (h_fields hs') = userDomain (h_fields hs)
  /\ heap (h_world hs') = heap (h_world hs)
  /\ files (h_world hs') = files (h_world hs)
  /\ chats (h_world hs') = chats (h_world hs)
  /\ currentConfig (h_world hs') = currentConfig (h_world hs).

(** A tool of the analysis agent writes the key [analysisResults] of the
    context and its own [Map], and leaves the other [Map] objects, the
    files, the calendar requests and the configuration alone. *)
Definition analysis_frame (hs hs' : HandlerState AnalysisFields) : Prop :=
  same_outside ["analysisResults"] (h_context hs) (h_context hs')
  /\ analysisResults (h_fields hs') = analysisResults (h_fields hs)
  /\ List.length (heap (h_world hs')) = List.length (heap (h_world hs))
  /\ (forall r, r <> analysisResults (h_fields hs) ->
        heap (h_world hs') !! r = heap (h_world hs) !! r)
  /\ files (h_world hs') = files (h_world hs)
  /\ graphCalls (h_world hs') = graphCalls (h_world hs)
  /\ currentConfig (h_world hs') = currentConfig (h_world hs).

(** A tool of the report agent leaves the context, the [Map] objects, the
    chat and calendar requests and the configuration alone, and removes no
    file. *)
Definition report_frame (hs hs' : HandlerState ReportFields) : Prop :=
  h_context hs' = h_context hs
  /\ heap (h_world hs') = heap (h_world hs)
  /\ (exists written, files (h_world hs') = files (h_world hs) ++ written)
  /\ chats (h_world hs') = chats (h_world hs)
  /\ graphCalls (h_world hs') = graphCalls (h_world hs)
  /\ currentConfig (h_world hs') = currentConfig (h_world hs).

(** The context holds neither of the two keys [generateReport] reads the
    file name and the link from. *)
Definition names_no_download (c : AgentContext) : Prop :=
  c !! "downloadFilename" = None /\ c !! "downloadUrl" = None.

(** The calendar agent and the report agent have the tools their
    constructors registered. *)
Definition stock_tools (env : Env) (s : OrchState) : Prop :=
  toolHandlers (calendarAgent (orch s)) = toolHandlers (CalendarAgent.new env)
  /\ toolHandlers (reportAgent (orch s)) = toolHandlers (ReportAgent.new env).

(** No context of the orchestrator names a download. *)
Definition no_download_anywhere (s : OrchState) : Prop :=
  names_no_download (context (calendarAgent (orch s)))
  /\ names_no_download (context (reportAgent (orch s)))
  /\ names_no_download (sharedContext (orch s)).

(** No analysis is due: it was not asked for, or the model is not
    configured. *)
Definition analysis_off (includeAnalysis : bool) (s : OrchState) : Prop :=
  includeAnalysis = false \/ LLMService.isLLMConfigured (o_world s) = false.

(** What a step of [generateReport] keeps, on an orchestrator whose
    calendar and report agents have their own tools: the tools; that no
    context names a download; and, when no analysis is due, the analysis
    agent, the [Map] objects and the number of chat requests. *)
Definition pipeline_frame (env : Env) (includeAnalysis : bool) (s s' : OrchState) : Prop :=
  stock_tools env s ->
  stock_tools env s'
  /\ (no_download_anywhere s -> no_download_anywhere s')
  /\ (analysis_off includeAnalysis s ->
      analysis_off includeAnalysis s'
      /\ analysisAgent (orch s') = analysisAgent (orch s)
      /\ heap (o_world s') = heap (o_world s)
      /\ chats (o_world s') = chats (o_world s)).

(** What the analysis stage keeps whatever the analysis agent does. *)
Definition beside_analysis (s s' : OrchState) : Prop :=
  calendarAgent (orch s') = calendarAgent (orch s)
  /\ reportAgent (orch s') = reportAgent (orch s)
  /\ same_outside ["analysisResults"; "executiveSummary"]
       (sharedContext (orch s)) (sharedContext (orch s')).

(** From states that satisfy [Pre], every value [m] returns satisfies
    [Q]. *)
Definition yields {S A} (Pre : S -> Prop) (Q : A -> Prop) (m : M S A) : Prop :=
  forall s a, Pre s -> fst (m s) = Ret a -> Q a.

(* ===================================================================== *)
(** * Test doubles *)
(* ===================================================================== *)

(** Concrete environments and agents, on which the statements below are
    instantiated. *)
Module Fixtures.

(** [DEFAULT_CONFIG] of [llmService.ts] without environment variables. *)
Definition world0 : World :=
  {| currentConfig := {| baseUrl := "https://api.openai.com/v1"; apiKey := "";
                         llm_model := "gpt-4o-mini" |};
     heap := []; events := []; files := []; consoleErrors := 0; chats := 0;
     graphCalls := 0 |}.

(** [JSON.parse] on the two texts the test doubles send: an empty object,
    and a text that is no JSON. *)
Definition parse_stub (text : string) : Res Json :=
  if String.eqb text "{}" then Ret (JObj [])
  else Exn (JsError "Unexpected token in JSON").

(** [new Date(s).getTime()] on the date strings the test doubles use. *)
Definition date_stub (text : string) : option Z :=
  if String.eqb text "2024-03-01T09:00:00" then Some 1709283600000
  else if String.eqb text "2024-03-01T10:00:00" then Some 1709287200000
  else if String.eqb text "2024-03-01" then Some 1709251200000
  else if String.eqb text "2024-03-31" then Some 1711843200000
  else None.

(** An environment around a model endpoint, a chat endpoint and a Graph
    endpoint. *)
Definition env_of
    (model : nat -> AgentConfig -> list AgentMessage -> Res LLMReply)
    (chat : nat -> list ChatMessage -> Res string)
    (graph : list GraphCalendarEvent) : Env :=
  {| model_endpoint := model;
     chat_endpoint := chat;
     acquire_token := fun _ => Ret "token";
     graph_endpoint := fun _ _ _ _ => Ret graph;
     JSON_parse := parse_stub;
     JSON_parse_analysis := fun _ => Exn (JsError "Unexpected token in JSON");
     Date_parse := date_stub;
     Date_now := fun _ => 1709251200000;
     Date_endOfDay := fun z => z + 86399999;
     Date_toISOString := fun _ => "2024-03-01T00:00:00.000Z";
     Date_toDateString := fun _ => "Fri Mar 01 2024";
     Date_toLocaleTimeString := fun _ => "09:00";
     parseInt := fun _ => None;
     totalHours := fun _ => JNum 0 |}.

Definition request (call_id tname : string) : ToolCall :=
  {| tc_id := call_id; tc_name := tname; tc_arguments := "{}" |}.

(** A model that asks for the tool [noop] whatever it is sent. *)
Definition insisting_model (n : nat) (cfg : AgentConfig) (h : list AgentMessage)
    : Res LLMReply :=
  Ret {| reply_content := None; reply_tool_calls := Some [request "call_1" "noop"] |}.

Definition no_chat (n : nat) (messages : list ChatMessage) : Res string :=
  Exn (JsError "LLM API error: 503 - unavailable").

Definition insisting_env : Env := env_of insisting_model no_chat [].

Definition plain_config (limit : option Z) : AgentConfig :=
  {| name := "TestAgent"; description := "An agent without tools";
     systemPrompt := "You are a test agent."; tools := []; model := None;
     maxIterations := limit |}.

(** An agent without subclass fields and without tools. *)
Definition plain_agent (limit : option Z) : BaseAgent unit :=
  BaseAgent_new (plain_config limit) tt.

Definition plain_state (limit : option Z) : AgentState unit :=
  {| self := plain_agent limit; world := world0; queries := 0 |}.

(** A handler that answers every call. *)
Definition ping : Handler unit :=
  fun _ _ => ret (JObj [("pong", JBool true)]).

(** An agent with the one tool [ping], capped at three iterations. *)
Definition ping_agent : BaseAgent unit :=
  registerTool "ping" ping (plain_agent (Some 3)).

Definition ping_state : AgentState unit :=
  {| self := ping_agent; world := world0; queries := 0 |}.

(** The batch of the first reply: a call of [ping], and a call of a tool
    that is not registered. *)
Definition mixed_reply : LLMReply :=
  {| reply_content := None;
     reply_tool_calls := Some [request "call_a" "ping"; request "call_b" "missing"] |}.

(** A model that sends the mixed batch first and then answers in text. *)
Definition mixed_model (n : nat) (cfg : AgentConfig) (h : list AgentMessage)
    : Res LLMReply :=
  match n with
  | O => Ret mixed_reply
  | S _ => Ret {| reply_content := Some "Done"; reply_tool_calls := None |}
  end.

Definition mixed_env : Env := env_of mixed_model no_chat [].

Definition person (n a : string) : EmailAddress :=
  {| ea_name := n; ea_address := a |}.

Definition meeting (i subj body from to : string) (cancelled : bool)
    : GraphCalendarEvent :=
  {| id := i; subject := subj; bodyPreview := body;
     start := {| dateTime := from; timeZone := "UTC" |};
     end_ := {| dateTime := to; timeZone := "UTC" |};
     organizer := person "Ada" "ada@acme.com";
     attendees := [ {| att_type := "required"; att_response := "accepted";
                       att_emailAddress := person "Bob" "bob@example.org" |} ];
     isAllDay := false; isCancelled := cancelled; webLink := "" |}.

(** An hour long meeting. *)
Definition standup : GraphCalendarEvent :=
  meeting "m1" "Standup" "Daily sync of the team" "2024-03-01T09:00:00"
          "2024-03-01T10:00:00" false.

(** A placeholder: it starts and ends at the same time and has no text. *)
Definition placeholder : GraphCalendarEvent :=
  meeting "m2" "Home" "" "2024-03-01T09:00:00" "2024-03-01T09:00:00" false.

(** A cancelled meeting. *)
Definition called_off : GraphCalendarEvent :=
  meeting "m3" "Review" "Quarterly review" "2024-03-01T09:00:00"
          "2024-03-01T10:00:00" true.

(** A meeting whose times are no dates. *)
Definition undated : GraphCalendarEvent :=
  meeting "m4" "Offsite" "To be scheduled" "soon" "later" false.

End Fixtures.

(** An office whose calendar holds three meetings in March, served by a
    model that asks each agent for its first tool, with an analysis
    collaborator that is out of order. *)
Module Office.
Import Fixtures.

(** The arguments the model sends to [fetch_calendar_events]. *)
Definition march_args : Json :=
  JObj [("start_date", JStr "2024-03-01"); ("end_date", JStr "2024-03-31")].

Definition march_text : string := JSON.text march_args.

Definition parse_args (text : string) : Res Json :=
  if String.eqb text march_text then Ret march_args else parse_stub text.

(** The first tool of each of the three agents. *)
Definition first_call (agent : string) : ToolCall :=
  if String.eqb agent "CalendarAgent"
  then {| tc_id := "call_1"; tc_name := "fetch_calendar_events";
          tc_arguments := march_text |}
  else if String.eqb agent "AnalysisAgent"
  then request "call_1" "analyze_all_meetings"
  else request "call_1" "generate_excel_report".

(** A model that asks for the agent's first tool when it is sent a user
    message, and answers in text otherwise. *)
Definition cooperative_model (n : nat) (cfg : AgentConfig) (h : list AgentMessage)
    : Res LLMReply :=
  match last_role h with
  | Some user =>
      Ret {| reply_content := None; reply_tool_calls := Some [first_call (name cfg)] |}
  | _ => Ret {| reply_content := Some "Done"; reply_tool_calls := None |}
  end.

Definition planning : GraphCalendarEvent :=
  meeting "m5" "Planning" "Plan of the sprint" "2024-03-01T09:00:00"
          "2024-03-01T10:00:00" false.

Definition retro : GraphCalendarEvent :=
  meeting "m6" "Retro" "Look back at the sprint" "2024-03-01T09:00:00"
          "2024-03-01T10:00:00" false.

Definition office_env : Env :=
  let e := env_of cooperative_model no_chat [standup; planning; retro] in
  {| model_endpoint := model_endpoint e;
     chat_endpoint := chat_endpoint e;
     acquire_token := acquire_token e;
     graph_endpoint := graph_endpoint e;
     JSON_parse := parse_args;
     JSON_parse_analysis := JSON_parse_analysis e;
     Date_parse := Date_parse e;
     Date_now := Date_now e;
     Date_endOfDay := Date_endOfDay e;
     Date_toISOString := Date_toISOString e;
     Date_toDateString := Date_toDateString e;
     Date_toLocaleTimeString := Date_toLocaleTimeString e;
     parseInt := parseInt e;
     totalHours := totalHours e |}.

(** An analysis collaborator whose every call throws. *)
Definition failing_analysis : AnalysisCapability :=
  {| cap_analyzeMeeting := fun _ => throw (JsError "analysis unavailable");
     cap_generateExecutiveSummary := fun _ _ => throw (JsError "analysis unavailable") |}.

Definition signed_in : MsalInstance := {| accounts := ["ada@acme.com"] |}.

Definition march : ReportGenerationOptions :=
  {| opt_startDate := Some 1709251200000; opt_endDate := Some 1711843200000;
     opt_targetUser := None; opt_includeAnalysis := Some true;
     opt_includeExecutiveSummary := Some true |}.

Definition office : OrchState :=
  Orchestrator.new office_env failing_analysis signed_in world0.

(** Where the first stage leaves the orchestrator, and what the calendar
    agent answered. *)
Definition acquired : OrchState :=
  snd (Orchestrator.acquisition_stage office_env march office).

Definition acquisition_response : AgentResponse :=
  match fst (Orchestrator.acquisition_stage office_env march office) with
  | Ret r => r
  | Exn _ => iterations_exhausted
  end.
End Office.

(** The same office when its calendar is empty, with the analysis of
    [llmService]. *)
Module Quiet.
Import Fixtures.

Definition quiet_env : Env :=
  let e := Office.office_env in
  {| model_endpoint := model_endpoint e;
     chat_endpoint := chat_endpoint e;
     acquire_token := acquire_token e;
     graph_endpoint := fun _ _ _ _ => Ret [];
     JSON_parse := JSON_parse e;
     JSON_parse_analysis := JSON_parse_analysis e;
     Date_parse := Date_parse e;
     Date_now := Date_now e;
     Date_endOfDay := Date_endOfDay e;
     Date_toISOString := Date_toISOString e;
     Date_toDateString := Date_toDateString e;
     Date_toLocaleTimeString := Date_toLocaleTimeString e;
     parseInt := parseInt e;
     totalHours := totalHours e |}.

Definition quiet_office : OrchState :=
  Orchestrator.new quiet_env (llmService quiet_env) Office.signed_in
                   Fixtures.world0.

Definition acquired : OrchState :=
  snd (Orchestrator.acquisition_stage quiet_env Office.march quiet_office).

Definition acquisition_response : AgentResponse :=
  match fst (Orchestrator.acquisition_stage quiet_env Office.march quiet_office) with
  | Ret r => r
  | Exn _ => iterations_exhausted
  end.
End Quiet.

(** The states and the options on which the properties of the services
    and the tools are instantiated. *)

Module ReportDesk.
Import Fixtures.

(** What the report tool finds when the stand-up alone was fetched and
    nothing was analysed. *)
Definition after_fetch : HandlerState ReportFields :=
  {| h_context := <["meetings" := VMeetings [standup]]> ∅;
     h_fields := {| reportData := [] |};
     h_world := world0 |}.

Definition standup_rows : list MeetingReportRow :=
  match transformEventsToReportRows insisting_env [standup] with
  | Ret rows => rows
  | Exn _ => []
  end.
End ReportDesk.

Module TwoPages.
Import Fixtures.

Definition first_url : string :=
  GraphService.calendarView_url None "2024-03-01T00:00:00.000Z" "2024-03-31T23:59:59.999Z".

Definition second_url : string := "https://graph.microsoft.com/v1.0/me/calendar/calendarView?$skip=50".

(** A service with two pages, the second without a next link. *)
Definition fetch (n : nat) (url : string) : Res GraphService.GraphResponse :=
  if String.eqb url first_url
  then Ret (GraphService.graph_ok [standup; placeholder] (Some second_url))
  else if String.eqb url second_url
  then Ret (GraphService.graph_ok [called_off] None)
  else Ret (GraphService.graph_not_ok 404 "Not Found").

Definition pages : list (string * list GraphCalendarEvent) :=
  [(first_url, [standup; placeholder]); (second_url, [called_off])].
End TwoPages.

Module SharedCalendars.

Definition mine : GraphService.SharedCalendar :=
  {| GraphService.cal_id := "c1"; GraphService.cal_name := "Calendar";
     GraphService.cal_owner :=
       Some {| GraphService.owner_name := "Ada";
               GraphService.owner_address := Some "ada@acme.com" |};
     GraphService.cal_isDefaultCalendar := true |}.

Definition bobs : GraphService.SharedCalendar :=
  {| GraphService.cal_id := "c2"; GraphService.cal_name := "Bob";
     GraphService.cal_owner :=
       Some {| GraphService.owner_name := "Bob";
               GraphService.owner_address := Some "Bob@Example.org" |};
     GraphService.cal_isDefaultCalendar := false |}.

Definition bobs_other : GraphService.SharedCalendar :=
  {| GraphService.cal_id := "c3"; GraphService.cal_name := "Team";
     GraphService.cal_owner :=
       Some {| GraphService.owner_name := "";
               GraphService.owner_address := Some "bob@example.org" |};
     GraphService.cal_isDefaultCalendar := false |}.
End SharedCalendars.

Module Desk.
Import Fixtures.

(** The calendar agent of Ada after it fetched three meetings. *)
Definition after_fetch : HandlerState CalendarFields :=
  {| h_context := <["meetings" := VMeetings [standup; placeholder; called_off]]> ∅;
     h_fields := {| msalInstance := Some {| accounts := ["ada@acme.com"] |};
                    meetings := [standup; placeholder; called_off];
                    userDomain := "acme.com" |};
     h_world := world0 |}.

Definition filter_args (filterType : string) : Json :=
  JObj [("filter_type", JStr filterType)].
End Desk.

Module Analyst.
Import Fixtures.

(** The analysis agent after the orchestrator handed it two meetings, one
    of them cancelled; its [Map] is the first object of the store. *)
Definition briefed : HandlerState AnalysisFields :=
  {| h_context := <["meetings" := VMeetings [standup; called_off]]> ∅;
     h_fields := {| analysisResults := 0%nat; executiveSummary := "" |};
     h_world := set_heap [[]] world0 |}.
End Analyst.

Module MixedDesk.
Import Fixtures.

Definition home_analysis : MeetingAnalysis :=
  {| summary := "Working from home"; category := "other";
     actionItems := []; keyTopics := [] |}.

(** What the report tool finds when a placeholder of zero duration precedes
    the stand-up, and only the placeholder has an analysis. *)
Definition analysed : HandlerState ReportFields :=
  {| h_context := <["analysisResults" := VAnalysisResults 0%nat]>
                    (<["meetings" := VMeetings [placeholder; standup]]> ∅);
     h_fields := {| reportData := [] |};
     h_world := set_heap [[("m2", home_analysis)]] world0 |}.
End MixedDesk.

Module PlainOffice.
(** The options of March without the analysis. *)
Definition march : ReportGenerationOptions :=
  {| opt_startDate := opt_startDate Office.march;
     opt_endDate := opt_endDate Office.march;
     opt_targetUser := None;
     opt_includeAnalysis := Some false;
     opt_includeExecutiveSummary := Some false |}.
End PlainOffice.

Module Undated.
(** Options whose end is no date. *)
Definition options : ReportGenerationOptions :=
  {| opt_startDate := opt_startDate Office.march;
     opt_endDate := None;
     opt_targetUser := None;
     opt_includeAnalysis := None;
     opt_includeExecutiveSummary := None |}.
End Undated.

(* ===================================================================== *)
(** * Properties of the agent loop *)
(* ===================================================================== *)

Ltac monad_unfold :=
  unfold bind, ret, throw, try_catch, gets, get, modify, lift_res in *.

Section BaseAgentFacts.
Context {X : Type}.
Variable env : Env.

(** One tool call never throws: it appends the message of its outcome and
    leaves the rest of the agent alone. *)
Lemma run_tool_call_spec (toolCall : ToolCall) (s : AgentState X) :
  exists s',
    run_tool_call env toolCall s = (Ret tt, s')
    /\ conversationHistory (self s')
       = conversationHistory (self s)
         ++ [result_message toolCall (call_outcome env toolCall s)]
    /\ config (self s') = config (self s)
    /\ toolHandlers (self s') = toolHandlers (self s)
    /\ queries s' = queries s.
Proof.
  unfold run_tool_call, call_outcome, dispatch, announced, emit, push, executeTool.
  monad_unfold. cbn.
  destruct (JSON_parse env (tc_arguments toolCall)) as [args|e]; cbn.
  - destruct (toolHandlers (self s) !! tc_name toolCall) as [handler|] eqn:Hh; cbn.
    + unfold run_handler; cbn.
      destruct (handler _ args _) as [[result|e] hs]; cbn; eexists; repeat split.
    + eexists; repeat split.
  - eexists; repeat split.
Qed.

Lemma for_each_tool_calls_spec (batch : list ToolCall) (s : AgentState X) :
  exists s',
    for_each batch (run_tool_call env) s = (Ret tt, s')
    /\ conversationHistory (self s')
       = conversationHistory (self s)
         ++ zip_with result_message batch (batch_outcomes env batch s)
    /\ config (self s') = config (self s)
    /\ toolHandlers (self s') = toolHandlers (self s)
    /\ queries s' = queries s.
Proof.
  revert s.
  induction batch as [|toolCall rest IH]; intros s; cbn [for_each batch_outcomes zip_with].
  - exists s. rewrite app_nil_r. repeat split.
  - destruct (run_tool_call_spec toolCall s) as (s1 & Hrun & Hh & Hc & Ht & Hq).
    unfold bind. rewrite !Hrun. cbn [snd].
    destruct (IH s1) as (s2 & Hrest & Hh2 & Hc2 & Ht2 & Hq2).
    exists s2. rewrite Hrest. split; [reflexivity|].
    split. { rewrite Hh2, Hh, <- app_assoc. reflexivity. }
    repeat split; congruence.
Qed.

Lemma batch_outcomes_length (batch : list ToolCall) (s : AgentState X) :
  List.length (batch_outcomes env batch s) = List.length batch.
Proof.
  revert s.
  induction batch as [|toolCall rest IH]; intros s; cbn [batch_outcomes List.length];
    [reflexivity|].
  now rewrite IH.
Qed.

Arguments run_tool_call : simpl never.

(** A transport failure ends the run with a failure result. *)
Lemma run_turn_transport_failure (s : AgentState X) (e : JsThrown) :
  model_endpoint env (queries s) (config (self s)) (conversationHistory (self s)) = Exn e ->
  exists s',
    run_turn env s = (Ret (Return (agent_failed e)), s')
    /\ self s' = self s
    /\ queries s' = S (queries s).
Proof.
  intros Hm. unfold run_turn, callLLM, try_catch, bind. rewrite Hm. cbn.
  eexists; repeat split.
Qed.

(** A reply with tool calls: every call is processed and the loop goes
    on. *)
Lemma run_turn_tools (s : AgentState X) (reply : LLMReply) toolCall rest :
  model_endpoint env (queries s) (config (self s)) (conversationHistory (self s)) = Ret reply ->
  reply_tool_calls reply = Some (toolCall :: rest) ->
  exists s',
    run_turn env s = (Ret Continue, s')
    /\ conversationHistory (self s')
       = conversationHistory (self s)
         ++ assistant_message reply
            :: zip_with result_message (toolCall :: rest)
                 (batch_outcomes env (toolCall :: rest) (after_reply reply s))
    /\ config (self s') = config (self s)
    /\ toolHandlers (self s') = toolHandlers (self s)
    /\ queries s' = S (queries s).
Proof.
  intros Hm Hcalls.
  destruct (for_each_tool_calls_spec (toolCall :: rest) (after_reply reply s))
    as (s' & Hfor & Hh & Hc & Ht & Hq).
  exists s'.
  unfold run_turn, callLLM, try_catch, bind, push, modify. rewrite Hm.
  cbn [assistant_message tool_calls]. rewrite Hcalls.
  fold (after_reply reply s). rewrite Hfor. cbn.
  split; [reflexivity|]. split.
  { rewrite Hh. cbn. now rewrite <- app_assoc. }
  repeat split; assumption.
Qed.

(** A reply without tool calls ends the run with success. *)
Lemma run_turn_done (s : AgentState X) (reply : LLMReply) :
  model_endpoint env (queries s) (config (self s)) (conversationHistory (self s)) = Ret reply ->
  (reply_tool_calls reply = None \/ reply_tool_calls reply = Some []) ->
  exists s',
    run_turn env s
    = (Ret (Return (task_completed (reply_content reply) (context (self s)))), s')
    /\ self s' = push_message (assistant_message reply) (self s)
    /\ queries s' = S (queries s).
Proof.
  intros Hm Hcalls.
  unfold run_turn, callLLM, try_catch, bind, push, modify, emit, gets, ret. rewrite Hm.
  cbn [assistant_message tool_calls content].
  destruct Hcalls as [-> | ->]; cbn; eexists; repeat split.
Qed.

(** A turn never throws. *)
Lemma run_turn_returns (s : AgentState X) :
  exists t s',
    run_turn env s = (Ret t, s')
    /\ (exists suffix,
          conversationHistory (self s') = conversationHistory (self s) ++ suffix)
    /\ config (self s') = config (self s)
    /\ toolHandlers (self s') = toolHandlers (self s)
    /\ queries s' = S (queries s).
Proof.
  destruct (model_endpoint env (queries s) (config (self s))
              (conversationHistory (self s))) as [reply|e] eqn:Hm.
  - destruct (reply_tool_calls reply) as [[|toolCall rest]|] eqn:Hcalls.
    + destruct (run_turn_done s reply Hm (or_intror Hcalls)) as (s' & Hrun & Hs & Hq).
      exists (Return (task_completed (reply_content reply) (context (self s)))), s'.
      rewrite Hs. cbn. repeat split; eauto.
    + destruct (run_turn_tools s reply toolCall rest Hm Hcalls)
        as (s' & Hrun & Hh & Hc & Ht & Hq).
      exists Continue, s'. repeat split; eauto.
    + destruct (run_turn_done s reply Hm (or_introl Hcalls)) as (s' & Hrun & Hs & Hq).
      exists (Return (task_completed (reply_content reply) (context (self s)))), s'.
      rewrite Hs. cbn. repeat split; eauto.
  - destruct (run_turn_transport_failure s e Hm) as (s' & Hrun & Hs & Hq).
    exists (Return (agent_failed e)), s'. rewrite Hs.
    repeat split; eauto. exists []. now rewrite app_nil_r.
Qed.

End BaseAgentFacts.

Section AgentLoop.
Context {X : Type}.
Variable env : Env.

Arguments run_turn : simpl never.

Lemma run_loop_succ (n : nat) (s : AgentState X) :
  run_loop env (S n) s
  = match run_turn env s with
    | (Ret Continue, s') => run_loop env n s'
    | (Ret (Return r), s') => (Ret r, s')
    | (Exn e, s') => (Exn e, s')
    end.
Proof.
  cbn [run_loop]. unfold bind. destruct (run_turn env s) as [[[|r]|e] s']; reflexivity.
Qed.

Lemma run_loop_zero (s : AgentState X) :
  exists s', run_loop env 0 s = (Ret iterations_exhausted, s')
             /\ self s' = self s /\ queries s' = queries s.
Proof. cbn. unfold bind, emit, ret. cbn. eexists; repeat split. Qed.

(** With a model that always asks for a tool, [n] turns send [n] requests
    and the loop ends exhausted. *)
Lemma run_loop_exhausts (n : nat) :
  always_requests_tool env ->
  forall s : AgentState X,
    exists s', run_loop env n s = (Ret iterations_exhausted, s')
               /\ queries s' = (queries s + n)%nat.
Proof.
  intros Hmodel. induction n as [|n IH]; intros s.
  - destruct (run_loop_zero s) as (s' & Hrun & _ & Hq).
    exists s'. split; [assumption|lia].
  - destruct (Hmodel (queries s) (config (self s)) (conversationHistory (self s)))
      as (text & toolCall & rest & Hm).
    destruct (run_turn_tools env s _ toolCall rest Hm eq_refl)
      as (s1 & Hturn & _ & _ & _ & Hq1).
    rewrite run_loop_succ, Hturn.
    destruct (IH s1) as (s' & Hrun & Hq).
    exists s'. split; [assumption|lia].
Qed.

Lemma run_loop_returns (n : nat) :
  forall s : AgentState X,
    exists r s',
      run_loop env n s = (Ret r, s')
      /\ loop_end env s s' n r
      /\ (exists suffix,
            conversationHistory (self s') = conversationHistory (self s) ++ suffix)
      /\ config (self s') = config (self s)
      /\ toolHandlers (self s') = toolHandlers (self s).
Proof.
  induction n as [|n IH]; intros s.
  - destruct (run_loop_zero s) as (s' & Hrun & Hs & Hq).
    exists iterations_exhausted, s'. rewrite Hs.
    split; [assumption|]. split; [constructor; lia|].
    split; [exists []; now rewrite app_nil_r|]. split; reflexivity.
  - rewrite run_loop_succ.
    destruct (model_endpoint env (queries s) (config (self s))
                (conversationHistory (self s))) as [reply|e] eqn:Hm.
    + destruct (reply_tool_calls reply) as [[|toolCall rest]|] eqn:Hcalls.
      * destruct (run_turn_done env s reply Hm (or_intror Hcalls)) as (s' & Hrun & Hs & Hq).
        rewrite Hrun. eexists _, s'. split; [reflexivity|].
        replace (context (self s)) with (context (self s')) by now rewrite Hs.
        split.
        { eapply end_completed with (h := conversationHistory (self s));
            [lia| rewrite Hq; exact Hm | now right]. }
        rewrite Hs. cbn. split; [eexists; reflexivity|]. split; reflexivity.
      * destruct (run_turn_tools env s reply toolCall rest Hm Hcalls)
          as (s1 & Hrun & Hh & Hc & Ht & Hq).
        rewrite Hrun.
        destruct (IH s1) as (r & s' & Hloop & Hend & [suffix Hsuf] & Hc' & Ht').
        exists r, s'. split; [assumption|]. split.
        { destruct Hend as [n Hq'|n e h Hq' Hm'|n reply' h Hq' Hm' Hcalls'].
          - constructor. lia.
          - eapply end_failed with (h := h); [lia|]. now rewrite <- Hc.
          - eapply end_completed with (h := h); [lia| now rewrite <- Hc | assumption]. }
        split; [|split; congruence].
        rewrite Hsuf, Hh, <- app_assoc. eexists; reflexivity.
      * destruct (run_turn_done env s reply Hm (or_introl Hcalls)) as (s' & Hrun & Hs & Hq).
        rewrite Hrun. eexists _, s'. split; [reflexivity|].
        replace (context (self s)) with (context (self s')) by now rewrite Hs.
        split.
        { eapply end_completed with (h := conversationHistory (self s));
            [lia| rewrite Hq; exact Hm | now left]. }
        rewrite Hs. cbn. split; [eexists; reflexivity|]. split; reflexivity.
    + destruct (run_turn_transport_failure env s e Hm) as (s' & Hrun & Hs & Hq).
      rewrite Hrun. exists (agent_failed e), s'. split; [reflexivity|].
      split.
      { eapply end_failed with (h := conversationHistory (self s)); [lia|].
        rewrite Hq. exact Hm. }
      rewrite Hs. split; [exists []; now rewrite app_nil_r|]. split; reflexivity.
Qed.

Lemma run_unfold (userMessage : string) (s : AgentState X) :
  run env userMessage s
  = run_loop env (Z.to_nat (maxIterations_of (config (self s)))) (started userMessage s).
Proof. reflexivity. Qed.

End AgentLoop.

(* ===================================================================== *)
(** * C1: the iteration cap *)
(* ===================================================================== *)

(** C1, as amended. For every agent whose iteration cap
    [this.config.maxIterations ?? 10] is the natural number [N], if every
    reply of the model asks for at least one tool call, [run] returns the
    failure result whose message is [Agent reached maximum iterations] and
    whose error is [Max iterations exceeded], after exactly [N] requests to
    the model endpoint: the request counter has advanced by [N], so there is
    no request [N + 1]. *)
Theorem run_stops_at_maxIterations {X : Type} (env : Env) (a : BaseAgent X)
    (w : World) (q N : nat) (userMessage : string) :
  maxIterations_of (config a) = Z.of_nat N ->
  always_requests_tool env ->
  exists s',
    run env userMessage {| self := a; world := w; queries := q |}
    = (Ret iterations_exhausted, s')
    /\ success iterations_exhausted = false
    /\ message iterations_exhausted = "Agent reached maximum iterations"
    /\ error iterations_exhausted = Some "Max iterations exceeded"
    /\ queries s' = (q + N)%nat.
Proof.
  intros Hcap Hmodel.
  rewrite run_unfold. cbn [self]. rewrite Hcap, Nat2Z.id.
  destruct (run_loop_exhausts env N Hmodel
              (started userMessage {| self := a; world := w; queries := q |}))
    as (s' & Hrun & Hq).
  exists s'. repeat split; assumption.
Qed.

Lemma insisting_env_always_requests_tool : always_requests_tool Fixtures.insisting_env.
Proof. intros n cfg h. cbn. eauto. Qed.

(** An agent capped at three iterations, facing a model that always asks
    for a tool. *)
Lemma run_stops_at_maxIterations_witness :
  exists s',
    run Fixtures.insisting_env "List my meetings" (Fixtures.plain_state (Some 3))
    = (Ret iterations_exhausted, s')
    /\ success iterations_exhausted = false
    /\ message iterations_exhausted = "Agent reached maximum iterations"
    /\ error iterations_exhausted = Some "Max iterations exceeded"
    /\ queries s' = (0 + 3)%nat.
Proof.
  apply (run_stops_at_maxIterations Fixtures.insisting_env
           (Fixtures.plain_agent (Some 3)) Fixtures.world0 0 3 "List my meetings").
  - reflexivity.
  - exact insisting_env_always_requests_tool.
Defined.

(** C1 as the specification words it fails on the message: an agent capped
    at one iteration, facing a model that always asks for a tool, sends one
    request and returns a failure whose message is not
    [maximum iterations exceeded]. *)
Lemma run_exhausted_message_differs :
  always_requests_tool Fixtures.insisting_env
  /\ exists r s',
       run Fixtures.insisting_env "List my meetings" (Fixtures.plain_state (Some 1))
       = (Ret r, s')
       /\ success r = false
       /\ queries s' = 1%nat
       /\ message r <> "maximum iterations exceeded"
       /\ error r <> Some "maximum iterations exceeded".
Proof.
  split; [exact insisting_env_always_requests_tool|].
  destruct (run_loop_exhausts Fixtures.insisting_env 1
              insisting_env_always_requests_tool
              (started "List my meetings" (Fixtures.plain_state (Some 1))))
    as (s' & Hrun & Hq).
  exists iterations_exhausted, s'.
  repeat split; try assumption; cbn; discriminate.
Qed.

(* ===================================================================== *)
(** * C9: [run] returns a result *)
(* ===================================================================== *)

Section Totality.
Context {X : Type}.
Variable env : Env.

Lemma call_outcome_unknown_tool (toolCall : ToolCall) (s : AgentState X) (args : Json) :
  JSON_parse env (tc_arguments toolCall) = Ret args ->
  toolHandlers (self s) !! tc_name toolCall = None ->
  call_outcome env toolCall s = Exn (JsError ("Unknown tool: " +:+ tc_name toolCall)).
Proof.
  intros Hp Hh. unfold call_outcome, dispatch, bind, lift_res, executeTool.
  rewrite Hp. cbn. now rewrite Hh.
Qed.

Lemma call_outcome_malformed (toolCall : ToolCall) (s : AgentState X) (e : JsThrown) :
  JSON_parse env (tc_arguments toolCall) = Exn e ->
  call_outcome env toolCall s = Exn e.
Proof.
  intros Hp. unfold call_outcome, dispatch, bind, lift_res. now rewrite Hp.
Qed.

Lemma call_outcome_handler (toolCall : ToolCall) (s : AgentState X) (args : Json)
    (handler : Handler X) :
  JSON_parse env (tc_arguments toolCall) = Ret args ->
  toolHandlers (self s) !! tc_name toolCall = Some handler ->
  call_outcome env toolCall s = fst (run_handler handler args (announced toolCall s)).
Proof.
  intros Hp Hh. unfold call_outcome, dispatch, bind, lift_res, executeTool.
  rewrite Hp. cbn. now rewrite Hh.
Qed.

Lemma run_returns (userMessage : string) (s : AgentState X) :
  exists r s',
    run env userMessage s = (Ret r, s')
    /\ loop_end env (started userMessage s) s'
         (Z.to_nat (maxIterations_of (config (self s)))) r
    /\ (exists suffix,
          conversationHistory (self s')
          = conversationHistory (self s) ++ user_message userMessage :: suffix)
    /\ config (self s') = config (self s)
    /\ toolHandlers (self s') = toolHandlers (self s).
Proof.
  rewrite run_unfold.
  destruct (run_loop_returns env (Z.to_nat (maxIterations_of (config (self s))))
              (started userMessage s))
    as (r & s' & Hrun & Hend & [suffix Hsuf] & Hc & Ht).
  exists r, s'. repeat split; try assumption.
  exists suffix. rewrite Hsuf. cbn. now rewrite <- app_assoc.
Qed.

End Totality.

(** C9. [run] is total at its public interface: for every instruction, every
    behaviour of the model endpoint, of [JSON.parse] and of the registered
    handlers, it returns an [AgentResponse] and throws nothing. The result
    is the exhaustion failure after all the turns, the failure [Agent
    failed] carrying the message of the error the last request threw, or
    the success built from a last reply without tool calls; so a transport
    failure and the exhaustion of the iterations give [success = false].
    Every tool call, whatever it does, returns normally and appends the one
    tool message of its outcome; an unknown tool name, malformed arguments
    and a throwing handler are such outcomes. *)
Theorem run_is_total {X : Type} (env : Env) (a : BaseAgent X) (w : World) (q : nat)
    (userMessage : string) :
  (exists r s',
     run env userMessage {| self := a; world := w; queries := q |} = (Ret r, s')
     /\ loop_end env (started userMessage {| self := a; world := w; queries := q |}) s'
          (Z.to_nat (maxIterations_of (config a))) r
     /\ (success r = true ->
         exists reply h,
           model_endpoint env (pred (queries s')) (config a) h = Ret reply
           /\ (reply_tool_calls reply = None \/ reply_tool_calls reply = Some [])))
  /\ (forall (e : JsThrown) (n : nat) (s : AgentState X),
        model_endpoint env (queries s) (config (self s)) (conversationHistory (self s))
        = Exn e ->
        exists s', run_loop env (S n) s = (Ret (agent_failed e), s')
                   /\ success (agent_failed e) = false)
  /\ (forall s : AgentState X,
        exists s', run_loop env 0 s = (Ret iterations_exhausted, s')
                   /\ success iterations_exhausted = false)
  /\ (forall (toolCall : ToolCall) (s : AgentState X),
        exists s',
          run_tool_call env toolCall s = (Ret tt, s')
          /\ conversationHistory (self s')
             = conversationHistory (self s)
               ++ [result_message toolCall (call_outcome env toolCall s)])
  /\ (forall (toolCall : ToolCall) (s : AgentState X) (args : Json),
        JSON_parse env (tc_arguments toolCall) = Ret args ->
        toolHandlers (self s) !! tc_name toolCall = None ->
        call_outcome env toolCall s
        = Exn (JsError ("Unknown tool: " +:+ tc_name toolCall)))
  /\ (forall (toolCall : ToolCall) (s : AgentState X) (e : JsThrown),
        JSON_parse env (tc_arguments toolCall) = Exn e ->
        call_outcome env toolCall s = Exn e)
  /\ (forall (toolCall : ToolCall) (s : AgentState X) (args : Json) (handler : Handler X),
        JSON_parse env (tc_arguments toolCall) = Ret args ->
        toolHandlers (self s) !! tc_name toolCall = Some handler ->
        call_outcome env toolCall s
        = fst (run_handler handler args (announced toolCall s))).
Proof.
  split; [|split; [|split; [|split; [|split; [|split]]]]].
  - destruct (run_returns env userMessage {| self := a; world := w; queries := q |})
      as (r & s' & Hrun & Hend & _).
    exists r, s'. split; [assumption|]. split; [assumption|].
    intros Hok. destruct Hend as [n Hq|n e h Hq Hm|n reply h Hq Hm Hcalls];
      try discriminate Hok.
    exists reply, h. split; assumption.
  - intros e n s Hm.
    destruct (run_turn_transport_failure env s e Hm) as (s' & Hturn & _).
    exists s'. rewrite run_loop_succ, Hturn. split; reflexivity.
  - intros s. destruct (run_loop_zero env s) as (s' & Hrun & _).
    exists s'. split; [assumption|reflexivity].
  - intros toolCall s.
    destruct (run_tool_call_spec env toolCall s) as (s' & Hrun & Hh & _).
    exists s'. split; assumption.
  - intros. now apply call_outcome_unknown_tool with (args := args).
  - intros. now apply call_outcome_malformed.
  - intros. now apply call_outcome_handler.
Qed.

(** The agent with the tool [ping], sent a batch with a call of an unknown
    tool: its run returns. *)
Lemma run_is_total_witness :
  exists r s',
    run Fixtures.mixed_env "Ping twice" Fixtures.ping_state = (Ret r, s')
    /\ loop_end Fixtures.mixed_env (started "Ping twice" Fixtures.ping_state) s' 3 r.
Proof.
  destruct (run_is_total Fixtures.mixed_env Fixtures.ping_agent Fixtures.world0 0
              "Ping twice") as [(r & s' & Hrun & Hend & _) _].
  exists r, s'. split; [exact Hrun|exact Hend].
Defined.

(* ===================================================================== *)
(** * C2: one tool message per tool call *)
(* ===================================================================== *)

Section Batches.
Context {X : Type}.
Variable env : Env.

Lemma zip_with_result_lookup (batch : list ToolCall) (outcomes : list (Res Json))
    (i : nat) (m : AgentMessage) :
  zip_with result_message batch outcomes !! i = Some m ->
  exists toolCall outcome,
    batch !! i = Some toolCall /\ outcomes !! i = Some outcome
    /\ m = result_message toolCall outcome.
Proof.
  intros H. apply lookup_zip_with_Some in H.
  destruct H as (toolCall & outcome & -> & Hb & Ho). eauto.
Qed.

Lemma result_message_role (toolCall : ToolCall) (outcome : Res Json) :
  role (result_message toolCall outcome) = tool
  /\ tool_call_id (result_message toolCall outcome) = Some (tc_id toolCall).
Proof. destruct outcome; split; reflexivity. Qed.

Lemma zip_with_result_ids (batch : list ToolCall) (outcomes : list (Res Json)) :
  List.length outcomes = List.length batch ->
  List.map tool_call_id (zip_with result_message batch outcomes)
  = List.map (fun toolCall => Some (tc_id toolCall)) batch.
Proof.
  revert outcomes. induction batch as [|toolCall rest IH]; intros [|o os] Hlen;
    cbn in *; try reflexivity; try discriminate.
  f_equal; [apply result_message_role | apply IH; lia].
Qed.

End Batches.

(** C2. When a reply of the model carries a batch of [k] tool calls, the
    turn appends, after the assistant message, exactly [k] tool messages,
    the [i]-th tagged with the id of the [i]-th call and encoding its
    outcome. If exactly one call of the batch fails (its handler throws,
    its arguments do not parse, or no handler has its name), the message at
    its place is the one that encodes the error and each of the other
    [k - 1] encodes the value its call returned. The turn does not throw
    and does not end the run: the loop goes on, and with a turn left the
    next request is sent to the model. *)
Theorem tool_batch_is_answered_call_by_call {X : Type} (env : Env) (s : AgentState X)
    (reply : LLMReply) (toolCall : ToolCall) (rest : list ToolCall) :
  model_endpoint env (queries s) (config (self s)) (conversationHistory (self s))
  = Ret reply ->
  reply_tool_calls reply = Some (toolCall :: rest) ->
  let batch := toolCall :: rest in
  let outcomes := batch_outcomes env batch (after_reply reply s) in
  exists (s' : AgentState X) (results : list AgentMessage),
    run_turn env s = (Ret Continue, s')
    /\ conversationHistory (self s')
       = conversationHistory (self s) ++ assistant_message reply :: results
    /\ List.length results = List.length batch
    /\ List.map tool_call_id results = List.map (fun c => Some (tc_id c)) batch
    /\ (forall i m, results !! i = Some m -> role m = tool)
    /\ (forall i c o, batch !! i = Some c -> outcomes !! i = Some o ->
          results !! i = Some (result_message c o))
    /\ (forall i e,
          outcomes !! i = Some (Exn e) ->
          (forall j o, j <> i -> outcomes !! j = Some o -> threw o = false) ->
          exists c,
            batch !! i = Some c
            /\ results !! i = Some (error_message c e)
            /\ forall j m, j <> i -> results !! j = Some m ->
                 exists c' v, batch !! j = Some c' /\ outcomes !! j = Some (Ret v)
                              /\ m = normal_message c' v)
    /\ (forall n, run_loop env (S n) s = run_loop env n s')
    /\ (forall n r s'', run_loop env (S (S n)) s = (r, s'') ->
          (queries s + 2 <= queries s'')%nat).
Proof.
  intros Hm Hcalls batch outcomes.
  destruct (run_turn_tools env s reply toolCall rest Hm Hcalls)
    as (s' & Hturn & Hh & Hc & Ht & Hq).
  fold batch in Hh. fold outcomes in Hh.
  assert (Hlen : List.length outcomes = List.length batch)
    by apply batch_outcomes_length.
  exists s', (zip_with result_message batch outcomes).
  split; [assumption|]. split; [assumption|].
  split. { rewrite length_zip_with. lia. }
  split. { now apply zip_with_result_ids. }
  split.
  { intros i m Hi. apply zip_with_result_lookup in Hi.
    destruct Hi as (c & o & _ & _ & ->). apply result_message_role. }
  split.
  { intros i c o Hb Ho. apply lookup_zip_with_Some. eauto. }
  split.
  { intros i e Hi Hothers.
    destruct (lookup_lt_is_Some_2 batch i) as [c Hb].
    { rewrite <- Hlen. eapply lookup_lt_Some; eassumption. }
    exists c. split; [assumption|]. split.
    { apply lookup_zip_with_Some. exists c, (Exn e). eauto. }
    intros j m Hne Hj. apply zip_with_result_lookup in Hj.
    destruct Hj as (c' & o & Hb' & Ho & ->).
    specialize (Hothers j o Hne Ho). destruct o as [v|e']; [|discriminate].
    exists c', v. eauto. }
  split.
  { intros n. now rewrite run_loop_succ, Hturn. }
  intros n r s'' Hrun. rewrite run_loop_succ, Hturn in Hrun.
  destruct (run_turn_returns env s') as (t & s1 & Hturn1 & _ & _ & _ & Hq1).
  rewrite run_loop_succ, Hturn1 in Hrun.
  destruct t as [|r1].
  - destruct (run_loop_returns env n s1) as (r2 & s2 & Hloop & Hend & _).
    rewrite Hloop in Hrun. injection Hrun as _ <-.
    destruct Hend; lia.
  - injection Hrun as _ <-. lia.
Qed.

(** The batch of two calls of the test double: [ping] answers, the other
    tool is unknown. Two tool messages follow the assistant message, the
    first encoding the value of [ping] and the second the error. *)
Lemma tool_batch_is_answered_call_by_call_witness :
  model_endpoint Fixtures.mixed_env 0 (config Fixtures.ping_agent)
    (conversationHistory Fixtures.ping_agent) = Ret Fixtures.mixed_reply
  /\ reply_tool_calls Fixtures.mixed_reply
     = Some [Fixtures.request "call_a" "ping"; Fixtures.request "call_b" "missing"]
  /\ exists s' results,
       run_turn Fixtures.mixed_env Fixtures.ping_state = (Ret Continue, s')
       /\ conversationHistory (self s')
          = conversationHistory Fixtures.ping_agent
            ++ assistant_message Fixtures.mixed_reply :: results
       /\ results !! 0%nat
          = Some (normal_message (Fixtures.request "call_a" "ping")
                    (JObj [("pong", JBool true)]))
       /\ results !! 1%nat
          = Some (error_message (Fixtures.request "call_b" "missing")
                    (JsError "Unknown tool: missing"))
       /\ List.length results = 2%nat.
Proof.
  split; [reflexivity|]. split; [reflexivity|].
  destruct (tool_batch_is_answered_call_by_call Fixtures.mixed_env Fixtures.ping_state
              Fixtures.mixed_reply (Fixtures.request "call_a" "ping")
              [Fixtures.request "call_b" "missing"] eq_refl eq_refl)
    as (s' & results & Hturn & Hh & Hlen & _ & _ & Hzip & _).
  exists s', results.
  split; [exact Hturn|]. split; [exact Hh|].
  split; [|split; [|exact Hlen]].
  - apply (Hzip 0%nat (Fixtures.request "call_a" "ping")
             (Ret (JObj [("pong", JBool true)]))); reflexivity.
  - apply (Hzip 1%nat (Fixtures.request "call_b" "missing")
             (Exn (JsError "Unknown tool: missing"))); reflexivity.
Defined.

(* ===================================================================== *)
(** * C7: tool messages answer earlier tool calls *)
(* ===================================================================== *)

Section History.
Context {X : Type}.
Variable env : Env.

Lemma answer_extend (h extra : list AgentMessage) (i : nat) (m : AgentMessage) :
  tool_messages_answer h ->
  h !! i = Some m -> role m = tool ->
  exists j a call_id,
    (j < i)%nat /\ (h ++ extra) !! j = Some a /\ role a = assistant
    /\ tool_call_id m = Some call_id /\ In call_id (emitted_ids a).
Proof.
  intros Hh Hi Hrole.
  destruct (Hh i m Hi Hrole) as (j & a & call_id & Hlt & Hj & Ha & Hid & Hin).
  exists j, a, call_id. repeat split; try assumption.
  now apply lookup_app_l_Some.
Qed.

Lemma answer_app_other (h : list AgentMessage) (m : AgentMessage) :
  tool_messages_answer h -> role m <> tool -> tool_messages_answer (h ++ [m]).
Proof.
  intros Hh Hm i m' Hi Hrole.
  apply lookup_app_Some in Hi. destruct Hi as [Hi|[Hge Hi]].
  - now apply answer_extend.
  - destruct (i - length h)%nat; cbn in Hi; [|discriminate].
    injection Hi as <-. contradiction.
Qed.

Lemma answer_app_results (h : list AgentMessage) (a : AgentMessage)
    (batch : list ToolCall) (outcomes : list (Res Json)) :
  tool_messages_answer h ->
  role a = assistant -> tool_calls a = Some batch ->
  tool_messages_answer (h ++ a :: zip_with result_message batch outcomes).
Proof.
  intros Hh Ha Hcalls i m Hi Hrole.
  apply lookup_app_Some in Hi. destruct Hi as [Hi|[Hge Hi]].
  - now apply answer_extend.
  - destruct (i - length h)%nat as [|k] eqn:Hk; cbn in Hi.
    + injection Hi as <-. congruence.
    + apply zip_with_result_lookup in Hi.
      destruct Hi as (c & o & Hb & _ & ->).
      exists (length h), a, (tc_id c). split; [lia|]. split.
      { rewrite lookup_app_r by lia. now rewrite Nat.sub_diag. }
      split; [assumption|]. split; [apply result_message_role|].
      unfold emitted_ids. rewrite Ha, Hcalls. apply in_map.
      apply list_elem_of_In. eapply list_elem_of_lookup_2. eassumption.
Qed.

Lemma run_turn_answers (s : AgentState X) :
  tool_messages_answer (conversationHistory (self s)) ->
  tool_messages_answer (conversationHistory (self (snd (run_turn env s)))).
Proof.
  intros Hh.
  destruct (model_endpoint env (queries s) (config (self s))
              (conversationHistory (self s))) as [reply|e] eqn:Hm.
  - destruct (reply_tool_calls reply) as [[|toolCall rest]|] eqn:Hcalls.
    + destruct (run_turn_done env s reply Hm (or_intror Hcalls)) as (s' & Hrun & Hs & _).
      rewrite Hrun. cbn [snd]. rewrite Hs. cbn.
      apply answer_app_other; [assumption|discriminate].
    + destruct (run_turn_tools env s reply toolCall rest Hm Hcalls)
        as (s' & Hrun & Hs & _).
      rewrite Hrun. cbn [snd]. rewrite Hs.
      now apply answer_app_results.
    + destruct (run_turn_done env s reply Hm (or_introl Hcalls)) as (s' & Hrun & Hs & _).
      rewrite Hrun. cbn [snd]. rewrite Hs. cbn.
      apply answer_app_other; [assumption|discriminate].
  - destruct (run_turn_transport_failure env s e Hm) as (s' & Hrun & Hs & _).
    rewrite Hrun. cbn [snd]. now rewrite Hs.
Qed.

Lemma run_loop_answers (n : nat) (s : AgentState X) :
  tool_messages_answer (conversationHistory (self s)) ->
  tool_messages_answer (conversationHistory (self (snd (run_loop env n s)))).
Proof.
  revert s. induction n as [|n IH]; intros s Hh.
  - destruct (run_loop_zero env s) as (s' & Hrun & Hs & _).
    rewrite Hrun. cbn [snd]. now rewrite Hs.
  - rewrite run_loop_succ. pose proof (run_turn_answers s Hh) as Hturn.
    destruct (run_turn env s) as [[[|r]|e] s1]; cbn in *; auto.
Qed.

Lemma run_answers (userMessage : string) (s : AgentState X) :
  tool_messages_answer (conversationHistory (self s)) ->
  tool_messages_answer (conversationHistory (self (snd (run env userMessage s)))).
Proof.
  intros Hh. rewrite run_unfold. apply run_loop_answers. cbn.
  apply answer_app_other; [assumption|discriminate].
Qed.

(** What every reachable agent keeps: its configuration, the system message
    at the head of its history, and the answering of tool messages. *)
Lemma reachable_invariant (a0 a : BaseAgent X) :
  conversationHistory a0 = [system_message (systemPrompt (config a0))] ->
  reachable env a0 a ->
  config a = config a0
  /\ conversationHistory a !! 0%nat = Some (system_message (systemPrompt (config a0)))
  /\ tool_messages_answer (conversationHistory a).
Proof.
  intros Hnew Hreach.
  induction Hreach as [|a w q userMessage _ (Hc & Hhead & Hans)
                        |a _ (Hc & Hhead & Hans)
                        |a ctx _ (Hc & Hhead & Hans)
                        |a x _ (Hc & Hhead & Hans)].
  - rewrite Hnew. repeat split.
    intros i m Hi Hrole. destruct i; cbn in Hi; [|discriminate].
    injection Hi as <-. discriminate.
  - destruct (run_returns env userMessage {| self := a; world := w; queries := q |})
      as (r & s' & Hrun & _ & [suffix Hsuf] & Hc' & _).
    pose proof (run_answers userMessage {| self := a; world := w; queries := q |} Hans)
      as Hans'.
    rewrite Hrun in *. cbn in *. split; [congruence|]. split; [|assumption].
    rewrite Hsuf. now apply lookup_app_l_Some.
  - cbn. rewrite Hc. repeat split.
    intros i m Hi Hrole. destruct i; cbn in Hi; [|discriminate].
    injection Hi as <-. discriminate.
  - cbn. repeat split; assumption.
  - cbn. repeat split; assumption.
Qed.

End History.

(** C7. In the conversation history of an agent reached from a freshly
    constructed one by any sequence of [run], [reset] and [setContext] calls
    (and of assignments of a subclass to its own fields), under any
    behaviour of the model and of the handlers: every message of role
    [tool] carries the id of a tool call of an assistant message that stands
    before it; the first message is the system message, so that no tool
    message comes first or before the first assistant message. Messages are
    not changed once inserted: [run] only appends to the history it finds,
    and [reset] replaces the history by the system message alone. *)
Theorem tool_messages_follow_their_calls {X : Type} (env : Env) (a0 a : BaseAgent X) :
  conversationHistory a0 = [system_message (systemPrompt (config a0))] ->
  reachable env a0 a ->
  tool_messages_answer (conversationHistory a)
  /\ conversationHistory a !! 0%nat = Some (system_message (systemPrompt (config a0)))
  /\ (forall i m, conversationHistory a !! i = Some m -> role m = tool ->
        exists j first, (j < i)%nat /\ conversationHistory a !! j = Some first
                        /\ role first = assistant)
  /\ (forall w q userMessage,
        exists suffix,
          conversationHistory
            (self (snd (run env userMessage {| self := a; world := w; queries := q |})))
          = conversationHistory a ++ user_message userMessage :: suffix)
  /\ conversationHistory (reset a) = [system_message (systemPrompt (config a0))].
Proof.
  intros Hnew Hreach.
  destruct (reachable_invariant env a0 a Hnew Hreach) as (Hc & Hhead & Hans).
  split; [assumption|]. split; [assumption|]. split.
  { intros i m Hi Hrole.
    destruct (Hans i m Hi Hrole) as (j & first & _ & Hlt & Hj & Hfirst & _).
    eauto. }
  split.
  { intros w q userMessage.
    destruct (run_returns env userMessage {| self := a; world := w; queries := q |})
      as (r & s' & Hrun & _ & Hsuf & _).
    now rewrite Hrun. }
  cbn. now rewrite Hc.
Qed.

(** An agent with the tool [ping] run once against a model that asks for
    [ping] and for an unknown tool, and then answers. *)
Lemma tool_messages_follow_their_calls_witness :
  let a := self (snd (run Fixtures.mixed_env "ping twice" Fixtures.ping_state)) in
  conversationHistory Fixtures.ping_agent
  = [system_message (systemPrompt (config Fixtures.ping_agent))]
  /\ reachable Fixtures.mixed_env Fixtures.ping_agent a
  /\ List.map role (conversationHistory a)
     = [system; user; assistant; tool; tool; assistant]
  /\ tool_messages_answer (conversationHistory a).
Proof.
  split; [reflexivity|]. split; [apply reach_run, reach_new|].
  split; [vm_compute; reflexivity|].
  apply (tool_messages_follow_their_calls Fixtures.mixed_env Fixtures.ping_agent).
  - reflexivity.
  - apply reach_run, reach_new.
Defined.

(* ===================================================================== *)
(** * C5: the default analysis *)
(* ===================================================================== *)

Lemma substring0_nonempty (n : nat) (text : string) :
  text <> "" -> JS.substring0 (S n) text <> "".
Proof. destruct text as [|c r]; [congruence|]. intros _. cbn. discriminate. Qed.

Lemma or_else_nonempty (x d : string) : x <> "" -> JS.or_else x d = x.
Proof.
  intros Hx. unfold JS.or_else. destruct (String.eqb_spec x ""); [contradiction|reflexivity].
Qed.

Lemma analyzeMeeting_returns (env : Env) (event : GraphCalendarEvent) (w : World) :
  exists a w', LLMService.analyzeMeeting env event w = (Ret a, w').
Proof.
  unfold LLMService.analyzeMeeting, try_catch, bind, lift_res.
  destruct (LLMService.chatCompletion env _ w) as [[reply|e] w1]; [|cbn; eauto].
  destruct (JSON_parse_analysis env _) as [a|e]; [|cbn; eauto].
  destruct (existsb _ _); cbn; eauto.
Qed.

Lemma analyze_loop_returns (cap : AnalysisCapability) (agent : string) (total : nat)
    (ms : list GraphCalendarEvent) :
  forall (analyzed : nat) (hs : HandlerState AnalysisFields),
    exists n hs', AnalysisAgent.analyze_loop cap agent total ms analyzed hs = (Ret n, hs').
Proof.
  induction ms as [|m rest IH]; intros analyzed hs; cbn [AnalysisAgent.analyze_loop].
  - unfold ret. eauto.
  - destruct (isCancelled m); [apply IH|].
    unfold bind at 1.
    match goal with
    | |- context [try_catch ?body ?handler hs] =>
        assert (Htry : exists n hs1, try_catch body handler hs = (Ret n, hs1))
    end.
    { unfold try_catch, bind, h_emit, modify, in_world, ret, AnalysisAgent.results_set,
        LLMService.console_error. cbn.
      destruct (cap_analyzeMeeting cap m _) as [[a|e] w1]; cbn; eauto. }
    destruct Htry as (n & hs1 & ->). apply IH.
Qed.

(** C5, as amended. When the analysis of a record fails, because the
    request to the chat endpoint throws or because the reply does not
    parse, [analyzeMeeting] returns the default analysis and throws
    nothing: the category is [other], the action items and the key topics
    are empty, and the summary is the first 100 characters of the record's
    text when that text is not empty, and [No description available] when
    it is empty. In every case [analyzeMeeting] returns an analysis, and the
    loop of [analyze_all_meetings] over a batch returns its count. *)
Theorem analyzeMeeting_failure_gives_default (env : Env) (event : GraphCalendarEvent)
    (w : World) :
  analysis_fails env event w ->
  (exists w',
     LLMService.analyzeMeeting env event w = (Ret (LLMService.default_analysis event), w'))
  /\ category (LLMService.default_analysis event) = "other"
  /\ actionItems (LLMService.default_analysis event) = []
  /\ keyTopics (LLMService.default_analysis event) = []
  /\ (bodyPreview event <> "" ->
      summary (LLMService.default_analysis event)
      = JS.substring0 100 (bodyPreview event))
  /\ (bodyPreview event = "" ->
      summary (LLMService.default_analysis event) = "No description available")
  /\ (forall event' w0, exists a w', LLMService.analyzeMeeting env event' w0 = (Ret a, w'))
  /\ (forall agent total ms analyzed hs,
        exists n hs',
          AnalysisAgent.analyze_loop (llmService env) agent total ms analyzed hs
          = (Ret n, hs')).
Proof.
  intros Hfail. split; [|split; [|split; [|split; [|split; [|split; [|split]]]]]];
    try reflexivity.
  - unfold analysis_fails in Hfail.
    unfold LLMService.analyzeMeeting, try_catch, bind, lift_res.
    destruct (LLMService.chatCompletion env _ w) as [[reply|e] w1]; cbn in *.
    + destruct Hfail as [e ->]. cbn. eauto.
    + eauto.
  - intros Hbody. cbn. apply or_else_nonempty. now apply substring0_nonempty.
  - intros Hbody. cbn. now rewrite Hbody.
  - intros. apply analyzeMeeting_returns.
  - intros. apply analyze_loop_returns.
Qed.

(** The chat endpoint is down while the stand-up is analysed. *)
Lemma analyzeMeeting_failure_gives_default_witness :
  analysis_fails Fixtures.insisting_env Fixtures.standup Fixtures.world0
  /\ (exists w',
        LLMService.analyzeMeeting Fixtures.insisting_env Fixtures.standup Fixtures.world0
        = (Ret {| summary := "Daily sync of the team"; category := "other";
                  actionItems := []; keyTopics := [] |}, w')).
Proof.
  split; [exact I|].
  apply (analyzeMeeting_failure_gives_default Fixtures.insisting_env Fixtures.standup
           Fixtures.world0 I).
Defined.

(** C5 as the specification words it fails on a record without text: the
    analysis fails, and the summary of the default is not the (empty)
    truncated text. *)
Lemma default_summary_of_empty_text_differs :
  analysis_fails Fixtures.insisting_env Fixtures.placeholder Fixtures.world0
  /\ exists a w',
       LLMService.analyzeMeeting Fixtures.insisting_env Fixtures.placeholder
         Fixtures.world0 = (Ret a, w')
       /\ JS.substring0 100 (bodyPreview Fixtures.placeholder) = ""
       /\ summary a = "No description available"
       /\ summary a <> JS.substring0 100 (bodyPreview Fixtures.placeholder).
Proof.
  split; [exact I|]. eexists _, _. split; [reflexivity|].
  split; [reflexivity|]. split; [reflexivity|]. cbn. discriminate.
Qed.

(* ===================================================================== *)
(** * C8: the routing of [runCommand] *)
(* ===================================================================== *)

Section Routing.
Variable env : Env.

Lemma run_handles {X : Type} (command : string) (before : BaseAgent X) (s s' : OrchState)
    (ran : Res AgentResponse * AgentState X) :
  run env command {| self := before; world := o_world s; queries := o_queries s |} = ran ->
  o_world s' = world (snd ran) ->
  o_queries s' = queries (snd ran) ->
  handled_by env command before s (fst ran) (self (snd ran)) s'.
Proof.
  intros <- Hw Hq. unfold handled_by. cbv zeta.
  split; [reflexivity|]. split; [reflexivity|]. split; [assumption|].
  split; [assumption|].
  destruct (run_returns env command
              {| self := before; world := o_world s; queries := o_queries s |})
    as (r & s1 & Hrun & _ & [suffix Hsuf] & _).
  rewrite Hrun. exists r, suffix. split; [reflexivity|]. exact Hsuf.
Qed.

(** [this.calendarAgent.run(command)] alone. *)
Lemma default_command_handled (command : string) (s : OrchState) :
  let out := Orchestrator.on_calendar (run env command) s in
  handled_by env command (calendarAgent (orch s)) s
    (fst out) (calendarAgent (orch (snd out))) (snd out)
  /\ analysisAgent (orch (snd out)) = analysisAgent (orch s)
  /\ reportAgent (orch (snd out)) = reportAgent (orch s)
  /\ sharedContext (orch (snd out)) = sharedContext (orch s).
Proof.
  cbv zeta. unfold Orchestrator.on_calendar.
  remember (run env command {| self := calendarAgent (orch s); world := o_world s;
                               queries := o_queries s |}) as ran eqn:Hran.
  symmetry in Hran. destruct ran as [r s1].
  cbn [fst snd orch o_world o_queries Orchestrator.set_calendarAgent calendarAgent
       analysisAgent reportAgent sharedContext].
  split; [|repeat split].
  apply (run_handles command (calendarAgent (orch s)) s _ (r, s1) Hran); reflexivity.
Qed.

(** The branch of the calendar keywords. *)
Lemma calendar_command_handled (command : string) (s : OrchState) :
  let out := Orchestrator.calendar_command env command s in
  handled_by env command (calendarAgent (orch s)) s
    (fst out) (calendarAgent (orch (snd out))) (snd out)
  /\ analysisAgent (orch (snd out)) = analysisAgent (orch s)
  /\ reportAgent (orch (snd out)) = reportAgent (orch s)
  /\ sharedContext (orch (snd out)) = context (calendarAgent (orch (snd out))).
Proof.
  cbv zeta. unfold Orchestrator.calendar_command, Orchestrator.on_calendar, bind, modify, ret.
  remember (run env command {| self := calendarAgent (orch s); world := o_world s;
                               queries := o_queries s |}) as ran eqn:Hran.
  symmetry in Hran. destruct ran as [r s1].
  pose proof (run_handles command (calendarAgent (orch s)) s
                {| orch := orch s; o_world := world s1; o_queries := queries s1 |}
                (r, s1) Hran eq_refl eq_refl) as Hh.
  destruct r as [r|e];
    cbn [fst snd orch o_world o_queries Orchestrator.set_calendarAgent
         Orchestrator.set_sharedContext Orchestrator.with_orch calendarAgent
         analysisAgent reportAgent sharedContext] in *;
    (split; [exact Hh|repeat split]).
  destruct Hh as (_ & _ & _ & _ & r0 & suffix & Habs & _). discriminate Habs.
Qed.

(** The branch of the analysis keywords. *)
Lemma analysis_command_handled (command : string) (s : OrchState) :
  let out := Orchestrator.analysis_command env command s in
  let shared := sharedContext (orch s) in
  handled_by env command (setContext shared (analysisAgent (orch s))) s
    (fst out) (analysisAgent (orch (snd out))) (snd out)
  /\ calendarAgent (orch (snd out)) = calendarAgent (orch s)
  /\ reportAgent (orch (snd out)) = reportAgent (orch s)
  /\ sharedContext (orch (snd out))
     = <["executiveSummary" :=
           VString (AnalysisAgent.getExecutiveSummary (analysisAgent (orch (snd out))))]>
         (<["analysisResults" :=
              VAnalysisResults
                (AnalysisAgent.getAnalysisResults (analysisAgent (orch (snd out))))]>
            shared).
Proof.
  cbv zeta. unfold Orchestrator.analysis_command, Orchestrator.on_analysis, bind, modify,
    gets, ret.
  cbn [fst snd orch o_world o_queries self world queries with_self
       Orchestrator.set_analysisAgent analysisAgent].
  remember (run env command
              {| self := setContext (sharedContext (orch s)) (analysisAgent (orch s));
                 world := o_world s; queries := o_queries s |}) as ran eqn:Hran.
  symmetry in Hran. destruct ran as [r s1].
  pose proof (run_handles command
                (setContext (sharedContext (orch s)) (analysisAgent (orch s))) s
                {| orch := orch s; o_world := world s1; o_queries := queries s1 |}
                (r, s1) Hran eq_refl eq_refl) as Hh.
  destruct r as [r|e];
    cbn [fst snd orch o_world o_queries Orchestrator.set_analysisAgent
         Orchestrator.set_sharedContext Orchestrator.with_orch calendarAgent
         analysisAgent reportAgent sharedContext] in *;
    (split; [exact Hh|repeat split]).
  destruct Hh as (_ & _ & _ & _ & r0 & suffix & Habs & _). discriminate Habs.
Qed.

(** The branch of the report keywords. *)
Lemma report_command_handled (command : string) (s : OrchState) :
  let out := Orchestrator.report_command env command s in
  handled_by env command (setContext (sharedContext (orch s)) (reportAgent (orch s))) s
    (fst out) (reportAgent (orch (snd out))) (snd out)
  /\ calendarAgent (orch (snd out)) = calendarAgent (orch s)
  /\ analysisAgent (orch (snd out)) = analysisAgent (orch s)
  /\ sharedContext (orch (snd out)) = sharedContext (orch s).
Proof.
  cbv zeta. unfold Orchestrator.report_command, Orchestrator.on_report, bind, modify, gets.
  cbn [fst snd orch o_world o_queries self world queries with_self
       Orchestrator.set_reportAgent reportAgent].
  remember (run env command
              {| self := setContext (sharedContext (orch s)) (reportAgent (orch s));
                 world := o_world s; queries := o_queries s |}) as ran eqn:Hran.
  symmetry in Hran. destruct ran as [r s1].
  cbn [fst snd orch o_world o_queries Orchestrator.set_reportAgent calendarAgent
       analysisAgent reportAgent sharedContext].
  split; [|repeat split].
  apply (run_handles command _ s _ (r, s1) Hran); reflexivity.
Qed.

End Routing.

(** C8. [runCommand] lower-cases the command and looks in it for the
    calendar keywords [fetch], [calendar], [meetings], then for the analysis
    keywords [analyz], [summar], [action item], [categor], then for the
    report keywords [report], [excel], [export], [download]; the first list
    with a keyword in the command decides the agent, and a command without
    any keyword goes to the calendar agent. In each case exactly one agent
    runs the command: the answer of [runCommand] is the response that run
    returned, the run recorded the command in the conversation of that
    agent, the world is the one that run leaves, and the two other agents
    are as before. The calendar branch runs the calendar agent and copies
    its context to the shared context; the analysis branch hands the shared
    context to the analysis agent, runs it and writes its results and its
    summary to the shared context; the report branch hands the shared
    context to the report agent and runs it; the default runs the calendar
    agent and leaves the shared context. [please fetch my meetings for
    March] is run by the calendar agent and [generate the excel export] by
    the report agent. *)
Theorem runCommand_routes_by_keyword (env : Env) (command : string) (s : OrchState) :
  let lower := JS.toLowerCase command in
  let has := fun keyword => JS.includes keyword lower in
  let calendar_words := has "fetch" || has "calendar" || has "meetings" in
  let analysis_words :=
    has "analyz" || has "summar" || has "action item" || has "categor" in
  let report_words := has "report" || has "excel" || has "export" || has "download" in
  let shared := sharedContext (orch s) in
  let out := Orchestrator.runCommand env command s in
  let after := orch (snd out) in
  (calendar_words = true ->
   handled_by env command (calendarAgent (orch s)) s
     (fst out) (calendarAgent after) (snd out)
   /\ analysisAgent after = analysisAgent (orch s)
   /\ reportAgent after = reportAgent (orch s)
   /\ sharedContext after = context (calendarAgent after))
  /\ (calendar_words = false -> analysis_words = true ->
      handled_by env command (setContext shared (analysisAgent (orch s))) s
        (fst out) (analysisAgent after) (snd out)
      /\ calendarAgent after = calendarAgent (orch s)
      /\ reportAgent after = reportAgent (orch s)
      /\ sharedContext after
         = <["executiveSummary" :=
               VString (AnalysisAgent.getExecutiveSummary (analysisAgent after))]>
             (<["analysisResults" :=
                  VAnalysisResults (AnalysisAgent.getAnalysisResults (analysisAgent after))]>
                shared))
  /\ (calendar_words = false -> analysis_words = false -> report_words = true ->
      handled_by env command (setContext shared (reportAgent (orch s))) s
        (fst out) (reportAgent after) (snd out)
      /\ calendarAgent after = calendarAgent (orch s)
      /\ analysisAgent after = analysisAgent (orch s)
      /\ sharedContext after = shared)
  /\ (calendar_words = false -> analysis_words = false -> report_words = false ->
      handled_by env command (calendarAgent (orch s)) s
        (fst out) (calendarAgent after) (snd out)
      /\ analysisAgent after = analysisAgent (orch s)
      /\ reportAgent after = reportAgent (orch s)
      /\ sharedContext after = shared)
  /\ (let fetched :=
        Orchestrator.runCommand env "please fetch my meetings for March" s in
      handled_by env "please fetch my meetings for March" (calendarAgent (orch s)) s
        (fst fetched) (calendarAgent (orch (snd fetched))) (snd fetched)
      /\ analysisAgent (orch (snd fetched)) = analysisAgent (orch s)
      /\ reportAgent (orch (snd fetched)) = reportAgent (orch s))
  /\ (let exported := Orchestrator.runCommand env "generate the excel export" s in
      handled_by env "generate the excel export"
        (setContext shared (reportAgent (orch s))) s
        (fst exported) (reportAgent (orch (snd exported))) (snd exported)
      /\ calendarAgent (orch (snd exported)) = calendarAgent (orch s)
      /\ analysisAgent (orch (snd exported)) = analysisAgent (orch s)).
Proof.
  cbv beta zeta.
  change (JS.includes "fetch" (JS.toLowerCase command)
          || JS.includes "calendar" (JS.toLowerCase command)
          || JS.includes "meetings" (JS.toLowerCase command))
    with (Orchestrator.mentions_calendar (JS.toLowerCase command)).
  change (JS.includes "analyz" (JS.toLowerCase command)
          || JS.includes "summar" (JS.toLowerCase command)
          || JS.includes "action item" (JS.toLowerCase command)
          || JS.includes "categor" (JS.toLowerCase command))
    with (Orchestrator.mentions_analysis (JS.toLowerCase command)).
  change (JS.includes "report" (JS.toLowerCase command)
          || JS.includes "excel" (JS.toLowerCase command)
          || JS.includes "export" (JS.toLowerCase command)
          || JS.includes "download" (JS.toLowerCase command))
    with (Orchestrator.mentions_report (JS.toLowerCase command)).
  split.
  { intros Hc. unfold Orchestrator.runCommand. cbv zeta. rewrite Hc.
    apply calendar_command_handled. }
  split.
  { intros Hc Ha. unfold Orchestrator.runCommand. cbv zeta. rewrite Hc, Ha.
    apply analysis_command_handled. }
  split.
  { intros Hc Ha Hr. unfold Orchestrator.runCommand. cbv zeta. rewrite Hc, Ha, Hr.
    apply report_command_handled. }
  split.
  { intros Hc Ha Hr. unfold Orchestrator.runCommand. cbv zeta. rewrite Hc, Ha, Hr.
    apply default_command_handled. }
  split.
  { change (Orchestrator.runCommand env "please fetch my meetings for March" s)
      with (Orchestrator.calendar_command env "please fetch my meetings for March" s).
    destruct (calendar_command_handled env "please fetch my meetings for March" s)
      as (H1 & H2 & H3 & _).
    split; [exact H1|]. split; assumption. }
  { change (Orchestrator.runCommand env "generate the excel export" s)
      with (Orchestrator.report_command env "generate the excel export" s).
    destruct (report_command_handled env "generate the excel export" s)
      as (H1 & H2 & H3 & _).
    split; [exact H1|]. split; assumption. }
Qed.

(** [Summarize my week] has an analysis keyword and no calendar keyword:
    the analysis agent of the office runs it, on the shared context. *)
Lemma runCommand_routes_by_keyword_witness :
  let s := Office.office in
  let out := Orchestrator.runCommand Office.office_env "Summarize my week" s in
  handled_by Office.office_env "Summarize my week"
    (setContext (sharedContext (orch s)) (analysisAgent (orch s))) s
    (fst out) (analysisAgent (orch (snd out))) (snd out)
  /\ calendarAgent (orch (snd out)) = calendarAgent (orch s)
  /\ reportAgent (orch (snd out)) = reportAgent (orch s).
Proof.
  pose proof (runCommand_routes_by_keyword Office.office_env "Summarize my week"
                Office.office) as H.
  cbv beta zeta in H. destruct H as (_ & Hanalysis & _).
  destruct (Hanalysis eq_refl eq_refl) as (H1 & H2 & H3 & _).
  cbv zeta. split; [exact H1|]. split; assumption.
Defined.

(* ===================================================================== *)
(** * C10: the rows of the report *)
(* ===================================================================== *)

Arguments run : simpl never.

Section ReportRows.
Variable env : Env.

Lemma filter_filter {A} (p q : A -> bool) (xs : list A) :
  List.filter q (List.filter p xs) = List.filter (fun x => p x && q x) xs.
Proof.
  induction xs as [|x r IH]; cbn; [reflexivity|].
  destruct (p x); cbn; [destruct (q x)|]; now rewrite IH.
Qed.

Lemma transform_unfold (evs : list GraphCalendarEvent) :
  transformEventsToReportRows env evs
  = map_res (toReportRow env) (List.filter (reported env) evs).
Proof. unfold transformEventsToReportRows. now rewrite filter_filter. Qed.

Lemma map_res_Ret {A B} (f : A -> Res B) (xs : list A) (ys : list B) :
  map_res f xs = Ret ys -> Forall2 (fun x y => f x = Ret y) xs ys.
Proof.
  revert ys. induction xs as [|x r IH]; intros ys H; cbn in H.
  - injection H as <-. constructor.
  - destruct (f x) as [y|e] eqn:Hx; [|discriminate].
    destruct (map_res f r) as [ys'|e]; [|discriminate].
    injection H as <-. constructor; auto.
Qed.

Lemma map_res_total {A B} (f : A -> Res B) (xs : list A) :
  (forall x, In x xs -> exists y, f x = Ret y) -> exists ys, map_res f xs = Ret ys.
Proof.
  induction xs as [|x r IH]; intros H; cbn; [eauto|].
  destruct (H x (or_introl eq_refl)) as [y ->].
  destruct IH as [ys ->]; [intros; apply H; now right|]. eauto.
Qed.

Lemma toReportRow_returns (event : GraphCalendarEvent) :
  Date_parse env (dateTime (start event)) <> None ->
  exists row, toReportRow env event = Ret row.
Proof.
  intros Hd. unfold toReportRow, formatDate, JsDates.isoDay, JsDates.toISOString.
  destruct (Date_parse env (dateTime (start event))); [eauto|contradiction].
Qed.

Lemma transform_of_unreported (evs : list GraphCalendarEvent) :
  (forall ev, In ev evs -> reported env ev = false) ->
  transformEventsToReportRows env evs = Ret [].
Proof.
  intros H. rewrite transform_unfold.
  replace (List.filter (reported env) evs) with (@nil GraphCalendarEvent); [reflexivity|].
  induction evs as [|ev r IH]; cbn; [reflexivity|].
  rewrite (H ev (or_introl eq_refl)). apply IH. intros; apply H; now right.
Qed.

(** The report tool on meetings none of which is reported: a workbook whose
    sheet holds the header line alone. *)
Lemma generate_excel_report_without_rows (agent : string) (members : list (string * Json))
    (hs : HandlerState ReportFields) (m : GraphCalendarEvent)
    (ms : list GraphCalendarEvent) :
  context_meetings (h_context hs) = m :: ms ->
  (forall ev, In ev (m :: ms) -> reported env ev = false) ->
  ReportAgent.context_date "startDate" (h_context hs) <> Some None ->
  ReportAgent.context_date "endDate" (h_context hs) <> Some None ->
  exists result headers wb hs',
    ReportAgent.generate_excel_report env agent (JObj members) hs = (Ret (JObj result), hs')
    /\ JSON.member "success" result = JBool true
    /\ JSON.member "rowCount" result = JNum 0
    /\ files (h_world hs') = files (h_world hs) ++ [wb]
    /\ wb_sheets wb !! 0%nat = Some ("Meetings", [headers]).
Proof.
  intros Hms Hnone Hstart Hend.
  unfold ReportAgent.generate_excel_report, bind, gets, JsValue.prop, ret, lift_res.
  rewrite Hms. unfold h_emit, modify. cbn [fst snd h_context h_set_world].
  rewrite (transform_of_unreported _ Hnone).
  cbn [imap List.map List.length h_set_fields h_context h_world h_fields h_set_world].
  unfold generateFilename, formatDateStr, JsDates.isoDay, JsDates.toISOString.
  destruct (ReportAgent.context_date "startDate" (h_context hs)) as [[a|]|];
    try contradiction;
    destruct (ReportAgent.context_date "endDate" (h_context hs)) as [[b|]|];
    try contradiction.
  all: unfold default; cbn [from_option Datatypes.id].
  all: match goal with
       | |- context [if ?c then [("Meetings", _); _] else _] => destruct c
       end.
  all: eexists _, _, _, _; repeat split; reflexivity.
Qed.

End ReportRows.

Section NoDataResult.
Variable env : Env.

Lemma on_report_modify (f : AgentState ReportFields -> AgentState ReportFields) (s : OrchState) :
  Orchestrator.on_report (modify f) s
  = (Ret tt,
     let s' := f {| self := reportAgent (orch s); world := o_world s;
                    queries := o_queries s |} in
     {| orch := Orchestrator.set_reportAgent (self s') (orch s);
        o_world := world s'; o_queries := queries s' |}).
Proof. reflexivity. Qed.

Lemma report_stage_result (ms : list GraphCalendarEvent) (ia ies : bool)
    (s s' : OrchState) (r : ReportResult) :
  Orchestrator.report_stage env ms ia ies s = (Ret r, s') -> rr_success r = true.
Proof.
  unfold Orchestrator.report_stage, bind, Orchestrator.emit, gets, throw, ret.
  unfold modify at 1. cbn [fst snd]. rewrite on_report_modify.
  match goal with
  | |- context [Orchestrator.on_report (run env ?i) ?st] =>
      destruct (Orchestrator.on_report (run env i) st) as [[rr|e] s3]
  end; [|discriminate].
  destruct (success rr); cbn; [|discriminate].
  intros H. injection H as <- _. reflexivity.
Qed.

Lemma generateReport_with_meetings (options : ReportGenerationOptions)
    (s s1 : OrchState) (r1 : AgentResponse) :
  Orchestrator.acquisition_stage env options s = (Ret r1, s1) ->
  success r1 = true ->
  CalendarAgent.getMeetings (calendarAgent (orch s1)) <> [] ->
  exists r s',
    Orchestrator.generateReport env options s = (Ret r, s')
    /\ (rr_success r = true \/ rr_message r = "Failed to generate report").
Proof.
  intros Hacq Hok Hms.
  unfold Orchestrator.generateReport, try_catch, bind at 1. rewrite Hacq, Hok.
  cbn [negb]. unfold bind at 1, modify at 1. unfold bind at 1, gets at 1.
  cbn [orch Orchestrator.with_orch Orchestrator.set_sharedContext calendarAgent].
  destruct (CalendarAgent.getMeetings (calendarAgent (orch s1))) as [|m ms];
    [contradiction|].
  unfold bind at 1, Orchestrator.emit at 1, modify at 1.
  match goal with
  | |- context [bind (Orchestrator.analysis_stage env ?a ?b) ?k ?st] =>
      destruct (bind (Orchestrator.analysis_stage env a b) k st) as [[r|e] s2] eqn:Hrest
  end.
  - exists r, s2. split; [reflexivity|]. left.
    unfold bind in Hrest.
    destruct (Orchestrator.analysis_stage env _ _ _) as [[[]|e] s3]; [|discriminate].
    eapply report_stage_result. eassumption.
  - unfold Orchestrator.emit, modify, ret, bind. cbn. eexists _, _. split; [reflexivity|].
    now right.
Qed.
End NoDataResult.

(** C10, as amended. [transformEventsToReportRows] keeps the events that
    are not cancelled and whose start and end are not the same instant (a
    time that is no date equals no instant). If the start of every kept
    event is a date, it returns exactly one row per kept event, in the order
    of the input; whenever it returns, its rows are those. Cancelled and
    zero-duration events never give a row: when no event is kept, the
    report tool writes a workbook whose sheet holds the header line alone
    and reports zero rows, and [generateReport], given a calendar agent
    that holds meetings, does not return the no-data result. *)
Theorem report_rows_are_the_held_meetings (env : Env)
    (evs : list GraphCalendarEvent) :
  ((forall ev, In ev evs -> reported env ev = true ->
               Date_parse env (dateTime (start ev)) <> None) ->
   exists rows, transformEventsToReportRows env evs = Ret rows)
  /\ (forall rows,
        transformEventsToReportRows env evs = Ret rows ->
        Forall2 (fun ev row => toReportRow env ev = Ret row)
                (List.filter (reported env) evs) rows
        /\ List.length rows = List.length (List.filter (reported env) evs))
  /\ (forall ev, reported env ev = true <->
                 isCancelled ev = false /\ hasZeroDuration env ev = false)
  /\ (forall agent members (hs : HandlerState ReportFields) m ms,
        evs = m :: ms ->
        context_meetings (h_context hs) = evs ->
        (forall ev, In ev evs -> reported env ev = false) ->
        ReportAgent.context_date "startDate" (h_context hs) <> Some None ->
        ReportAgent.context_date "endDate" (h_context hs) <> Some None ->
        exists result headers wb hs',
          ReportAgent.generate_excel_report env agent (JObj members) hs
          = (Ret (JObj result), hs')
          /\ JSON.member "success" result = JBool true
          /\ JSON.member "rowCount" result = JNum 0
          /\ files (h_world hs') = files (h_world hs) ++ [wb]
          /\ wb_sheets wb !! 0%nat = Some ("Meetings", [headers]))
  /\ (forall options s s1 r1,
        Orchestrator.acquisition_stage env options s = (Ret r1, s1) ->
        success r1 = true ->
        CalendarAgent.getMeetings (calendarAgent (orch s1)) = evs ->
        evs <> [] ->
        exists r s',
          Orchestrator.generateReport env options s = (Ret r, s')
          /\ r <> Orchestrator.no_meetings_result).
Proof.
  split; [|split; [|split; [|split]]].
  - intros Hdates. rewrite transform_unfold. apply map_res_total.
    intros ev Hin. apply filter_In in Hin. destruct Hin as [Hin Hrep].
    apply toReportRow_returns. now apply Hdates.
  - intros rows Hrows. rewrite transform_unfold in Hrows.
    apply map_res_Ret in Hrows. split; [assumption|].
    symmetry. eapply Forall2_length. eassumption.
  - intros ev. unfold reported. rewrite andb_true_iff, !negb_true_iff. tauto.
  - intros agent members hs m ms -> Hctx Hnone Hstart Hend.
    eapply generate_excel_report_without_rows; eassumption.
  - intros options s s1 r1 Hacq Hok Hms Hne.
    destruct (generateReport_with_meetings env options s s1 r1 Hacq Hok)
      as (r & s' & Hrun & Hr); [congruence|].
    exists r, s'. split; [assumption|].
    intros ->. destruct Hr as [Hr|Hr]; discriminate Hr.
Qed.

(** An event whose start is no date is neither cancelled nor of zero
    duration, and [transformEventsToReportRows] throws on it. *)
Lemma undated_event_gives_no_row :
  isCancelled Fixtures.undated = false
  /\ hasZeroDuration Fixtures.insisting_env Fixtures.undated = false
  /\ transformEventsToReportRows Fixtures.insisting_env [Fixtures.undated]
     = Exn (JsError "Invalid time value").
Proof. repeat split. Qed.

(** Of a stand-up, a placeholder of zero duration and a cancelled review,
    the stand-up alone gives a row. *)
Lemma report_rows_are_the_held_meetings_witness :
  exists rows,
    transformEventsToReportRows Fixtures.insisting_env
      [Fixtures.standup; Fixtures.placeholder; Fixtures.called_off] = Ret rows
    /\ List.length rows = 1%nat
    /\ Forall2 (fun ev row => toReportRow Fixtures.insisting_env ev = Ret row)
               [Fixtures.standup] rows.
Proof.
  destruct (report_rows_are_the_held_meetings Fixtures.insisting_env
              [Fixtures.standup; Fixtures.placeholder; Fixtures.called_off])
    as (Hreturns & Hrows & _).
  destruct Hreturns as [rows Hrun].
  - intros ev Hin _. cbn in Hin.
    destruct Hin as [<-|[<-|[<-|[]]]]; vm_compute; discriminate.
  - exists rows. split; [assumption|].
    destruct (Hrows rows Hrun) as [Hall Hlen]. split; assumption.
Defined.

(* ===================================================================== *)
(** * Invariants that [run] preserves *)
(* ===================================================================== *)

Arguments run_tool_call : simpl never.
Arguments run_turn : simpl never.

Section Preservation.
Context {X : Type}.
Variable env : Env.
Variable P : AgentContext -> X -> World -> Prop.
Variable handlers : gmap string (Handler X).

Hypothesis P_event : forall c x w e, P c x w -> P c x (log_event e w).
Hypothesis P_handler :
  forall tname handler agent args hs r hs',
    handlers !! tname = Some handler ->
    P (h_context hs) (h_fields hs) (h_world hs) ->
    handler agent args hs = (r, hs') ->
    P (h_context hs') (h_fields hs') (h_world hs').

Lemma run_tool_call_preserves (toolCall : ToolCall) (s : AgentState X) :
  holds P handlers s -> holds P handlers (snd (run_tool_call env toolCall s)).
Proof.
  intros [Hh HP].
  unfold run_tool_call, emit, push, executeTool, bind, try_catch, lift_res, modify, throw.
  cbn [fst snd].
  destruct (JSON_parse env (tc_arguments toolCall)) as [args|e]; cbn.
  - rewrite Hh.
    destruct (handlers !! tc_name toolCall) as [handler|] eqn:Hlook; cbn.
    + unfold run_handler. cbn.
      destruct (handler _ args _) as [r hs'] eqn:Hrun.
      assert (HP' : P (h_context hs') (h_fields hs') (h_world hs')).
      { eapply P_handler; [exact Hlook| |exact Hrun]. cbn. now apply P_event. }
      destruct r; unfold holds; cbn; (split; [assumption|]); auto.
    + unfold holds; cbn. split; [assumption|]. auto.
  - unfold holds; cbn. split; [assumption|]. auto.
Qed.

Lemma for_each_preserves (batch : list ToolCall) (s : AgentState X) :
  holds P handlers s -> holds P handlers (snd (for_each batch (run_tool_call env) s)).
Proof.
  revert s. induction batch as [|toolCall rest IH]; intros s Hs; cbn [for_each].
  - assumption.
  - unfold bind. pose proof (run_tool_call_preserves toolCall s Hs) as H1.
    destruct (run_tool_call_spec env toolCall s) as (s1 & Hrun & _).
    rewrite Hrun in *. cbn [snd] in *. now apply IH.
Qed.

Lemma run_turn_preserves (s : AgentState X) :
  holds P handlers s -> holds P handlers (snd (run_turn env s)).
Proof.
  intros Hs. pose proof Hs as [Hh HP].
  unfold run_turn, try_catch, bind, callLLM.
  destruct (model_endpoint env (queries s) (config (self s))
              (conversationHistory (self s))) as [reply|e]; cbn [fst snd].
  - unfold push at 1, modify at 1. cbn [fst snd assistant_message tool_calls].
    destruct (reply_tool_calls reply) as [[|toolCall rest]|].
    + unfold holds; cbn. split; auto.
    + pose proof (for_each_preserves (toolCall :: rest)
                    (with_self (push_message (assistant_message reply)) (count_query s)))
        as Hfor.
      destruct (for_each_tool_calls_spec env (toolCall :: rest)
                  (with_self (push_message (assistant_message reply)) (count_query s)))
        as (s1 & Hrun & _).
      rewrite Hrun in *. cbn [snd] in *. apply Hfor. split; assumption.
    + unfold holds; cbn. split; auto.
  - unfold holds; cbn. split; auto.
Qed.

Lemma run_loop_preserves (n : nat) (s : AgentState X) :
  holds P handlers s -> holds P handlers (snd (run_loop env n s)).
Proof.
  revert s. induction n as [|n IH]; intros s Hs.
  - destruct Hs. unfold holds; cbn. split; auto.
  - rewrite run_loop_succ. pose proof (run_turn_preserves s Hs) as Ht.
    destruct (run_turn env s) as [[[|r]|e] s1]; cbn [snd] in *; auto.
Qed.

Lemma run_preserves (userMessage : string) (s : AgentState X) :
  holds P handlers s -> holds P handlers (snd (run env userMessage s)).
Proof.
  intros [Hh HP]. rewrite run_unfold. apply run_loop_preserves.
  unfold holds; cbn. split; auto.
Qed.

End Preservation.

Section CalendarInvariant.
Variable env : Env.
Variable h0 : list (JsMap MeetingAnalysis).

Lemma fetchCalendarEvents_spec (msal : MsalInstance) (startDate endDate : JsDate)
    (targetUser : Json) (w : World) :
  heap (snd (CalendarAgent.fetchCalendarEvents env msal startDate endDate targetUser w))
  = heap w
  /\ (forall ms, fst (CalendarAgent.fetchCalendarEvents env msal startDate endDate targetUser w)
                 = Ret ms -> startDate <> None /\ endDate <> None).
Proof.
  unfold CalendarAgent.fetchCalendarEvents, CalendarAgent.getAccessToken, bind, lift_res,
    JsDates.toISOString.
  destruct (accounts msal); cbn; [split; [reflexivity|discriminate]|].
  destruct (acquire_token env (graphCalls w)); cbn; [|split; [reflexivity|discriminate]].
  destruct startDate, endDate; cbn; split; try reflexivity; try discriminate.
  intros; split; discriminate.
Qed.

Lemma prop_cases {S} (k : string) (args : Json) (s : S) :
  (exists v, JsValue.prop k args s = (Ret v, s))
  \/ (exists e, JsValue.prop k args s = (Exn e, s)).
Proof. destruct args; cbn; unfold ret, throw; eauto. Qed.

Lemma fetch_calendar_events_preserves (agent : string) (args : Json)
    (hs hs' : HandlerState CalendarFields) (r : Res Json) :
  calendar_invariant h0 (h_context hs) (h_fields hs) (h_world hs) ->
  CalendarAgent.fetch_calendar_events env agent args hs = (r, hs') ->
  calendar_invariant h0 (h_context hs') (h_fields hs') (h_world hs').
Proof.
  intros Hinv Hrun. unfold CalendarAgent.fetch_calendar_events, bind at 1, gets at 1 in Hrun.
  destruct (msalInstance (h_fields hs)) as [msal|];
    [|injection Hrun as <- <-; exact Hinv].
  unfold bind at 1 in Hrun.
  destruct (prop_cases "start_date" args hs) as [[v1 Hp]|[e Hp]]; rewrite Hp in Hrun;
    [|injection Hrun as <- <-; exact Hinv].
  unfold bind at 1 in Hrun.
  destruct (prop_cases "end_date" args hs) as [[v2 Hp2]|[e Hp2]]; rewrite Hp2 in Hrun;
    [|injection Hrun as <- <-; exact Hinv].
  unfold bind at 1 in Hrun.
  destruct (prop_cases "target_user" args hs) as [[v3 Hp3]|[e Hp3]]; rewrite Hp3 in Hrun;
    [|injection Hrun as <- <-; exact Hinv].
  unfold bind at 1, h_emit at 1, modify at 1 in Hrun.
  unfold bind at 1, in_world at 1 in Hrun. cbn [h_world h_set_world] in Hrun.
  match type of Hrun with
  | context [CalendarAgent.fetchCalendarEvents env msal ?a ?b ?c ?w] =>
      destruct (fetchCalendarEvents_spec msal a b c w) as [Hheap Hdates];
      destruct (CalendarAgent.fetchCalendarEvents env msal a b c w) as [[ms|e] w1]
  end; cbn [fst snd] in *.
  - destruct (Hdates ms eq_refl) as [Hs He].
    destruct Hinv as (Hh & _ & _ & _ & Hno).
    unfold bind, modify, h_context_set, lift_res, ret, JsDates.toISOString in Hrun.
    destruct (JsDates.newDate env v1) as [a|]; [|contradiction].
    destruct (Date_endOfDay env <$> JsDates.newDate env v2) as [b|]; [|contradiction].
    cbn in Hrun. injection Hrun as <- <-.
    unfold calendar_invariant, ReportAgent.context_date. cbn.
    rewrite Hheap. cbn. split; [assumption|].
    split; [right; now simplify_map_eq|].
    split; [simplify_map_eq; discriminate|].
    split; [simplify_map_eq; discriminate|].
    now simplify_map_eq.
  - injection Hrun as <- <-.
    destruct Hinv as (Hh & Hm & Hs & He & Hno). unfold calendar_invariant. cbn.
    rewrite Hheap. cbn. repeat split; assumption.
Qed.

Lemma toLowerCase_cases {S} (what : string) (j : Json) (s : S) :
  (exists v, JsValue.toLowerCase what j s = (Ret v, s))
  \/ (exists e, JsValue.toLowerCase what j s = (Exn e, s)).
Proof. destruct j; cbn; unfold ret, throw; eauto. Qed.

Lemma filter_meetings_preserves (agent : string) (args : Json)
    (hs hs' : HandlerState CalendarFields) (r : Res Json) :
  calendar_invariant h0 (h_context hs) (h_fields hs) (h_world hs) ->
  CalendarAgent.filter_meetings env agent args hs = (r, hs') ->
  calendar_invariant h0 (h_context hs') (h_fields hs') (h_world hs').
Proof.
  intros Hinv Hrun. unfold CalendarAgent.filter_meetings, bind at 1 in Hrun.
  destruct (prop_cases "filter_type" args hs) as [[v1 Hp]|[e Hp]]; rewrite Hp in Hrun;
    [|injection Hrun as <- <-; exact Hinv].
  unfold bind at 1 in Hrun.
  destruct (prop_cases "filter_value" args hs) as [[v2 Hp2]|[e Hp2]]; rewrite Hp2 in Hrun;
    [|injection Hrun as <- <-; exact Hinv].
  unfold bind at 1, gets at 1 in Hrun. unfold bind at 1 in Hrun.
  match type of Hrun with
  | context [match ?m hs with _ => _ end] =>
      assert (Hm : (exists l, m hs = (Ret l, hs)) \/ (exists e, m hs = (Exn e, hs)))
  end.
  { repeat match goal with
           | |- context [if ?c then _ else _] => destruct c
           end;
      try destruct (meetings (h_fields hs));
      unfold bind;
      try (destruct (toLowerCase_cases "filterValue" v2 hs) as [[v ->]|[e ->]]);
      unfold ret; eauto. }
  destruct Hm as [[l Hm]|[e Hm]]; rewrite Hm in Hrun;
    [|injection Hrun as <- <-; exact Hinv].
  unfold bind, modify, h_context_set, ret in Hrun. cbn in Hrun.
  injection Hrun as <- <-.
  destruct Hinv as (Hh & _ & Hs & He & Hno).
  unfold calendar_invariant, ReportAgent.context_date in *. cbn.
  split; [assumption|]. split; [right; now simplify_map_eq|].
  split; [simplify_map_eq; assumption|].
  split; [simplify_map_eq; assumption|].
  now simplify_map_eq.
Qed.

Lemma get_meeting_stats_preserves (agent : string) (args : Json)
    (hs hs' : HandlerState CalendarFields) (r : Res Json) :
  calendar_invariant h0 (h_context hs) (h_fields hs) (h_world hs) ->
  CalendarAgent.get_meeting_stats env agent args hs = (r, hs') ->
  calendar_invariant h0 (h_context hs') (h_fields hs') (h_world hs').
Proof.
  intros Hinv Hrun. unfold CalendarAgent.get_meeting_stats, bind, gets, ret in Hrun.
  injection Hrun as <- <-. exact Hinv.
Qed.

Lemma calendar_handlers_preserve (tname : string) (handler : Handler CalendarFields)
    (agent : string) (args : Json) (hs hs' : HandlerState CalendarFields) (r : Res Json) :
  toolHandlers (CalendarAgent.new env) !! tname = Some handler ->
  calendar_invariant h0 (h_context hs) (h_fields hs) (h_world hs) ->
  handler agent args hs = (r, hs') ->
  calendar_invariant h0 (h_context hs') (h_fields hs') (h_world hs').
Proof.
  unfold CalendarAgent.new. cbn [toolHandlers registerTool BaseAgent_new].
  intros Hlook Hinv Hrun.
  apply lookup_insert_Some in Hlook. destruct Hlook as [[_ <-]|[_ Hlook]];
    [eapply get_meeting_stats_preserves; eassumption|].
  apply lookup_insert_Some in Hlook. destruct Hlook as [[_ <-]|[_ Hlook]];
    [eapply filter_meetings_preserves; eassumption|].
  apply lookup_insert_Some in Hlook. destruct Hlook as [[_ <-]|[_ Hlook]];
    [eapply fetch_calendar_events_preserves; eassumption|].
  rewrite lookup_empty in Hlook. discriminate.
Qed.

End CalendarInvariant.

Section AnalysisInvariant.
Variable cap : AnalysisCapability.
Hypothesis cap_throws : analysis_always_throws cap.
Variable ref : MapRef.

Lemma heap_read_same (w w' : World) : heap w' = heap w -> Heap.read ref w' = Heap.read ref w.
Proof. unfold Heap.read. now intros ->. Qed.

Lemma analyze_single_meeting_preserves (agent : string) (args : Json)
    (hs hs' : HandlerState AnalysisFields) (r : Res Json) :
  analysis_invariant ref (h_context hs) (h_fields hs) (h_world hs) ->
  AnalysisAgent.analyze_single_meeting cap agent args hs = (r, hs') ->
  analysis_invariant ref (h_context hs') (h_fields hs') (h_world hs').
Proof.
  intros Hinv Hrun. unfold AnalysisAgent.analyze_single_meeting, bind at 1 in Hrun.
  destruct (prop_cases "meeting_id" args hs) as [[v1 Hp]|[e Hp]]; rewrite Hp in Hrun;
    [|injection Hrun as <- <-; exact Hinv].
  unfold bind at 1, gets at 1 in Hrun.
  destruct (List.find _ _) as [meeting|];
    [|unfold throw in Hrun; injection Hrun as <- <-; exact Hinv].
  unfold bind at 1, h_emit at 1, modify at 1 in Hrun.
  unfold bind at 1, in_world at 1 in Hrun. cbn [h_world h_set_world] in Hrun.
  match type of Hrun with
  | context [cap_analyzeMeeting cap meeting ?w] =>
      destruct (cap_throws meeting w) as (e & w' & Hcap & Hheap); rewrite Hcap in Hrun
  end.
  injection Hrun as <- <-.
  destruct Hinv as (Hr & He & Hm). unfold analysis_invariant. cbn.
  split; [assumption|]. split; [assumption|].
  rewrite (heap_read_same _ _ Hheap). exact Hm.
Qed.

Lemma analyze_loop_preserves (agent : string) (total : nat) (ms : list GraphCalendarEvent) :
  forall (analyzed : nat) (hs hs' : HandlerState AnalysisFields) (r : Res nat),
    analysis_invariant ref (h_context hs) (h_fields hs) (h_world hs) ->
    AnalysisAgent.analyze_loop cap agent total ms analyzed hs = (r, hs') ->
    analysis_invariant ref (h_context hs') (h_fields hs') (h_world hs')
    /\ r = Ret analyzed.
Proof.
  induction ms as [|m rest IH]; intros analyzed hs hs' r Hinv Hrun;
    cbn [AnalysisAgent.analyze_loop] in Hrun.
  - unfold ret in Hrun. injection Hrun as <- <-. split; [assumption|reflexivity].
  - destruct (isCancelled m); [eapply IH; eassumption|].
    unfold bind at 1, try_catch at 1, bind at 1, h_emit at 1, modify at 1 in Hrun.
    unfold bind at 1, in_world at 1 in Hrun. cbn [h_world h_set_world] in Hrun.
    match type of Hrun with
    | context [cap_analyzeMeeting cap m ?w] =>
        destruct (cap_throws m w) as (e & w' & Hcap & Hheap); rewrite Hcap in Hrun
    end.
    unfold bind, in_world, LLMService.console_error, modify, ret in Hrun.
    cbn [fst snd h_world h_set_world] in Hrun.
    eapply IH; [|exact Hrun].
    destruct Hinv as (Hr & He & Hm). unfold analysis_invariant. cbn.
    split; [assumption|]. split; [assumption|].
    rewrite <- Hm. apply heap_read_same. cbn. exact Hheap.
Qed.

Lemma analyze_all_meetings_preserves (agent : string) (args : Json)
    (hs hs' : HandlerState AnalysisFields) (r : Res Json) :
  analysis_invariant ref (h_context hs) (h_fields hs) (h_world hs) ->
  AnalysisAgent.analyze_all_meetings cap agent args hs = (r, hs') ->
  analysis_invariant ref (h_context hs') (h_fields hs') (h_world hs').
Proof.
  intros Hinv Hrun. unfold AnalysisAgent.analyze_all_meetings, bind at 1, gets at 1 in Hrun.
  destruct (context_meetings (h_context hs)) as [|m ms];
    [unfold ret in Hrun; injection Hrun as <- <-; exact Hinv|].
  unfold bind at 1, h_emit at 1, modify at 1 in Hrun. unfold bind at 1 in Hrun.
  match type of Hrun with
  | context [AnalysisAgent.analyze_loop cap agent ?t ?l ?n ?st] =>
      destruct (AnalysisAgent.analyze_loop cap agent t l n st) as [rl hs1] eqn:Hloop;
      apply analyze_loop_preserves in Hloop; [|exact Hinv]
  end.
  destruct Hloop as [Hinv1 ->].
  unfold AnalysisAgent.results, bind, gets, h_context_set, modify, ret in Hrun.
  cbn in Hrun. injection Hrun as <- <-. exact Hinv1.
Qed.

Lemma generate_executive_summary_preserves (agent : string) (args : Json)
    (hs hs' : HandlerState AnalysisFields) (r : Res Json) :
  analysis_invariant ref (h_context hs) (h_fields hs) (h_world hs) ->
  AnalysisAgent.generate_executive_summary cap agent args hs = (r, hs') ->
  analysis_invariant ref (h_context hs') (h_fields hs') (h_world hs').
Proof.
  intros Hinv Hrun.
  unfold AnalysisAgent.generate_executive_summary, AnalysisAgent.results, bind, gets in Hrun.
  cbn beta iota in Hrun.
  destruct Hinv as (Hr & He & Hm). rewrite Hr, Hm in Hrun.
  unfold ret in Hrun. injection Hrun as <- <-. repeat split; assumption.
Qed.

Lemma get_action_items_preserves (agent : string) (args : Json)
    (hs hs' : HandlerState AnalysisFields) (r : Res Json) :
  analysis_invariant ref (h_context hs) (h_fields hs) (h_world hs) ->
  AnalysisAgent.get_action_items agent args hs = (r, hs') ->
  analysis_invariant ref (h_context hs') (h_fields hs') (h_world hs').
Proof.
  intros Hinv Hrun.
  unfold AnalysisAgent.get_action_items, AnalysisAgent.results, bind, gets, ret in Hrun.
  injection Hrun as <- <-. exact Hinv.
Qed.

Lemma get_meetings_by_category_preserves (agent : string) (args : Json)
    (hs hs' : HandlerState AnalysisFields) (r : Res Json) :
  analysis_invariant ref (h_context hs) (h_fields hs) (h_world hs) ->
  AnalysisAgent.get_meetings_by_category agent args hs = (r, hs') ->
  analysis_invariant ref (h_context hs') (h_fields hs') (h_world hs').
Proof.
  intros Hinv Hrun. unfold AnalysisAgent.get_meetings_by_category, bind at 1 in Hrun.
  destruct (prop_cases "category" args hs) as [[v1 Hp]|[e Hp]]; rewrite Hp in Hrun;
    [|injection Hrun as <- <-; exact Hinv].
  unfold AnalysisAgent.results, bind, gets, ret in Hrun.
  injection Hrun as <- <-. exact Hinv.
Qed.

Lemma analysis_handlers_preserve (a : BaseAgent AnalysisFields) (w w' : World)
    (tname : string) (handler : Handler AnalysisFields)
    (agent : string) (args : Json) (hs hs' : HandlerState AnalysisFields) (r : Res Json) :
  AnalysisAgent.new cap w = (a, w') ->
  toolHandlers a !! tname = Some handler ->
  analysis_invariant ref (h_context hs) (h_fields hs) (h_world hs) ->
  handler agent args hs = (r, hs') ->
  analysis_invariant ref (h_context hs') (h_fields hs') (h_world hs').
Proof.
  unfold AnalysisAgent.new. cbn. intros Hnew. injection Hnew as <- _.
  cbn [toolHandlers registerTool BaseAgent_new].
  intros Hlook Hinv Hrun.
  apply lookup_insert_Some in Hlook. destruct Hlook as [[_ <-]|[_ Hlook]];
    [eapply get_meetings_by_category_preserves; eassumption|].
  apply lookup_insert_Some in Hlook. destruct Hlook as [[_ <-]|[_ Hlook]];
    [eapply get_action_items_preserves; eassumption|].
  apply lookup_insert_Some in Hlook. destruct Hlook as [[_ <-]|[_ Hlook]];
    [eapply generate_executive_summary_preserves; eassumption|].
  apply lookup_insert_Some in Hlook. destruct Hlook as [[_ <-]|[_ Hlook]];
    [eapply analyze_all_meetings_preserves; eassumption|].
  apply lookup_insert_Some in Hlook. destruct Hlook as [[_ <-]|[_ Hlook]];
    [eapply analyze_single_meeting_preserves; eassumption|].
  rewrite lookup_empty in Hlook. discriminate.
Qed.

End AnalysisInvariant.

(* ===================================================================== *)
(** * A run of one tool call *)
(* ===================================================================== *)

Section OneToolRun.
Context {X : Type}.
Variable env : Env.

Lemma run_tool_call_returned (call : ToolCall) (args v : Json) (handler : Handler X)
    (s : AgentState X) (hs1 : HandlerState X) :
  JSON_parse env (tc_arguments call) = Ret args ->
  toolHandlers (self s) !! tc_name call = Some handler ->
  handler (name (config (self s))) args
    {| h_context := context (self s); h_fields := fields (self s);
       h_world := world (announced call s) |} = (Ret v, hs1) ->
  exists s',
    run_tool_call env call s = (Ret tt, s')
    /\ context (self s') = h_context hs1
    /\ fields (self s') = h_fields hs1
    /\ files (world s') = files (h_world hs1)
    /\ heap (world s') = heap (h_world hs1)
    /\ config (self s') = config (self s)
    /\ toolHandlers (self s') = toolHandlers (self s)
    /\ conversationHistory (self s')
       = conversationHistory (self s) ++ [normal_message call v]
    /\ queries s' = queries s.
Proof.
  intros Hparse Hlook Hrun.
  unfold run_tool_call, emit, push, executeTool, bind, try_catch, lift_res, modify.
  cbn [fst snd]. rewrite Hparse. cbn [with_world self world].
  rewrite Hlook. unfold run_handler. cbn [self world with_world].
  unfold announced in Hrun. cbn [world with_world] in Hrun. rewrite Hrun.
  cbn. eexists. repeat split.
Qed.

Lemma last_role_snoc (h : list AgentMessage) (m : AgentMessage) :
  last_role (h ++ [m]) = Some (role m).
Proof. unfold last_role. now rewrite last_snoc. Qed.

(** A run in which the model asks for one tool, the handler returns, and
    the model then answers in text. *)
Lemma run_tool_then_answer (userMessage : string) (s : AgentState X) (n : nat)
    (call : ToolCall) (args v : Json) (handler : Handler X) (hs1 : HandlerState X)
    (c : option string) (text : string) :
  Z.to_nat (maxIterations_of (config (self s))) = S (S n) ->
  (forall q h, last_role h = Some user ->
     model_endpoint env q (config (self s)) h
     = Ret {| reply_content := c; reply_tool_calls := Some [call] |}) ->
  (forall q h, last_role h = Some tool ->
     model_endpoint env q (config (self s)) h
     = Ret {| reply_content := Some text; reply_tool_calls := None |}) ->
  JSON_parse env (tc_arguments call) = Ret args ->
  toolHandlers (self s) !! tc_name call = Some handler ->
  handler (name (config (self s))) args
    {| h_context := context (self s); h_fields := fields (self s);
       h_world :=
         world (announced call
                  (after_reply {| reply_content := c; reply_tool_calls := Some [call] |}
                     (started userMessage s))) |} = (Ret v, hs1) ->
  exists s',
    run env userMessage s = (Ret (task_completed (Some text) (h_context hs1)), s')
    /\ context (self s') = h_context hs1
    /\ fields (self s') = h_fields hs1
    /\ files (world s') = files (h_world hs1)
    /\ heap (world s') = heap (h_world hs1)
    /\ queries s' = (queries s + 2)%nat.
Proof.
  intros Hn Hask Hanswer Hparse Hlook Hrun.
  set (reply := {| reply_content := c; reply_tool_calls := Some [call] |}) in *.
  rewrite run_unfold, Hn, run_loop_succ.
  set (s0 := started userMessage s) in *.
  assert (Hm0 : model_endpoint env (queries s0) (config (self s0))
                  (conversationHistory (self s0)) = Ret reply).
  { apply Hask. subst s0. cbn. apply last_role_snoc. }
  destruct (run_tool_call_returned call args v handler (after_reply reply s0) hs1
              Hparse Hlook Hrun)
    as (s1 & Hcall & Hc1 & Hf1 & Hfi1 & Hh1 & Hcfg1 & Ht1 & Hhist1 & Hq1).
  assert (Hturn : run_turn env s0 = (Ret Continue, s1)).
  { unfold run_turn, callLLM, try_catch, bind, push, modify. rewrite Hm0.
    cbn [assistant_message tool_calls reply_tool_calls reply].
    fold (after_reply reply s0). cbn [for_each]. unfold bind. rewrite Hcall.
    reflexivity. }
  rewrite Hturn, run_loop_succ.
  assert (Hm1 : model_endpoint env (queries s1) (config (self s1))
                  (conversationHistory (self s1))
                = Ret {| reply_content := Some text; reply_tool_calls := None |}).
  { rewrite Hcfg1. apply Hanswer. rewrite Hhist1. apply last_role_snoc. }
  destruct (run_turn_done env s1 _ Hm1 (or_introl eq_refl)) as (s2 & Hturn2 & Hs2 & Hq2).
  rewrite Hturn2. exists s2. rewrite Hc1. split; [reflexivity|].
  rewrite Hs2. cbn [context fields push_message].
  split; [assumption|]. split; [assumption|].
  assert (Hw : world s2 = log_event {| ev_type := complete; ev_agent := name (config (self s1));
                                       ev_message := "Task completed";
                                       ev_data := JUndefined |} (world s1)).
  { unfold run_turn, callLLM, try_catch, bind, push, modify, emit, gets, ret in Hturn2.
    rewrite Hm1 in Hturn2. cbn in Hturn2. now injection Hturn2 as <-. }
  rewrite Hw. cbn. split; [assumption|]. split; [assumption|].
  rewrite Hq2, Hq1. subst s0. cbn. lia.
Qed.

End OneToolRun.

Section ReportTool.
Variable env : Env.

(** The report tool on meetings whose rows can be built, when no analysis
    is in reach: it writes one workbook whose first sheet has the eleven
    base columns and one line per row. *)
Lemma generate_excel_report_returns (agent : string) (members : list (string * Json))
    (hs : HandlerState ReportFields) (m : GraphCalendarEvent)
    (ms : list GraphCalendarEvent) (baseRows : list MeetingReportRow) :
  context_meetings (h_context hs) = m :: ms ->
  transformEventsToReportRows env (m :: ms) = Ret baseRows ->
  ReportAgent.getAnalysisResults (h_context hs) (h_world hs) = [] ->
  ReportAgent.context_date "startDate" (h_context hs) <> Some None ->
  ReportAgent.context_date "endDate" (h_context hs) <> Some None ->
  exists result wb lines hs',
    ReportAgent.generate_excel_report env agent (JObj members) hs = (Ret (JObj result), hs')
    /\ JSON.member "success" result = JBool true
    /\ h_context hs' = h_context hs
    /\ files (h_world hs') = files (h_world hs) ++ [wb]
    /\ heap (h_world hs') = heap (h_world hs)
    /\ wb_sheets wb !! 0%nat = Some ("Meetings", ReportAgent.base_headers :: lines)
    /\ List.length lines = List.length baseRows.
Proof.
  intros Hms Hrows Hnone Hstart Hend.
  unfold ReportAgent.generate_excel_report, bind, gets, JsValue.prop, ret, lift_res.
  rewrite Hms, Hnone. unfold h_emit, modify. cbn [fst snd h_context h_set_world].
  rewrite Hrows.
  cbn [h_set_fields h_context h_world h_fields h_set_world JsMap.size List.length].
  rewrite andb_false_r.
  unfold generateFilename, formatDateStr, JsDates.isoDay, JsDates.toISOString.
  destruct (ReportAgent.context_date "startDate" (h_context hs)) as [[a|]|];
    try contradiction;
    destruct (ReportAgent.context_date "endDate" (h_context hs)) as [[b|]|];
    try contradiction.
  all: unfold default; cbn [from_option Datatypes.id].
  all: match goal with
       | |- context [if ?c then [("Meetings", _); _] else _] => destruct c
       end.
  all: eexists _, _, _, _; repeat split; try reflexivity.
  all: now rewrite length_map, length_imap.
Qed.

End ReportTool.

(* ===================================================================== *)
(** * The stages of [generateReport] *)
(* ===================================================================== *)

Section Pipeline.
Variable env : Env.

Lemma calendar_invariant_event h0 c x w e :
  calendar_invariant h0 c x w -> calendar_invariant h0 c x (log_event e w).
Proof. intros H. exact H. Qed.

Lemma analysis_invariant_event ref c x w e :
  analysis_invariant ref c x w -> analysis_invariant ref c x (log_event e w).
Proof. intros H. exact H. Qed.

Lemma on_calendar_run (instruction : string) (s : OrchState) :
  exists r s1,
    run env instruction {| self := calendarAgent (orch s); world := o_world s;
                           queries := o_queries s |} = (Ret r, s1)
    /\ Orchestrator.on_calendar (run env instruction) s
       = (Ret r, {| orch := Orchestrator.set_calendarAgent (self s1) (orch s);
                    o_world := world s1; o_queries := queries s1 |}).
Proof.
  destruct (run_returns env instruction
              {| self := calendarAgent (orch s); world := o_world s;
                 queries := o_queries s |}) as (r & s1 & Hrun & _).
  exists r, s1. split; [assumption|]. unfold Orchestrator.on_calendar. now rewrite Hrun.
Qed.

Lemma on_analysis_run (instruction : string) (s : OrchState) :
  exists r s1,
    run env instruction {| self := analysisAgent (orch s); world := o_world s;
                           queries := o_queries s |} = (Ret r, s1)
    /\ Orchestrator.on_analysis (run env instruction) s
       = (Ret r, {| orch := Orchestrator.set_analysisAgent (self s1) (orch s);
                    o_world := world s1; o_queries := queries s1 |}).
Proof.
  destruct (run_returns env instruction
              {| self := analysisAgent (orch s); world := o_world s;
                 queries := o_queries s |}) as (r & s1 & Hrun & _).
  exists r, s1. split; [assumption|]. unfold Orchestrator.on_analysis. now rewrite Hrun.
Qed.

(** The first stage touches the calendar agent and the world only, and
    keeps the invariant of the calendar agent. *)
Lemma acquisition_stage_spec (options : ReportGenerationOptions) (s s1 : OrchState)
    (r1 : Res AgentResponse) (h0 : list (JsMap MeetingAnalysis)) :
  toolHandlers (calendarAgent (orch s)) = toolHandlers (CalendarAgent.new env) ->
  calendar_invariant h0 (context (calendarAgent (orch s)))
    (fields (calendarAgent (orch s))) (o_world s) ->
  Orchestrator.acquisition_stage env options s = (r1, s1) ->
  analysisAgent (orch s1) = analysisAgent (orch s)
  /\ reportAgent (orch s1) = reportAgent (orch s)
  /\ sharedContext (orch s1) = sharedContext (orch s)
  /\ calendar_invariant h0 (context (calendarAgent (orch s1)))
       (fields (calendarAgent (orch s1))) (o_world s1).
Proof.
  intros Hh Hinv Hrun.
  unfold Orchestrator.acquisition_stage, bind, Orchestrator.emit, modify, lift_res in Hrun.
  cbn [fst snd] in Hrun.
  destruct (Orchestrator.acquisition_instruction env options) as [instruction|e].
  - match type of Hrun with
    | Orchestrator.on_calendar (run env instruction) ?st = _ =>
        destruct (on_calendar_run instruction st) as (r & sa & Hagent & Hon);
        rewrite Hon in Hrun;
        pose proof (run_preserves env (calendar_invariant h0)
                      (toolHandlers (CalendarAgent.new env))
                      (calendar_invariant_event h0)
                      (fun tname handler agent args hs r hs' =>
                         calendar_handlers_preserve env h0 tname handler agent args hs hs' r)
                      instruction
                      {| self := calendarAgent (orch st); world := o_world st;
                         queries := o_queries st |}
                      ltac:(split; [exact Hh|exact Hinv])) as Hkeep
    end.
    rewrite Hagent in Hkeep.
    destruct Hkeep as [_ Hkeep]. cbn [snd] in Hkeep.
    injection Hrun as <- <-. cbn.
    split; [reflexivity|]. split; [reflexivity|]. split; [reflexivity|]. exact Hkeep.
  - injection Hrun as <- <-. cbn.
    split; [reflexivity|]. split; [reflexivity|]. split; [reflexivity|]. exact Hinv.
Qed.

Lemma shared_ready_insert_results (ms : list GraphCalendarEvent) (c : AgentContext)
    (w : World) (ref : MapRef) :
  context_meetings c = ms ->
  ReportAgent.context_date "startDate" c <> Some None ->
  ReportAgent.context_date "endDate" c <> Some None ->
  Heap.read ref w = [] ->
  shared_ready ms (<["analysisResults" := VAnalysisResults ref]> c) w.
Proof.
  intros Hm Hs He Hr.
  unfold shared_ready, context_meetings, ReportAgent.context_date,
    ReportAgent.getAnalysisResults in *.
  simplify_map_eq. repeat split; assumption.
Qed.

Lemma shared_ready_insert_summary (ms : list GraphCalendarEvent) (c : AgentContext)
    (w : World) (text : string) :
  shared_ready ms c w ->
  shared_ready ms (<["executiveSummary" := VString text]> c) w.
Proof.
  unfold shared_ready, context_meetings, ReportAgent.context_date,
    ReportAgent.getAnalysisResults in *.
  intros (Hm & Hs & He & Hr). simplify_map_eq. repeat split; assumption.
Qed.

Section AnalysisStage.
Variable ref : MapRef.
Variable handlers : gmap string (Handler AnalysisFields).
Hypothesis handlers_preserve :
  forall tname handler agent args hs r hs',
    handlers !! tname = Some handler ->
    analysis_invariant ref (h_context hs) (h_fields hs) (h_world hs) ->
    handler agent args hs = (r, hs') ->
    analysis_invariant ref (h_context hs') (h_fields hs') (h_world hs').

(** A run of the analysis agent keeps the analysis invariant and touches
    nothing else of the orchestrator. *)
Lemma on_analysis_run_keeps (instruction : string) (s : OrchState) :
  toolHandlers (analysisAgent (orch s)) = handlers ->
  analysis_invariant ref (context (analysisAgent (orch s)))
    (fields (analysisAgent (orch s))) (o_world s) ->
  exists r s',
    Orchestrator.on_analysis (run env instruction) s = (Ret r, s')
    /\ calendarAgent (orch s') = calendarAgent (orch s)
    /\ reportAgent (orch s') = reportAgent (orch s)
    /\ sharedContext (orch s') = sharedContext (orch s)
    /\ toolHandlers (analysisAgent (orch s')) = handlers
    /\ analysis_invariant ref (context (analysisAgent (orch s')))
         (fields (analysisAgent (orch s'))) (o_world s').
Proof.
  intros Hh Hinv.
  destruct (on_analysis_run instruction s) as (r & sa & Hagent & Hon).
  pose proof (run_preserves env (analysis_invariant ref) handlers
                (analysis_invariant_event ref) handlers_preserve instruction
                {| self := analysisAgent (orch s); world := o_world s;
                   queries := o_queries s |}
                ltac:(split; [exact Hh|exact Hinv])) as Hkeep.
  rewrite Hagent in Hkeep. destruct Hkeep as [Hh' Hinv']. cbn [snd] in *.
  eexists r, _. split; [exact Hon|]. cbn.
  split; [reflexivity|]. split; [reflexivity|]. split; [reflexivity|].
  split; assumption.
Qed.

Lemma analysis_stage_spec (ia ies : bool) (ms : list GraphCalendarEvent) (s : OrchState) :
  toolHandlers (analysisAgent (orch s)) = handlers ->
  analysis_invariant ref (context (analysisAgent (orch s)))
    (fields (analysisAgent (orch s))) (o_world s) ->
  context_meetings (sharedContext (orch s)) = ms ->
  ReportAgent.context_date "startDate" (sharedContext (orch s)) <> Some None ->
  ReportAgent.context_date "endDate" (sharedContext (orch s)) <> Some None ->
  sharedContext (orch s) !! "analysisResults" = None ->
  exists s2,
    Orchestrator.analysis_stage env ia ies s = (Ret tt, s2)
    /\ reportAgent (orch s2) = reportAgent (orch s)
    /\ shared_ready ms (sharedContext (orch s2)) (o_world s2)
    /\ analysis_invariant ref (context (analysisAgent (orch s2)))
         (fields (analysisAgent (orch s2))) (o_world s2).
Proof.
  intros Hh Hinv Hms Hstart Hend Hno.
  assert (Hready : forall w, shared_ready ms (sharedContext (orch s)) w).
  { intros w. unfold shared_ready, ReportAgent.getAnalysisResults. rewrite Hno.
    repeat split; assumption. }
  unfold Orchestrator.analysis_stage, bind at 1, gets at 1.
  destruct (ia && LLMService.isLLMConfigured (o_world s)) eqn:Hgo.
  - unfold bind at 1, Orchestrator.emit at 1, modify at 1.
    unfold bind at 1, gets at 1. unfold bind at 1.
    match goal with
    | |- context [Orchestrator.on_analysis (modify ?f) ?st] =>
        change (Orchestrator.on_analysis (modify f) st)
          with (Ret tt,
                {| orch := Orchestrator.set_analysisAgent
                             (setContext (sharedContext (orch s)) (analysisAgent (orch s)))
                             (orch s);
                   o_world := o_world st; o_queries := o_queries s |})
    end.
    cbv beta iota. unfold bind at 1.
    match goal with
    | |- context [Orchestrator.on_analysis (run env ?i) ?st] =>
        destruct (on_analysis_run_keeps i st Hh Hinv)
          as (r & s1 & Hon & Hcal & Hrep & Hshared & Hh1 & Hinv1);
        rewrite Hon
    end.
    cbn [orch Orchestrator.set_analysisAgent reportAgent calendarAgent sharedContext]
      in Hrep, Hshared.
    destruct (success r).
    + unfold bind at 1, modify at 1.
      destruct Hinv1 as (Hr1 & He1 & Hm1).
      destruct ies.
      * unfold bind at 1, Orchestrator.emit at 1, modify at 1. unfold bind at 1.
        match goal with
        | |- context [Orchestrator.on_analysis (run env ?i) ?st] =>
            destruct (on_analysis_run_keeps i st) as
              (r2 & s3 & Hon2 & Hcal2 & Hrep2 & Hshared2 & Hh2 & Hinv2);
            [exact Hh1|repeat split; assumption|rewrite Hon2]
        end.
        unfold modify. eexists. split; [reflexivity|].
        cbn [orch Orchestrator.with_orch Orchestrator.set_sharedContext reportAgent
             sharedContext analysisAgent o_world] in *.
        split; [congruence|]. split; [|exact Hinv2].
        apply shared_ready_insert_summary. rewrite Hshared2. cbn.
        unfold AnalysisAgent.getAnalysisResults. rewrite Hr1, Hshared.
        destruct Hinv2 as (_ & _ & Hm2).
        now apply shared_ready_insert_results.
      * unfold ret. eexists. split; [reflexivity|].
        cbn [orch Orchestrator.with_orch Orchestrator.set_sharedContext reportAgent
             sharedContext analysisAgent o_world] in *.
        split; [assumption|]. split; [|repeat split; assumption].
        unfold AnalysisAgent.getAnalysisResults. rewrite Hr1, Hshared.
        now apply shared_ready_insert_results.
    + unfold Orchestrator.emit, modify. eexists. split; [reflexivity|]. cbn.
      split; [assumption|]. split; [|exact Hinv1].
      rewrite Hshared. apply Hready.
  - destruct (ia && negb (LLMService.isLLMConfigured (o_world s))).
    + unfold Orchestrator.emit, modify. eexists. split; [reflexivity|]. cbn.
      split; [reflexivity|]. split; [apply Hready|exact Hinv].
    + unfold ret. eexists. split; [reflexivity|].
      split; [reflexivity|]. split; [apply Hready|exact Hinv].
Qed.

End AnalysisStage.

End Pipeline.

Section ReportStage.
Variable env : Env.

Lemma report_handlers_lookup :
  toolHandlers (ReportAgent.new env) !! "generate_excel_report"
  = Some (ReportAgent.generate_excel_report env).
Proof.
  unfold ReportAgent.new. cbn [toolHandlers registerTool BaseAgent_new].
  rewrite lookup_insert_ne by discriminate.
  rewrite lookup_insert_ne by discriminate.
  apply lookup_insert_eq.
Qed.

Lemma report_stage_spec (ms : list GraphCalendarEvent) (ia ies : bool) (s : OrchState)
    (m : GraphCalendarEvent) (rest : list GraphCalendarEvent)
    (rows : list MeetingReportRow) :
  ms = m :: rest ->
  report_model_cooperates env ->
  reportAgent (orch s) = ReportAgent.new env ->
  shared_ready ms (sharedContext (orch s)) (o_world s) ->
  transformEventsToReportRows env ms = Ret rows ->
  exists r s' wb lines,
    Orchestrator.report_stage env ms ia ies s = (Ret r, s')
    /\ rr_success r = true
    /\ rr_message r
       = "Report generated with " +:+ JS.string_of_nat (List.length ms) +:+ " meetings"
    /\ files (o_world s') = files (o_world s) ++ [wb]
    /\ wb_sheets wb !! 0%nat = Some ("Meetings", ReportAgent.base_headers :: lines)
    /\ List.length lines = List.length rows
    /\ heap (o_world s') = heap (o_world s)
    /\ analysisAgent (orch s') = analysisAgent (orch s)
    /\ context (reportAgent (orch s')) = sharedContext (orch s).
Proof.
  intros Hms (call & members & c & text & Hname & Hparse & Hask & Hanswer)
         Hagent (Hmeet & Hstart & Hend & Hnone) Hrows.
  set (shared := sharedContext (orch s)) in *.
  set (w1 := log_event {| ev_type := thinking; ev_agent := "Orchestrator";
                          ev_message := "Generating Excel report...";
                          ev_data := JUndefined |} (o_world s)).
  set (sr := {| self := setContext shared (ReportAgent.new env); world := w1;
                queries := o_queries s |}).
  set (reply := {| reply_content := c; reply_tool_calls := Some [call] |}).
  set (instruction := Orchestrator.report_instruction ia ies).
  assert (Hctx : context (self sr) = shared).
  { cbn. apply (right_id_L ∅ (∪)). }
  destruct (generate_excel_report_returns env (name (config (self sr))) members
              {| h_context := context (self sr); h_fields := fields (self sr);
                 h_world := world (announced call (after_reply reply
                                                     (started instruction sr))) |}
              m rest rows)
    as (result & wb & lines & hs1 & Hrun & _ & Hc1 & Hfiles & Hheap & Hsheet & Hlen).
  { cbn [h_context]. rewrite Hctx, Hmeet. exact Hms. }
  { rewrite <- Hms. exact Hrows. }
  { cbn [h_context h_world]. rewrite Hctx. exact Hnone. }
  { cbn [h_context]. now rewrite Hctx. }
  { cbn [h_context]. now rewrite Hctx. }
  destruct (run_tool_then_answer env instruction sr 3 call (JObj members) (JObj result)
              (ReportAgent.generate_excel_report env) hs1 c text)
    as (s2 & Hrun2 & Hc2 & Hf2 & Hfi2 & Hh2 & Hq2).
  { reflexivity. }
  { exact Hask. }
  { exact Hanswer. }
  { exact Hparse. }
  { rewrite Hname. exact report_handlers_lookup. }
  { exact Hrun. }
  unfold Orchestrator.report_stage, bind at 1, Orchestrator.emit at 1, modify at 1.
  unfold bind at 1, gets at 1. unfold bind at 1.
  match goal with
  | |- context [Orchestrator.on_report (modify ?f) ?st] =>
      change (Orchestrator.on_report (modify f) st)
        with (Ret tt,
              {| orch := Orchestrator.set_reportAgent
                           (setContext shared (reportAgent (orch s))) (orch s);
                 o_world := w1; o_queries := o_queries s |})
  end.
  cbv beta iota. unfold bind at 1, Orchestrator.on_report at 1.
  cbn [orch o_world o_queries Orchestrator.set_reportAgent reportAgent].
  rewrite Hagent. fold sr. fold instruction. rewrite Hrun2.
  cbn [success task_completed negb].
  unfold bind, Orchestrator.emit, modify, ret. cbn [fst snd].
  eexists _, _, wb, lines. split; [reflexivity|]. cbn.
  split; [reflexivity|]. split; [reflexivity|].
  split; [rewrite Hfi2, Hfiles; reflexivity|].
  split; [exact Hsheet|]. split; [exact Hlen|].
  split; [rewrite Hh2, Hheap; reflexivity|].
  split; [reflexivity|].
  rewrite Hc2, Hc1. exact Hctx.
Qed.

End ReportStage.

(* ===================================================================== *)
(** * C3: no meetings *)
(* ===================================================================== *)

Section Acquisition.
Variable env : Env.

Lemma acquisition_stage_keeps_agents (options : ReportGenerationOptions)
    (s s1 : OrchState) (r1 : Res AgentResponse) :
  Orchestrator.acquisition_stage env options s = (r1, s1) ->
  analysisAgent (orch s1) = analysisAgent (orch s)
  /\ reportAgent (orch s1) = reportAgent (orch s).
Proof.
  intros Hrun.
  unfold Orchestrator.acquisition_stage, bind, Orchestrator.emit, modify, lift_res in Hrun.
  cbn [fst snd] in Hrun.
  destruct (Orchestrator.acquisition_instruction env options) as [instruction|e].
  - match type of Hrun with
    | Orchestrator.on_calendar (run env instruction) ?st = _ =>
        destruct (on_calendar_run env instruction st) as (r & sa & _ & Hon);
        rewrite Hon in Hrun
    end.
    injection Hrun as <- <-. cbn. split; reflexivity.
  - injection Hrun as <- <-. cbn. split; reflexivity.
Qed.
End Acquisition.

(** C3. When the first stage of [generateReport] succeeds and the calendar
    agent then holds no meeting, [generateReport] returns the result with
    [success = false] and the message [No meetings found in the specified
    date range]. The analysis agent and the
    report agent are then what they were before the call, histories
    included, and between the end of the first stage and the return no model
    is queried, no chat completion is requested and no file is written: the
    second and third stage do not run. *)
Theorem generateReport_without_meetings (env : Env) (options : ReportGenerationOptions)
    (s s1 : OrchState) (r1 : AgentResponse) :
  Orchestrator.acquisition_stage env options s = (Ret r1, s1) ->
  success r1 = true ->
  CalendarAgent.getMeetings (calendarAgent (orch s1)) = [] ->
  exists r s',
    Orchestrator.generateReport env options s = (Ret r, s')
    /\ r = Orchestrator.no_meetings_result
    /\ rr_success r = false
    /\ rr_message r = "No meetings found in the specified date range"
    /\ JS.startsWith "no meetings found" (JS.toLowerCase (rr_message r)) = true
    /\ analysisAgent (orch s') = analysisAgent (orch s)
    /\ reportAgent (orch s') = reportAgent (orch s)
    /\ o_queries s' = o_queries s1
    /\ chats (o_world s') = chats (o_world s1)
    /\ files (o_world s') = files (o_world s1)
    /\ heap (o_world s') = heap (o_world s1)
    /\ events (o_world s')
       = events (o_world s1)
         ++ [{| ev_type := response; ev_agent := "Orchestrator";
                ev_message := "Found 0 meetings"; ev_data := JUndefined |}].
Proof.
  intros Hacq Hok Hnone.
  destruct (acquisition_stage_keeps_agents env options s s1 (Ret r1) Hacq) as [Ha Hr].
  unfold Orchestrator.generateReport, try_catch, bind at 1. rewrite Hacq, Hok.
  cbn [negb]. unfold bind at 1, modify at 1. unfold bind at 1, gets at 1.
  cbn [orch Orchestrator.with_orch Orchestrator.set_sharedContext calendarAgent].
  unfold CalendarAgent.getMeetings in *. rewrite Hnone.
  eexists _, _. split; [reflexivity|]. cbn.
  repeat split; assumption.
Qed.

(** The office with an empty calendar: the calendar agent fetches nothing
    and answers, and the orchestrator returns the no-data result after the
    two requests of the calendar agent. *)
Lemma generateReport_without_meetings_witness :
  exists r s',
    Orchestrator.generateReport Quiet.quiet_env Office.march Quiet.quiet_office
    = (Ret r, s')
    /\ r = Orchestrator.no_meetings_result
    /\ rr_success r = false
    /\ rr_message r = "No meetings found in the specified date range"
    /\ JS.startsWith "no meetings found" (JS.toLowerCase (rr_message r)) = true
    /\ analysisAgent (orch s') = analysisAgent (orch Quiet.quiet_office)
    /\ reportAgent (orch s') = reportAgent (orch Quiet.quiet_office)
    /\ o_queries s' = 2%nat
    /\ chats (o_world s') = 0%nat
    /\ files (o_world s') = []
    /\ heap (o_world s') = [[]]
    /\ events (o_world s')
       = events (o_world Quiet.acquired)
         ++ [{| ev_type := response; ev_agent := "Orchestrator";
                ev_message := "Found 0 meetings"; ev_data := JUndefined |}].
Proof.
  assert (Hfst : fst (Orchestrator.acquisition_stage Quiet.quiet_env Office.march
                        Quiet.quiet_office)
                 = Ret Quiet.acquisition_response) by (vm_compute; reflexivity).
  assert (Hacq : Orchestrator.acquisition_stage Quiet.quiet_env Office.march
                   Quiet.quiet_office
                 = (Ret Quiet.acquisition_response, Quiet.acquired)).
  { rewrite <- Hfst. apply surjective_pairing. }
  destruct (generateReport_without_meetings Quiet.quiet_env Office.march
              Quiet.quiet_office Quiet.acquired Quiet.acquisition_response Hacq)
    as (r & s' & Hrun & Hr & Hsucc & Hmsg & Hprefix & Ha & Hrep & Hq & Hc & Hf & Hh & He).
  - vm_compute. reflexivity.
  - vm_compute. reflexivity.
  - exists r, s'. do 7 (split; [assumption|]).
    split; [rewrite Hq; vm_compute; reflexivity|].
    split; [rewrite Hc; vm_compute; reflexivity|].
    split; [rewrite Hf; vm_compute; reflexivity|].
    split; [rewrite Hh; vm_compute; reflexivity|].
    exact He.
Defined.

(* ===================================================================== *)
(** * C4: a report without analysis *)
(* ===================================================================== *)

Lemma getAnalysisResults_heap (c : AgentContext) (w w' : World) :
  heap w' = heap w ->
  ReportAgent.getAnalysisResults c w' = ReportAgent.getAnalysisResults c w.
Proof.
  intros H. unfold ReportAgent.getAnalysisResults, Heap.read. now rewrite H.
Qed.

Lemma new_analysis_agent (cap : AnalysisCapability) (w : World) :
  exists a w',
    AnalysisAgent.new cap w = (a, w')
    /\ analysis_invariant (List.length (heap w)) (context a) (fields a) w'.
Proof.
  unfold AnalysisAgent.new, Heap.alloc. eexists _, _. split; [reflexivity|].
  unfold analysis_invariant, Heap.read. cbn.
  split; [reflexivity|]. split; [reflexivity|].
  replace ((heap w ++ [[]]) !! length (heap w))
    with (Some ([] : JsMap MeetingAnalysis)); [reflexivity|].
  symmetry. apply list_lookup_middle. reflexivity.
Qed.

(** C4. An orchestrator is built over an analysis collaborator that throws
    on every call, and over a model that asks the report agent for
    [generate_excel_report] once and answers in text once it has the tool's
    result. When the first stage of [generateReport] succeeds and leaves
    three meetings with the calendar agent, the start of each reported one
    being a date, [generateReport] returns [success = true] with the message
    [Report generated with 3 meetings]; the report tool has written one
    workbook, whose first sheet holds the base header line and one line per
    reported meeting; and the [Map] of analysis results has size 0, the one
    the report agent reads from its context as well as the one the analysis
    agent holds. This holds whether or not analysis is requested and the
    model is configured, and whatever the model answers the analysis
    agent. *)
Theorem report_survives_failing_analysis (env : Env) (cap : AnalysisCapability)
    (msal : MsalInstance) (w : World) (options : ReportGenerationOptions)
    (r1 : AgentResponse) (s1 : OrchState) :
  analysis_always_throws cap ->
  report_model_cooperates env ->
  Orchestrator.acquisition_stage env options (Orchestrator.new env cap msal w)
  = (Ret r1, s1) ->
  success r1 = true ->
  List.length (CalendarAgent.getMeetings (calendarAgent (orch s1))) = 3%nat ->
  (forall m, In m (CalendarAgent.getMeetings (calendarAgent (orch s1))) ->
             reported env m = true ->
             Date_parse env (dateTime (start m)) <> None) ->
  exists r s' wb lines,
    Orchestrator.generateReport env options (Orchestrator.new env cap msal w)
    = (Ret r, s')
    /\ rr_success r = true
    /\ rr_message r = "Report generated with 3 meetings"
    /\ (exists earlier, files (o_world s') = earlier ++ [wb])
    /\ wb_sheets wb !! 0%nat = Some ("Meetings", ReportAgent.base_headers :: lines)
    /\ List.length lines
       = List.length (List.filter (reported env)
                        (CalendarAgent.getMeetings (calendarAgent (orch s1))))
    /\ JsMap.size (ReportAgent.getAnalysisResults (context (reportAgent (orch s')))
                     (o_world s')) = 0%nat
    /\ JsMap.size (Heap.read (AnalysisAgent.getAnalysisResults (analysisAgent (orch s')))
                     (o_world s')) = 0%nat.
Proof.
  intros Hcap Hmodel Hacq Hok Hthree Hdates.
  destruct (new_analysis_agent cap w) as (a & w' & Hnew & Hinv0).
  set (ref := List.length (heap w)) in *.
  assert (Hs0 : Orchestrator.new env cap msal w
                = {| orch := {| calendarAgent :=
                                  CalendarAgent.setMsalInstance msal (CalendarAgent.new env);
                                analysisAgent := a;
                                reportAgent := ReportAgent.new env;
                                orch_msalInstance := msal;
                                sharedContext := ∅ |};
                     o_world := w'; o_queries := 0 |}).
  { unfold Orchestrator.new. now rewrite Hnew. }
  rewrite Hs0 in *.
  pose proof Hacq as Hstage1.
  apply (acquisition_stage_spec env options _ s1 (Ret r1) (heap w')) in Hstage1;
    [|reflexivity|].
  2:{ unfold calendar_invariant, ReportAgent.context_date. cbn.
      rewrite !lookup_empty. repeat split; try discriminate. now left. }
  destruct Hstage1 as (Ha1 & Hr1 & _ & Hheap1 & Hmeet1 & Hstart1 & Hend1 & Hno1).
  cbn [orch analysisAgent reportAgent] in Ha1, Hr1.
  destruct (CalendarAgent.getMeetings (calendarAgent (orch s1))) as [|m rest] eqn:Hms;
    [discriminate|].
  unfold CalendarAgent.getMeetings in Hms. rewrite Hms in Hmeet1.
  destruct Hmeet1 as [Hmeet1|Hmeet1]; [discriminate|].
  destruct (map_res_total (toReportRow env) (List.filter (reported env) (m :: rest)))
    as [rows Hrows].
  { intros ev Hin. apply filter_In in Hin. destruct Hin as [Hin Hrep].
    apply toReportRow_returns. now apply Hdates. }
  rewrite <- transform_unfold in Hrows.
  unfold Orchestrator.generateReport, try_catch, bind at 1. rewrite Hacq, Hok.
  cbn [negb]. unfold bind at 1, modify at 1. unfold bind at 1, gets at 1.
  cbn [orch Orchestrator.with_orch Orchestrator.set_sharedContext calendarAgent].
  unfold CalendarAgent.getMeetings. rewrite Hms.
  unfold bind at 1, Orchestrator.emit at 1, modify at 1. unfold bind at 1.
  match goal with
  | |- context [Orchestrator.analysis_stage env ?ia ?ies ?st] =>
      destruct (analysis_stage_spec env ref (toolHandlers a)
                  (fun tname handler agent args hs r hs' =>
                     analysis_handlers_preserve cap Hcap ref a w w' tname handler agent
                       args hs hs' r Hnew)
                  ia ies (m :: rest) st)
        as (s2 & Hstage & Hrep2 & Hready2 & Hinv2)
  end.
  { cbn. now rewrite Ha1. }
  { cbn. rewrite Ha1. destruct Hinv0 as (Hi1 & Hi2 & Hi3).
    repeat split; try assumption. unfold Heap.read in *. cbn. now rewrite Hheap1. }
  { cbn. unfold context_meetings. now rewrite Hmeet1. }
  { exact Hstart1. }
  { exact Hend1. }
  { exact Hno1. }
  rewrite Hstage.
  cbn [orch reportAgent Orchestrator.set_sharedContext] in Hrep2.
  match goal with
  | |- context [Orchestrator.report_stage env ?l ?ia ?ies s2] =>
      destruct (report_stage_spec env l ia ies s2 m rest rows eq_refl Hmodel)
        as (r & s' & wb & lines & Hrun & Hsucc & Hmsg & Hfiles & Hsheet & Hlen
              & Hheap' & Han' & Hctx');
      [rewrite Hrep2; cbn; exact Hr1|exact Hready2|exact Hrows|]
  end.
  rewrite Hrun. exists r, s', wb, lines.
  split; [reflexivity|]. split; [assumption|].
  split. { rewrite Hmsg. cbn [List.length] in Hthree |- *. now rewrite Hthree. }
  split; [eauto|]. split; [assumption|]. split.
  { rewrite Hlen. rewrite transform_unfold in Hrows. apply map_res_Ret in Hrows.
    symmetry. eapply Forall2_length. eassumption. }
  destruct Hready2 as (_ & _ & _ & Hnone2). split.
  - rewrite Hctx', (getAnalysisResults_heap _ _ _ Hheap'), Hnone2. reflexivity.
  - rewrite Han'. destruct Hinv2 as (Href & _ & Hempty).
    unfold AnalysisAgent.getAnalysisResults. rewrite Href.
    unfold Heap.read in *. now rewrite Hheap', Hempty.
Qed.

Lemma failing_analysis_always_throws : analysis_always_throws Office.failing_analysis.
Proof. intros event w. eexists _, _. split; reflexivity. Qed.

Lemma cooperative_model_cooperates : report_model_cooperates Office.office_env.
Proof.
  exists (Fixtures.request "call_1" "generate_excel_report"), [], None, "Done".
  split; [reflexivity|]. split; [reflexivity|]. split.
  - intros q h Hlast. cbn. unfold Office.cooperative_model. now rewrite Hlast.
  - intros q h Hlast. cbn. unfold Office.cooperative_model. now rewrite Hlast.
Qed.

(** The office with three meetings and the analysis out of order: the
    report is written with three lines and without analysis. *)
Lemma report_survives_failing_analysis_witness :
  exists r s' wb lines,
    Orchestrator.generateReport Office.office_env Office.march Office.office = (Ret r, s')
    /\ rr_success r = true
    /\ rr_message r = "Report generated with 3 meetings"
    /\ (exists earlier, files (o_world s') = earlier ++ [wb])
    /\ wb_sheets wb !! 0%nat = Some ("Meetings", ReportAgent.base_headers :: lines)
    /\ List.length lines = 3%nat
    /\ JsMap.size (ReportAgent.getAnalysisResults (context (reportAgent (orch s')))
                     (o_world s')) = 0%nat
    /\ JsMap.size (Heap.read (AnalysisAgent.getAnalysisResults (analysisAgent (orch s')))
                     (o_world s')) = 0%nat.
Proof.
  assert (Hfst : fst (Orchestrator.acquisition_stage Office.office_env Office.march
                        Office.office)
                 = Ret Office.acquisition_response) by (vm_compute; reflexivity).
  assert (Hacq : Orchestrator.acquisition_stage Office.office_env Office.march
                   (Orchestrator.new Office.office_env Office.failing_analysis
                      Office.signed_in Fixtures.world0)
                 = (Ret Office.acquisition_response, Office.acquired)).
  { rewrite <- Hfst. apply surjective_pairing. }
  destruct (report_survives_failing_analysis Office.office_env Office.failing_analysis
              Office.signed_in Fixtures.world0 Office.march
              Office.acquisition_response Office.acquired
              failing_analysis_always_throws cooperative_model_cooperates Hacq)
    as (r & s' & wb & lines & Hrun & Hsucc & Hmsg & Hfiles & Hsheet & Hlen & Hshared
          & Hown).
  - vm_compute. reflexivity.
  - vm_compute. reflexivity.
  - intros m Hin _. vm_compute in Hin.
    destruct Hin as [<-|[<-|[<-|[]]]]; vm_compute; discriminate.
  - exists r, s', wb, lines. do 5 (split; [assumption|]).
    split; [|split; assumption]. rewrite Hlen. vm_compute. reflexivity.
Defined.

(* ===================================================================== *)
(** * C6: [reset] *)
(* ===================================================================== *)

(** C6. What [AgentOrchestrator.reset] does: the history of each of the
    three agents is the system message of its configuration alone, as after
    construction, the context of each agent and the shared context are
    empty, and the analysis agent has no executive summary; so the next
    [run] starts from the system message. The fields of the calendar agent
    and of the report agent are not touched: the meetings that
    [CalendarAgent.getMeetings] returns and the rows of the last report are
    those of before the reset. *)
Theorem reset_keeps_the_fetched_meetings (s : OrchState) :
  let s' := Orchestrator.reset s in
  conversationHistory (calendarAgent (orch s'))
  = [system_message (systemPrompt (config (calendarAgent (orch s))))]
  /\ conversationHistory (analysisAgent (orch s'))
     = [system_message (systemPrompt (config (analysisAgent (orch s))))]
  /\ conversationHistory (reportAgent (orch s'))
     = [system_message (systemPrompt (config (reportAgent (orch s))))]
  /\ context (calendarAgent (orch s')) = ∅
  /\ context (analysisAgent (orch s')) = ∅
  /\ context (reportAgent (orch s')) = ∅
  /\ sharedContext (orch s') = ∅
  /\ AnalysisAgent.getExecutiveSummary (analysisAgent (orch s')) = ""
  /\ (forall userMessage env,
        exists rest,
          conversationHistory
            (self (snd (run env userMessage
                          {| self := calendarAgent (orch s'); world := o_world s';
                             queries := o_queries s' |})))
          = system_message (systemPrompt (config (calendarAgent (orch s))))
            :: user_message userMessage :: rest)
  /\ CalendarAgent.getMeetings (calendarAgent (orch s'))
     = CalendarAgent.getMeetings (calendarAgent (orch s))
  /\ reportData (fields (reportAgent (orch s')))
     = reportData (fields (reportAgent (orch s))).
Proof.
  cbv zeta. repeat (split; [reflexivity|]). split; [|split; reflexivity].
  intros userMessage env.
  match goal with
  | |- context [run env userMessage ?st] =>
      destruct (run_returns env userMessage st) as (r & s1 & -> & _ & [suffix Hsuf] & _)
  end.
  exists suffix. cbn [snd]. rewrite Hsuf. reflexivity.
Qed.

(** The orchestrator after a report over three meetings is reset: the
    calendar agent still holds and still reports the three meetings, where a
    new orchestrator holds none; the analysis agent, whose [reset] is
    overridden, is as new. *)
Lemma reset_leaves_meetings_behind :
  let env := Office.office_env in
  let fresh := Office.office in
  let used := snd (Orchestrator.generateReport env Office.march fresh) in
  let s' := Orchestrator.reset used in
  let hs := {| h_context := context (calendarAgent (orch s'));
               h_fields := fields (calendarAgent (orch s'));
               h_world := o_world s' |} in
  CalendarAgent.getMeetings (calendarAgent (orch s'))
  = [Fixtures.standup; Office.planning; Office.retro]
  /\ CalendarAgent.getMeetings (calendarAgent (orch fresh)) = []
  /\ conversationHistory (calendarAgent (orch s'))
     = conversationHistory (calendarAgent (orch fresh))
  /\ context (calendarAgent (orch s')) = context (calendarAgent (orch fresh))
  /\ fields (analysisAgent (orch s')) = fields (analysisAgent (orch fresh))
  /\ Heap.read (AnalysisAgent.getAnalysisResults (analysisAgent (orch s'))) (o_world s')
     = []
  /\ (exists result,
        fst (CalendarAgent.get_meeting_stats env "CalendarAgent" (JObj []) hs)
        = Ret (JObj result)
        /\ JSON.member "totalMeetings" result = JNum 3).
Proof.
  cbv zeta.
  split; [vm_compute; reflexivity|]. split; [vm_compute; reflexivity|].
  split; [vm_compute; reflexivity|]. split; [vm_compute; reflexivity|].
  split; [vm_compute; reflexivity|]. split; [vm_compute; reflexivity|].
  eexists. split; [vm_compute; reflexivity|]. vm_compute. reflexivity.
Qed.

Arguments run : simpl never.

(* ===================================================================== *)
(** * Strings and [Map]s: what the properties below use *)
(* ===================================================================== *)

Section Unique.

Lemma unique_In (x : string) (xs : list string) : In x (JS.unique xs) <-> In x xs.
Proof.
  induction xs as [|y r IH]; cbn; [tauto|].
  rewrite filter_In, IH, negb_true_iff, String.eqb_neq.
  destruct (String.eqb_spec y x) as [->|Hne]; [tauto|].
  split; [tauto|]. intros [H|H]; [contradiction|]. right. split; [assumption|congruence].
Qed.

Lemma NoDup_filter_std {A} (p : A -> bool) (xs : list A) :
  List.NoDup xs -> List.NoDup (List.filter p xs).
Proof.
  induction 1 as [|x r Hx Hr IH]; cbn; [constructor|].
  destruct (p x); [|assumption]. constructor; [|assumption].
  rewrite filter_In. tauto.
Qed.

Lemma unique_NoDup (xs : list string) : List.NoDup (JS.unique xs).
Proof.
  induction xs as [|y r IH]; cbn; [constructor|].
  constructor.
  - rewrite filter_In, negb_true_iff, String.eqb_neq. tauto.
  - now apply NoDup_filter_std.
Qed.

End Unique.

Section LowerCase.

Lemma lower_ascii_idem (c : ascii) : JS.lower_ascii (JS.lower_ascii c) = JS.lower_ascii c.
Proof.
  destruct c as [[] [] [] [] [] [] [] []]; vm_compute; reflexivity.
Qed.

Lemma toLowerCase_idem (s : string) : JS.toLowerCase (JS.toLowerCase s) = JS.toLowerCase s.
Proof.
  induction s as [|c r IH]; cbn; [reflexivity|]. now rewrite lower_ascii_idem, IH.
Qed.

Lemma lower_ascii_at (c : ascii) :
  Ascii.eqb "@" (JS.lower_ascii c) = Ascii.eqb "@" c.
Proof.
  destruct c as [[] [] [] [] [] [] [] []]; vm_compute; reflexivity.
Qed.

End LowerCase.

Section Pieces.

Lemma append_nil_l (s : string) : "" +:+ s = s.
Proof. reflexivity. Qed.

Lemma append_cons (c : ascii) (r s : string) : String c r +:+ s = String c (r +:+ s).
Proof. reflexivity. Qed.

Lemma lacks_toLowerCase_at (s : string) : lacks "@" (JS.toLowerCase s) = lacks "@" s.
Proof.
  induction s as [|c r IH]; cbn [lacks JS.toLowerCase]; [reflexivity|].
  now rewrite lower_ascii_at, IH.
Qed.

Lemma break_at_lacks (c : ascii) (s : string) : lacks c (fst (JS.break_at c s)) = true.
Proof.
  induction s as [|d r IH]; cbn [JS.break_at String.append lacks fst snd JS.includes JS.remove_char negb andb]; [reflexivity|].
  destruct (Ascii.eqb c d) eqn:Hcd; cbn [JS.break_at String.append lacks fst snd JS.includes JS.remove_char negb andb]; [reflexivity|].
  destruct (JS.break_at c r) as [a b]; cbn [JS.break_at String.append lacks fst snd JS.includes JS.remove_char negb andb] in *. now rewrite Hcd, IH.
Qed.

Lemma break_at_app (c : ascii) (a b : string) :
  lacks c a = true -> JS.break_at c (a +:+ String c b) = (a, Some b).
Proof.
  induction a as [|d r IH]; rewrite ?append_nil_l, ?append_cons; cbn [JS.break_at lacks].
  - intros _. now rewrite Ascii.eqb_refl.
  - intros H. apply andb_true_iff in H. destruct H as [Hd Hr].
    apply negb_true_iff in Hd. rewrite Hd, (IH Hr). reflexivity.
Qed.

Lemma break_at_whole (c : ascii) (a : string) :
  lacks c a = true -> JS.break_at c a = (a, None).
Proof.
  induction a as [|d r IH]; cbn [JS.break_at String.append lacks fst snd JS.includes JS.remove_char negb andb]; [reflexivity|].
  intros H. apply andb_true_iff in H. destruct H as [Hd Hr].
  apply negb_true_iff in Hd. now rewrite Hd, (IH Hr).
Qed.

Lemma includes_char (c : ascii) (s : string) :
  JS.includes (String c EmptyString) s = negb (lacks c s).
Proof.
  induction s as [|d r IH]; cbn [JS.break_at String.append lacks fst snd JS.includes JS.remove_char negb andb]; [reflexivity|].
  destruct (Ascii.ascii_dec c d) as [<-|Hne].
  - cbn [String.prefix]. rewrite Ascii.eqb_refl. destruct (ascii_dec c c); [|contradiction].
    cbn [negb andb].
    destruct r; reflexivity.
  - assert (Hcd : Ascii.eqb c d = false) by now apply Ascii.eqb_neq.
    cbn [String.prefix]. rewrite Hcd. destruct (ascii_dec c d); [contradiction|].
    cbn [negb andb]. exact IH.
Qed.

Lemma remove_char_lacks (c : ascii) (s : string) : lacks c (JS.remove_char c s) = true.
Proof.
  induction s as [|d r IH]; cbn [JS.break_at String.append lacks fst snd JS.includes JS.remove_char negb andb]; [reflexivity|].
  destruct (Ascii.eqb c d) eqn:Hcd; [assumption|]. cbn [JS.break_at String.append lacks fst snd JS.includes JS.remove_char negb andb]. now rewrite Hcd.
Qed.

Lemma remove_char_id (c : ascii) (s : string) :
  lacks c s = true -> JS.remove_char c s = s.
Proof.
  induction s as [|d r IH]; cbn [JS.break_at String.append lacks fst snd JS.includes JS.remove_char negb andb]; [reflexivity|].
  intros H. apply andb_true_iff in H. destruct H as [Hd Hr].
  apply negb_true_iff in Hd. now rewrite Hd, (IH Hr).
Qed.

Lemma substring0_length (n : nat) (s : string) :
  String.length (JS.substring0 n s) = Nat.min n (String.length s).
Proof.
  unfold JS.substring0. revert n. induction s as [|c r IH]; intros [|n]; cbn; auto.
Qed.

Lemma substring0_prefix (n : nat) (s : string) :
  String.prefix (JS.substring0 n s) s = true.
Proof.
  unfold JS.substring0. revert n. induction s as [|c r IH]; intros [|n]; cbn; auto.
  now rewrite Ascii.eqb_refl || (destruct (ascii_dec c c); [apply IH|contradiction]).
Qed.

Lemma substring0_all (n : nat) (s : string) :
  (String.length s <= n)%nat -> JS.substring0 n s = s.
Proof.
  unfold JS.substring0. revert n. induction s as [|c r IH]; intros [|n]; cbn; auto; try lia.
  intros H. f_equal. apply IH. lia.
Qed.

End Pieces.

(* ===================================================================== *)
(** * [utils/domainExtractor.ts] *)
(* ===================================================================== *)

Section DomainExtractor.

Lemma extractDomain_no_at (email : string) :
  lacks "@" email = true -> extractDomainFromEmail email = "".
Proof.
  intros H. unfold extractDomainFromEmail.
  rewrite (includes_char "@" email), H. cbn. now rewrite orb_true_r.
Qed.

Lemma extractDomain_lacks_at (email : string) :
  lacks "@" (extractDomainFromEmail email) = true.
Proof.
  unfold extractDomainFromEmail.
  destruct (String.eqb email "" || negb (JS.includes "@" email)); [reflexivity|].
  unfold JS.split_second. destruct (JS.break_at "@" email) as [a [r|]]; [|reflexivity].
  rewrite lacks_toLowerCase_at. apply break_at_lacks.
Qed.

Lemma extractCompany_is_domain (email : string) :
  extractCompanyFromEmail email = extractDomainFromEmail email.
Proof.
  unfold extractCompanyFromEmail.
  destruct (String.eqb_spec (extractDomainFromEmail email) "") as [->|_]; [reflexivity|].
  now destruct (existsb _ _).
Qed.

End DomainExtractor.

(** The company of an address is its domain, in lower case: the text between
    the first [@] and the next one, whether the domain is one of the
    personal providers or not. It holds no [@] and is empty for an address
    without [@]. For an address made of a local part and a domain, it is the
    domain in lower case. *)
Theorem extractCompanyFromEmail_is_the_lowercase_domain (email : string) :
  extractCompanyFromEmail email = extractDomainFromEmail email
  /\ JS.toLowerCase (extractCompanyFromEmail email) = extractCompanyFromEmail email
  /\ JS.includes "@" (extractCompanyFromEmail email) = false
  /\ (JS.includes "@" email = false -> extractCompanyFromEmail email = "")
  /\ (forall loc domain,
        JS.includes "@" loc = false -> JS.includes "@" domain = false ->
        email = loc +:+ "@" +:+ domain ->
        extractCompanyFromEmail email = JS.toLowerCase domain).
Proof.
  rewrite extractCompany_is_domain.
  split; [reflexivity|]. split.
  { unfold extractDomainFromEmail.
    destruct (String.eqb email "" || negb (JS.includes "@" email)); [reflexivity|].
    destruct (JS.split_second "@" email); [apply toLowerCase_idem|reflexivity]. }
  split.
  { rewrite (includes_char "@"), extractDomain_lacks_at. reflexivity. }
  split.
  { intros H. apply extractDomain_no_at.
    rewrite (includes_char "@") in H. now apply negb_false_iff in H. }
  intros loc domain Hl Hd ->.
  rewrite (includes_char "@") in Hl, Hd. apply negb_false_iff in Hl, Hd.
  unfold extractDomainFromEmail.
  assert (Hinc : JS.includes "@" (loc +:+ "@" +:+ domain) = true).
  { rewrite (includes_char "@"). apply negb_true_iff.
    change (loc +:+ "@" +:+ domain) with (loc +:+ String "@" domain).
    clear Hl. induction loc as [|c r IH].
    - reflexivity.
    - rewrite append_cons. cbn [lacks]. now rewrite IH, andb_false_r. }
  rewrite Hinc. cbn [negb].
  replace (String.eqb (loc +:+ "@" +:+ domain) "") with false.
  2:{ symmetry. apply String.eqb_neq. destruct loc; discriminate. }
  cbn [orb]. unfold JS.split_second.
  change (loc +:+ "@" +:+ domain) with (loc +:+ String "@" domain).
  rewrite (break_at_app "@" loc domain Hl).
  now rewrite (break_at_whole "@" domain Hd).
Qed.

Lemma extractCompanyFromEmail_is_the_lowercase_domain_witness :
  extractCompanyFromEmail "Ada.Lovelace@ACME.com" = JS.toLowerCase "ACME.com"
  /\ extractCompanyFromEmail "no address" = "".
Proof.
  split.
  - destruct (extractCompanyFromEmail_is_the_lowercase_domain "Ada.Lovelace@ACME.com")
      as (_ & _ & _ & _ & H).
    apply (H "Ada.Lovelace" "ACME.com"); reflexivity.
  - destruct (extractCompanyFromEmail_is_the_lowercase_domain "no address")
      as (_ & _ & _ & H & _).
    apply H. reflexivity.
Defined.

(** The companies of a list of addresses: each company of an address of
    the list that is not empty, once. *)
Theorem getUniqueCompanies_are_the_distinct_domains (emails : list string) :
  List.NoDup (getUniqueCompanies emails)
  /\ (forall company,
        In company (getUniqueCompanies emails)
        <-> company <> "" /\ exists email, In email emails
                                           /\ extractCompanyFromEmail email = company)
  /\ (List.length (getUniqueCompanies emails) <= List.length emails)%nat.
Proof.
  unfold getUniqueCompanies. split; [apply unique_NoDup|]. split.
  - intros company. rewrite unique_In, filter_In, in_map_iff, negb_true_iff, String.eqb_neq.
    split.
    + intros [(email & He & Hin) Hne]. split; [assumption|]. eauto.
    + intros [Hne (email & Hin & He)]. split; [|assumption]. eauto.
  - set (cs := List.filter _ _).
    assert (H1 : (List.length (JS.unique cs) <= List.length cs)%nat).
    { clear. induction cs as [|c r IH]; cbn; [lia|].
      pose proof (filter_length_le (fun y => negb (String.eqb c y)) (JS.unique r)). lia. }
    assert (H2 : (List.length cs <= List.length emails)%nat).
    { unfold cs. etransitivity; [apply filter_length_le|]. now rewrite length_map. }
    lia.
Qed.

(* ===================================================================== *)
(** * [services/excelService.ts] *)
(* ===================================================================== *)

Section FileNames.

Lemma append_length (a b : string) :
  String.length (a +:+ b) = (String.length a + String.length b)%nat.
Proof. induction a as [|c r IH]; [reflexivity|]. rewrite append_cons. cbn. now rewrite IH. Qed.

Lemma slice_from_app (a b : string) : JS.slice_from (String.length a) (a +:+ b) = b.
Proof. induction a as [|c r IH]; [now destruct b|]. rewrite append_cons. cbn. exact IH. Qed.

Lemma endsWith_app (a p : string) : JS.endsWith p (a +:+ p) = true.
Proof.
  unfold JS.endsWith. rewrite append_length.
  replace (String.length a + String.length p - String.length p)%nat
    with (String.length a) by lia.
  rewrite slice_from_app, String.eqb_refl, andb_true_r. apply Nat.leb_le. lia.
Qed.

Lemma append_assoc (a b c : string) : (a +:+ b) +:+ c = a +:+ b +:+ c.
Proof. induction a as [|x r IH]; [reflexivity|]. rewrite !append_cons. now rewrite IH. Qed.

Lemma prefix_app (p s : string) : String.prefix p (p +:+ s) = true.
Proof.
  induction p as [|c r IH]; [now destruct s|]. rewrite append_cons. cbn.
  destruct (ascii_dec c c); [exact IH|contradiction].
Qed.

End FileNames.

(** [generateFilename] throws the [RangeError] of [toISOString] exactly when
    one of the two dates is invalid. Otherwise the name is
    [meeting-report_<start>_to_<end>.xlsx], where each date is the day of
    its ISO string without the hyphens: the name begins with
    [meeting-report_], ends with [.xlsx], and its two dates hold no
    hyphen. *)
Theorem generateFilename_names_the_date_range (env : Env) (startDate endDate : JsDate) :
  (generateFilename env startDate endDate = Exn (JsError "Invalid time value")
   <-> startDate = None \/ endDate = None)
  /\ (forall a b, startDate = Some a -> endDate = Some b ->
        let day := fun z => JS.remove_char "-" (JS.split_first "T" (Date_toISOString env z)) in
        let filename := "meeting-report_" +:+ day a +:+ "_to_" +:+ day b +:+ ".xlsx" in
        generateFilename env startDate endDate = Ret filename
        /\ JS.startsWith "meeting-report_" filename = true
        /\ JS.endsWith ".xlsx" filename = true
        /\ JS.includes "-" (day a) = false
        /\ JS.includes "-" (day b) = false).
Proof.
  split.
  - unfold generateFilename, formatDateStr, JsDates.isoDay, JsDates.toISOString.
    destruct startDate as [a|], endDate as [b|]; cbn; split; intros H;
      try discriminate; try reflexivity; try (destruct H; discriminate); auto.
  - intros a b -> -> day filename. split; [reflexivity|]. split.
    { apply prefix_app. }
    split.
    { unfold filename. rewrite <- !append_assoc. apply endsWith_app. }
    split; rewrite (includes_char "-"); unfold day; now rewrite remove_char_lacks.
Qed.

Lemma generateFilename_names_the_date_range_witness :
  generateFilename Fixtures.insisting_env (Some 1709251200000) (Some 1711843200000)
  = Ret "meeting-report_20240301_to_20240301.xlsx"
  /\ generateFilename Fixtures.insisting_env None (Some 1711843200000)
     = Exn (JsError "Invalid time value").
Proof.
  destruct (generateFilename_names_the_date_range Fixtures.insisting_env
              (Some 1709251200000) (Some 1711843200000)) as [_ H].
  destruct (H 1709251200000 1711843200000 eq_refl eq_refl) as [Hname _].
  split; [exact Hname|].
  apply (generateFilename_names_the_date_range Fixtures.insisting_env None
           (Some 1711843200000)).
  now left.
Defined.

Section Rows.
Variable env : Env.

Lemma toReportRow_bounds (ev : GraphCalendarEvent) (row : MeetingReportRow) :
  toReportRow env ev = Ret row ->
  meetingName row <> ""
  /\ (String.length (agenda row) <= 500)%nat
  /\ String.prefix (agenda row) (bodyPreview ev) = true
  /\ ((String.length (bodyPreview ev) <= 500)%nat -> agenda row = bodyPreview ev)
  /\ organizerCompany row = extractDomainFromEmail (organizerEmail row)
  /\ Date_parse env (dateTime (start ev)) <> None.
Proof.
  unfold toReportRow, formatDate, JsDates.isoDay, JsDates.toISOString.
  destruct (Date_parse env (dateTime (start ev))) as [z|]; [|discriminate].
  intros H. injection H as <-. cbn.
  split. { unfold JS.or_else. destruct (String.eqb_spec (subject ev) ""); [discriminate|assumption]. }
  split. { rewrite substring0_length. lia. }
  split. { apply substring0_prefix. }
  split. { apply substring0_all. }
  split; [apply extractCompany_is_domain|discriminate].
Qed.

End Rows.

(** Every row that [transformEventsToReportRows] returns is the row of an
    event of the input that is not cancelled, whose start is a date: its
    meeting name is not empty, its agenda is the first 500 characters of
    the event's text (all of it when it has no more), and its organizer
    company is the domain of its organizer email. *)
Theorem report_rows_are_bounded (env : Env) (evs : list GraphCalendarEvent)
    (rows : list MeetingReportRow) :
  transformEventsToReportRows env evs = Ret rows ->
  Forall (fun row =>
            exists ev,
              In ev evs /\ isCancelled ev = false /\ toReportRow env ev = Ret row
              /\ Date_parse env (dateTime (start ev)) <> None
              /\ meetingName row <> ""
              /\ (String.length (agenda row) <= 500)%nat
              /\ String.prefix (agenda row) (bodyPreview ev) = true
              /\ ((String.length (bodyPreview ev) <= 500)%nat ->
                  agenda row = bodyPreview ev)
              /\ organizerCompany row = extractDomainFromEmail (organizerEmail row))
         rows.
Proof.
  intros H. rewrite transform_unfold in H. apply map_res_Ret in H.
  remember (List.filter (reported env) evs) as kept eqn:Hk.
  assert (Hin : forall ev, In ev kept -> In ev evs /\ isCancelled ev = false).
  { intros ev Hev. subst kept. apply filter_In in Hev. destruct Hev as [Hev Hrep].
    split; [assumption|]. unfold reported in Hrep.
    apply andb_true_iff in Hrep. destruct Hrep as [Hc _]. now apply negb_true_iff in Hc. }
  clear Hk. induction H as [|ev row kept' rows' Hrow _ IH]; constructor.
  - destruct (Hin ev (or_introl eq_refl)) as [Hev Hc].
    destruct (toReportRow_bounds env ev row Hrow) as (H1 & H2 & H3 & H4 & H5 & H6).
    exists ev. repeat split; assumption.
  - apply IH. intros ev' Hev'. apply Hin. now right.
Qed.

Lemma report_rows_are_bounded_witness :
  Forall (fun row => meetingName row <> "" /\ (String.length (agenda row) <= 500)%nat)
         [ {| meetingName := "Standup"; date := "2024-03-01"; startTime := "09:00";
              endTime := "09:00"; organizerName := "Ada";
              organizerEmail := "ada@acme.com"; organizerCompany := "acme.com";
              row_attendees := "Bob"; attendeeEmails := "bob@example.org";
              attendeeCompanies := "example.org";
              agenda := "Daily sync of the team" |} ].
Proof.
  assert (H : transformEventsToReportRows Fixtures.insisting_env
                [Fixtures.standup; Fixtures.placeholder; Fixtures.called_off]
              = Ret [ {| meetingName := "Standup"; date := "2024-03-01";
                         startTime := "09:00"; endTime := "09:00";
                         organizerName := "Ada"; organizerEmail := "ada@acme.com";
                         organizerCompany := "acme.com"; row_attendees := "Bob";
                         attendeeEmails := "bob@example.org";
                         attendeeCompanies := "example.org";
                         agenda := "Daily sync of the team" |} ])
    by (vm_compute; reflexivity).
  apply (report_rows_are_bounded Fixtures.insisting_env) in H.
  eapply Forall_impl; [exact H|].
  intros row (ev & _ & _ & _ & _ & Hname & Hlen & _). split; assumption.
Defined.

Section ReportToolSheet.
Variable env : Env.

Lemma sheet_rows_without_analysis (ms : list GraphCalendarEvent)
    (analysisResults : JsMap MeetingAnalysis) (includeAnalysis : bool)
    (baseRows : list MeetingReportRow) :
  List.map (ReportAgent.sheet_row false)
           (imap (ReportAgent.enhance ms analysisResults includeAnalysis) baseRows)
  = List.map ReportAgent.base_cells baseRows.
Proof.
  unfold ReportAgent.enhance.
  generalize (List.filter (fun m => negb (isCancelled m)) ms). intros kept.
  assert (H : forall (k : nat) rows,
             List.map (ReportAgent.sheet_row false)
               (imap (fun index row =>
                        match kept !! (k + index)%nat
                              ≫= (fun m => JsMap.get (id m) analysisResults) with
                        | Some a =>
                            if includeAnalysis
                            then {| base := row; aiSummary := Some (summary a);
                                    row_category := Some (category a);
                                    row_actionItems := Some (JS.join "; " (actionItems a));
                                    row_keyTopics := Some (JS.join ", " (keyTopics a)) |}
                            else {| base := row; aiSummary := None; row_category := None;
                                    row_actionItems := None; row_keyTopics := None |}
                        | None => {| base := row; aiSummary := None; row_category := None;
                                     row_actionItems := None; row_keyTopics := None |}
                        end) rows)
             = List.map ReportAgent.base_cells rows).
  { intros k rows. revert k. induction rows as [|row rest IH]; intros k; [reflexivity|].
    cbn [imap List.map]. f_equal.
    - destruct (kept !! (k + 0)%nat ≫= _) as [a|]; [destruct includeAnalysis|]; reflexivity.
    - rewrite <- (IH (S k)). f_equal. apply imap_ext. intros i x _. cbn.
      now replace (k + S i)%nat with (S (k + i))%nat by lia. }
  exact (H 0%nat baseRows).
Qed.

End ReportToolSheet.

(** The report tool and [generateExcelFile] write the same cells but not the
    same file. When the tool adds no analysis columns, because
    [include_analysis] is ['false'] or because there is no analysis result,
    the sheet [Meetings] it writes has the cells of the sheet that
    [generateExcelFile] writes for the rows of the same meetings, and with
    no executive summary the two workbooks have the same sheets. Their
    column widths differ: the tool makes each of the eleven columns 20 wide,
    the longest header being shorter, where [generateExcelFile] sets its own
    eleven widths; so the two workbooks are never the same. *)
Theorem report_tool_writes_the_sheet_of_generateExcelFile (env : Env) (agent : string)
    (members : list (string * Json)) (hs : HandlerState ReportFields)
    (m : GraphCalendarEvent) (ms : list GraphCalendarEvent)
    (baseRows : list MeetingReportRow) :
  context_meetings (h_context hs) = m :: ms ->
  transformEventsToReportRows env (m :: ms) = Ret baseRows ->
  JSON.member "include_analysis" members = JStr "false"
  \/ ReportAgent.getAnalysisResults (h_context hs) (h_world hs) = [] ->
  ReportAgent.context_date "startDate" (h_context hs) <> Some None ->
  ReportAgent.context_date "endDate" (h_context hs) <> Some None ->
  exists result hs' wb wb',
    ReportAgent.generate_excel_report env agent (JObj members) hs = (Ret (JObj result), hs')
    /\ JSON.member "success" result = JBool true
    /\ JSON.member "rowCount" result = json_nat (List.length baseRows)
    /\ JSON.member "columnsIncluded" result = JNum 11
    /\ files (h_world hs') = files (h_world hs) ++ [wb]
    /\ files (snd (generateExcelFile baseRows (Some (wb_filename wb)) (h_world hs)))
       = files (h_world hs) ++ [wb']
    /\ wb_filename wb' = wb_filename wb
    /\ wb_sheets wb !! 0%nat = wb_sheets wb' !! 0%nat
    /\ wb_cols wb !! 0%nat = Some [20; 20; 20; 20; 20; 20; 20; 20; 20; 20; 20]
    /\ wb_cols wb' = [[40; 12; 10; 10; 25; 30; 20; 40; 50; 30; 60]]
    /\ wb <> wb'
    /\ (ReportAgent.getExecutiveSummary (h_context hs) = "" ->
        wb_sheets wb = wb_sheets wb').
Proof.
  intros Hms Hrows Hnone Hstart Hend.
  unfold ReportAgent.generate_excel_report, bind, gets, JsValue.prop, ret, lift_res.
  rewrite Hms. unfold h_emit, modify. cbn [fst snd h_context h_set_world].
  rewrite Hrows.
  cbn [h_set_fields h_context h_world h_fields h_set_world].
  assert (Hwith : negb (JsValue.is_string "false" (JSON.member "include_analysis" members))
                  && (0 <? JsMap.size (ReportAgent.getAnalysisResults (h_context hs)
                                         (h_world hs)))%nat = false).
  { destruct Hnone as [-> | ->]; [reflexivity|]. cbn. apply andb_false_r. }
  rewrite Hwith. rewrite sheet_rows_without_analysis.
  unfold generateFilename, formatDateStr, JsDates.isoDay, JsDates.toISOString.
  destruct (ReportAgent.context_date "startDate" (h_context hs)) as [[a|]|];
    try contradiction;
    destruct (ReportAgent.context_date "endDate" (h_context hs)) as [[b|]|];
    try contradiction.
  all: unfold default; cbn [from_option Datatypes.id].
  all: destruct (String.eqb_spec (ReportAgent.getExecutiveSummary (h_context hs)) "")
         as [Hsum|Hsum]; rewrite ?andb_false_r; cbn [negb andb].
  all: try (destruct (negb (JsValue.is_string "false"
                              (JSON.member "include_executive_summary" members)))).
  all: eexists _, _, _, _; split; [reflexivity|]; cbn.
  all: rewrite ?length_imap.
  all: repeat (split; [reflexivity|]).
  all: (split; [intros Hsame; apply (f_equal wb_cols) in Hsame; cbn in Hsame;
                discriminate Hsame|]).
  all: try (intros _; reflexivity).
  all: try (intros Hempty; contradiction).
Qed.

Lemma report_tool_writes_the_sheet_of_generateExcelFile_witness :
  exists result hs' wb wb',
    ReportAgent.generate_excel_report Fixtures.insisting_env "ReportAgent" (JObj [])
      ReportDesk.after_fetch = (Ret (JObj result), hs')
    /\ JSON.member "rowCount" result = json_nat (List.length ReportDesk.standup_rows)
    /\ files (h_world hs') = files (h_world ReportDesk.after_fetch) ++ [wb]
    /\ files (snd (generateExcelFile ReportDesk.standup_rows (Some (wb_filename wb))
                     (h_world ReportDesk.after_fetch)))
       = files (h_world ReportDesk.after_fetch) ++ [wb']
    /\ wb_sheets wb = wb_sheets wb'
    /\ wb <> wb'.
Proof.
  destruct (report_tool_writes_the_sheet_of_generateExcelFile Fixtures.insisting_env
              "ReportAgent" [] ReportDesk.after_fetch Fixtures.standup []
              ReportDesk.standup_rows)
    as (result & hs' & wb & wb' & Hrun & _ & Hcount & _ & Hfiles & Hfiles' & _ & _ & _ & _
          & Hne & Hsheets).
  - reflexivity.
  - vm_compute. reflexivity.
  - right. reflexivity.
  - vm_compute. discriminate.
  - vm_compute. discriminate.
  - exists result, hs', wb, wb'. do 4 (split; [assumption|]).
    split; [apply Hsheets; reflexivity|exact Hne].
Defined.

Section Maps.
Context {V : Type}.

Lemma keys_set (k : string) (v : V) (m : JsMap V) (k' : string) :
  In k' (keys (JsMap.set k v m)) <-> k' = k \/ In k' (keys m).
Proof.
  induction m as [|[k0 v0] r IH]; cbn.
  - split; [intros [<-|[]]; now left|intros [->|[]]; now left].
  - destruct (String.eqb_spec k0 k) as [->|Hne]; cbn.
    + intuition congruence.
    + rewrite IH. intuition congruence.
Qed.

Lemma keys_set_NoDup (k : string) (v : V) (m : JsMap V) :
  List.NoDup (keys m) -> List.NoDup (keys (JsMap.set k v m)).
Proof.
  induction m as [|[k0 v0] r IH]; cbn; intros Hm.
  - constructor; [intros []|constructor].
  - apply List.NoDup_cons_iff in Hm. destruct Hm as [Hk0 Hr].
    destruct (String.eqb_spec k0 k) as [->|Hne]; cbn.
    + constructor; assumption.
    + constructor; [|now apply IH].
      fold (keys (JsMap.set k v r)). rewrite keys_set. intros [->|H]; [congruence|contradiction].
Qed.

Lemma get_set_same (k : string) (v : V) (m : JsMap V) :
  JsMap.get k (JsMap.set k v m) = Some v.
Proof.
  unfold JsMap.get. induction m as [|[k0 v0] r IH]; cbn.
  - now rewrite String.eqb_refl.
  - destruct (String.eqb_spec k0 k) as [->|Hne]; cbn.
    + now rewrite String.eqb_refl.
    + apply String.eqb_neq in Hne. now rewrite Hne.
Qed.

Lemma get_set_other (k k' : string) (v : V) (m : JsMap V) :
  k' <> k -> JsMap.get k' (JsMap.set k v m) = JsMap.get k' m.
Proof.
  intros Hk. unfold JsMap.get. induction m as [|[k0 v0] r IH]; cbn.
  - apply not_eq_sym in Hk. apply String.eqb_neq in Hk. now rewrite Hk.
  - destruct (String.eqb_spec k0 k) as [->|Hne]; cbn.
    + apply not_eq_sym in Hk. apply String.eqb_neq in Hk. now rewrite Hk.
    + destruct (String.eqb k0 k'); [reflexivity|exact IH].
Qed.

Lemma get_Some_In (k : string) (m : JsMap V) :
  JsMap.get k m <> None <-> In k (keys m).
Proof.
  unfold JsMap.get. induction m as [|[k0 v0] r IH]; cbn; [tauto|].
  destruct (String.eqb_spec k0 k) as [->|Hne]; cbn.
  - split; [now left|discriminate].
  - rewrite IH. tauto.
Qed.

Lemma set_length (k : string) (v : V) (m : JsMap V) :
  (List.length (JsMap.set k v m) <= S (List.length m))%nat.
Proof.
  induction m as [|[k0 v0] r IH]; cbn; [lia|].
  destruct (String.eqb k0 k); cbn; lia.
Qed.

End Maps.

(* ===================================================================== *)
(** * [services/llmService.ts] *)
(* ===================================================================== *)

Section Configuration.
Variable env : Env.

Lemma length_positive (s : string) : (0 <? String.length s)%nat = true <-> s <> "".
Proof. destruct s; cbn; split; congruence. Qed.

Lemma chatCompletion_unconfigured (messages : list ChatMessage) (w : World) :
  LLMService.isLLMConfigured w = false ->
  LLMService.chatCompletion env messages w
  = (Exn (JsError "LLM not configured. Please configure in settings."), w).
Proof. intros H. unfold LLMService.chatCompletion. now rewrite H. Qed.

Lemma chatCompletion_frame (messages : list ChatMessage) (w : World) :
  let w' := snd (LLMService.chatCompletion env messages w) in
  heap w' = heap w /\ files w' = files w /\ events w' = events w
  /\ currentConfig w' = currentConfig w /\ consoleErrors w' = consoleErrors w
  /\ graphCalls w' = graphCalls w
  /\ chats w' = (if LLMService.isLLMConfigured w then S (chats w) else chats w).
Proof.
  unfold LLMService.chatCompletion.
  destruct (LLMService.isLLMConfigured w); cbn; repeat split.
Qed.

Lemma analyzeMeeting_frame (event : GraphCalendarEvent) (w : World) :
  exists a w',
    LLMService.analyzeMeeting env event w = (Ret a, w')
    /\ In (category a) LLMService.validCategories
    /\ heap w' = heap w /\ files w' = files w /\ events w' = events w
    /\ currentConfig w' = currentConfig w /\ graphCalls w' = graphCalls w
    /\ chats w' = (if LLMService.isLLMConfigured w then S (chats w) else chats w)
    /\ (consoleErrors w' = consoleErrors w
        \/ consoleErrors w' = S (consoleErrors w) /\ a = LLMService.default_analysis event).
Proof.
  unfold LLMService.analyzeMeeting, try_catch, bind, lift_res.
  pose proof (chatCompletion_frame (LLMService.analysis_messages event) w) as Hf.
  cbv zeta in Hf.
  destruct (LLMService.chatCompletion env _ w) as [[reply|e] w1]; cbn [fst snd] in *.
  - destruct Hf as (H1 & H2 & H3 & H4 & H5 & H6 & H7).
    destruct (JSON_parse_analysis env _) as [a|e].
    + destruct (existsb (String.eqb (category a)) LLMService.validCategories) eqn:Hcat.
      * eexists _, _. split; [reflexivity|]. split.
        { apply existsb_exists in Hcat. destruct Hcat as (c & Hin & Hc).
          apply String.eqb_eq in Hc. now subst. }
        repeat split; auto.
      * eexists _, _. split; [reflexivity|]. split.
        { cbn. do 9 right. now left. }
        repeat split; auto.
    + unfold LLMService.console_error, modify, ret. cbn.
      eexists _, _. split; [reflexivity|]. split; [cbn; do 9 right; now left|].
      cbn. do 6 (split; [assumption|]). right. split; [now f_equal|reflexivity].
  - destruct Hf as (H1 & H2 & H3 & H4 & H5 & H6 & H7).
    unfold LLMService.console_error, modify, ret. cbn.
    eexists _, _. split; [reflexivity|]. split; [cbn; do 9 right; now left|].
    cbn. do 6 (split; [assumption|]). right. split; [now f_equal|reflexivity].
Qed.

End Configuration.

(** [configureLLM] replaces the members it is given and keeps the others,
    and it decides whether requests are sent: the service counts as
    configured exactly when the resulting base URL and model are not empty
    (the API key plays no part). While it is not configured,
    [chatCompletion] and [generateExecutiveSummary] throw without sending a
    request, and [analyzeMeeting] returns the default analysis without
    sending one. *)
Theorem configureLLM_decides_whether_requests_are_sent (env : Env)
    (config : LLMService.PartialLLMConfig) (w : World) :
  let w1 := snd (LLMService.configureLLM config w) in
  let merged :=
    {| baseUrl := default (baseUrl (currentConfig w)) (LLMService.partial_baseUrl config);
       apiKey := default (apiKey (currentConfig w)) (LLMService.partial_apiKey config);
       llm_model := default (llm_model (currentConfig w))
                      (LLMService.partial_model config) |} in
  LLMService.getLLMConfig w1 = (Ret merged, w1)
  /\ (LLMService.isLLMConfigured w1 = true <-> baseUrl merged <> "" /\ llm_model merged <> "")
  /\ (LLMService.isLLMConfigured w1 = false ->
      (forall messages,
         LLMService.chatCompletion env messages w1
         = (Exn (JsError "LLM not configured. Please configure in settings."), w1))
      /\ (forall evs analyses,
            LLMService.generateExecutiveSummary env evs analyses w1
            = (Exn (JsError "LLM not configured. Please configure in settings."), w1))
      /\ (forall event,
            exists w2,
              LLMService.analyzeMeeting env event w1
              = (Ret (LLMService.default_analysis event), w2)
              /\ chats w2 = chats w))
  /\ (forall config' : LLMService.PartialLLMConfig,
        currentConfig (snd (LLMService.configureLLM config' w1))
        = {| baseUrl := default (baseUrl merged) (LLMService.partial_baseUrl config');
             apiKey := default (apiKey merged) (LLMService.partial_apiKey config');
             llm_model := default (llm_model merged) (LLMService.partial_model config') |}).
Proof.
  cbv zeta. split; [reflexivity|]. split.
  { unfold LLMService.isLLMConfigured, LLMService.configureLLM, modify.
    cbn [snd currentConfig baseUrl llm_model].
    now rewrite andb_true_iff, !length_positive. }
  split; [|reflexivity].
  intros Hoff. split; [|split].
  - intros messages. now apply chatCompletion_unconfigured.
  - intros evs analyses. unfold LLMService.generateExecutiveSummary.
    now apply chatCompletion_unconfigured.
  - intros event. unfold LLMService.analyzeMeeting, try_catch, bind.
    rewrite (chatCompletion_unconfigured env _ _ Hoff).
    unfold LLMService.console_error, modify, ret. cbn. eexists. split; reflexivity.
Qed.

Lemma configureLLM_decides_whether_requests_are_sent_witness :
  let w1 := snd (LLMService.configureLLM
                   {| LLMService.partial_baseUrl := Some "";
                      LLMService.partial_apiKey := Some "sk-test";
                      LLMService.partial_model := None |} Fixtures.world0) in
  LLMService.chatCompletion Fixtures.insisting_env [] w1
  = (Exn (JsError "LLM not configured. Please configure in settings."), w1)
  /\ exists w2,
       LLMService.analyzeMeeting Fixtures.insisting_env Fixtures.standup w1
       = (Ret (LLMService.default_analysis Fixtures.standup), w2)
       /\ chats w2 = chats Fixtures.world0.
Proof.
  cbv zeta.
  destruct (configureLLM_decides_whether_requests_are_sent Fixtures.insisting_env
              {| LLMService.partial_baseUrl := Some "";
                 LLMService.partial_apiKey := Some "sk-test";
                 LLMService.partial_model := None |} Fixtures.world0)
    as (_ & _ & Hoff & _).
  destruct (Hoff eq_refl) as (Hchat & _ & Hanalyze).
  split; [apply Hchat|apply Hanalyze].
Defined.

(** [analyzeMeeting] never throws, and the analysis it returns carries one
    of the ten valid categories, whatever the model replied. It sends at
    most one request (one exactly when the service is configured) and
    touches nothing of the world but the counters of the requests and of
    the console errors. It logs an error exactly when its [try] throws, that
    is when the request fails or the reply does not parse, and it then
    returns the default analysis; otherwise it logs nothing and returns the
    parsed analysis, its category replaced by [other] when it is not a valid
    one. *)
Theorem analyzeMeeting_returns_a_valid_category (env : Env) (event : GraphCalendarEvent)
    (w : World) :
  exists a w',
    LLMService.analyzeMeeting env event w = (Ret a, w')
    /\ In (category a) LLMService.validCategories
    /\ heap w' = heap w /\ files w' = files w /\ events w' = events w
    /\ currentConfig w' = currentConfig w /\ graphCalls w' = graphCalls w
    /\ chats w' = (if LLMService.isLLMConfigured w then S (chats w) else chats w)
    /\ match fst (LLMService.chatCompletion env (LLMService.analysis_messages event) w) with
       | Ret reply =>
           match JSON_parse_analysis env (LLMService.strip_code_fence reply) with
           | Ret parsed =>
               consoleErrors w' = consoleErrors w
               /\ summary a = summary parsed
               /\ actionItems a = actionItems parsed
               /\ keyTopics a = keyTopics parsed
               /\ category a
                  = (if existsb (String.eqb (category parsed)) LLMService.validCategories
                     then category parsed else "other")
           | Exn _ =>
               consoleErrors w' = S (consoleErrors w)
               /\ a = LLMService.default_analysis event
           end
       | Exn _ =>
           consoleErrors w' = S (consoleErrors w)
           /\ a = LLMService.default_analysis event
       end.
Proof.
  destruct (analyzeMeeting_frame env event w)
    as (a & w' & Hrun & Hcat & H1 & H2 & H3 & H4 & H5 & H6 & _).
  exists a, w'. split; [exact Hrun|]. do 7 (split; [assumption|]).
  revert Hrun. unfold LLMService.analyzeMeeting, try_catch, bind, lift_res.
  pose proof (chatCompletion_frame env (LLMService.analysis_messages event) w) as Hf.
  cbv zeta in Hf.
  destruct (LLMService.chatCompletion env _ w) as [[reply|e] w1]; cbn [fst snd] in *;
    destruct Hf as (_ & _ & _ & _ & Herrors & _).
  - destruct (JSON_parse_analysis env _) as [parsed|e].
    + destruct (existsb (String.eqb (category parsed)) LLMService.validCategories);
        unfold ret; intros [= <- <-]; cbn; repeat split; assumption.
    + unfold LLMService.console_error, modify, ret. cbn. intros [= <- <-]. cbn.
      split; [now f_equal|reflexivity].
  - unfold LLMService.console_error, modify, ret. cbn. intros [= <- <-]. cbn.
    split; [now f_equal|reflexivity].
Qed.

Section Batch.
Variable env : Env.

Lemma get_set_cases {V} (k k' : string) (v a : V) (m : JsMap V) :
  JsMap.get k (JsMap.set k' v m) = Some a ->
  (k = k' /\ a = v) \/ JsMap.get k m = Some a.
Proof.
  destruct (String.eqb_spec k k') as [->|Hne].
  - rewrite get_set_same. intros H. injection H as <-. now left.
  - rewrite (get_set_other k' k v m Hne). now right.
Qed.

Lemma analyzeMeetings_from_spec (onProgress : option (nat -> nat -> M World unit))
    (total : nat) (events : list GraphCalendarEvent) :
  callback_returns onProgress ->
  forall (i : nat) (results : JsMap MeetingAnalysis) (w : World),
    exists m w',
      LLMService.analyzeMeetings_from env onProgress total i events results w = (Ret m, w')
      /\ (List.NoDup (keys results) -> List.NoDup (keys m))
      /\ (forall k, In k (keys m) <-> In k (keys results) \/ In k (List.map id events))
      /\ ((forall k a, JsMap.get k results = Some a ->
                       In (category a) LLMService.validCategories) ->
          forall k a, JsMap.get k m = Some a -> In (category a) LLMService.validCategories)
      /\ (List.length m <= List.length results + List.length events)%nat.
Proof.
  intros Hcb. induction events as [|event rest IH]; intros i results w;
    cbn [LLMService.analyzeMeetings_from].
  - exists results, w. split; [reflexivity|]. split; [auto|]. split; [cbn; tauto|].
    split; [auto|]. cbn. lia.
  - unfold bind at 1.
    assert (Hp : exists w0,
               match onProgress with
               | Some callback => callback (i + 1)%nat total
               | None => ret tt
               end w = (Ret tt, w0)).
    { destruct onProgress as [callback|]; [apply Hcb|]. unfold ret. eauto. }
    destruct Hp as [w0 ->]. unfold bind at 1, try_catch, bind at 1.
    destruct (analyzeMeeting_frame env event w0) as (a & w1 & -> & Hcat & _).
    unfold ret at 1.
    destruct (IH (S i) (JsMap.set (id event) a results) w1)
      as (m & w' & -> & Hnd & Hkeys & Hvalid & Hlen).
    exists m, w'. split; [reflexivity|]. split.
    { intros H. apply Hnd. now apply keys_set_NoDup. }
    split.
    { intros k. rewrite Hkeys, keys_set. cbn. intuition congruence. }
    split.
    { intros Hres. apply Hvalid. intros k a' Hget.
      apply get_set_cases in Hget. destruct Hget as [[_ ->]|Hget]; [assumption|eauto]. }
    pose proof (set_length (id event) a results). cbn. lia.
Qed.

Lemma analyzeMeetings_from_requests (total : nat) (evs : list GraphCalendarEvent) :
  forall (i : nat) (results : JsMap MeetingAnalysis) (w : World),
    let w' := snd (LLMService.analyzeMeetings_from env None total i evs results w) in
    chats w' = (if LLMService.isLLMConfigured w
                then chats w + List.length evs else chats w)%nat
    /\ heap w' = heap w /\ files w' = files w /\ events w' = events w
    /\ currentConfig w' = currentConfig w /\ graphCalls w' = graphCalls w.
Proof.
  induction evs as [|event rest IH]; intros i results w.
  - cbn. destruct (LLMService.isLLMConfigured w); repeat split; lia.
  - destruct (analyzeMeeting_frame env event w)
      as (a & w1 & Hrun & _ & Hh & Hf & He & Hc & Hg & Hchats & _).
    assert (Hstep : LLMService.analyzeMeetings_from env None total i (event :: rest)
                      results w
                    = LLMService.analyzeMeetings_from env None total (S i) rest
                        (JsMap.set (id event) a results) w1).
    { cbn [LLMService.analyzeMeetings_from].
      unfold bind at 1, ret at 1. unfold bind at 1, try_catch, bind at 1.
      now rewrite Hrun. }
    rewrite Hstep.
    specialize (IH (S i) (JsMap.set (id event) a results) w1). cbv zeta in IH.
    destruct IH as (I1 & I2 & I3 & I4 & I5 & I6).
    assert (Hconf : LLMService.isLLMConfigured w1 = LLMService.isLLMConfigured w).
    { unfold LLMService.isLLMConfigured. now rewrite Hc. }
    rewrite Hconf, Hchats in I1.
    cbv zeta. split.
    { rewrite I1. destruct (LLMService.isLLMConfigured w); cbn [List.length]; lia. }
    repeat split; etransitivity; eassumption.
Qed.

End Batch.

(** [analyzeMeetings] over a batch, with no progress callback or with one
    that returns: it returns a [Map] with exactly one entry per distinct id
    of the events, every entry carrying a valid category, whatever the
    model answers; no failure of an analysis ends or shortens the batch.
    Without a callback it sends one request per event when the service is
    configured and none otherwise. A callback that throws on its first call
    ends the batch before any request. *)
Theorem analyzeMeetings_gives_every_event_an_analysis (env : Env)
    (evs : list GraphCalendarEvent)
    (onProgress : option (nat -> nat -> M World unit)) (w : World) :
  (callback_returns onProgress ->
   exists m w',
     LLMService.analyzeMeetings env evs onProgress w = (Ret m, w')
     /\ List.NoDup (keys m)
     /\ (forall k, In k (keys m) <-> In k (List.map id evs))
     /\ (forall event, In event evs -> JsMap.get (id event) m <> None)
     /\ (forall k a, JsMap.get k m = Some a -> In (category a) LLMService.validCategories)
     /\ (JsMap.size m <= List.length evs)%nat)
  /\ (let w' := snd (LLMService.analyzeMeetings env evs None w) in
      chats w' = (if LLMService.isLLMConfigured w
                  then chats w + List.length evs else chats w)%nat
      /\ heap w' = heap w /\ files w' = files w)
  /\ (forall callback event rest e w1,
        onProgress = Some callback -> evs = event :: rest ->
        callback 1%nat (List.length evs) w = (Exn e, w1) ->
        LLMService.analyzeMeetings env evs onProgress w = (Exn e, w1)).
Proof.
  split; [|split].
  - intros Hcb. unfold LLMService.analyzeMeetings.
    destruct (analyzeMeetings_from_spec env onProgress (List.length evs) evs Hcb 0%nat [] w)
      as (m & w' & Hrun & Hnd & Hkeys & Hvalid & Hlen).
    exists m, w'. split; [assumption|]. split; [apply Hnd; constructor|].
    assert (Hk : forall k, In k (keys m) <-> In k (List.map id evs)).
    { intros k. rewrite Hkeys. cbn. tauto. }
    split; [assumption|]. split.
    { intros event Hin. apply get_Some_In, Hk, in_map. assumption. }
    split; [apply Hvalid; intros k a H; discriminate H|].
    unfold JsMap.size. cbn in Hlen. lia.
  - cbv zeta. unfold LLMService.analyzeMeetings.
    destruct (analyzeMeetings_from_requests env (List.length evs) evs 0%nat [] w)
      as (H1 & H2 & H3 & _).
    auto.
  - intros callback event rest e w1 -> -> Hthrow.
    unfold LLMService.analyzeMeetings. cbn [LLMService.analyzeMeetings_from].
    unfold bind at 1. cbn [Nat.add]. now rewrite Hthrow.
Qed.

Lemma analyzeMeetings_gives_every_event_an_analysis_witness :
  exists m w',
    LLMService.analyzeMeetings Fixtures.insisting_env
      [Fixtures.standup; Fixtures.placeholder; Fixtures.standup] None Fixtures.world0
    = (Ret m, w')
    /\ List.NoDup (keys m)
    /\ JsMap.get "m1" m <> None /\ JsMap.get "m2" m <> None
    /\ (JsMap.size m <= 3)%nat.
Proof.
  destruct (analyzeMeetings_gives_every_event_an_analysis Fixtures.insisting_env
              [Fixtures.standup; Fixtures.placeholder; Fixtures.standup] None
              Fixtures.world0) as [H _].
  destruct (H I) as (m & w' & Hrun & Hnd & _ & Hget & _ & Hsize).
  exists m, w'. split; [assumption|]. split; [assumption|].
  split; [apply (Hget Fixtures.standup); now left|].
  split; [apply (Hget Fixtures.placeholder); right; now left|assumption].
Defined.

(* ===================================================================== *)
(** * [services/graphService.ts] *)
(* ===================================================================== *)

Section PagingFacts.
Variable fetch : nat -> string -> Res GraphService.GraphResponse.

Lemma fetch_pages_through (pages : list (string * list GraphCalendarEvent))
    (after : option string) :
  forall (fuel n : nat) (acc : list GraphCalendarEvent),
    serves fetch n pages after ->
    (List.length pages <= fuel)%nat ->
    GraphService.fetch_pages fetch fuel (first_link pages after) acc n
    = GraphService.fetch_pages fetch (fuel - List.length pages) after
        (acc ++ List.concat (List.map snd pages)) (n + List.length pages).
Proof.
  induction pages as [|[url value] rest IH]; intros fuel n acc Hs Hfuel.
  - cbn. now rewrite Nat.sub_0_r, app_nil_r, Nat.add_0_r.
  - destruct Hs as (Hurl & Hfetch & Hrest). cbn [List.length] in Hfuel.
    destruct fuel as [|fuel]; [lia|].
    cbn [first_link GraphService.fetch_pages].
    apply String.eqb_neq in Hurl. rewrite Hurl, Hfetch.
    rewrite (IH fuel (S n) (acc ++ value) Hrest) by lia.
    cbn [List.length List.map List.concat snd Nat.sub].
    rewrite <- app_assoc. f_equal. lia.
Qed.

Lemma fetch_pages_more_fuel (fuel : nat) :
  forall (fuel' : nat) (link : option string) (acc : list GraphCalendarEvent) (n : nat) r,
    GraphService.fetch_pages fetch fuel link acc n = Some r ->
    (fuel <= fuel')%nat ->
    GraphService.fetch_pages fetch fuel' link acc n = Some r.
Proof.
  induction fuel as [|fuel IH]; intros fuel' link acc n r H Hle.
  - destruct fuel'; [assumption|]. cbn in *.
    destruct link as [url|]; [|assumption].
    destruct (String.eqb url ""); [assumption|discriminate].
  - destruct fuel' as [|fuel']; [lia|]. cbn in *.
    destruct link as [url|]; [|assumption].
    destruct (String.eqb url ""); [assumption|].
    destruct (fetch n url) as [[status text|value next]|e]; try assumption.
    apply IH; [assumption|lia].
Qed.

End PagingFacts.

(** The paging loop of [fetchCalendarEvents]. When the service hands out a
    chain of pages, the loop sends one request per page and returns the
    events of all the pages, in the order of the pages, after those it
    started with; it stops at a page without a next link or with an empty
    one. When the link after the chain is answered by a response that is not
    ok, the loop throws [Graph API error: <status> - <text>] and the events
    of the pages before are lost; when the request itself fails, it throws
    that error. More turns than the chain needs change nothing. *)
Theorem fetch_pages_collects_the_pages_in_order
    (fetch : nat -> string -> Res GraphService.GraphResponse)
    (pages : list (string * list GraphCalendarEvent)) (after : option string)
    (fuel n : nat) (acc : list GraphCalendarEvent) :
  serves fetch n pages after ->
  (List.length pages <= fuel)%nat ->
  (after = None \/ after = Some "" ->
   GraphService.fetch_pages fetch fuel (first_link pages after) acc n
   = Some (Ret (acc ++ List.concat (List.map snd pages)), (n + List.length pages)%nat))
  /\ (forall url status errorText,
        after = Some url -> url <> "" -> (List.length pages < fuel)%nat ->
        fetch (n + List.length pages)%nat url
        = Ret (GraphService.graph_not_ok status errorText) ->
        GraphService.fetch_pages fetch fuel (first_link pages after) acc n
        = Some (Exn (JsError ("Graph API error: " +:+ JS.string_of_Z status
                              +:+ " - " +:+ errorText)),
                S (n + List.length pages)))
  /\ (forall url e,
        after = Some url -> url <> "" -> (List.length pages < fuel)%nat ->
        fetch (n + List.length pages)%nat url = Exn e ->
        GraphService.fetch_pages fetch fuel (first_link pages after) acc n
        = Some (Exn e, S (n + List.length pages)))
  /\ (forall r fuel',
        GraphService.fetch_pages fetch fuel (first_link pages after) acc n = Some r ->
        (fuel <= fuel')%nat ->
        GraphService.fetch_pages fetch fuel' (first_link pages after) acc n = Some r).
Proof.
  intros Hs Hfuel. rewrite (fetch_pages_through fetch pages after fuel n acc Hs Hfuel).
  split; [|split; [|split]].
  - intros [-> | ->]; destruct (fuel - List.length pages)%nat; reflexivity.
  - intros url status errorText -> Hurl Hlt Hfetch.
    destruct (fuel - List.length pages)%nat as [|k] eqn:Hk; [lia|].
    cbn. apply String.eqb_neq in Hurl. now rewrite Hurl, Hfetch.
  - intros url e -> Hurl Hlt Hfetch.
    destruct (fuel - List.length pages)%nat as [|k] eqn:Hk; [lia|].
    cbn. apply String.eqb_neq in Hurl. now rewrite Hurl, Hfetch.
  - intros r fuel' Hr Hle.
    rewrite <- (fetch_pages_through fetch pages after fuel n acc Hs Hfuel) in Hr.
    eapply fetch_pages_more_fuel; eassumption.
Qed.

Lemma fetch_pages_collects_the_pages_in_order_witness :
  GraphService.fetch_pages TwoPages.fetch 5 (Some TwoPages.first_url) [] 0
  = Some (Ret [Fixtures.standup; Fixtures.placeholder; Fixtures.called_off], 2%nat).
Proof.
  destruct (fetch_pages_collects_the_pages_in_order TwoPages.fetch TwoPages.pages None
              5 0 []) as [H _].
  - cbn. repeat split; discriminate.
  - cbn. lia.
  - apply H. now left.
Defined.

Section Owners.

(** The entries of a [Map] built by [set] under the key [key o]. *)
Lemma fold_set_spec {V} (key : V -> string) (xs : list V) :
  forall m0 : JsMap V,
    let m := fold_left (fun m o => JsMap.set (key o) o m) xs m0 in
    (List.NoDup (keys m0) -> List.NoDup (keys m))
    /\ (forall k, In k (keys m) <-> In k (keys m0) \/ exists o, In o xs /\ key o = k)
    /\ (forall k o, In (k, o) m -> In (k, o) m0 \/ (In o xs /\ key o = k)).
Proof.
  induction xs as [|x r IH]; intros m0; cbn [fold_left].
  - cbv zeta. split; [auto|]. split; [|auto].
    intros k. split; [auto|]. intros [H|(o & [] & _)]. assumption.
  - specialize (IH (JsMap.set (key x) x m0)). cbv zeta in *.
    destruct IH as (Hnd & Hkeys & Hent). split; [|split].
    + intros H. apply Hnd. now apply keys_set_NoDup.
    + intros k. rewrite Hkeys, keys_set. split.
      * intros [[->|H]|(o & Ho & Hk)]; eauto.
        -- right. exists x. split; [now left|reflexivity].
        -- right. exists o. split; [now right|assumption].
      * intros [H|(o & [<-|Ho] & Hk)]; eauto.
    + intros k o Hin. destruct (Hent k o Hin) as [H|[Ho Hk]].
      * assert (Hset : In (k, o) (JsMap.set (key x) x m0) ->
                       In (k, o) m0 \/ (o = x /\ k = key x)).
        { clear. induction m0 as [|[k0 v0] m IH]; cbn.
          - intros [H|[]]. injection H as <- <-. now right.
          - destruct (String.eqb k0 (key x)); cbn.
            + intros [H|H]; [injection H as <- <-; now right|]. left. now right.
            + intros [H|H]; [left; now left|].
              destruct (IH H) as [H'|H']; [left; now right|now right]. }
        destruct (Hset H) as [H'|[-> ->]]; [now left|].
        right. split; [now left|reflexivity].
      * right. split; [now right|assumption].
Qed.

End Owners.

(** The owners [getSharedCalendarOwners] returns, from the calendars and
    the mail of the signed-in user. Every owner returned is the owner of one
    of the calendars, with an address that is not empty; no two of them
    have the same address up to case; and when the user's mail is known, none
    has that mail up to case. Conversely the owner of every calendar whose
    address is not empty and differs from the user's mail up to case is
    returned, under that address up to case; when the profile has no mail,
    that is every owner with an address, the user included. *)
Theorem sharedCalendarOwners_are_the_other_owners
    (calendars : list GraphService.SharedCalendar) (mail : option string) :
  let owners := GraphService.sharedCalendarOwners calendars mail in
  (forall o, In o owners ->
     GraphService.so_email o <> ""
     /\ exists cal owner,
          In cal calendars /\ GraphService.cal_owner cal = Some owner
          /\ GraphService.owner_address owner = Some (GraphService.so_email o)
          /\ GraphService.so_name o
             = JS.or_else (GraphService.owner_name owner) (GraphService.cal_name cal))
  /\ List.NoDup (List.map (fun o => JS.toLowerCase (GraphService.so_email o)) owners)
  /\ (forall m o, mail = Some m -> In o owners ->
        JS.toLowerCase (GraphService.so_email o) <> JS.toLowerCase m)
  /\ (forall cal owner address,
        In cal calendars -> GraphService.cal_owner cal = Some owner ->
        GraphService.owner_address owner = Some address -> address <> "" ->
        (forall m, mail = Some m -> JS.toLowerCase address <> JS.toLowerCase m) ->
        exists o, In o owners
                  /\ JS.toLowerCase (GraphService.so_email o) = JS.toLowerCase address)
  /\ (List.length owners <= List.length calendars)%nat.
Proof.
  cbv zeta. unfold GraphService.sharedCalendarOwners.
  set (kept := List.filter _ calendars).
  set (shared := List.filter _ (List.map _ kept)).
  set (key := fun o => JS.toLowerCase (GraphService.so_email o)).
  destruct (fold_set_spec key shared []) as (Hnd & Hkeys & Hent). cbv zeta in *.
  fold key.
  set (m := fold_left (fun m o => JsMap.set (key o) o m) shared []) in *.
  assert (Hkey : forall k o, In (k, o) m -> In o shared /\ key o = k).
  { intros k o H. destruct (Hent k o H) as [[]|H']. exact H'. }
  assert (Hvalues : forall o, In o (JsMap.values m) -> In o shared).
  { intros o H. unfold JsMap.values in H. apply in_map_iff in H.
    destruct H as ([k o'] & <- & Hin). now apply Hkey in Hin. }
  assert (Hlower : List.map key (JsMap.values m) = keys m).
  { unfold JsMap.values, keys. rewrite List.map_map. apply map_ext_in.
    intros [k o] Hin. cbn. now apply Hkey in Hin. }
  assert (Hshared : forall o, In o shared ->
            GraphService.so_email o <> ""
            /\ exists cal owner,
                 In cal calendars /\ GraphService.cal_owner cal = Some owner
                 /\ GraphService.owner_address owner = Some (GraphService.so_email o)
                 /\ GraphService.so_name o
                    = JS.or_else (GraphService.owner_name owner) (GraphService.cal_name cal)
                 /\ GraphService.differs (Some (JS.toLowerCase (GraphService.so_email o)))
                      (JS.toLowerCase <$> mail) = true).
  { intros o Ho. unfold shared in Ho. apply filter_In in Ho. destruct Ho as [Ho Hne].
    apply negb_true_iff, String.eqb_neq in Hne. split; [assumption|].
    apply in_map_iff in Ho. destruct Ho as (cal & <- & Hcal).
    unfold kept in Hcal. apply filter_In in Hcal. destruct Hcal as [Hcal Hdiff].
    cbn in *. destruct (GraphService.cal_owner cal) as [owner|] eqn:Howner; [|discriminate].
    exists cal, owner.
    destruct (GraphService.owner_address owner) as [a|] eqn:Haddr; cbn in *.
    - do 4 (split; [first [assumption|reflexivity]|]). exact Hdiff.
    - contradiction. }
  split; [|split; [|split; [|split]]].
  - intros o Ho. apply Hvalues, Hshared in Ho.
    destruct Ho as (Hne & cal & owner & H1 & H2 & H3 & H4 & _). split; [assumption|].
    exists cal, owner. auto.
  - change (List.NoDup (List.map key (JsMap.values m))). rewrite Hlower.
    apply Hnd. constructor.
  - intros mm o -> Ho. apply Hvalues, Hshared in Ho.
    destruct Ho as (_ & _ & _ & _ & _ & _ & _ & Hdiff). cbn in Hdiff.
    apply negb_true_iff, String.eqb_neq in Hdiff. exact Hdiff.
  - intros cal owner address Hcal Howner Haddr Hne Hmail.
    assert (Hin : In {| GraphService.so_name :=
                          JS.or_else (GraphService.owner_name owner)
                                     (GraphService.cal_name cal);
                        GraphService.so_email := address |} shared).
    { unfold shared. apply filter_In. split.
      - apply in_map_iff. exists cal. split.
        + now rewrite Howner, Haddr.
        + unfold kept. apply filter_In. split; [assumption|].
          rewrite Howner, Haddr. cbn. destruct mail as [mm|]; cbn; [|reflexivity].
          apply negb_true_iff, String.eqb_neq. now apply Hmail.
      - cbn. now apply negb_true_iff, String.eqb_neq. }
    assert (Hk : In (JS.toLowerCase address) (keys m)).
    { apply Hkeys. right. eexists. split; [exact Hin|reflexivity]. }
    unfold keys in Hk. apply in_map_iff in Hk. destruct Hk as ([k o] & Hfst & Hko).
    cbn in Hfst. subst k. exists o. split.
    + unfold JsMap.values. apply in_map_iff. exists (JS.toLowerCase address, o). auto.
    + now apply Hkey in Hko.
  - unfold JsMap.values. rewrite length_map.
    assert (Hlen : forall xs (m0 : JsMap GraphService.SharedOwner),
               (List.length (fold_left (fun m o => JsMap.set (key o) o m) xs m0)
                <= List.length m0 + List.length xs)%nat).
    { induction xs as [|x r IH]; intros m0; cbn [fold_left List.length]; [lia|].
      specialize (IH (JsMap.set (key x) x m0)).
      pose proof (set_length (key x) x m0). lia. }
    assert (Hs : (List.length shared <= List.length calendars)%nat).
    { unfold shared, kept.
      etransitivity; [apply filter_length_le|]. rewrite length_map.
      apply filter_length_le. }
    etransitivity; [exact (Hlen shared [])|exact Hs].
Qed.

Lemma sharedCalendarOwners_are_the_other_owners_witness :
  exists o,
    In o (GraphService.sharedCalendarOwners
            [SharedCalendars.mine; SharedCalendars.bobs; SharedCalendars.bobs_other]
            (Some "Ada@Acme.com"))
    /\ JS.toLowerCase (GraphService.so_email o) = JS.toLowerCase "Bob@Example.org".
Proof.
  pose proof (sharedCalendarOwners_are_the_other_owners
                [SharedCalendars.mine; SharedCalendars.bobs; SharedCalendars.bobs_other]
                (Some "Ada@Acme.com")) as H.
  cbv zeta in H. destruct H as (_ & _ & _ & H & _).
  apply (H SharedCalendars.bobs
           {| GraphService.owner_name := "Bob";
              GraphService.owner_address := Some "Bob@Example.org" |}).
  - right. now left.
  - reflexivity.
  - reflexivity.
  - discriminate.
  - intros m Hm. injection Hm as <-. vm_compute. discriminate.
Defined.

(* ===================================================================== *)
(** * The tools of the calendar agent *)
(* ===================================================================== *)

Section CalendarTools.
Variable env : Env.

Lemma filter_is_sublist {A} (p : A -> bool) (xs : list A) : sublist (List.filter p xs) xs.
Proof.
  induction xs as [|x r IH]; cbn; [constructor|].
  destruct (p x); [now apply sublist_skip|now apply sublist_cons].
Qed.


End CalendarTools.



Section Filters.
Variable env : Env.

Lemma filter_meetings_cases (agent : string) (args : Json)
    (hs : HandlerState CalendarFields) :
  (exists e, CalendarAgent.filter_meetings env agent args hs = (Exn e, hs))
  \/ (exists (filtered : list GraphCalendarEvent) (filterType filterValue : Json),
        CalendarAgent.filter_meetings env agent args hs
        = (Ret (JObj [ ("success", JBool true);
                       ("filteredCount", json_nat (List.length filtered));
                       ("filterApplied",
                        JObj [("type", filterType); ("value", filterValue)]) ]),
           {| h_context := <["meetings" := VMeetings filtered]> (h_context hs);
              h_fields := CalendarAgent.set_meetings filtered (h_fields hs);
              h_world := h_world hs |})
        /\ JsValue.prop "filter_type" args hs = (Ret filterType, hs)
        /\ (exists p, filtered = List.filter p (meetings (h_fields hs)))
        /\ (JsValue.is_string "organizer_domain" filterType = false ->
            JsValue.is_string "min_attendees" filterType = false ->
            JsValue.is_string "keyword" filterType = false ->
            JsValue.is_string "external_only" filterType = false ->
            JsValue.is_string "internal_only" filterType = false ->
            filtered = meetings (h_fields hs))
        /\ (JsValue.is_string "external_only" filterType = true ->
            filtered
            = List.filter (fun m => negb (CalendarAgent.same_domain m
                                            (userDomain (h_fields hs))))
                          (meetings (h_fields hs)))
        /\ (JsValue.is_string "internal_only" filterType = true ->
            filtered
            = List.filter (fun m => CalendarAgent.same_domain m (userDomain (h_fields hs)))
                          (meetings (h_fields hs)))).
Proof.
  remember (CalendarAgent.filter_meetings env agent args hs) as X eqn:HX.
  unfold CalendarAgent.filter_meetings in HX. unfold bind at 1 in HX.
  destruct (prop_cases "filter_type" args hs) as [[filterType Hp]|[e Hp]]; rewrite Hp in HX;
    [|left; eauto].
  unfold bind at 1 in HX.
  destruct (prop_cases "filter_value" args hs) as [[filterValue Hp2]|[e Hp2]];
    rewrite Hp2 in HX; [|left; eauto].
  unfold bind at 1, gets at 1 in HX. unfold bind at 1 in HX.
  assert (Hall : forall xs : list GraphCalendarEvent, xs = List.filter (fun _ => true) xs).
  { intros xs. induction xs as [|x r IH]; cbn; [reflexivity|]. now rewrite <- IH. }
  assert (Hex : forall b : string,
            JsValue.is_string b filterType = true ->
            forall c : string, c <> b -> JsValue.is_string c filterType = false).
  { intros b Hb c Hc. destruct filterType; try reflexivity. cbn in *.
    apply String.eqb_eq in Hb. subst. now apply String.eqb_neq. }
  destruct (JsValue.is_string "organizer_domain" filterType) eqn:H1.
  { pose proof (Hex _ H1 "external_only" ltac:(discriminate)) as H2.
    pose proof (Hex _ H1 "internal_only" ltac:(discriminate)) as H3.
    destruct (meetings (h_fields hs)) as [|m0 rest] eqn:Hms.
    - unfold ret at 1 in HX. cbn in HX. right. exists [], filterType, filterValue.
      split; [exact HX|]. split; [exact Hp|].
      split; [exists (fun _ => true); reflexivity|].
      split; [congruence|]. split; congruence.
    - destruct (toLowerCase_cases "filterValue" filterValue hs) as [[v Hv]|[e Hv]].
      + unfold bind at 1 in HX. rewrite Hv in HX. unfold ret at 1 in HX. right.
        eexists _, filterType, filterValue. split; [exact HX|].
        split; [exact Hp|]. split; [eexists; reflexivity|].
        split; [congruence|]. split; congruence.
      + unfold bind at 1 in HX. rewrite Hv in HX. left. eauto. }
  destruct (JsValue.is_string "min_attendees" filterType) eqn:H2.
  { pose proof (Hex _ H2 "external_only" ltac:(discriminate)) as H3.
    pose proof (Hex _ H2 "internal_only" ltac:(discriminate)) as H4.
    unfold ret at 1 in HX. right. eexists _, filterType, filterValue.
    split; [exact HX|]. split; [exact Hp|]. split; [eexists; reflexivity|].
    split; [congruence|]. split; congruence. }
  destruct (JsValue.is_string "keyword" filterType) eqn:H3.
  { pose proof (Hex _ H3 "external_only" ltac:(discriminate)) as H4.
    pose proof (Hex _ H3 "internal_only" ltac:(discriminate)) as H5.
    destruct (toLowerCase_cases "filterValue" filterValue hs) as [[v Hv]|[e Hv]].
    - unfold bind at 1 in HX. rewrite Hv in HX. unfold ret at 1 in HX. right.
      eexists _, filterType, filterValue. split; [exact HX|].
      split; [exact Hp|]. split; [eexists; reflexivity|].
      split; [congruence|]. split; congruence.
    - unfold bind at 1 in HX. rewrite Hv in HX. left. eauto. }
  destruct (JsValue.is_string "external_only" filterType) eqn:H4.
  { pose proof (Hex _ H4 "internal_only" ltac:(discriminate)) as H5.
    unfold ret at 1 in HX. right. eexists _, filterType, filterValue.
    split; [exact HX|]. split; [exact Hp|]. split; [eexists; reflexivity|].
    split; [congruence|]. split; [reflexivity|congruence]. }
  destruct (JsValue.is_string "internal_only" filterType) eqn:H5.
  { unfold ret at 1 in HX. right. eexists _, filterType, filterValue.
    split; [exact HX|]. split; [exact Hp|]. split; [eexists; reflexivity|].
    split; [congruence|]. split; [congruence|reflexivity]. }
  unfold ret at 1 in HX. right. exists (meetings (h_fields hs)), filterType, filterValue.
  split; [exact HX|]. split; [exact Hp|].
  split; [exists (fun _ => true); apply Hall|]. split; [reflexivity|]. split; congruence.
Qed.

End Filters.

(** [filter_meetings] only narrows. Whatever its arguments, the meetings the
    agent holds afterwards are a sublist of those it held, in their order,
    and the world is not touched. When it throws (its arguments are
    [null], or the filter value of a text filter is no string) the agent is
    what it was. When it returns, the context carries the meetings that are
    left and the result reports their number; a filter type that is none of
    the five leaves all the meetings and succeeds. What a filter removed
    stays removed. *)
Theorem filter_meetings_only_narrows (env : Env) (agent : string) (args : Json)
    (hs : HandlerState CalendarFields) :
  let r := fst (CalendarAgent.filter_meetings env agent args hs) in
  let hs' := snd (CalendarAgent.filter_meetings env agent args hs) in
  sublist (meetings (h_fields hs')) (meetings (h_fields hs))
  /\ h_world hs' = h_world hs
  /\ (forall e, r = Exn e -> hs' = hs)
  /\ (forall result, r = Ret result ->
        h_context hs' !! "meetings" = Some (VMeetings (meetings (h_fields hs')))
        /\ exists members,
             result = JObj members
             /\ JSON.member "success" members = JBool true
             /\ JSON.member "filteredCount" members
                = json_nat (List.length (meetings (h_fields hs'))))
  /\ (forall filterType,
        JsValue.prop "filter_type" args hs = (Ret filterType, hs) ->
        JsValue.is_string "organizer_domain" filterType = false ->
        JsValue.is_string "min_attendees" filterType = false ->
        JsValue.is_string "keyword" filterType = false ->
        JsValue.is_string "external_only" filterType = false ->
        JsValue.is_string "internal_only" filterType = false ->
        exists result, r = Ret result /\ meetings (h_fields hs') = meetings (h_fields hs))
  /\ (forall args2,
        sublist (meetings (h_fields
                   (snd (CalendarAgent.filter_meetings env agent args2 hs'))))
                (meetings (h_fields hs))).
Proof.
  cbv zeta.
  assert (Hsub : forall a h,
            sublist (meetings (h_fields (snd (CalendarAgent.filter_meetings env agent a h))))
                    (meetings (h_fields h))).
  { intros a h. destruct (filter_meetings_cases env agent a h)
      as [[e ->]|(filtered & ft & fv & -> & _ & [p ->] & _)]; cbn.
    - reflexivity.
    - apply filter_is_sublist. }
  split; [apply Hsub|].
  destruct (filter_meetings_cases env agent args hs)
    as [[e Hrun]|(filtered & ft & fv & Hrun & Hprop & [p Hp] & Hother & _)].
  - rewrite Hrun. cbn. split; [reflexivity|]. split; [reflexivity|].
    split; [intros ? HH; discriminate HH|]. split; [|intros args2; apply Hsub].
    intros filterType Hft H1 H2 H3 H4 H5. exfalso. revert Hrun.
    unfold CalendarAgent.filter_meetings. unfold bind at 1. rewrite Hft.
    unfold bind at 1.
    destruct (prop_cases "filter_value" args hs) as [[filterValue Hp2]|[e2 Hp2]].
    + rewrite Hp2. unfold bind at 1, gets at 1. unfold bind at 1.
      rewrite H1, H2, H3, H4, H5. unfold ret at 1. discriminate.
    + destruct args; cbn in Hft, Hp2; unfold ret, throw in *; discriminate.
  - rewrite Hrun. cbn. split; [reflexivity|]. split; [intros ? HH; discriminate HH|].
    split.
    { intros result Hr. injection Hr as <-. split; [now simplify_map_eq|].
      eexists. split; [reflexivity|]. split; reflexivity. }
    split.
    { intros filterType Hft H1 H2 H3 H4 H5. rewrite Hprop in Hft. injection Hft as <-.
      eexists. split; [reflexivity|]. now apply Hother. }
    intros args2. etransitivity; [apply Hsub|]. cbn. subst filtered. apply filter_is_sublist.
Qed.

Lemma filter_meetings_only_narrows_witness :
  snd (CalendarAgent.filter_meetings Fixtures.insisting_env "CalendarAgent"
         (Desk.filter_args "keyword") Desk.after_fetch)
  = Desk.after_fetch.
Proof.
  pose proof (filter_meetings_only_narrows Fixtures.insisting_env "CalendarAgent"
                (Desk.filter_args "keyword") Desk.after_fetch) as H.
  cbv zeta in H. destruct H as (_ & _ & H & _).
  apply (H (JsError "Cannot read properties of undefined (reading 'toLowerCase')")).
  reflexivity.
Defined.

(** The filters [external_only] and [internal_only] split the meetings the
    agent holds: each meeting is kept by exactly one of the two, so the two
    counts add up to the number of meetings. A meeting whose organizer
    address has no [@] is external. *)
Theorem external_and_internal_filters_split_the_meetings (env : Env) (agent : string)
    (hs : HandlerState CalendarFields) :
  let kept := fun filterType =>
    meetings (h_fields (snd (CalendarAgent.filter_meetings env agent
                               (JObj [("filter_type", JStr filterType)]) hs))) in
  (List.length (kept "external_only") + List.length (kept "internal_only")
   = List.length (meetings (h_fields hs)))%nat
  /\ (forall m, In m (meetings (h_fields hs)) ->
        (In m (kept "external_only") /\ ~ In m (kept "internal_only"))
        \/ (In m (kept "internal_only") /\ ~ In m (kept "external_only")))
  /\ (forall m, In m (meetings (h_fields hs)) ->
        JS.includes "@" (ea_address (organizer m)) = false ->
        In m (kept "external_only")).
Proof.
  cbv zeta.
  destruct (filter_meetings_cases env agent (JObj [("filter_type", JStr "external_only")]) hs)
    as [[e He]|(ext & ft & fv & He & Hft & _ & _ & Hext & _)]; [discriminate He|].
  destruct (filter_meetings_cases env agent (JObj [("filter_type", JStr "internal_only")]) hs)
    as [[e Hi]|(int & ft' & fv' & Hi & Hft' & _ & _ & _ & Hint)]; [discriminate Hi|].
  injection Hft as <-. injection Hft' as <-.
  rewrite He, Hi. cbn [snd h_fields meetings CalendarAgent.set_meetings].
  rewrite (Hext eq_refl), (Hint eq_refl).
  pose (same := fun m => CalendarAgent.same_domain m (userDomain (h_fields hs))).
  split; [|split].
  - assert (Hlen : forall (p : GraphCalendarEvent -> bool) xs,
               (List.length (List.filter (fun m => negb (p m)) xs)
                + List.length (List.filter p xs) = List.length xs)%nat).
    { intros p xs. induction xs as [|m r IH]; cbn; [reflexivity|].
      destruct (p m); cbn; lia. }
    apply (Hlen same).
  - intros m Hm. rewrite !filter_In, negb_true_iff.
    destruct (CalendarAgent.same_domain m (userDomain (h_fields hs))); [right|left];
      split; try tauto; intros [_ H]; discriminate H.
  - intros m Hm Hat. rewrite filter_In, negb_true_iff. split; [assumption|].
    unfold CalendarAgent.same_domain, JS.split_second.
    rewrite (includes_char "@") in Hat. apply negb_false_iff in Hat.
    now rewrite (break_at_whole "@" _ Hat).
Qed.

Section Counting.
Context {A : Type}.
Variable key : A -> string.

Lemma total_cons (k : string) (n : nat) (r : list (string * nat)) :
  total ((k, n) :: r) = (n + total r)%nat.
Proof. reflexivity. Qed.

Lemma bump_spec (k : string) (acc : list (string * nat)) :
  List.NoDup (List.map fst acc) ->
  List.NoDup (List.map fst (LLMService.bump k acc))
  /\ total (LLMService.bump k acc) = S (total acc)
  /\ (forall k', In k' (List.map fst (LLMService.bump k acc))
                 <-> k' = k \/ In k' (List.map fst acc))
  /\ (forall k' n, In (k', n) (LLMService.bump k acc) ->
        (k' = k /\ ((n = 1%nat /\ ~ In k (List.map fst acc))
                    \/ exists n0, n = S n0 /\ In (k, n0) acc))
        \/ (k' <> k /\ In (k', n) acc)).
Proof.
  induction acc as [|[k0 n0] r IH]; cbn -[total]; intros Hnd.
  - split; [constructor; [intros []|constructor]|]. split; [reflexivity|].
    split; [intuition congruence|].
    intros k' n [H|[]]. injection H as <- <-. left. split; [reflexivity|]. left. tauto.
  - apply List.NoDup_cons_iff in Hnd. destruct Hnd as [Hk0 Hr].
    destruct (String.eqb_spec k0 k) as [->|Hne]; cbn -[total].
    + split; [now constructor|]. split; [reflexivity|]. split; [intuition congruence|].
      intros k' n [H|H].
      * injection H as <- <-. left. split; [reflexivity|]. right. exists n0. split; auto.
      * right. split; [|now right]. intros ->. apply Hk0.
        change k with (fst (k, n)). now apply in_map.
    + destruct (IH Hr) as (I1 & I2 & I3 & I4).
      split. { constructor; [|assumption]. rewrite I3. intros [->|H]; [congruence|contradiction]. }
      split; [rewrite !total_cons, I2; lia|]. split.
      { intros k'. rewrite I3. intuition congruence. }
      intros k' n [H|H].
      * injection H as <- <-. right. split; [assumption|now left].
      * destruct (I4 k' n H) as [[-> [[-> Hnot]|(n1 & -> & Hin)]]|[Hk' Hin]].
        -- left. split; [reflexivity|]. left. split; [reflexivity|].
           intros [H'|H']; [congruence|contradiction].
        -- left. split; [reflexivity|]. right. exists n1. split; [reflexivity|now right].
        -- right. split; [assumption|now right].
Qed.

Lemma count_by_spec (xs : list A) :
  let cs := LLMService.count_by key xs in
  List.NoDup (List.map fst cs)
  /\ total cs = List.length xs
  /\ (forall k, In k (List.map fst cs) <-> exists x, In x xs /\ key x = k)
  /\ (forall k n, In (k, n) cs -> n = occurrences key k xs /\ (0 < n)%nat).
Proof.
  cbv zeta. unfold LLMService.count_by.
  assert (H : forall (ys : list A) (acc : list (string * nat)) (seen : list A),
             List.NoDup (List.map fst acc) ->
             total acc = List.length seen ->
             (forall k, In k (List.map fst acc) <-> exists x, In x seen /\ key x = k) ->
             (forall k n, In (k, n) acc -> n = occurrences key k seen /\ (0 < n)%nat) ->
             let cs := fold_left (fun acc a => LLMService.bump (key a) acc) ys acc in
             List.NoDup (List.map fst cs)
             /\ total cs = List.length (seen ++ ys)
             /\ (forall k, In k (List.map fst cs) <-> exists x, In x (seen ++ ys) /\ key x = k)
             /\ (forall k n, In (k, n) cs -> n = occurrences key k (seen ++ ys) /\ (0 < n)%nat)).
  { induction ys as [|y r IH]; intros acc seen Hnd Htot Hkeys Hocc; cbn [fold_left].
    - cbv zeta. rewrite app_nil_r. auto.
    - destruct (bump_spec (key y) acc Hnd) as (B1 & B2 & B3 & B4).
      specialize (IH (LLMService.bump (key y) acc) (seen ++ [y]) B1).
      replace (seen ++ y :: r) with ((seen ++ [y]) ++ r) by now rewrite <- app_assoc.
      apply IH.
      + rewrite B2, Htot, length_app. cbn. lia.
      + intros k. rewrite B3, Hkeys. split.
        * intros [->|(x & Hx & Hk)].
          -- exists y. split; [apply in_or_app; right; now left|reflexivity].
          -- exists x. split; [apply in_or_app; now left|assumption].
        * intros (x & Hx & Hk). apply in_app_or in Hx. destruct Hx as [Hx|[<-|[]]]; eauto.
      + intros k n Hin. unfold occurrences. rewrite List.filter_app, List.length_app. cbn.
        destruct (B4 k n Hin) as [[-> [[-> Hnot]|(n1 & -> & Hin1)]]|[Hk Hin1]].
        * rewrite String.eqb_refl. cbn. split; [|lia].
          assert (Hz : List.length (List.filter (fun x => String.eqb (key x) (key y)) seen)
                       = 0%nat).
          { destruct (List.filter _ seen) as [|x l] eqn:Hf; [reflexivity|].
            exfalso. apply Hnot, Hkeys.
            assert (Hx : In x (List.filter (fun x => String.eqb (key x) (key y)) seen))
              by (rewrite Hf; now left).
            apply filter_In in Hx. destruct Hx as [Hx Hk]. apply String.eqb_eq in Hk. eauto. }
          lia.
        * rewrite String.eqb_refl. cbn. destruct (Hocc _ _ Hin1) as [-> _].
          unfold occurrences. split; lia.
        * destruct (Hocc _ _ Hin1) as [-> Hpos]. unfold occurrences in *.
          apply not_eq_sym in Hk. apply String.eqb_neq in Hk. rewrite Hk. cbn. split; lia. }
  apply (H xs [] []); cbn; try tauto.
  - constructor.
  - intros k. split; [intros []|intros (x & [] & _)].
Qed.

(** The table of a plain object, from the table of the counts: the name
    [__proto__] is never stored, and a name is stored with what the object
    holds under it. *)
Lemma inherited_text_nonempty (k t : string) : JsObject.inherited_text k +:+ t <> "".
Proof.
  unfold JsObject.inherited_text.
  destruct (String.eqb k "__proto__"); [rewrite append_cons; discriminate|].
  destruct (String.eqb k "constructor"); rewrite append_cons; discriminate.
Qed.

Lemma next_held (k : string) (n : nat) : JsObject.next (held k n) = held k (S n).
Proof.
  unfold held. destruct (existsb (String.eqb k) JsObject.inherited); [|reflexivity].
  cbn [JsObject.next ones].
  destruct (String.eqb_spec (JsObject.inherited_text k +:+ ones n) "") as [H|_].
  - now apply inherited_text_nonempty in H.
  - now rewrite append_assoc.
Qed.

Lemma plain_bump (k : string) (acc : list (string * nat)) :
  k <> "__proto__" ->
  JsObject.bump k (List.map (fun kn => (fst kn, held (fst kn) (snd kn))) acc)
  = List.map (fun kn => (fst kn, held (fst kn) (snd kn))) (LLMService.bump k acc).
Proof.
  intros Hk. induction acc as [|[k0 n0] r IH]; cbn [List.map JsObject.bump LLMService.bump fst snd].
  - unfold held. cbn [fst snd].
    destruct (existsb (String.eqb k) JsObject.inherited); [|reflexivity].
    apply String.eqb_neq in Hk. rewrite Hk. reflexivity.
  - destruct (String.eqb k0 k) eqn:Heq; cbn [List.map fst snd].
    + now rewrite next_held.
    + now rewrite IH.
Qed.

Lemma proto_bump (acc : list (string * nat)) :
  ~ In "__proto__" (List.map fst acc) ->
  JsObject.bump "__proto__" (List.map (fun kn => (fst kn, held (fst kn) (snd kn))) acc)
  = List.map (fun kn => (fst kn, held (fst kn) (snd kn))) acc.
Proof.
  induction acc as [|[k0 n0] r IH]; intros Hnot; cbn [List.map JsObject.bump fst snd].
  - reflexivity.
  - cbn in Hnot. destruct (String.eqb_spec k0 "__proto__") as [->|Hne]; [tauto|].
    rewrite IH by tauto. reflexivity.
Qed.

Lemma plain_count_by (xs : list A) :
  JsObject.count_by key xs
  = List.map (fun kn => (fst kn, held (fst kn) (snd kn)))
      (LLMService.count_by key
         (List.filter (fun x => negb (String.eqb (key x) "__proto__")) xs)).
Proof.
  unfold JsObject.count_by, LLMService.count_by.
  change (@nil (string * JsObject.Count))
    with (List.map (fun kn : string * nat => (fst kn, held (fst kn) (snd kn))) []).
  assert (Hacc : List.NoDup (List.map fst (@nil (string * nat)))
                 /\ ~ In "__proto__" (List.map fst (@nil (string * nat))))
    by (split; [constructor|intros []]).
  revert Hacc. generalize (@nil (string * nat)).
  induction xs as [|x r IH]; intros acc [Hnd Hnot]; cbn [fold_left List.filter].
  - reflexivity.
  - destruct (String.eqb_spec (key x) "__proto__") as [Heq|Hne]; cbn [negb].
    + rewrite Heq, proto_bump by assumption. now apply IH.
    + rewrite plain_bump by assumption. cbn [fold_left]. apply IH.
      destruct (bump_spec (key x) acc Hnd) as (B1 & _ & B3 & _).
      split; [assumption|]. rewrite B3. intros [H|H]; [congruence|contradiction].
Qed.

Lemma occurrences_plain (k : string) (xs : list A) :
  k <> "__proto__" ->
  occurrences key k (List.filter (fun x => negb (String.eqb (key x) "__proto__")) xs)
  = occurrences key k xs.
Proof.
  intros Hk. unfold occurrences. induction xs as [|x r IH]; [reflexivity|].
  cbn [List.filter]. destruct (String.eqb_spec (key x) "__proto__") as [Heq|Hne]; cbn [negb].
  - rewrite Heq. destruct (String.eqb_spec "__proto__" k) as [H|_]; [congruence|]. exact IH.
  - cbn [List.filter]. destruct (String.eqb (key x) k); cbn [List.length]; now rewrite IH.
Qed.

End Counting.

Lemma inherited_In (k : string) :
  existsb (String.eqb k) JsObject.inherited = true <-> In k JsObject.inherited.
Proof.
  rewrite existsb_exists. split.
  - intros (k' & Hin & Heq). apply String.eqb_eq in Heq. now subst.
  - intros Hin. exists k. split; [assumption|apply String.eqb_refl].
Qed.

(** The table of six organizers, two of them at [acme.com], two at a
    domain named [constructor], one at the domain [7] and one at the domain
    [__proto__], as [JSON.stringify] lists it. *)
Example counts_of_a_plain_object :
  JsObject.counts_json
    (JsObject.count_by (fun d : string => d)
       ["acme.com"; "constructor"; "7"; "acme.com"; "__proto__"; "constructor"])
  = JObj [("7", JNum 1); ("acme.com", JNum 2);
          ("constructor", JStr "function Object() { [native code] }11")].
Proof. reflexivity. Qed.

(** [get_meeting_stats] reads and changes nothing, and [totalMeetings] is
    the number of the meetings the agent holds. Its table by domain is a
    plain object. It names each domain of an organizer once, except the
    domain [__proto__], which is never stored. A domain that is no name a
    plain object inherits has the number of its meetings, which is not
    zero. A domain that is such a name ([constructor], [toString], ...) has
    a text instead of a number: the text of what the object inherits under
    it, followed by one [1] per meeting. So when no organizer domain is an
    inherited name, all the counts are numbers and add up to
    [totalMeetings]. The cancelled and the all-day meetings are counted
    among the meetings. *)
Theorem get_meeting_stats_counts_every_meeting_once (env : Env) (agent : string)
    (args : Json) (hs : HandlerState CalendarFields) :
  let ms := meetings (h_fields hs) in
  let domain := CalendarAgent.organizer_domain in
  exists (members : list (string * Json)) (table : list (string * JsObject.Count))
         (cancelled allDay : nat),
    CalendarAgent.get_meeting_stats env agent args hs = (Ret (JObj members), hs)
    /\ JSON.member "totalMeetings" members = json_nat (List.length ms)
    /\ JSON.member "byDomain" members = JsObject.counts_json table
    /\ List.NoDup (List.map fst table)
    /\ (forall d, In d (List.map fst table)
                  <-> d <> "__proto__" /\ exists m, In m ms /\ domain m = d)
    /\ (forall d c, In (d, c) table -> ~ In d JsObject.inherited ->
          c = JsObject.number (occurrences domain d ms)
          /\ (0 < occurrences domain d ms)%nat)
    /\ (forall d c, In (d, c) table -> In d JsObject.inherited ->
          c = JsObject.text (JsObject.inherited_text d +:+ ones (occurrences domain d ms)))
    /\ ((forall m, In m ms -> ~ In (domain m) JsObject.inherited) ->
        exists counts : list (string * nat),
          table = List.map (fun kn => (fst kn, JsObject.number (snd kn))) counts
          /\ total counts = List.length ms)
    /\ JSON.member "cancelledCount" members = json_nat cancelled
    /\ JSON.member "allDayCount" members = json_nat allDay
    /\ (cancelled <= List.length ms)%nat /\ (allDay <= List.length ms)%nat.
Proof.
  cbv zeta.
  set (ms := meetings (h_fields hs)).
  set (plain := List.filter
                  (fun m => negb (String.eqb (CalendarAgent.organizer_domain m) "__proto__")) ms).
  destruct (count_by_spec CalendarAgent.organizer_domain plain)
    as (Hnd & Htot & Hkeys & Hocc).
  pose proof (plain_count_by CalendarAgent.organizer_domain ms) as Htable. fold plain in Htable.
  assert (Hfst : List.map fst (JsObject.count_by CalendarAgent.organizer_domain ms)
                 = List.map fst (LLMService.count_by CalendarAgent.organizer_domain plain)).
  { rewrite Htable, List.map_map. reflexivity. }
  assert (Hentry : forall d c,
             In (d, c) (JsObject.count_by CalendarAgent.organizer_domain ms) ->
             d <> "__proto__"
             /\ c = held d (occurrences CalendarAgent.organizer_domain d ms)
             /\ (0 < occurrences CalendarAgent.organizer_domain d ms)%nat).
  { intros d c Hin. rewrite Htable in Hin. apply in_map_iff in Hin.
    destruct Hin as ([k n] & [= <- <-] & Hin). cbn [fst snd].
    destruct (Hocc k n Hin) as [Hn Hpos].
    assert (Hk : k <> "__proto__").
    { destruct (proj1 (Hkeys k)) as (m & Hm & Hd).
      - change k with (fst (k, n)). now apply in_map.
      - unfold plain in Hm. apply filter_In in Hm. destruct Hm as [_ Hm].
        apply negb_true_iff, String.eqb_neq in Hm. congruence. }
    unfold plain in Hn. rewrite occurrences_plain in Hn by assumption. subst n. auto. }
  eexists _, (JsObject.count_by CalendarAgent.organizer_domain ms),
    (List.length (List.filter isCancelled ms)), (List.length (List.filter isAllDay ms)).
  split; [reflexivity|]. cbn [JSON.member].
  split; [reflexivity|]. split; [reflexivity|]. split; [now rewrite Hfst|]. split.
  { intros d. rewrite Hfst, Hkeys. unfold plain. split.
    - intros (m & Hm & Hd). apply filter_In in Hm. destruct Hm as [Hm Hp].
      apply negb_true_iff, String.eqb_neq in Hp. split; [congruence|eauto].
    - intros (Hp & m & Hm & Hd). exists m. split; [|assumption].
      apply filter_In. split; [assumption|].
      apply negb_true_iff, String.eqb_neq. congruence. }
  split.
  { intros d c Hin Hplain. destruct (Hentry d c Hin) as (_ & -> & Hpos).
    split; [|assumption]. unfold held.
    destruct (existsb (String.eqb d) JsObject.inherited) eqn:Hi; [|reflexivity].
    apply inherited_In in Hi. contradiction. }
  split.
  { intros d c Hin Hinh. destruct (Hentry d c Hin) as (_ & -> & _).
    unfold held. apply inherited_In in Hinh. now rewrite Hinh. }
  split.
  { intros Hplain.
    assert (Hall : plain = ms).
    { unfold plain. apply forallb_filter_id. apply forallb_forall. intros m Hm.
      apply negb_true_iff, String.eqb_neq. intros Hp. apply (Hplain m Hm).
      rewrite Hp. cbn. tauto. }
    exists (LLMService.count_by CalendarAgent.organizer_domain ms).
    rewrite Hall in *. split; [|assumption].
    rewrite Htable. apply List.map_ext_in. intros [k n] Hin. cbn [fst snd]. f_equal.
    unfold held. destruct (existsb (String.eqb k) JsObject.inherited) eqn:Hi; [|reflexivity].
    apply inherited_In in Hi. exfalso.
    destruct (proj1 (Hkeys k)) as (m & Hm & Hd).
    - change k with (fst (k, n)). now apply in_map.
    - apply (Hplain m Hm). now rewrite Hd. }
  split; [reflexivity|]. split; [reflexivity|]. split; apply filter_length_le.
Qed.

(* ===================================================================== *)
(** * The tools of the analysis agent *)
(* ===================================================================== *)

Section AnalysisTools.
Variable env : Env.

Lemma read_write (r : MapRef) (m : JsMap MeetingAnalysis) (w : World) :
  (r < List.length (heap w))%nat -> Heap.read r (Heap.write r m w) = m.
Proof.
  intros H. unfold Heap.read, Heap.write. cbn.
  now rewrite list_lookup_insert_eq by assumption.
Qed.

Lemma write_length (r : MapRef) (m : JsMap MeetingAnalysis) (w : World) :
  List.length (heap (Heap.write r m w)) = List.length (heap w).
Proof. unfold Heap.write. cbn. apply length_insert. Qed.

Lemma read_same_heap (r : MapRef) (w w' : World) :
  heap w' = heap w -> Heap.read r w' = Heap.read r w.
Proof. intros H. unfold Heap.read. now rewrite H. Qed.

(** One turn of the loop of [analyze_all_meetings] on a meeting that is not
    cancelled, with the analysis of [llmService]. *)
Lemma analyze_turn (agent : string) (total_ : nat) (meeting : GraphCalendarEvent)
    (analyzed : nat) (hs : HandlerState AnalysisFields) :
  results_allocated hs ->
  exists a hs',
    try_catch
      (h_emit agent thinking
         ("Analyzing (" +:+ JS.string_of_nat (analyzed + 1) +:+ "/"
          +:+ JS.string_of_nat total_ +:+ "): " +:+ subject meeting) ;;;
       analysis <- in_world (cap_analyzeMeeting (llmService env) meeting) ;;
       AnalysisAgent.results_set (id meeting) analysis ;;;
       ret (S analyzed))
      (fun error => in_world LLMService.console_error ;;; ret analyzed) hs
    = (Ret (S analyzed), hs')
    /\ h_fields hs' = h_fields hs /\ h_context hs' = h_context hs
    /\ results_allocated hs'
    /\ Heap.read (analysisResults (h_fields hs)) (h_world hs')
       = JsMap.set (id meeting) a (Heap.read (analysisResults (h_fields hs)) (h_world hs))
    /\ In (category a) LLMService.validCategories
    /\ files (h_world hs') = files (h_world hs)
    /\ currentConfig (h_world hs') = currentConfig (h_world hs)
    /\ chats (h_world hs')
       = (if LLMService.isLLMConfigured (h_world hs)
          then S (chats (h_world hs)) else chats (h_world hs)).
Proof.
  intros Halloc. unfold results_allocated in *.
  unfold try_catch, bind at 1, h_emit at 1, modify at 1.
  unfold bind at 1, in_world at 1. cbn [h_world h_set_world cap_analyzeMeeting llmService].
  match goal with
  | |- context [LLMService.analyzeMeeting env meeting ?w] =>
      destruct (analyzeMeeting_frame env meeting w)
        as (a & w1 & Hrun & Hcat & Hheap & Hfiles & Hevents & Hconf & Hgraph & Hchats & _)
  end.
  rewrite Hrun. cbn in Hheap, Hfiles, Hconf, Hchats.
  unfold bind, AnalysisAgent.results_set, modify, ret. cbn.
  exists a. eexists. split; [reflexivity|]. cbn.
  split; [reflexivity|]. split; [reflexivity|]. split.
  { unfold results_allocated. cbn. rewrite length_insert, Hheap. exact Halloc. }
  split.
  { unfold Heap.read at 1. cbn. unfold Heap.read at 1. rewrite Hheap. cbn.
    rewrite list_lookup_insert_eq by (rewrite length_insert || idtac; assumption).
    reflexivity. }
  split; [assumption|]. split; [assumption|]. split; [assumption|].
  rewrite Hchats. unfold LLMService.isLLMConfigured. reflexivity.
Qed.

Lemma analyze_loop_spec (agent : string) (total_ : nat) (ms : list GraphCalendarEvent) :
  forall (analyzed : nat) (hs : HandlerState AnalysisFields),
    results_allocated hs ->
    let ref := analysisResults (h_fields hs) in
    let held := List.filter (fun m => negb (isCancelled m)) ms in
    exists hs',
      AnalysisAgent.analyze_loop (llmService env) agent total_ ms analyzed hs
      = (Ret (analyzed + List.length held)%nat, hs')
      /\ h_fields hs' = h_fields hs /\ h_context hs' = h_context hs
      /\ results_allocated hs'
      /\ (forall k, In k (keys (Heap.read ref (h_world hs')))
                    <-> In k (keys (Heap.read ref (h_world hs)))
                        \/ In k (List.map id held))
      /\ ((forall k a, JsMap.get k (Heap.read ref (h_world hs)) = Some a ->
                       In (category a) LLMService.validCategories) ->
          forall k a, JsMap.get k (Heap.read ref (h_world hs')) = Some a ->
                      In (category a) LLMService.validCategories)
      /\ files (h_world hs') = files (h_world hs)
      /\ currentConfig (h_world hs') = currentConfig (h_world hs)
      /\ chats (h_world hs')
         = (if LLMService.isLLMConfigured (h_world hs)
            then chats (h_world hs) + List.length held else chats (h_world hs))%nat.
Proof.
  induction ms as [|m rest IH]; intros analyzed hs Halloc; cbv zeta;
    cbn [AnalysisAgent.analyze_loop List.filter].
  - exists hs. unfold ret. cbn. rewrite Nat.add_0_r. split; [reflexivity|].
    split; [reflexivity|]. split; [reflexivity|]. split; [assumption|].
    split; [intros k; cbn; tauto|]. split; [auto|].
    split; [reflexivity|]. split; [reflexivity|].
    destruct (LLMService.isLLMConfigured (h_world hs)); cbn; lia.
  - destruct (isCancelled m); cbn [negb].
    + apply IH. exact Halloc.
    + unfold bind at 1.
      destruct (analyze_turn agent total_ m analyzed hs Halloc)
        as (a & hs1 & -> & Hf & Hc & Halloc1 & Hread & Hcat & Hfiles & Hconf & Hchats).
      destruct (IH (S analyzed) hs1 Halloc1)
        as (hs' & -> & Hf' & Hc' & Halloc' & Hkeys & Hvalid & Hfiles' & Hconf' & Hchats').
      rewrite Hf in *. exists hs'. split.
      { f_equal. f_equal. cbn [List.length]. lia. }
      split; [congruence|]. split; [congruence|]. split; [assumption|]. split.
      { intros k. rewrite Hkeys, Hread, keys_set. cbn. intuition congruence. }
      split.
      { intros Hold. apply Hvalid. intros k a' Hget. rewrite Hread in Hget.
        apply get_set_cases in Hget. destruct Hget as [[_ ->]|Hget]; [assumption|eauto]. }
      split; [congruence|]. split; [congruence|].
      rewrite Hchats'.
      assert (Hsame : LLMService.isLLMConfigured (h_world hs1)
                      = LLMService.isLLMConfigured (h_world hs)).
      { unfold LLMService.isLLMConfigured. now rewrite Hconf. }
      rewrite Hsame, Hchats.
      destruct (LLMService.isLLMConfigured (h_world hs)); cbn [List.length]; lia.
Qed.

End AnalysisTools.

(** [analyze_all_meetings] with the analysis of [llmService], on a context
    that holds meetings. Whether the tool then returns or throws while it
    adds up its totals, the loop has run to its end: the [Map] of the agent
    has an entry for every meeting that is not cancelled, no entry it had
    not before for any other id, and only valid categories if it had only
    valid ones, whatever the model answers, since a failed analysis is
    replaced by the default one; the context carries the [Map]; one request
    was sent per meeting that is not cancelled when the service is
    configured, none otherwise. When the tool returns, its result has
    [success = true] and [totalAnalyzed] is the number of the meetings that
    are not cancelled. *)
Theorem analyze_all_meetings_analyses_the_meetings_held (env : Env) (agent : string)
    (args : Json) (hs : HandlerState AnalysisFields) (m : GraphCalendarEvent)
    (ms : list GraphCalendarEvent) :
  context_meetings (h_context hs) = m :: ms ->
  results_allocated hs ->
  let ref := analysisResults (h_fields hs) in
  let held := List.filter (fun ev => negb (isCancelled ev)) (m :: ms) in
  let out := AnalysisAgent.analyze_all_meetings (llmService env) agent args hs in
  let hs' := snd out in
  h_fields hs' = h_fields hs
  /\ h_context hs' = <["analysisResults" := VAnalysisResults ref]> (h_context hs)
  /\ (forall ev, In ev (m :: ms) -> isCancelled ev = false ->
        JsMap.get (id ev) (Heap.read ref (h_world hs')) <> None)
  /\ (forall k, In k (keys (Heap.read ref (h_world hs')))
                <-> In k (keys (Heap.read ref (h_world hs)))
                    \/ In k (List.map id held))
  /\ ((forall k a, JsMap.get k (Heap.read ref (h_world hs)) = Some a ->
                   In (category a) LLMService.validCategories) ->
      forall k a, JsMap.get k (Heap.read ref (h_world hs')) = Some a ->
                  In (category a) LLMService.validCategories)
  /\ files (h_world hs') = files (h_world hs)
  /\ chats (h_world hs')
     = (if LLMService.isLLMConfigured (h_world hs)
        then chats (h_world hs) + List.length held else chats (h_world hs))%nat
  /\ (forall result, fst out = Ret result ->
        exists members : list (string * Json),
          result = JObj members
          /\ JSON.member "success" members = JBool true
          /\ JSON.member "totalAnalyzed" members = json_nat (List.length held)).
Proof.
  intros Hms Halloc. cbv zeta.
  remember (AnalysisAgent.analyze_all_meetings (llmService env) agent args hs) as X eqn:HX.
  unfold AnalysisAgent.analyze_all_meetings, bind at 1, gets at 1 in HX. rewrite Hms in HX.
  unfold bind at 1, h_emit at 1, modify at 1 in HX. unfold bind at 1 in HX.
  match type of HX with
  | context [AnalysisAgent.analyze_loop _ agent ?t ?l 0%nat ?st] =>
      destruct (analyze_loop_spec env agent t l 0%nat st Halloc)
        as (hs1 & Hloop & Hf & Hc & Halloc1 & Hkeys & Hvalid & Hfiles & Hconf & Hchats)
  end.
  cbv zeta in *. cbn [h_fields h_set_world h_world h_context] in *.
  rewrite Hloop in HX. cbn [Nat.add] in HX.
  unfold bind, gets, h_context_set, modify, AnalysisAgent.results, ret in HX. cbn in HX.
  subst X. cbn [fst snd h_fields h_context h_world h_set_context].
  split; [assumption|].
  split; [now rewrite Hf, Hc|]. split.
  { intros ev Hin Hheld. apply get_Some_In, Hkeys. right. apply in_map.
    apply filter_In. split; [assumption|]. now rewrite Hheld. }
  split; [exact Hkeys|]. split; [exact Hvalid|]. split; [assumption|].
  split; [assumption|].
  intros result [= <-]. eexists. split; [reflexivity|]. split; reflexivity.
Qed.

Lemma analyze_all_meetings_analyses_the_meetings_held_witness :
  keys (Heap.read 0%nat
          (h_world (snd (AnalysisAgent.analyze_all_meetings
                           (llmService Fixtures.insisting_env) "AnalysisAgent"
                           (JObj []) Analyst.briefed))))
  = ["m1"]
  /\ exists members,
       fst (AnalysisAgent.analyze_all_meetings (llmService Fixtures.insisting_env)
              "AnalysisAgent" (JObj []) Analyst.briefed) = Ret (JObj members)
       /\ JSON.member "totalAnalyzed" members = json_nat 1.
Proof.
  destruct (analyze_all_meetings_analyses_the_meetings_held Fixtures.insisting_env
              "AnalysisAgent" (JObj []) Analyst.briefed Fixtures.standup [Fixtures.called_off])
    as (_ & _ & _ & Hkeys & _ & _ & _ & Hresult);
    [reflexivity | unfold results_allocated; cbn; lia |].
  split; [vm_compute; reflexivity|].
  destruct (fst (AnalysisAgent.analyze_all_meetings _ _ _ _)) as [result|e] eqn:Hrun;
    [|vm_compute in Hrun; discriminate Hrun].
  destruct (Hresult result eq_refl) as (members & -> & _ & Htotal).
  exists members. split; [reflexivity|exact Htotal].
Defined.

(** [analyze_single_meeting] with the analysis of [llmService]. When it
    returns, the id it was given is the id of a meeting of the context, the
    result names that meeting, and the [Map] of the agent differs from the
    one before by the entry under that id, whose category is a valid one.
    When it throws, nothing has changed; if [args] has properties at all,
    the error is the "not found" one and no meeting of the context has the
    id. A failing model is never a reason to throw. *)
Theorem analyze_single_meeting_stores_one_analysis (env : Env) (agent : string)
    (args : Json) (hs : HandlerState AnalysisFields) :
  results_allocated hs ->
  let ref := analysisResults (h_fields hs) in
  let out := AnalysisAgent.analyze_single_meeting (llmService env) agent args hs in
  match fst out with
  | Ret result =>
      exists meeting a,
        In meeting (context_meetings (h_context hs))
        /\ JsValue.prop "meeting_id" args hs = (Ret (JStr (id meeting)), hs)
        /\ result = JObj [ ("success", JBool true);
                           ("meetingId", JStr (id meeting));
                           ("subject", JStr (subject meeting));
                           ("analysis", analysis_json a) ]
        /\ In (category a) LLMService.validCategories
        /\ Heap.read ref (h_world (snd out))
           = JsMap.set (id meeting) a (Heap.read ref (h_world hs))
        /\ h_fields (snd out) = h_fields hs
        /\ h_context (snd out) = h_context hs
  | Exn e =>
      snd out = hs
      /\ forall v, JsValue.prop "meeting_id" args hs = (Ret v, hs) ->
           e = JsError ("Meeting with ID " +:+ JsValue.toString v +:+ " not found")
           /\ forall m, In m (context_meetings (h_context hs)) ->
                        JsValue.is_string (id m) v = false
  end.
Proof.
  intros Halloc. cbv zeta.
  remember (AnalysisAgent.analyze_single_meeting (llmService env) agent args hs) as X eqn:HX.
  unfold AnalysisAgent.analyze_single_meeting, bind at 1 in HX.
  destruct (prop_cases "meeting_id" args hs) as [[v Hp]|[e Hp]]; rewrite Hp in HX.
  2:{ subst X. cbn. split; [reflexivity|]. intros v Hv. rewrite Hv in Hp. discriminate Hp. }
  unfold bind at 1, gets at 1 in HX.
  destruct (List.find _ (context_meetings (h_context hs))) as [meeting|] eqn:Hfind.
  - apply find_some in Hfind. destruct Hfind as [Hin Hid].
    assert (Hv : v = JStr (id meeting)).
    { destruct v; cbn in Hid; try discriminate Hid.
      apply String.eqb_eq in Hid. now subst. }
    subst v.
    unfold bind at 1, h_emit at 1, modify at 1 in HX.
    unfold bind at 1, in_world at 1 in HX.
    cbn [h_world h_set_world cap_analyzeMeeting llmService] in HX.
    match type of HX with
    | context [LLMService.analyzeMeeting env meeting ?w] =>
        destruct (analyzeMeeting_frame env meeting w)
          as (a & w1 & Hrun & Hcat & Hheap & _)
    end.
    rewrite Hrun in HX. cbn in Hheap.
    unfold bind, AnalysisAgent.results_set, modify, ret in HX. cbn in HX.
    subst X. cbn [fst snd]. exists meeting, a.
    split; [assumption|]. split; [assumption|]. split; [reflexivity|].
    split; [assumption|]. split; [|split; reflexivity].
    unfold results_allocated in Halloc. cbn.
    unfold Heap.read at 1. cbn. unfold Heap.read at 1. rewrite Hheap. cbn.
    rewrite list_lookup_insert_eq by assumption. reflexivity.
  - subst X. unfold throw. cbn [fst snd]. split; [reflexivity|].
    intros v' Hv'. rewrite Hv' in Hp. injection Hp as ->. split; [reflexivity|].
    intros m Hin. exact (find_none _ _ Hfind m Hin).
Qed.

Lemma analyze_single_meeting_stores_one_analysis_witness :
  keys (Heap.read 0%nat
          (h_world (snd (AnalysisAgent.analyze_single_meeting
                           (llmService Fixtures.insisting_env) "AnalysisAgent"
                           (JObj [("meeting_id", JStr "m3")]) Analyst.briefed))))
  = ["m3"]
  /\ fst (AnalysisAgent.analyze_single_meeting
            (llmService Fixtures.insisting_env) "AnalysisAgent"
            (JObj [("meeting_id", JStr "m9")]) Analyst.briefed)
     = Exn (JsError "Meeting with ID m9 not found").
Proof.
  split.
  - pose proof (analyze_single_meeting_stores_one_analysis Fixtures.insisting_env
                  "AnalysisAgent" (JObj [("meeting_id", JStr "m3")]) Analyst.briefed) as H.
    cbv zeta in H.
    destruct (fst (AnalysisAgent.analyze_single_meeting _ _ _ _)) as [result|e] eqn:Hrun.
    + destruct H as (meeting & a & _ & Hid & _ & _ & Hread & _);
        [unfold results_allocated; cbn; lia|].
      cbn in Hid. injection Hid as Hid.
      etransitivity; [exact (f_equal keys Hread)|]. rewrite <- Hid. reflexivity.
    + vm_compute in Hrun. discriminate Hrun.
  - pose proof (analyze_single_meeting_stores_one_analysis Fixtures.insisting_env
                  "AnalysisAgent" (JObj [("meeting_id", JStr "m9")]) Analyst.briefed) as H.
    cbv zeta in H.
    destruct (fst (AnalysisAgent.analyze_single_meeting _ _ _ _)) as [result|e] eqn:Hrun.
    + vm_compute in Hrun. discriminate Hrun.
    + destruct H as (_ & H); [unfold results_allocated; cbn; lia|].
      destruct (H (JStr "m9") eq_refl) as [-> _]. reflexivity.
Defined.

(** [generate_executive_summary] with the summary of [llmService]. It never
    touches the [Map] or the context. With an empty [Map] it returns
    [success = false] and does nothing, so no request is sent. With
    analyses, it sends one request if the service is configured and throws
    without a request otherwise; when it returns, [summary] is the text the
    agent now holds, and when it throws, the summary the agent held is
    kept. *)
Theorem generate_executive_summary_needs_analyses (env : Env) (agent : string)
    (args : Json) (hs : HandlerState AnalysisFields) :
  let ref := analysisResults (h_fields hs) in
  let out := AnalysisAgent.generate_executive_summary (llmService env) agent args hs in
  heap (h_world (snd out)) = heap (h_world hs)
  /\ h_context (snd out) = h_context hs
  /\ analysisResults (h_fields (snd out)) = ref
  /\ (Heap.read ref (h_world hs) = [] ->
      out = (Ret (JObj [ ("success", JBool false);
                         ("error", JStr "No analysis results available. Run analyze_all_meetings first.") ]),
             hs))
  /\ (Heap.read ref (h_world hs) <> [] ->
      chats (h_world (snd out))
      = (if LLMService.isLLMConfigured (h_world hs)
         then S (chats (h_world hs)) else chats (h_world hs))
      /\ (LLMService.isLLMConfigured (h_world hs) = false ->
          fst out = Exn (JsError "LLM not configured. Please configure in settings."))
      /\ match fst out with
         | Ret result =>
             result = JObj [ ("success", JBool true);
                             ("summary", JStr (executiveSummary (h_fields (snd out)))) ]
         | Exn _ => executiveSummary (h_fields (snd out)) = executiveSummary (h_fields hs)
         end).
Proof.
  cbv zeta.
  remember (AnalysisAgent.generate_executive_summary (llmService env) agent args hs)
    as X eqn:HX.
  unfold AnalysisAgent.generate_executive_summary, bind at 1, gets at 1 in HX.
  unfold bind at 1, AnalysisAgent.results at 1, gets at 1 in HX.
  destruct (Heap.read (analysisResults (h_fields hs)) (h_world hs)) as [|kv all] eqn:Hall.
  - subst X. unfold ret. cbn [fst snd]. do 3 (split; [reflexivity|]).
    split; [reflexivity|]. intros Hne. now destruct Hne.
  - unfold bind at 1, h_emit at 1, modify at 1 in HX.
    unfold bind at 1, in_world at 1 in HX.
    cbn [h_world h_set_world cap_generateExecutiveSummary llmService] in HX.
    unfold LLMService.generateExecutiveSummary in HX.
    match type of HX with
    | context [LLMService.chatCompletion env ?msgs ?w] =>
        pose proof (chatCompletion_frame env msgs w) as Hf;
        pose proof (chatCompletion_unconfigured env msgs w) as Hu;
        destruct (LLMService.chatCompletion env msgs w) as [[text|e] w1]
    end; cbv zeta in Hf; cbn [fst snd] in Hf;
      destruct Hf as (Hheap & _ & _ & Hconf & _ & _ & Hchats);
      cbn in Hheap, Hchats, Hu;
      unfold bind, modify, ret in HX; cbn in HX; subst X; cbn [fst snd];
      unfold LLMService.isLLMConfigured in *; cbn in *.
    + split; [assumption|]. split; [reflexivity|]. split; [reflexivity|].
      split; [discriminate|]. intros _. split; [assumption|]. split; [|reflexivity].
      intros Hoff. specialize (Hu Hoff). discriminate Hu.
    + split; [assumption|]. split; [reflexivity|]. split; [reflexivity|].
      split; [discriminate|]. intros _. split; [assumption|]. split; [|reflexivity].
      intros Hoff. specialize (Hu Hoff). now injection Hu as -> _.
Qed.

(* ===================================================================== *)
(** * The tools of the report agent *)
(* ===================================================================== *)

Section ReportOutcome.
Variable env : Env.

(** What the report tool has done when it returns on a context with
    meetings. *)
Lemma generate_excel_report_success (agent : string) (args : Json)
    (hs : HandlerState ReportFields) (result : Json) :
  let out := ReportAgent.generate_excel_report env agent args hs in
  let ms := context_meetings (h_context hs) in
  let analysisResults := ReportAgent.getAnalysisResults (h_context hs) (h_world hs) in
  fst out = Ret result ->
  ms <> [] ->
  exists ia ies baseRows filename,
    JsValue.prop "include_analysis" args hs = (Ret ia, hs)
    /\ JsValue.prop "include_executive_summary" args hs = (Ret ies, hs)
    /\ transformEventsToReportRows env ms = Ret baseRows
    /\ let includeAnalysis := negb (JsValue.is_string "false" ia) in
       let rows := imap (ReportAgent.enhance ms analysisResults includeAnalysis) baseRows in
       let with_analysis := includeAnalysis && (0 <? JsMap.size analysisResults)%nat in
       let headers := if with_analysis
                      then (ReportAgent.base_headers ++ ReportAgent.analysis_headers)%list
                      else ReportAgent.base_headers in
       let with_summary :=
         negb (JsValue.is_string "false" ies)
         && negb (String.eqb (ReportAgent.getExecutiveSummary (h_context hs)) "") in
       h_context (snd out) = h_context hs
       /\ reportData (h_fields (snd out)) = rows
       /\ heap (h_world (snd out)) = heap (h_world hs)
       /\ (exists summarySheet,
             files (h_world (snd out))
             = files (h_world hs)
               ++ [ {| wb_filename := filename;
                       wb_sheets :=
                         if with_summary
                         then [("Meetings",
                                headers :: List.map (ReportAgent.sheet_row with_analysis) rows);
                               ("Summary", summarySheet)]
                         else [("Meetings",
                                headers :: List.map (ReportAgent.sheet_row with_analysis) rows)];
                       wb_cols :=
                         let mainCols :=
                           List.map (fun h => Z.max (Z.of_nat (JS.length h)) 20) headers in
                         if with_summary then [mainCols; [100]] else [mainCols]
                    |} ])
       /\ result = JObj [ ("success", JBool true);
                          ("filename", JStr filename);
                          ("rowCount", json_nat (List.length rows));
                          ("columnsIncluded", json_nat (List.length headers));
                          ("sheetsIncluded", JNum (if with_summary then 2 else 1)) ].
Proof.
  cbv zeta.
  remember (ReportAgent.generate_excel_report env agent args hs) as X eqn:HX.
  intros Hret Hms.
  unfold ReportAgent.generate_excel_report, bind at 1, gets at 1 in HX.
  unfold bind at 1, gets at 1 in HX.
  unfold bind at 1 in HX.
  destruct (prop_cases "include_analysis" args hs) as [[ia Hp]|[e Hp]]; rewrite Hp in HX;
    [|subst X; discriminate Hret].
  unfold bind at 1 in HX.
  destruct (prop_cases "include_executive_summary" args hs) as [[ies Hp2]|[e Hp2]];
    rewrite Hp2 in HX; [|subst X; discriminate Hret].
  destruct (context_meetings (h_context hs)) as [|m rest] eqn:Hctx; [contradiction|].
  unfold bind at 1, h_emit at 1, modify at 1 in HX.
  unfold bind at 1, lift_res at 1 in HX.
  destruct (transformEventsToReportRows env (m :: rest)) as [baseRows|e];
    [|subst X; discriminate Hret].
  unfold bind at 1, modify at 1 in HX.
  unfold bind at 1, gets at 1 in HX.
  unfold bind at 1, gets at 1 in HX.
  unfold bind at 1, gets at 1 in HX.
  unfold bind at 1, lift_res at 1 in HX.
  match type of HX with
  | context [generateFilename env ?a ?b] =>
      destruct (generateFilename env a b) as [filename|e]; [|subst X; discriminate Hret]
  end.
  unfold bind, gets, modify, ret in HX.
  cbn [h_context h_fields h_world h_set_world h_set_fields fst snd] in HX.
  subst X. cbn [fst snd] in *. injection Hret as <-.
  exists ia, ies, baseRows, filename.
  split; [exact Hp|]. split; [exact Hp2|]. split; [reflexivity|].
  cbn [h_context h_fields h_world reportData].
  split; [reflexivity|]. split; [reflexivity|]. split; [reflexivity|].
  split; [|reflexivity]. eexists. reflexivity.
Qed.

Lemma sheet_row_length (with_analysis : bool) (row : EnhancedReportRow) :
  List.length (ReportAgent.sheet_row with_analysis row)
  = (if with_analysis then 15 else 11)%nat.
Proof. destruct with_analysis; reflexivity. Qed.

End ReportOutcome.

(** What [generate_excel_report] returns describes the file it wrote. When
    it returns, either the context held no meeting, the result is the
    [success = false] one and nothing has changed, or exactly one workbook
    was added whose name is [filename], whose number of sheets is
    [sheetsIncluded], and whose sheet [Meetings] has [rowCount] lines below
    the header, one per row the agent now holds, each with
    [columnsIncluded] cells, as many as the header: 11 or 15. *)
Theorem generate_excel_report_describes_the_file_it_wrote (env : Env) (agent : string)
    (args : Json) (hs : HandlerState ReportFields) (result : Json) :
  let out := ReportAgent.generate_excel_report env agent args hs in
  fst out = Ret result ->
  (context_meetings (h_context hs) = []
   /\ result = JObj [ ("success", JBool false);
                      ("error", JStr "No meetings found. Please fetch calendar data first.") ]
   /\ snd out = hs)
  \/ (exists members wb header lines,
        result = JObj members
        /\ JSON.member "success" members = JBool true
        /\ files (h_world (snd out)) = files (h_world hs) ++ [wb]
        /\ JSON.member "filename" members = JStr (wb_filename wb)
        /\ JSON.member "sheetsIncluded" members
           = JNum (Z.of_nat (List.length (wb_sheets wb)))
        /\ wb_sheets wb !! 0%nat = Some ("Meetings", header :: lines)
        /\ JSON.member "rowCount" members = json_nat (List.length lines)
        /\ List.length lines = List.length (reportData (h_fields (snd out)))
        /\ JSON.member "columnsIncluded" members = json_nat (List.length header)
        /\ Forall (fun line => List.length line = List.length header) lines
        /\ (List.length header = 11 \/ List.length header = 15)%nat).
Proof.
  cbv zeta. intros Hret.
  destruct (context_meetings (h_context hs)) as [|m rest] eqn:Hctx.
  - left. split; [reflexivity|].
    remember (ReportAgent.generate_excel_report env agent args hs) as X eqn:HX.
    unfold ReportAgent.generate_excel_report, bind at 1, gets at 1 in HX.
    unfold bind at 1, gets at 1 in HX.
    unfold bind at 1 in HX.
    destruct (prop_cases "include_analysis" args hs) as [[ia Hp]|[e Hp]]; rewrite Hp in HX;
      [|subst X; discriminate Hret].
    unfold bind at 1 in HX.
    destruct (prop_cases "include_executive_summary" args hs) as [[ies Hp2]|[e Hp2]];
      rewrite Hp2 in HX; [|subst X; discriminate Hret].
    rewrite Hctx in HX. unfold ret in HX. subst X. cbn in *.
    injection Hret as <-. split; reflexivity.
  - right.
    destruct (generate_excel_report_success env agent args hs result Hret)
      as (ia & ies & baseRows & filename & _ & _ & _ & Hpost);
      [rewrite Hctx; discriminate|].
    cbv zeta in Hpost. rewrite Hctx in Hpost.
    destruct Hpost as (_ & Hdata & _ & (summarySheet & Hfiles) & ->).
    rewrite Hdata. eexists _, _, _, _.
    split; [reflexivity|]. split; [reflexivity|]. split; [exact Hfiles|].
    split; [reflexivity|]. split.
    { cbn. now destruct (negb (JsValue.is_string "false" ies) && _). }
    split.
    { cbn. now destruct (negb (JsValue.is_string "false" ies) && _). }
    split; [cbn; now rewrite length_map|]. split; [now rewrite length_map|].
    split; [reflexivity|]. split.
    { apply List.Forall_forall. intros line Hin. apply in_map_iff in Hin.
      destruct Hin as (row & <- & _). rewrite sheet_row_length.
      now destruct (negb (JsValue.is_string "false" ia) && _). }
    now destruct (negb (JsValue.is_string "false" ia) && _); [right|left].
Qed.

Lemma generate_excel_report_describes_the_file_it_wrote_witness :
  exists result members,
    fst (ReportAgent.generate_excel_report Fixtures.insisting_env "ReportAgent" (JObj [])
           ReportDesk.after_fetch) = Ret result
    /\ result = JObj members
    /\ JSON.member "rowCount" members = json_nat 1
    /\ JSON.member "columnsIncluded" members = json_nat 11.
Proof.
  assert (Hret : fst (ReportAgent.generate_excel_report Fixtures.insisting_env "ReportAgent"
                        (JObj []) ReportDesk.after_fetch)
                 = Ret (JObj [ ("success", JBool true);
                               ("filename", JStr "meeting-report_20240301_to_20240301.xlsx");
                               ("rowCount", json_nat 1);
                               ("columnsIncluded", json_nat 11);
                               ("sheetsIncluded", JNum 1) ])).
  { vm_compute. reflexivity. }
  destruct (generate_excel_report_describes_the_file_it_wrote _ _ _ _ _ Hret)
    as [(Hnone & _)|(members & wb & header & lines & Hresult & _)];
    [discriminate Hnone|].
  eexists _, members. split; [exact Hret|]. split; [exact Hresult|].
  injection Hresult as <-. split; reflexivity.
Defined.

Section Alignment.
Variable env : Env.

Lemma reported_all_held (ms : list GraphCalendarEvent) :
  (forall m, In m ms -> isCancelled m = false -> hasZeroDuration env m = false) ->
  List.filter (reported env) ms = List.filter (fun m => negb (isCancelled m)) ms.
Proof.
  intros H. apply List.filter_ext_in. intros m Hin. unfold reported.
  destruct (isCancelled m) eqn:Hc; [reflexivity|]. now rewrite (H m Hin Hc).
Qed.

End Alignment.

(** Where the analysis columns of a report row come from. When
    [generate_excel_report] returns on a context with meetings, the agent
    holds one row per meeting that is neither cancelled nor of zero
    duration, row [i] being the row of the [i]-th such meeting. The
    analysis columns of row [i], however, are those of the analysis stored
    for the [i]-th meeting that is not cancelled, present unless
    [include_analysis] is ['false'] or that meeting has no analysis. The
    two meetings are the same when no meeting that is not cancelled has
    zero duration. *)
Theorem analysis_columns_follow_the_uncancelled_meetings (env : Env) (agent : string)
    (args : Json) (hs : HandlerState ReportFields) (result : Json) :
  let out := ReportAgent.generate_excel_report env agent args hs in
  let ms := context_meetings (h_context hs) in
  let analysisResults := ReportAgent.getAnalysisResults (h_context hs) (h_world hs) in
  let held := List.filter (fun m => negb (isCancelled m)) ms in
  let shown := List.filter (reported env) ms in
  let rows := reportData (h_fields (snd out)) in
  fst out = Ret result ->
  ms <> [] ->
  List.length rows = List.length shown
  /\ (forall i row, rows !! i = Some row ->
        (exists m, shown !! i = Some m /\ toReportRow env m = Ret (base row))
        /\ (forall m a,
              held !! i = Some m -> JsMap.get (id m) analysisResults = Some a ->
              JsValue.prop "include_analysis" args hs <> (Ret (JStr "false"), hs) ->
              aiSummary row = Some (summary a)
              /\ row_category row = Some (category a)
              /\ row_actionItems row = Some (JS.join "; " (actionItems a))
              /\ row_keyTopics row = Some (JS.join ", " (keyTopics a)))
        /\ (aiSummary row <> None \/ row_category row <> None
            \/ row_actionItems row <> None \/ row_keyTopics row <> None ->
            exists m a, held !! i = Some m
                        /\ JsMap.get (id m) analysisResults = Some a
                        /\ aiSummary row = Some (summary a)))
  /\ ((forall m, In m ms -> isCancelled m = false -> hasZeroDuration env m = false) ->
      shown = held).
Proof.
  cbv zeta. intros Hret Hms.
  destruct (generate_excel_report_success env agent args hs result Hret Hms)
    as (ia & ies & baseRows & filename & Hp & _ & Hrows & Hpost).
  cbv zeta in Hpost. destruct Hpost as (_ & Hdata & _).
  rewrite transform_unfold in Hrows. apply map_res_Ret in Hrows.
  rewrite Hdata. split; [|split].
  - rewrite length_imap. symmetry. exact (Forall2_length _ _ _ Hrows).
  - intros i row Hrow. rewrite list_lookup_imap in Hrow.
    destruct (baseRows !! i) as [brow|] eqn:Hb; [|discriminate Hrow].
    cbn in Hrow. injection Hrow as <-.
    destruct (Forall2_lookup_r _ _ _ _ _ Hrows Hb) as (m & Hm & Hrow).
    unfold ReportAgent.enhance.
    destruct (List.filter (fun m0 => negb (isCancelled m0))
                (context_meetings (h_context hs)) !! i) as [m'|] eqn:Hheld; cbn [mbind option_bind].
    + destruct (JsMap.get (id m') _) as [a|] eqn:Hget.
      * destruct (JsValue.is_string "false" ia) eqn:His; cbn [negb].
        -- assert (Hia : ia = JStr "false").
           { destruct ia; try discriminate His. cbn in His.
             apply String.eqb_eq in His. now subst. }
           subst ia. split; [eauto|]. split.
           ++ intros m0 a0 _ _ Hne. now destruct (Hne Hp).
           ++ cbn. intros [H|[H|[H|H]]]; now destruct H.
        -- split; [eauto|]. split;
             [intros m0 a0 [= <-] Ha0; rewrite Hget in Ha0; injection Ha0 as <-; auto
             |intros _; eauto].
      * split; [eauto|]. split.
        -- intros m0 a0 [= <-] Ha0. rewrite Hget in Ha0. discriminate Ha0.
        -- cbn. intros [H|[H|[H|H]]]; now destruct H.
    + split; [eauto|]. split.
      * intros m0 a0 Hm0. discriminate Hm0.
      * cbn. intros [H|[H|[H|H]]]; now destruct H.
  - apply reported_all_held.
Qed.

Lemma analysis_columns_follow_the_uncancelled_meetings_witness :
  exists row,
    reportData (h_fields (snd (ReportAgent.generate_excel_report Fixtures.insisting_env
                                 "ReportAgent" (JObj []) MixedDesk.analysed))) !! 0%nat
    = Some row
    /\ meetingName (base row) = "Standup"
    /\ aiSummary row = Some "Working from home".
Proof.
  assert (Hex : exists result,
             fst (ReportAgent.generate_excel_report Fixtures.insisting_env
                    "ReportAgent" (JObj []) MixedDesk.analysed) = Ret result)
    by (vm_compute; eexists; reflexivity).
  destruct Hex as [result Hret].
  assert (Hms : context_meetings (h_context MixedDesk.analysed) <> [])
    by (vm_compute; discriminate).
  destruct (analysis_columns_follow_the_uncancelled_meetings _ _ _ _ _ Hret Hms)
    as (_ & Hrows & _).
  destruct (reportData _ !! 0%nat) as [row|] eqn:Hrow; [|vm_compute in Hrow; discriminate Hrow].
  exists row. split; [reflexivity|].
  destruct (Hrows 0%nat row Hrow) as ((m & Hm & Hbase) & Hcols & _).
  split.
  - vm_compute in Hm. injection Hm as <-.
    generalize (base row), Hbase. intros r Hr. vm_compute in Hr.
    injection Hr as <-. reflexivity.
  - destruct (Hcols Fixtures.placeholder MixedDesk.home_analysis eq_refl eq_refl) as [-> _];
      [discriminate|reflexivity].
Defined.

Section Preview.
Variable env : Env.

Lemma transform_length (evs : list GraphCalendarEvent) (rows : list MeetingReportRow) :
  transformEventsToReportRows env evs = Ret rows ->
  (List.length rows <= List.length evs)%nat.
Proof.
  intros H. rewrite transform_unfold in H. apply map_res_Ret, Forall2_length in H.
  rewrite <- H. apply List.filter_length_le.
Qed.

Lemma slice0_length {A} (n : Z) (xs : list A) :
  (List.length (ReportAgent.slice0 n xs) <= List.length xs)%nat
  /\ (0 <= n -> (List.length (ReportAgent.slice0 n xs) <= Z.to_nat n)%nat).
Proof.
  unfold ReportAgent.slice0. destruct (0 <=? n) eqn:Hn.
  - rewrite length_take. lia.
  - apply Z.leb_gt in Hn. rewrite length_take. lia.
Qed.

End Preview.

(** [preview_report] only reads: whatever it is given, the context, the
    rows the agent holds, the files and the rest of the world are as
    before. When it returns, either the context held no meeting and the
    result is the [success = false] one, or [previewRows] are the report
    rows of the first [limit] meetings, so at most [limit] rows, where
    [limit] is the number [rows] parses to and 5 when it parses to none or
    to 0, and [totalAvailable] counts all meetings of the context, the
    cancelled ones included. *)
Theorem preview_report_only_reads (env : Env) (agent : string) (args : Json)
    (hs : HandlerState ReportFields) :
  let out := ReportAgent.preview_report env agent args hs in
  let ms := context_meetings (h_context hs) in
  snd out = hs
  /\ forall result, fst out = Ret result ->
       (ms = []
        /\ result = JObj [ ("success", JBool false); ("error", JStr "No meetings found") ])
       \/ (exists v limit previewRows,
             JsValue.prop "rows" args hs = (Ret v, hs)
             /\ limit <> 0
             /\ (parseInt env (JsValue.toString v) = None
                 \/ parseInt env (JsValue.toString v) = Some 0 -> limit = 5)
             /\ (forall n, parseInt env (JsValue.toString v) = Some n -> n <> 0 -> limit = n)
             /\ transformEventsToReportRows env (ReportAgent.slice0 limit ms) = Ret previewRows
             /\ (0 <= limit -> (List.length previewRows <= Z.to_nat limit)%nat)
             /\ (List.length previewRows <= List.length ms)%nat
             /\ result = JObj [ ("success", JBool true);
                                ("previewRows", JArr (List.map ReportAgent.row_json previewRows));
                                ("totalAvailable", json_nat (List.length ms)) ]).
Proof.
  cbv zeta.
  remember (ReportAgent.preview_report env agent args hs) as X eqn:HX.
  unfold ReportAgent.preview_report, bind at 1, gets at 1 in HX.
  unfold bind at 1 in HX.
  destruct (prop_cases "rows" args hs) as [[v Hp]|[e Hp]]; rewrite Hp in HX.
  2:{ subst X. split; [reflexivity|]. intros ? HH. discriminate HH. }
  destruct (context_meetings (h_context hs)) as [|m rest] eqn:Hctx.
  - subst X. unfold ret. cbn. split; [reflexivity|]. intros result [= <-]. left. now split.
  - unfold bind at 1, lift_res at 1 in HX.
    match type of HX with
    | context [transformEventsToReportRows env (ReportAgent.slice0 ?l ?xs)] =>
        remember l as limit eqn:Hlimit;
        destruct (transformEventsToReportRows env (ReportAgent.slice0 limit xs))
          as [previewRows|e] eqn:Hrows
    end.
    2:{ subst X. split; [reflexivity|]. intros ? HH. discriminate HH. }
    unfold ret in HX. subst X. cbn [fst snd]. split; [reflexivity|].
    intros result [= <-]. right. exists v, limit, previewRows.
    split; [exact Hp|].
    assert (Hlen := transform_length env _ _ Hrows).
    destruct (slice0_length limit (m :: rest)) as [Hall Hlim].
    split.
    { rewrite Hlimit. destruct (parseInt env (JsValue.toString v)) as [n|]; [|discriminate].
      destruct (n =? 0) eqn:Hn; [discriminate|]. now apply Z.eqb_neq in Hn. }
    split.
    { rewrite Hlimit. intros [-> | ->]; reflexivity. }
    split.
    { rewrite Hlimit. intros n -> Hn. apply Z.eqb_neq in Hn. now rewrite Hn. }
    split; [exact Hrows|]. split; [intros Hpos; specialize (Hlim Hpos); lia|].
    split; [lia|reflexivity].
Qed.

(** [get_report_summary] only reads, and its numbers add up:
    [totalMeetings] and [cancelledMeetings] together count every meeting of
    the context once; [uniqueCompanies] is the number of distinct non-empty
    companies of the organizers and attendees; [analyzedMeetings] is the
    size of the [Map]; [categories] is ['Not analyzed'] exactly when the
    [Map] is empty, and otherwise its counts, one per category that occurs,
    add up to [analyzedMeetings]. *)
Theorem get_report_summary_counts_add_up (agent : string) (args : Json)
    (hs : HandlerState ReportFields) :
  let ms := context_meetings (h_context hs) in
  let analysisResults := ReportAgent.getAnalysisResults (h_context hs) (h_world hs) in
  exists (sm : list (string * Json)) (held cancelled : nat) (companies : list string),
    ReportAgent.get_report_summary agent args hs
    = (Ret (JObj [("success", JBool true); ("summary", JObj sm)]), hs)
    /\ JSON.member "totalMeetings" sm = json_nat held
    /\ JSON.member "cancelledMeetings" sm = json_nat cancelled
    /\ (held + cancelled = List.length ms)%nat
    /\ JSON.member "uniqueCompanies" sm = json_nat (List.length companies)
    /\ List.NoDup companies
    /\ (forall c, In c companies <->
          c <> ""
          /\ exists m, In m ms
                       /\ (c = extractCompanyFromEmail (ea_address (organizer m))
                           \/ exists a, In a (attendees m)
                                /\ c = extractCompanyFromEmail
                                         (ea_address (att_emailAddress a))))
    /\ JSON.member "analyzedMeetings" sm = json_nat (List.length analysisResults)
    /\ (analysisResults = [] -> JSON.member "categories" sm = JStr "Not analyzed")
    /\ (analysisResults <> [] ->
        exists cs, JSON.member "categories" sm = LLMService.counts_json cs
                   /\ cs <> []
                   /\ List.NoDup (List.map fst cs)
                   /\ total cs = List.length analysisResults
                   /\ forall k n, In (k, n) cs ->
                        n = occurrences category k (JsMap.values analysisResults)).
Proof.
  cbv zeta. unfold ReportAgent.get_report_summary, bind, gets, ret. cbn [fst snd].
  eexists _, _, _, _. split; [reflexivity|]. unfold count_where. cbn [JSON.member].
  split; [reflexivity|]. split; [reflexivity|]. split.
  { generalize (context_meetings (h_context hs)). intros ms.
    induction ms as [|m r IH]; cbn; [reflexivity|]. destruct (isCancelled m); cbn; lia. }
  split; [reflexivity|]. split; [apply unique_NoDup|]. split.
  { intros c. rewrite unique_In, filter_In, in_concat, negb_true_iff, String.eqb_neq.
    split.
    - intros [(l & Hl & Hc) Hne]. split; [assumption|].
      apply in_map_iff in Hl. destruct Hl as (m & <- & Hm). exists m. split; [assumption|].
      destruct Hc as [<-|Hc]; [now left|]. right.
      apply in_map_iff in Hc. destruct Hc as (a & <- & Ha). eauto.
    - intros [Hne (m & Hm & Hc)]. split; [|assumption].
      eexists. split; [apply in_map_iff; exists m; split; [reflexivity|assumption]|].
      destruct Hc as [->|(a & Ha & ->)]; [now left|]. right.
      apply in_map_iff. eauto. }
  split; [reflexivity|].
  destruct (count_by_spec category
              (JsMap.values (ReportAgent.getAnalysisResults (h_context hs) (h_world hs))))
    as (Hnodup & Htotal & Hkeys & Hcount).
  split.
  { intros ->. reflexivity. }
  intros Hne.
  destruct (LLMService.count_by category _) as [|kn cs] eqn:Hcs.
  - exfalso. destruct (ReportAgent.getAnalysisResults _ _) as [|[k a] r]; [now apply Hne|].
    destruct (Hkeys (category a)) as [_ Hin]. apply Hin. exists a. split; [now left|reflexivity].
  - eexists. split; [reflexivity|]. split; [discriminate|]. split; [assumption|].
    split.
    { rewrite Htotal. unfold JsMap.values. now rewrite length_map. }
    intros k n Hin. now apply Hcount.
Qed.

(* ===================================================================== *)
(** * The requests and the messages of a run *)
(* ===================================================================== *)

Section Accounting.
Context {X : Type}.
Variable env : Env.

Lemma replies_app (h h' : list AgentMessage) :
  replies (h ++ h') = (replies h + replies h')%nat.
Proof. unfold replies. now rewrite List.filter_app, List.length_app. Qed.

Lemma replies_results (batch : list ToolCall) (outcomes : list (Res Json)) :
  replies (zip_with result_message batch outcomes) = 0%nat
  /\ Forall (fun m => role m = assistant \/ role m = tool)
            (zip_with result_message batch outcomes).
Proof.
  revert outcomes. induction batch as [|c r IH]; intros [|o os]; cbn;
    try (split; [reflexivity|constructor]).
  destruct (IH os) as [H1 H2]. destruct (result_message_role c o) as [Hrole _].
  unfold replies in *. cbn. rewrite Hrole. split; [assumption|].
  constructor; [now right|assumption].
Qed.

Lemma run_loop_accounts (n : nat) :
  forall s : AgentState X,
    exists r s' suffix,
      run_loop env n s = (Ret r, s')
      /\ conversationHistory (self s') = conversationHistory (self s) ++ suffix
      /\ Forall (fun m => role m = assistant \/ role m = tool) suffix
      /\ accounted n s s' suffix r.
Proof.
  induction n as [|n IH]; intros s.
  - destruct (run_loop_zero env s) as (s' & Hrun & Hs & Hq).
    exists iterations_exhausted, s', []. rewrite Hs, app_nil_r.
    split; [assumption|]. split; [reflexivity|]. split; [constructor|].
    left. split; [reflexivity|]. split; [reflexivity|]. lia.
  - rewrite run_loop_succ.
    destruct (model_endpoint env (queries s) (config (self s))
                (conversationHistory (self s))) as [reply|e] eqn:Hm.
    + assert (Hdone : reply_tool_calls reply = None \/ reply_tool_calls reply = Some [] ->
                exists r s' suffix,
                  match run_turn env s with
                  | (Ret Continue, s') => run_loop env n s'
                  | (Ret (Return r), s') => (Ret r, s')
                  | (Exn e, s') => (Exn e, s')
                  end = (Ret r, s')
                  /\ conversationHistory (self s') = conversationHistory (self s) ++ suffix
                  /\ Forall (fun m => role m = assistant \/ role m = tool) suffix
                  /\ accounted (S n) s s' suffix r).
      { intros Hcalls.
        destruct (run_turn_done env s reply Hm Hcalls) as (s' & Hrun & Hs & Hq).
        rewrite Hrun. eexists _, s', [assistant_message reply].
        split; [reflexivity|]. unfold accounted. rewrite Hs.
        cbn [conversationHistory push_message].
        split; [reflexivity|]. split; [constructor; [now left|constructor]|].
        right. right. exists reply. cbn [context push_message].
        split; [reflexivity|]. unfold replies. cbn.
        split; [lia|]. split; [lia|]. split; [reflexivity|assumption]. }
      destruct (reply_tool_calls reply) as [[|toolCall rest]|] eqn:Hcalls;
        [apply Hdone; now right| |apply Hdone; now left].
      destruct (run_turn_tools env s reply toolCall rest Hm Hcalls)
        as (s1 & Hrun & Hh & Hc & Ht & Hq).
      rewrite Hrun.
      destruct (IH s1) as (r & s' & suffix & Hloop & Hsuf & Hroles & Hacc).
      destruct (replies_results (toolCall :: rest)
                  (batch_outcomes env (toolCall :: rest) (after_reply reply s)))
        as [Hzero Htools].
      exists r, s', (assistant_message reply
                     :: zip_with result_message (toolCall :: rest)
                          (batch_outcomes env (toolCall :: rest) (after_reply reply s))
                     ++ suffix).
      split; [assumption|]. split.
      { rewrite Hsuf, Hh, <- app_assoc. reflexivity. }
      split.
      { constructor; [now left|]. apply Forall_app. split; assumption. }
      assert (Hcount : replies (assistant_message reply
                                :: zip_with result_message (toolCall :: rest)
                                     (batch_outcomes env (toolCall :: rest)
                                        (after_reply reply s)) ++ suffix)
                       = S (replies suffix)).
      { change (assistant_message reply :: ?l) with ([assistant_message reply] ++ l).
        rewrite !replies_app, Hzero. reflexivity. }
      unfold accounted in *. rewrite Hcount.
      destruct Hacc as [(-> & Hn & Hq')|[(e & -> & Hn & Hq')|(reply' & -> & Hn & Hq' & Hlast & Hc')]].
      * left. split; [reflexivity|]. split; lia.
      * right. left. exists e. split; [reflexivity|]. split; lia.
      * right. right. exists reply'. split; [reflexivity|]. split; [lia|]. split; [lia|].
        split; [|assumption].
        destruct suffix as [|m suffix']; [discriminate Hlast|].
        rewrite app_comm_cons, last_app. now rewrite Hlast.
    + destruct (run_turn_transport_failure env s e Hm) as (s' & Hrun & Hs & Hq).
      rewrite Hrun. exists (agent_failed e), s', []. rewrite Hs, app_nil_r.
      split; [reflexivity|]. split; [reflexivity|]. split; [constructor|].
      right. left. exists e. split; [reflexivity|]. unfold replies. cbn. split; lia.
Qed.

End Accounting.

(** Every request of a run is accounted for in the conversation. [run]
    returns; the history afterwards is the history before, then the user
    message, then assistant and tool messages only; the configuration and
    the registered tools are as before. The number of requests sent is the
    number of assistant messages appended, plus one when the run failed
    because the last request threw. If the iterations were exhausted, that
    number is [maxIterations]; a success comes with at least one reply, the
    last message is that reply without tool calls, and [data] is the
    context of the agent. *)
Theorem run_records_every_reply {X : Type} (env : Env) (s : AgentState X)
    (userMessage : string) :
  exists r s' suffix,
    run env userMessage s = (Ret r, s')
    /\ conversationHistory (self s')
       = conversationHistory (self s) ++ user_message userMessage :: suffix
    /\ Forall (fun m => role m = assistant \/ role m = tool) suffix
    /\ config (self s') = config (self s)
    /\ toolHandlers (self s') = toolHandlers (self s)
    /\ ((r = iterations_exhausted
         /\ replies suffix = Z.to_nat (maxIterations_of (config (self s)))
         /\ queries s' = (queries s + replies suffix)%nat)
        \/ (exists e, r = agent_failed e
                      /\ (replies suffix < Z.to_nat (maxIterations_of (config (self s))))%nat
                      /\ queries s' = (queries s + replies suffix + 1)%nat)
        \/ (exists reply,
              r = task_completed (reply_content reply) (context (self s'))
              /\ (0 < replies suffix <= Z.to_nat (maxIterations_of (config (self s))))%nat
              /\ queries s' = (queries s + replies suffix)%nat
              /\ last suffix = Some (assistant_message reply)
              /\ (reply_tool_calls reply = None \/ reply_tool_calls reply = Some []))).
Proof.
  destruct (run_returns env userMessage s) as (r0 & s0 & Hrun0 & _ & _ & Hc & Ht).
  rewrite run_unfold in *.
  destruct (run_loop_accounts env (Z.to_nat (maxIterations_of (config (self s))))
              (started userMessage s))
    as (r & s' & suffix & Hrun & Hsuf & Hroles & Hacc).
  rewrite Hrun in Hrun0. injection Hrun0 as <- <-.
  exists r, s', suffix. split; [assumption|]. split.
  { rewrite Hsuf. cbn. now rewrite <- app_assoc. }
  split; [assumption|]. split; [assumption|]. split; [assumption|].
  unfold accounted in Hacc. cbn [queries started with_world with_self] in Hacc.
  destruct Hacc as [(-> & Hn & Hq)|[(e & -> & Hn & Hq)|(reply & -> & Hn & Hq & Hlast & Hcalls)]].
  - left. split; [reflexivity|]. split; [assumption|]. lia.
  - right. left. exists e. split; [reflexivity|]. split; assumption.
  - right. right. exists reply. do 4 (split; [first [reflexivity|assumption]|]). assumption.
Qed.

(* ===================================================================== *)
(** * What the tools leave alone *)
(* ===================================================================== *)

Section Keeping.
Context {S : Type}.
Variable R : S -> S -> Prop.
Hypothesis R_refl : forall s, R s s.
Hypothesis R_trans : forall s1 s2 s3, R s1 s2 -> R s2 s3 -> R s1 s3.

Lemma keeps_ret {A} (a : A) : keeps R (ret a).
Proof. intros s. apply R_refl. Qed.

Lemma keeps_throw {A} (e : JsThrown) : keeps R (throw e : M S A).
Proof. intros s. apply R_refl. Qed.

Lemma keeps_gets {A} (f : S -> A) : keeps R (gets f).
Proof. intros s. apply R_refl. Qed.

Lemma keeps_lift_res {A} (r : Res A) : keeps R (lift_res r).
Proof. intros s. apply R_refl. Qed.

Lemma keeps_prop (k : string) (args : Json) : keeps R (JsValue.prop k args).
Proof. intros s. destruct args; apply R_refl. Qed.

Lemma keeps_toLowerCase (what : string) (j : Json) : keeps R (JsValue.toLowerCase what j).
Proof. intros s. destruct j; apply R_refl. Qed.

Lemma keeps_modify (f : S -> S) : (forall s, R s (f s)) -> keeps R (modify f).
Proof. intros H s. apply H. Qed.

Lemma keeps_bind {A B} (m : M S A) (k : A -> M S B) :
  keeps R m -> (forall a, keeps R (k a)) -> keeps R (bind m k).
Proof.
  intros Hm Hk s. unfold bind. specialize (Hm s).
  destruct (m s) as [[a|e] s1]; cbn [snd] in *; [|assumption].
  eapply R_trans; [exact Hm|apply Hk].
Qed.

Lemma keeps_try_catch {A} (m : M S A) (h : JsThrown -> M S A) :
  keeps R m -> (forall e, keeps R (h e)) -> keeps R (try_catch m h).
Proof.
  intros Hm Hh s. unfold try_catch. specialize (Hm s).
  destruct (m s) as [[a|e] s1]; cbn [snd] in *; [assumption|].
  eapply R_trans; [exact Hm|apply Hh].
Qed.

End Keeping.

(** The steps every handler is made of. *)
Ltac keep_step refl trans :=
  first
    [ apply (keeps_ret _ refl)
    | apply (keeps_throw _ refl)
    | apply (keeps_gets _ refl)
    | apply (keeps_lift_res _ refl)
    | apply (keeps_prop _ refl)
    | apply (keeps_toLowerCase _ refl)
    | apply (keeps_bind _ trans); [|intros ?]
    | apply (keeps_try_catch _ trans); [|intros ?]
    | match goal with
      | |- keeps _ (match ?x with _ => _ end) => destruct x
      end ].

Section CalendarFrame.
Variable env : Env.

Lemma same_outside_refl (ks : list string) (c : AgentContext) : same_outside ks c c.
Proof. intros k _. reflexivity. Qed.

Lemma same_outside_trans (ks : list string) (c1 c2 c3 : AgentContext) :
  same_outside ks c1 c2 -> same_outside ks c2 c3 -> same_outside ks c1 c3.
Proof. intros H1 H2 k Hk. now rewrite (H2 k Hk), (H1 k Hk). Qed.

Lemma same_outside_insert (ks : list string) (c : AgentContext) (k : string) (v : CtxValue) :
  In k ks -> same_outside ks c (<[k := v]> c).
Proof.
  intros Hin k' Hk'. apply lookup_insert_ne. intros ->. contradiction.
Qed.

Lemma calendar_frame_refl (hs : HandlerState CalendarFields) : calendar_frame hs hs.
Proof. unfold calendar_frame. split; [apply same_outside_refl|]. repeat split. Qed.

Lemma calendar_frame_trans (hs1 hs2 hs3 : HandlerState CalendarFields) :
  calendar_frame hs1 hs2 -> calendar_frame hs2 hs3 -> calendar_frame hs1 hs3.
Proof.
  intros (A1 & A2 & A3 & A4 & A5 & A6 & A7) (B1 & B2 & B3 & B4 & B5 & B6 & B7).
  split; [eapply same_outside_trans; eassumption|]. repeat split; congruence.
Qed.

Lemma calendar_keeps_emit (agent : string) (t : AgentEventType) (msg : string) :
  keeps calendar_frame (h_emit agent t msg).
Proof. intros hs. split; [apply same_outside_refl|]. repeat split. Qed.

Lemma calendar_keeps_context_set (k : string) (v : CtxValue) :
  In k ["meetings"; "startDate"; "endDate"] ->
  keeps calendar_frame (h_context_set k v).
Proof.
  intros Hin hs. split; [now apply same_outside_insert|]. repeat split.
Qed.

Lemma calendar_keeps_set_meetings (ms : list GraphCalendarEvent) :
  keeps calendar_frame
    (modify (fun hs => h_set_fields (CalendarAgent.set_meetings ms (h_fields hs)) hs)).
Proof. intros hs. split; [apply same_outside_refl|]. repeat split. Qed.

Lemma calendar_keeps_fetch (msal : MsalInstance) (startDate endDate : JsDate)
    (targetUser : Json) :
  keeps calendar_frame
    (in_world (CalendarAgent.fetchCalendarEvents env msal startDate endDate targetUser)).
Proof.
  intros hs. unfold in_world, CalendarAgent.fetchCalendarEvents,
    CalendarAgent.getAccessToken, bind, lift_res, JsDates.toISOString.
  destruct (accounts msal); [split; [apply same_outside_refl|]; repeat split|].
  destruct (acquire_token env (graphCalls (h_world hs)));
    [|split; [apply same_outside_refl|]; repeat split].
  destruct startDate, endDate; cbn; (split; [apply same_outside_refl|]; repeat split).
Qed.

Lemma fetch_calendar_events_frame (agent : string) (args : Json) :
  keeps calendar_frame (CalendarAgent.fetch_calendar_events env agent args).
Proof.
  unfold CalendarAgent.fetch_calendar_events.
  repeat first
    [ apply calendar_keeps_emit
    | apply calendar_keeps_set_meetings
    | apply calendar_keeps_fetch
    | apply calendar_keeps_context_set; cbn; tauto
    | keep_step calendar_frame_refl calendar_frame_trans ].
Qed.

Lemma filter_meetings_frame (agent : string) (args : Json) :
  keeps calendar_frame (CalendarAgent.filter_meetings env agent args).
Proof.
  unfold CalendarAgent.filter_meetings.
  repeat first
    [ apply calendar_keeps_emit
    | apply calendar_keeps_set_meetings
    | apply calendar_keeps_context_set; cbn; tauto
    | keep_step calendar_frame_refl calendar_frame_trans
    | match goal with
      | |- keeps _ (if ?b then _ else _) => destruct b
      end ].
Qed.

Lemma get_meeting_stats_frame (agent : string) (args : Json) :
  keeps calendar_frame (CalendarAgent.get_meeting_stats env agent args).
Proof.
  unfold CalendarAgent.get_meeting_stats.
  repeat keep_step calendar_frame_refl calendar_frame_trans.
Qed.

Lemma calendar_tools_frame (tname : string) (handler : Handler CalendarFields)
    (agent : string) (args : Json) :
  toolHandlers (CalendarAgent.new env) !! tname = Some handler ->
  keeps calendar_frame (handler agent args).
Proof.
  unfold CalendarAgent.new. cbn [toolHandlers registerTool BaseAgent_new]. intros Hlook.
  apply lookup_insert_Some in Hlook. destruct Hlook as [[_ <-]|[_ Hlook]];
    [apply get_meeting_stats_frame|].
  apply lookup_insert_Some in Hlook. destruct Hlook as [[_ <-]|[_ Hlook]];
    [apply filter_meetings_frame|].
  apply lookup_insert_Some in Hlook. destruct Hlook as [[_ <-]|[_ Hlook]];
    [apply fetch_calendar_events_frame|].
  rewrite lookup_empty in Hlook. discriminate.
Qed.

End CalendarFrame.

Section AnalysisFrame.
Variable env : Env.

Lemma analysis_frame_refl (hs : HandlerState AnalysisFields) : analysis_frame hs hs.
Proof. unfold analysis_frame. split; [apply same_outside_refl|]. repeat split. Qed.

Lemma analysis_frame_trans (hs1 hs2 hs3 : HandlerState AnalysisFields) :
  analysis_frame hs1 hs2 -> analysis_frame hs2 hs3 -> analysis_frame hs1 hs3.
Proof.
  intros (A1 & A2 & A3 & A4 & A5 & A6 & A7) (B1 & B2 & B3 & B4 & B5 & B6 & B7).
  split; [eapply same_outside_trans; eassumption|].
  split; [congruence|]. split; [congruence|]. split.
  { intros r Hr. rewrite B4 by congruence. now apply A4. }
  repeat split; congruence.
Qed.

Lemma analysis_keeps_emit (agent : string) (t : AgentEventType) (msg : string) :
  keeps analysis_frame (h_emit agent t msg).
Proof. intros hs. split; [apply same_outside_refl|]. repeat split. Qed.

Lemma analysis_keeps_world {A} (m : M World A) :
  (forall w, heap (snd (m w)) = heap w /\ files (snd (m w)) = files w
             /\ graphCalls (snd (m w)) = graphCalls w
             /\ currentConfig (snd (m w)) = currentConfig w) ->
  keeps analysis_frame (in_world m).
Proof.
  intros H hs. unfold in_world. specialize (H (h_world hs)).
  destruct (m (h_world hs)) as [r w']. cbn [snd] in *.
  destruct H as (H1 & H2 & H3 & H4).
  split; [apply same_outside_refl|]. cbn. rewrite H1. repeat split; assumption.
Qed.

Lemma analysis_keeps_analyzeMeeting (meeting : GraphCalendarEvent) :
  keeps analysis_frame (in_world (cap_analyzeMeeting (llmService env) meeting)).
Proof.
  apply analysis_keeps_world. intros w. cbn [cap_analyzeMeeting llmService].
  destruct (analyzeMeeting_frame env meeting w)
    as (a & w' & -> & _ & H1 & H2 & _ & H3 & H4 & _).
  repeat split; assumption.
Qed.

Lemma analysis_keeps_summary (ms : list GraphCalendarEvent) (all : JsMap MeetingAnalysis) :
  keeps analysis_frame (in_world (cap_generateExecutiveSummary (llmService env) ms all)).
Proof.
  apply analysis_keeps_world. intros w. cbn [cap_generateExecutiveSummary llmService].
  unfold LLMService.generateExecutiveSummary.
  match goal with
  | |- context [LLMService.chatCompletion env ?msgs w] =>
      destruct (chatCompletion_frame env msgs w) as (H1 & H2 & _ & H3 & _ & H4 & _)
  end.
  repeat split; assumption.
Qed.

Lemma analysis_keeps_console_error :
  keeps analysis_frame (in_world LLMService.console_error).
Proof. apply analysis_keeps_world. intros w. repeat split. Qed.

Lemma analysis_keeps_results_set (k : string) (v : MeetingAnalysis) :
  keeps analysis_frame (AnalysisAgent.results_set k v).
Proof.
  intros hs. split; [apply same_outside_refl|]. cbn. split; [reflexivity|].
  split; [apply length_insert|]. split; [|repeat split].
  intros r Hr. apply list_lookup_insert_ne. congruence.
Qed.

Lemma analysis_keeps_context_set (v : CtxValue) :
  keeps analysis_frame (h_context_set "analysisResults" v).
Proof.
  intros hs. split; [apply same_outside_insert; now left|]. repeat split.
Qed.

Ltac analysis_steps :=
  repeat first
    [ apply analysis_keeps_emit
    | apply analysis_keeps_analyzeMeeting
    | apply analysis_keeps_summary
    | apply analysis_keeps_console_error
    | apply analysis_keeps_results_set
    | apply analysis_keeps_context_set
    | apply (keeps_gets _ analysis_frame_refl)
    | keep_step analysis_frame_refl analysis_frame_trans ].

Lemma analyze_loop_frame (agent : string) (total_ : nat) (ms : list GraphCalendarEvent) :
  forall analyzed,
    keeps analysis_frame (AnalysisAgent.analyze_loop (llmService env) agent total_ ms analyzed).
Proof.
  induction ms as [|m rest IH]; intros analyzed; cbn [AnalysisAgent.analyze_loop].
  - apply (keeps_ret _ analysis_frame_refl).
  - destruct (isCancelled m); [apply IH|].
    apply (keeps_bind _ analysis_frame_trans); [|intros ?; apply IH].
    analysis_steps.
Qed.

Lemma analysis_tools_frame (a : BaseAgent AnalysisFields) (w w' : World)
    (tname : string) (handler : Handler AnalysisFields) (agent : string) (args : Json) :
  AnalysisAgent.new (llmService env) w = (a, w') ->
  toolHandlers a !! tname = Some handler ->
  keeps analysis_frame (handler agent args).
Proof.
  unfold AnalysisAgent.new. cbn. intros Hnew. injection Hnew as <- _.
  cbn [toolHandlers registerTool BaseAgent_new]. intros Hlook.
  apply lookup_insert_Some in Hlook. destruct Hlook as [[_ <-]|[_ Hlook]].
  { unfold AnalysisAgent.get_meetings_by_category, AnalysisAgent.results. analysis_steps. }
  apply lookup_insert_Some in Hlook. destruct Hlook as [[_ <-]|[_ Hlook]].
  { unfold AnalysisAgent.get_action_items, AnalysisAgent.results. analysis_steps. }
  apply lookup_insert_Some in Hlook. destruct Hlook as [[_ <-]|[_ Hlook]].
  { unfold AnalysisAgent.generate_executive_summary, AnalysisAgent.results.
    analysis_steps. }
  apply lookup_insert_Some in Hlook. destruct Hlook as [[_ <-]|[_ Hlook]].
  { unfold AnalysisAgent.analyze_all_meetings, AnalysisAgent.results.
    analysis_steps. apply analyze_loop_frame. all: analysis_steps. }
  apply lookup_insert_Some in Hlook. destruct Hlook as [[_ <-]|[_ Hlook]].
  { unfold AnalysisAgent.analyze_single_meeting. analysis_steps. }
  rewrite lookup_empty in Hlook. discriminate.
Qed.

End AnalysisFrame.

Section ReportFrame.
Variable env : Env.

Lemma report_frame_refl (hs : HandlerState ReportFields) : report_frame hs hs.
Proof.
  unfold report_frame. do 2 (split; [reflexivity|]).
  split; [exists []; now rewrite app_nil_r|]. repeat split.
Qed.

Lemma report_frame_trans (hs1 hs2 hs3 : HandlerState ReportFields) :
  report_frame hs1 hs2 -> report_frame hs2 hs3 -> report_frame hs1 hs3.
Proof.
  intros (A1 & A2 & (f1 & A3) & A4 & A5 & A6) (B1 & B2 & (f2 & B3) & B4 & B5 & B6).
  do 2 (split; [congruence|]).
  split; [exists (f1 ++ f2); now rewrite B3, A3, app_assoc|]. repeat split; congruence.
Qed.

Lemma report_keeps_emit (agent : string) (t : AgentEventType) (msg : string) :
  keeps report_frame (h_emit agent t msg).
Proof.
  intros hs. do 2 (split; [reflexivity|]).
  split; [exists []; now rewrite app_nil_r|]. repeat split.
Qed.

Lemma report_keeps_fields (x : ReportFields) :
  keeps report_frame (modify (h_set_fields x)).
Proof.
  intros hs. do 2 (split; [reflexivity|]).
  split; [exists []; now rewrite app_nil_r|]. repeat split.
Qed.

Lemma report_keeps_write (wb : Workbook) :
  keeps report_frame
    (modify (fun hs => h_set_world (set_files (files (h_world hs) ++ [wb]) (h_world hs)) hs)).
Proof.
  intros hs. do 2 (split; [reflexivity|]). split; [now exists [wb]|]. repeat split.
Qed.

Ltac report_steps :=
  repeat first
    [ apply report_keeps_emit
    | apply report_keeps_fields
    | apply report_keeps_write
    | apply (keeps_gets _ report_frame_refl)
    | keep_step report_frame_refl report_frame_trans ].

Lemma report_tools_frame (tname : string) (handler : Handler ReportFields)
    (agent : string) (args : Json) :
  toolHandlers (ReportAgent.new env) !! tname = Some handler ->
  keeps report_frame (handler agent args).
Proof.
  unfold ReportAgent.new. cbn [toolHandlers registerTool BaseAgent_new]. intros Hlook.
  apply lookup_insert_Some in Hlook. destruct Hlook as [[_ <-]|[_ Hlook]].
  { unfold ReportAgent.get_report_summary. report_steps. }
  apply lookup_insert_Some in Hlook. destruct Hlook as [[_ <-]|[_ Hlook]].
  { unfold ReportAgent.preview_report. report_steps. }
  apply lookup_insert_Some in Hlook. destruct Hlook as [[_ <-]|[_ Hlook]].
  { unfold ReportAgent.generate_excel_report. report_steps. }
  rewrite lookup_empty in Hlook. discriminate.
Qed.

End ReportFrame.

(** Every tool keeps to its own resources, whatever its arguments and
    whether it returns or throws. A tool of the calendar agent changes no
    key of the context but [meetings], [startDate] and [endDate], and
    leaves the [Map] objects, the files, the number of chat requests and
    the model configuration as they are. A tool of the analysis agent,
    linked with [llmService], changes no key of the context but
    [analysisResults] and no [Map] but its own, and leaves the files and
    the number of calendar requests as they are. A tool of the report
    agent leaves the context, the [Map] objects and the numbers of requests
    as they are, and removes no file. *)
Theorem tools_keep_to_their_resources (env : Env) (agent : string) (args : Json) :
  (forall tname handler hs,
     toolHandlers (CalendarAgent.new env) !! tname = Some handler ->
     calendar_frame hs (snd (handler agent args hs)))
  /\ (forall w tname handler hs,
        toolHandlers (fst (AnalysisAgent.new (llmService env) w)) !! tname = Some handler ->
        analysis_frame hs (snd (handler agent args hs)))
  /\ (forall tname handler hs,
        toolHandlers (ReportAgent.new env) !! tname = Some handler ->
        report_frame hs (snd (handler agent args hs))).
Proof.
  split; [|split].
  - intros tname handler hs Hlook.
    exact (calendar_tools_frame env tname handler agent args Hlook hs).
  - intros w tname handler hs Hlook.
    destruct (AnalysisAgent.new (llmService env) w) as [a w'] eqn:Hnew.
    exact (analysis_tools_frame env a w w' tname handler agent args Hnew Hlook hs).
  - intros tname handler hs Hlook.
    exact (report_tools_frame env tname handler agent args Hlook hs).
Qed.

(* ===================================================================== *)
(** * The orchestrator and the resources of its agents *)
(* ===================================================================== *)

Section OrchestratorFrames.
Variable env : Env.

Lemma calendar_run_frame (instruction : string) (s : OrchState) :
  toolHandlers (calendarAgent (orch s)) = toolHandlers (CalendarAgent.new env) ->
  exists r s',
    Orchestrator.on_calendar (run env instruction) s = (Ret r, s')
    /\ toolHandlers (calendarAgent (orch s')) = toolHandlers (CalendarAgent.new env)
    /\ same_outside ["meetings"; "startDate"; "endDate"]
         (context (calendarAgent (orch s))) (context (calendarAgent (orch s')))
    /\ analysisAgent (orch s') = analysisAgent (orch s)
    /\ reportAgent (orch s') = reportAgent (orch s)
    /\ sharedContext (orch s') = sharedContext (orch s)
    /\ heap (o_world s') = heap (o_world s)
    /\ files (o_world s') = files (o_world s)
    /\ chats (o_world s') = chats (o_world s)
    /\ currentConfig (o_world s') = currentConfig (o_world s).
Proof.
  intros Hh.
  destruct (on_calendar_run env instruction s) as (r & sa & Hagent & Hon).
  pose proof (run_preserves env
                (fun c (x : CalendarFields) w =>
                   same_outside ["meetings"; "startDate"; "endDate"]
                     (context (calendarAgent (orch s))) c
                   /\ heap w = heap (o_world s) /\ files w = files (o_world s)
                   /\ chats w = chats (o_world s)
                   /\ currentConfig w = currentConfig (o_world s))
                (toolHandlers (CalendarAgent.new env))) as Hkeep.
  cbv beta in Hkeep.
  specialize (Hkeep (fun c x w e H => H)).
  assert (Hhandler : forall tname handler agent args hs r0 hs',
             toolHandlers (CalendarAgent.new env) !! tname = Some handler ->
             same_outside ["meetings"; "startDate"; "endDate"]
               (context (calendarAgent (orch s))) (h_context hs)
             /\ heap (h_world hs) = heap (o_world s)
             /\ files (h_world hs) = files (o_world s)
             /\ chats (h_world hs) = chats (o_world s)
             /\ currentConfig (h_world hs) = currentConfig (o_world s) ->
             handler agent args hs = (r0, hs') ->
             same_outside ["meetings"; "startDate"; "endDate"]
               (context (calendarAgent (orch s))) (h_context hs')
             /\ heap (h_world hs') = heap (o_world s)
             /\ files (h_world hs') = files (o_world s)
             /\ chats (h_world hs') = chats (o_world s)
             /\ currentConfig (h_world hs') = currentConfig (o_world s)).
  { intros tname handler agent args hs r0 hs' Hlook (P1 & P2 & P3 & P4 & P5) Hrun.
    pose proof (calendar_tools_frame env tname handler agent args Hlook hs) as Hf.
    rewrite Hrun in Hf. cbn [snd] in Hf.
    destruct Hf as (F1 & _ & _ & F4 & F5 & F6 & F7).
    split; [eapply same_outside_trans; eassumption|]. repeat split; congruence. }
  specialize (Hkeep Hhandler instruction
                {| self := calendarAgent (orch s); world := o_world s;
                   queries := o_queries s |}).
  rewrite Hagent in Hkeep. cbn [snd] in Hkeep.
  destruct Hkeep as (Hh' & K1 & K2 & K3 & K4 & K5).
  { split; [exact Hh|]. cbn. split; [apply same_outside_refl|]. repeat split. }
  eexists r, _. split; [exact Hon|]. cbn.
  repeat split; assumption.
Qed.

Lemma report_run_frame (instruction : string) (s : OrchState) :
  toolHandlers (reportAgent (orch s)) = toolHandlers (ReportAgent.new env) ->
  exists r s',
    Orchestrator.on_report (run env instruction) s = (Ret r, s')
    /\ toolHandlers (reportAgent (orch s')) = toolHandlers (ReportAgent.new env)
    /\ context (reportAgent (orch s')) = context (reportAgent (orch s))
    /\ calendarAgent (orch s') = calendarAgent (orch s)
    /\ analysisAgent (orch s') = analysisAgent (orch s)
    /\ sharedContext (orch s') = sharedContext (orch s)
    /\ heap (o_world s') = heap (o_world s)
    /\ chats (o_world s') = chats (o_world s)
    /\ graphCalls (o_world s') = graphCalls (o_world s)
    /\ currentConfig (o_world s') = currentConfig (o_world s)
    /\ (success r = true -> data r = Some (context (reportAgent (orch s)))).
Proof.
  intros Hh.
  destruct (run_returns env instruction
              {| self := reportAgent (orch s); world := o_world s;
                 queries := o_queries s |}) as (r & sa & Hagent & Hend & _).
  pose proof (run_preserves env
                (fun c (x : ReportFields) w =>
                   c = context (reportAgent (orch s))
                   /\ heap w = heap (o_world s) /\ chats w = chats (o_world s)
                   /\ graphCalls w = graphCalls (o_world s)
                   /\ currentConfig w = currentConfig (o_world s))
                (toolHandlers (ReportAgent.new env))) as Hkeep.
  cbv beta in Hkeep.
  specialize (Hkeep (fun c x w e H => H)).
  assert (Hhandler : forall tname handler agent args hs r0 hs',
             toolHandlers (ReportAgent.new env) !! tname = Some handler ->
             h_context hs = context (reportAgent (orch s))
             /\ heap (h_world hs) = heap (o_world s)
             /\ chats (h_world hs) = chats (o_world s)
             /\ graphCalls (h_world hs) = graphCalls (o_world s)
             /\ currentConfig (h_world hs) = currentConfig (o_world s) ->
             handler agent args hs = (r0, hs') ->
             h_context hs' = context (reportAgent (orch s))
             /\ heap (h_world hs') = heap (o_world s)
             /\ chats (h_world hs') = chats (o_world s)
             /\ graphCalls (h_world hs') = graphCalls (o_world s)
             /\ currentConfig (h_world hs') = currentConfig (o_world s)).
  { intros tname handler agent args hs r0 hs' Hlook (P1 & P2 & P3 & P4 & P5) Hrun.
    pose proof (report_tools_frame env tname handler agent args Hlook hs) as Hf.
    rewrite Hrun in Hf. cbn [snd] in Hf.
    destruct Hf as (F1 & F2 & _ & F4 & F5 & F6).
    repeat split; congruence. }
  specialize (Hkeep Hhandler instruction
                {| self := reportAgent (orch s); world := o_world s;
                   queries := o_queries s |}).
  rewrite Hagent in Hkeep. cbn [snd] in Hkeep.
  destruct Hkeep as (Hh' & K1 & K2 & K3 & K4 & K5).
  { split; [exact Hh|]. cbn. repeat split. }
  eexists r, _. split; [unfold Orchestrator.on_report; now rewrite Hagent|]. cbn.
  do 9 (split; [first [assumption|reflexivity]|]).
  intros Hok. destruct Hend as [n Hq|n e h Hq Hm|n reply h Hq Hm Hcalls];
    try discriminate Hok.
  cbn. now rewrite K1.
Qed.

End OrchestratorFrames.

Section PipelineFrame.
Variable env : Env.
Variable ia : bool.

Lemma pipeline_frame_refl (s : OrchState) : pipeline_frame env ia s s.
Proof. intros H. split; [assumption|]. split; [auto|]. intros Hoff. repeat split. assumption. Qed.

Lemma pipeline_frame_trans (s1 s2 s3 : OrchState) :
  pipeline_frame env ia s1 s2 -> pipeline_frame env ia s2 s3 -> pipeline_frame env ia s1 s3.
Proof.
  intros H12 H23 H1. destruct (H12 H1) as (H2 & N12 & O12).
  destruct (H23 H2) as (H3 & N23 & O23).
  split; [assumption|]. split; [auto|]. intros Hoff.
  destruct (O12 Hoff) as (Hoff2 & A2 & B2 & C2).
  destruct (O23 Hoff2) as (Hoff3 & A3 & B3 & C3).
  repeat split; congruence.
Qed.

Lemma pipeline_keeps_emit (t : AgentEventType) (msg : string) :
  keeps (pipeline_frame env ia) (Orchestrator.emit t msg).
Proof. intros s H. split; [exact H|]. split; [auto|]. intros Hoff. repeat split. exact Hoff. Qed.

Lemma pipeline_keeps_calendar_run (instruction : string) :
  keeps (pipeline_frame env ia) (Orchestrator.on_calendar (run env instruction)).
Proof.
  intros s [Hcal Hrep].
  destruct (calendar_run_frame env instruction s Hcal)
    as (r & s' & -> & Hcal' & Hctx & Ha & Hr & Hs & Hheap & Hfiles & Hchats & Hconf).
  cbn [snd]. split; [split; [assumption|now rewrite Hr]|]. split.
  - intros ((N1 & N2) & Nr & Ns). split; [|split; [now rewrite Hr|now rewrite Hs]].
    split; (rewrite Hctx; [assumption|]); cbn; intros [H|[H|[H|[]]]]; discriminate H.
  - intros Hoff. split; [|repeat split; assumption].
    destruct Hoff as [Hoff|Hoff]; [now left|right].
    unfold LLMService.isLLMConfigured in *. now rewrite Hconf.
Qed.

Lemma pipeline_keeps_share :
  keeps (pipeline_frame env ia)
    (modify (Orchestrator.with_orch
               (fun o => Orchestrator.set_sharedContext (context (calendarAgent o)) o))).
Proof.
  intros s H. split; [exact H|]. split.
  - intros (N1 & N2 & _). repeat split; first [apply N1|apply N2].
  - intros Hoff. repeat split. exact Hoff.
Qed.

Lemma pipeline_keeps_report_context :
  keeps (pipeline_frame env ia)
    (shared <- gets (fun s => sharedContext (orch s)) ;;
     Orchestrator.on_report (modify (with_self (setContext shared)))).
Proof.
  intros s H. unfold bind, gets. rewrite on_report_modify. cbn [snd].
  split; [exact H|]. split.
  - intros (N1 & (N2 & N2') & (N3 & N3')). cbn.
    split; [exact N1|]. split; [|split; assumption].
    split; apply lookup_union_None; split; assumption.
  - intros Hoff. repeat split. exact Hoff.
Qed.

Lemma pipeline_keeps_report_run (instruction : string) :
  keeps (pipeline_frame env ia) (Orchestrator.on_report (run env instruction)).
Proof.
  intros s [Hcal Hrep].
  destruct (report_run_frame env instruction s Hrep)
    as (r & s' & -> & Hrep' & Hctx & Hc & Ha & Hs & Hheap & Hchats & _ & Hconf & _).
  cbn [snd]. split; [split; [now rewrite Hc|assumption]|]. split.
  - unfold no_download_anywhere. now rewrite Hc, Hctx, Hs.
  - intros Hoff. split; [|repeat split; assumption].
    destruct Hoff as [Hoff|Hoff]; [now left|right].
    unfold LLMService.isLLMConfigured in *. now rewrite Hconf.
Qed.

Lemma beside_analysis_refl (s : OrchState) : beside_analysis s s.
Proof. split; [reflexivity|]. split; [reflexivity|apply same_outside_refl]. Qed.

Lemma beside_analysis_trans (s1 s2 s3 : OrchState) :
  beside_analysis s1 s2 -> beside_analysis s2 s3 -> beside_analysis s1 s3.
Proof.
  intros (A1 & A2 & A3) (B1 & B2 & B3).
  split; [congruence|]. split; [congruence|]. eapply same_outside_trans; eassumption.
Qed.

Lemma beside_analysis_on_analysis {A} (m : M (AgentState AnalysisFields) A) :
  keeps beside_analysis (Orchestrator.on_analysis m).
Proof.
  intros s. unfold Orchestrator.on_analysis.
  destruct (m _) as [r s']. cbn. split; [reflexivity|]. split; [reflexivity|].
  apply same_outside_refl.
Qed.

Lemma beside_analysis_emit (t : AgentEventType) (msg : string) :
  keeps beside_analysis (Orchestrator.emit t msg).
Proof. intros s. split; [reflexivity|]. split; [reflexivity|apply same_outside_refl]. Qed.

Lemma beside_analysis_insert (k : string) (v : AgentOrchestrator -> CtxValue) :
  In k ["analysisResults"; "executiveSummary"] ->
  keeps beside_analysis
    (modify (Orchestrator.with_orch (fun o =>
       Orchestrator.set_sharedContext (<[k := v o]> (sharedContext o)) o))).
Proof.
  intros Hin s. split; [reflexivity|]. split; [reflexivity|]. cbn.
  now apply same_outside_insert.
Qed.

Lemma analysis_stage_beside (ies : bool) :
  keeps beside_analysis (Orchestrator.analysis_stage env ia ies).
Proof.
  unfold Orchestrator.analysis_stage.
  repeat first
    [ apply beside_analysis_on_analysis
    | apply beside_analysis_emit
    | apply (beside_analysis_insert "analysisResults"
               (fun o => VAnalysisResults (AnalysisAgent.getAnalysisResults (analysisAgent o))));
      cbn; tauto
    | apply (beside_analysis_insert "executiveSummary"
               (fun o => VString (AnalysisAgent.getExecutiveSummary (analysisAgent o))));
      cbn; tauto
    | keep_step beside_analysis_refl beside_analysis_trans
    | match goal with
      | |- keeps _ (if ?b then _ else _) => destruct b
      end ].
Qed.

Lemma pipeline_keeps_analysis_stage (ies : bool) :
  keeps (pipeline_frame env ia) (Orchestrator.analysis_stage env ia ies).
Proof.
  intros s [Hcal Hrep].
  destruct (analysis_stage_beside ies s) as (Hc & Hr & Hs).
  split; [split; [now rewrite Hc|now rewrite Hr]|]. split.
  - intros (N1 & N2 & (N3 & N3')). unfold no_download_anywhere. rewrite Hc, Hr.
    split; [assumption|]. split; [assumption|].
    split; (rewrite Hs; [assumption|]); cbn; intros [H|[H|[]]]; discriminate H.
  - intros Hoff. unfold Orchestrator.analysis_stage, bind, gets. cbn [fst snd].
    destruct Hoff as [-> | Hoff].
    + cbn. repeat split. now left.
    + rewrite Hoff, andb_false_r. cbn [negb]. rewrite andb_true_r.
      destruct ia; cbn; repeat split; now right.
Qed.

Lemma report_stage_keeps (ms : list GraphCalendarEvent) (ies : bool) :
  keeps (pipeline_frame env ia) (Orchestrator.report_stage env ms ia ies).
Proof.
  unfold Orchestrator.report_stage.
  apply (keeps_bind _ pipeline_frame_trans); [apply pipeline_keeps_emit|intros _].
  match goal with
  | |- keeps _ (bind (gets ?f) (fun shared => bind (@?m shared) ?k)) =>
      assert (Hre : forall s, bind (gets f) (fun shared => bind (m shared) k) s
                              = bind (bind (gets f) m) k s)
  end.
  { intros s. reflexivity. }
  intros s. rewrite Hre. revert s.
  apply (keeps_bind _ pipeline_frame_trans); [apply pipeline_keeps_report_context|intros _].
  apply (keeps_bind _ pipeline_frame_trans); [apply pipeline_keeps_report_run|intros r].
  destruct (negb (success r)); [apply (keeps_throw _ pipeline_frame_refl)|].
  apply (keeps_bind _ pipeline_frame_trans); [apply pipeline_keeps_emit|intros _].
  apply (keeps_ret _ pipeline_frame_refl).
Qed.

Lemma acquisition_stage_keeps (options : ReportGenerationOptions) :
  keeps (pipeline_frame env ia) (Orchestrator.acquisition_stage env options).
Proof.
  unfold Orchestrator.acquisition_stage.
  repeat first
    [ apply pipeline_keeps_emit
    | apply pipeline_keeps_calendar_run
    | keep_step pipeline_frame_refl pipeline_frame_trans ].
Qed.

End PipelineFrame.

Section Yields.
Context {S : Type}.
Variable Pre : S -> Prop.

Lemma yields_ret {A} (Q : A -> Prop) (a : A) : Q a -> yields Pre Q (ret a).
Proof. intros H s a' _ [= <-]. exact H. Qed.

Lemma yields_throw {A} (Q : A -> Prop) (e : JsThrown) : yields Pre Q (throw e).
Proof. intros s a _ H. discriminate H. Qed.

Lemma yields_bind {A B} (Q : B -> Prop) (m : M S A) (k : A -> M S B) :
  (forall s, Pre s -> Pre (snd (m s))) ->
  (forall a, yields Pre Q (k a)) ->
  yields Pre Q (bind m k).
Proof.
  intros Hm Hk s b Hs. unfold bind. specialize (Hm s Hs).
  destruct (m s) as [[a|e] s1]; cbn [snd] in *; [|intros H; discriminate H].
  now apply Hk.
Qed.

Lemma yields_try_catch {A} (Q : A -> Prop) (m : M S A) (h : JsThrown -> M S A) :
  yields Pre Q m ->
  (forall s, Pre s -> Pre (snd (m s))) ->
  (forall e, yields Pre Q (h e)) ->
  yields Pre Q (try_catch m h).
Proof.
  intros Hq Hm Hh s a Hs. unfold try_catch. specialize (Hm s Hs). specialize (Hq s).
  destruct (m s) as [[a'|e] s1]; cbn [fst snd] in *; [now apply Hq|].
  now apply Hh.
Qed.

End Yields.

Section ReportNames.
Variable env : Env.

Lemma generateReport_keeps (options : ReportGenerationOptions) :
  keeps (pipeline_frame env (default true (opt_includeAnalysis options)))
        (Orchestrator.generateReport env options).
Proof.
  unfold Orchestrator.generateReport.
  repeat first
    [ apply pipeline_keeps_emit
    | apply pipeline_keeps_share
    | apply acquisition_stage_keeps
    | apply pipeline_keeps_analysis_stage
    | apply report_stage_keeps
    | apply (keeps_gets _ (pipeline_frame_refl env _))
    | keep_step (pipeline_frame_refl env (default true (opt_includeAnalysis options)))
                (pipeline_frame_trans env (default true (opt_includeAnalysis options)))
    | match goal with
      | |- keeps _ (if ?b then _ else _) => destruct b
      end ].
Qed.

Lemma generateReport_returns (options : ReportGenerationOptions) (s : OrchState) :
  exists r, fst (Orchestrator.generateReport env options s) = Ret r.
Proof.
  unfold Orchestrator.generateReport, try_catch.
  match goal with
  | |- context [bind (Orchestrator.acquisition_stage env options) ?k s] =>
      destruct (bind (Orchestrator.acquisition_stage env options) k s) as [[r|e] s']
  end; [eauto|].
  unfold bind, Orchestrator.emit, modify, ret. cbn. eauto.
Qed.

Lemma named_of_frame (ia : bool) {A} (m : M OrchState A) :
  keeps (pipeline_frame env ia) m ->
  forall s, stock_tools env s /\ no_download_anywhere s ->
            stock_tools env (snd (m s)) /\ no_download_anywhere (snd (m s)).
Proof.
  intros Hm s [Hstock Hnd]. destruct (Hm s Hstock) as (H1 & H2 & _). auto.
Qed.

Lemma report_stage_names_no_file (ms : list GraphCalendarEvent) (ia ies : bool) :
  yields (fun s => stock_tools env s /\ no_download_anywhere s)
         (fun r => rr_filename r = None /\ rr_downloadUrl r = None)
         (Orchestrator.report_stage env ms ia ies).
Proof.
  intros s r [[Hcal Hrep] (N1 & (N2 & N2') & (N3 & N3'))].
  unfold Orchestrator.report_stage, bind, Orchestrator.emit, gets, throw, ret.
  unfold modify at 1. cbn [fst snd]. rewrite on_report_modify. cbv zeta.
  match goal with
  | |- context [Orchestrator.on_report (run env ?i) ?st] =>
      destruct (report_run_frame env i st) as (rr & s3 & -> & _ & _ & _ & _ & _ & _ & _ & _ & _ & Hdata);
        [exact Hrep|]
  end.
  destruct (success rr) eqn:Hok; cbn; [|intros H; discriminate H].
  intros [= <-]. cbn. rewrite (Hdata eq_refl). cbn.
  unfold Orchestrator.data_string.
  assert (U1 : (sharedContext (orch s) ∪ context (reportAgent (orch s)))
               !! "downloadFilename" = None)
    by (apply lookup_union_None; split; assumption).
  assert (U2 : (sharedContext (orch s) ∪ context (reportAgent (orch s)))
               !! "downloadUrl" = None)
    by (apply lookup_union_None; split; assumption).
  rewrite U1, U2. split; reflexivity.
Qed.

Lemma generateReport_yields_no_name (options : ReportGenerationOptions) :
  yields (fun s => stock_tools env s /\ no_download_anywhere s)
         (fun r => rr_filename r = None /\ rr_downloadUrl r = None)
         (Orchestrator.generateReport env options).
Proof.
  set (ia := default true (opt_includeAnalysis options)).
  unfold Orchestrator.generateReport. fold ia.
  apply yields_try_catch.
  - apply yields_bind; [apply (named_of_frame ia), acquisition_stage_keeps|intros r1].
    destruct (negb (success r1)); [apply yields_throw|].
    apply yields_bind; [apply (named_of_frame ia), pipeline_keeps_share|intros _].
    apply yields_bind;
      [apply (named_of_frame ia), (keeps_gets _ (pipeline_frame_refl env ia))|intros ms].
    apply yields_bind; [apply (named_of_frame ia), pipeline_keeps_emit|intros _].
    destruct ms as [|m ms]; [apply yields_ret; split; reflexivity|].
    apply yields_bind;
      [apply (named_of_frame ia), pipeline_keeps_analysis_stage|intros _].
    apply report_stage_names_no_file.
  - apply (named_of_frame ia).
    repeat first
      [ apply pipeline_keeps_emit
      | apply pipeline_keeps_share
      | apply acquisition_stage_keeps
      | apply pipeline_keeps_analysis_stage
      | apply report_stage_keeps
      | apply (keeps_gets _ (pipeline_frame_refl env _))
      | keep_step (pipeline_frame_refl env ia) (pipeline_frame_trans env ia)
      | match goal with
        | |- keeps _ (if ?b then _ else _) => destruct b
        end ].
  - intros e. apply yields_bind; [apply (named_of_frame ia), pipeline_keeps_emit|intros _].
    apply yields_ret. split; reflexivity.
Qed.

End ReportNames.

(** [generateReport] never names the file it wrote. On an orchestrator
    whose calendar and report agents have the tools of their constructors
    and whose contexts hold neither [downloadFilename] nor [downloadUrl],
    as after construction, [generateReport] returns a result whose
    [filename] and [downloadUrl] are both absent, also when it succeeds;
    and the orchestrator is such an orchestrator again afterwards. *)
Theorem generateReport_names_no_file (env : Env) (options : ReportGenerationOptions)
    (s : OrchState) :
  stock_tools env s ->
  no_download_anywhere s ->
  exists r s',
    Orchestrator.generateReport env options s = (Ret r, s')
    /\ rr_filename r = None
    /\ rr_downloadUrl r = None
    /\ stock_tools env s'
    /\ no_download_anywhere s'.
Proof.
  intros Hstock Hnd.
  destruct (generateReport_returns env options s) as [r Hr].
  destruct (named_of_frame env _ _ (generateReport_keeps env options) s (conj Hstock Hnd))
    as [Hstock' Hnd'].
  destruct (generateReport_yields_no_name env options s r (conj Hstock Hnd) Hr) as [Q1 Q2].
  exists r, (snd (Orchestrator.generateReport env options s)).
  split; [rewrite <- Hr; apply surjective_pairing|].
  split; [exact Q1|]. split; [exact Q2|]. split; assumption.
Qed.

Lemma generateReport_names_no_file_witness :
  exists r s',
    Orchestrator.generateReport Office.office_env Office.march Office.office = (Ret r, s')
    /\ rr_success r = true
    /\ rr_filename r = None.
Proof.
  destruct (generateReport_names_no_file Office.office_env Office.march Office.office)
    as (r & s' & Hrun & Hname & _).
  - split; reflexivity.
  - repeat split; reflexivity.
  - exists r, s'. split; [exact Hrun|]. split; [|exact Hname].
    assert (Hs : match fst (Orchestrator.generateReport Office.office_env Office.march
                              Office.office) with
                 | Ret r => rr_success r
                 | Exn _ => false
                 end = true) by (vm_compute; reflexivity).
    rewrite Hrun in Hs. exact Hs.
Defined.

(** When no analysis is due, because [includeAnalysis] is [false] or
    because the model is not configured, [generateReport] leaves the
    analysis agent as it is, whatever else happens: its history, context
    and fields, the [Map] objects and the number of chat requests are those
    of before. (The calendar and report agents have the tools of their
    constructors.) *)
Theorem generateReport_without_analysis_spares_the_analysis_agent (env : Env)
    (options : ReportGenerationOptions) (s : OrchState) :
  stock_tools env s ->
  opt_includeAnalysis options = Some false
  \/ LLMService.isLLMConfigured (o_world s) = false ->
  let s' := snd (Orchestrator.generateReport env options s) in
  analysisAgent (orch s') = analysisAgent (orch s)
  /\ heap (o_world s') = heap (o_world s)
  /\ chats (o_world s') = chats (o_world s).
Proof.
  intros Hstock Hoff. cbv zeta.
  destruct (generateReport_keeps env options s Hstock) as (_ & _ & Hkeep).
  destruct Hkeep as (_ & Ha & Hh & Hc).
  - destruct Hoff as [-> | Hoff]; [now left|now right].
  - repeat split; assumption.
Qed.

Lemma generateReport_without_analysis_spares_the_analysis_agent_witness :
  conversationHistory
    (analysisAgent (orch (snd (Orchestrator.generateReport Office.office_env
                                 PlainOffice.march Office.office))))
  = [system_message AnalysisAgent.SYSTEM_PROMPT].
Proof.
  destruct (generateReport_without_analysis_spares_the_analysis_agent Office.office_env
              PlainOffice.march Office.office) as (-> & _).
  - split; reflexivity.
  - now left.
  - reflexivity.
Defined.

(** [generateReport] with a start or an end that is no date: the
    instruction for the calendar agent cannot be written, so the result is
    the failure [Failed to generate report] with the error [Invalid time
    value]. No agent is touched and no request is sent: the orchestrator is
    as before, and the world differs by three events only, the last one the
    error. *)
Theorem generateReport_rejects_invalid_dates (env : Env)
    (options : ReportGenerationOptions) (s : OrchState) :
  opt_startDate options = None \/ opt_endDate options = None ->
  exists (s' : OrchState) (e1 e2 : AgentEvent),
    Orchestrator.generateReport env options s
    = (Ret (Orchestrator.failed_result (JsError "Invalid time value")), s')
    /\ orch s' = orch s
    /\ o_queries s' = o_queries s
    /\ heap (o_world s') = heap (o_world s)
    /\ files (o_world s') = files (o_world s)
    /\ chats (o_world s') = chats (o_world s)
    /\ graphCalls (o_world s') = graphCalls (o_world s)
    /\ events (o_world s')
       = events (o_world s)
         ++ [ e1; e2;
              {| ev_type := ev_error; ev_agent := "Orchestrator";
                 ev_message := "Invalid time value"; ev_data := JUndefined |} ].
Proof.
  intros Hdates.
  assert (Hinstr : Orchestrator.acquisition_instruction env options
                   = Exn (JsError "Invalid time value")).
  { unfold Orchestrator.acquisition_instruction, JsDates.isoDay, JsDates.toISOString.
    destruct Hdates as [-> | ->]; [reflexivity|].
    now destruct (opt_startDate options). }
  unfold Orchestrator.generateReport, Orchestrator.acquisition_stage, try_catch, bind,
    Orchestrator.emit, modify, lift_res, ret.
  rewrite Hinstr. cbn.
  eexists _, _, _. split; [reflexivity|]. cbn.
  do 6 (split; [reflexivity|]). rewrite <- !app_assoc. reflexivity.
Qed.

Lemma generateReport_rejects_invalid_dates_witness :
  fst (Orchestrator.generateReport Office.office_env Undated.options Office.office)
  = Ret {| rr_success := false; rr_message := "Failed to generate report";
           rr_filename := None; rr_downloadUrl := None;
           rr_error := Some "Invalid time value" |}.
Proof.
  destruct (generateReport_rejects_invalid_dates Office.office_env Undated.options
              Office.office) as (s' & e1 & e2 & -> & _).
  - now right.
  - reflexivity.
Defined.
